(** * LSD table engine (src/lsd/table.py): a shallow embedding

    The definitions below follow [class Table] of [src/lsd/table.py]
    function by function.  Python exceptions are values of [PyError],
    carried by the [result] type; dictionaries whose order is never
    observed are [gmap]s, the ordered [_cgroups] dictionary is an
    association list with [OrderedDict] insertion; numpy integer arrays
    are lists of [Z] with the 64-bit wrap-around written out (a column of
    floats is carried as the integers that stand for its values).  The
    tablet files are a map from path to file content, each file with its
    [main] and [cached] row groups.  A row group that is open for
    writing is changed in place: the steps of a write run in the monad
    [st], where a step that raises leaves what was written before it.
    The locals [nrows], [nnew] and [idx] of [append] live across the
    cgroups and cells of one call and are carried as [LoopVars], each
    unbound until it is first assigned.  What the engine takes from other
    modules (pixelization, numpy dtypes, the identity and pickling of
    Python objects) is a type class. *)

From Stdlib Require Import ZArith Lia Bool Ascii String.
From stdpp Require Import base option list gmap strings pretty.

Open Scope string_scope.
Open Scope list_scope.
Open Scope Z_scope.

(** ** Exceptions and the error monad *)

Inductive PyError :=
  | AssertionError
  | KeyError
  | IndexError
  | NoSuchNodeError
  | TypeError
  | ValueError
  | IOError
  | AttributeError
  | UnboundLocalError
  | LockStuck.

Inductive result (A : Type) :=
  | Ok (a : A)
  | Raise (e : PyError).
Arguments Ok {A} a.
Arguments Raise {A} e.

Definition rbind {A B} (m : result A) (k : A -> result B) : result B :=
  match m with
  | Ok a => k a
  | Raise e => Raise e
  end.

#[global] Instance result_bind : MBind result := fun A B k m => rbind m k.
#[global] Instance result_ret : MRet result := fun A a => Ok a.

Definition py_assert (b : bool) : result unit :=
  if b then Ok tt else Raise AssertionError.

Definition of_option {A} (e : PyError) (o : option A) : result A :=
  match o with
  | Some a => Ok a
  | None => Raise e
  end.

Fixpoint mapM {A B} (f : A -> result B) (l : list A) : result (list B) :=
  match l with
  | [] => Ok []
  | x :: l' => y ← f x; ys ← mapM f l'; Ok (y :: ys)
  end.

(** ** Objects that are changed in place

    A step that works on an object it changes in place (an open row
    group, its sequence arrays) gives the object as the step leaves it
    and the outcome: what the step has changed before it raises stays
    changed. *)
Definition st (S A : Type) : Type := S -> S * result A.

Definition st_bind {S A B} (m : st S A) (k : A -> st S B) : st S B :=
  fun s => match m s with
           | (s', Ok a) => k a s'
           | (s', Raise e) => (s', Raise e)
           end.

#[global] Instance st_mbind {S} : MBind (st S) := fun A B k m => st_bind m k.
#[global] Instance st_mret {S} : MRet (st S) := fun A a s => (s, Ok a).

(** The object as it is, and the object replaced. *)
Definition st_get {S} : st S S := fun s => (s, Ok s).
Definition st_put {S} (s' : S) : st S unit := fun _ => (s', Ok tt).

(** A computation that does not touch the object. *)
Definition st_lift {S A} (r : result A) : st S A := fun s => (s, r).

Fixpoint st_foldM {S A X} (f : X -> A -> st S X) (x : X) (l : list A) : st S X :=
  match l with
  | [] => mret x
  | a :: l' => x' ← f x a; st_foldM f x' l'
  end.

(** ** OrderedDict: insertion-ordered association lists *)

Module OrderedDict.
Section OD.
Context {V : Type}.

Fixpoint get (d : list (string * V)) (k : string) : option V :=
  match d with
  | [] => None
  | (k', v) :: d' => if String.eqb k' k then Some v else get d' k
  end.

(** [d[k] = v]: an existing key keeps its position, a new one goes last. *)
Fixpoint set (d : list (string * V)) (k : string) (v : V) : list (string * V) :=
  match d with
  | [] => [(k, v)]
  | (k', v') :: d' =>
      if String.eqb k' k then (k', v) :: d' else (k', v') :: set d' k v
  end.

(** [OrderedDict(pairs)] *)
Definition of_pairs (l : list (string * V)) : list (string * V) :=
  fold_left (fun d kv => set d (fst kv) (snd kv)) l [].

Definition keys (d : list (string * V)) : list string := map fst d.
End OD.
End OrderedDict.

(** ** Schemas and the in-memory table *)

(** A file-group definition: the keys ['path'] and ['filter'] of the dict. *)
Record FgroupDef := {
  fg_path : option string;
  fg_filter : option (string * list (string * Z))
}.

(** A blob definition inside a cgroup schema. *)
Record BlobDef := {
  blob_type : option string;
  blob_expectedsizeinMB : option Z
}.

(** A cgroup schema: the keys of the schema dict that the code reads;
    [sc_other] holds the names of any further keys. *)
Record Schema := {
  sc_columns : list (string * string);
  sc_primary_key : option string;
  sc_spatial_keys : option (string * string);
  sc_temporal_key : option string;
  sc_exposure_key : option string;
  sc_blobs : option (gmap string BlobDef);
  sc_path : option string;
  sc_expectedrows : option Z;
  sc_other : gset string
}.

(** [ColumnType] *)
Record ColumnType := {
  col_name : string;
  col_cgroup : string;
  col_dtype : string;
  col_is_blob : bool
}.

Record PixParams := {
  pix_level : Z;
  pix_t0 : Z;
  pix_dt : Z
}.

Record Table := {
  path : string;
  name : string;
  _nrows : option Z;
  pix : PixParams;
  _cgroups : list (string * Schema);
  _fgroups : gmap string FgroupDef;
  _filters : gmap string Z;
  _aliases : gmap string string;
  columns : list (string * ColumnType);
  primary_cgroup : option string;
  primary_key : option ColumnType;
  spatial_keys : option (ColumnType * ColumnType);
  temporal_key : option ColumnType
}.

(** [cgroup[0] == '_']; indexing the empty string raises [IndexError]. *)
Definition _is_pseudotablet (cgroup : string) : result bool :=
  match cgroup with
  | EmptyString => Raise IndexError
  | String c _ => Ok (Ascii.eqb c "_"%char)
  end.

(** [self._cgroups[cgroup]] *)
Definition _get_schema (t : Table) (cgroup : option string) : result Schema :=
  match cgroup with
  | None => Raise KeyError
  | Some cg => of_option KeyError (OrderedDict.get (_cgroups t) cg)
  end.

(** [schema.get('path', '%s/tablets' % self.path)] *)
Definition _get_cgroup_data_path (t : Table) (cgroup : option string) : result string :=
  schema ← _get_schema t cgroup;
  Ok (default (path t +:+ "/tablets") (sc_path schema)).

(** [_get_fgroup_path], lines 94-101.  Both membership tests are on the
    outer map [self._fgroups]. *)
Definition _get_fgroup_path (t : Table) (fgroup : string) : result string :=
  if negb (bool_decide (is_Some (_fgroups t !! fgroup)))
     || negb (bool_decide (is_Some (_fgroups t !! "path")))
  then Ok (path t +:+ "/files/" +:+ fgroup)
  else
    d ← of_option KeyError (_fgroups t !! fgroup);
    of_option KeyError (fg_path d).

(** [resolve_alias], lines 809-836. *)
Definition resolve_alias (t : Table) (colname : string) : result string :=
  schema ← _get_schema t (primary_cgroup t);
  match sc_primary_key schema, sc_spatial_keys schema,
        sc_temporal_key schema, sc_exposure_key schema with
  | pk, sk, tk, ek =>
      if String.eqb colname "_ID" && bool_decide (is_Some pk)
      then of_option KeyError pk
      else if String.eqb colname "_LON" && bool_decide (is_Some sk)
      then of_option KeyError (fst <$> sk)
      else if String.eqb colname "_LAT" && bool_decide (is_Some sk)
      then of_option KeyError (snd <$> sk)
      else if String.eqb colname "_TIME" && bool_decide (is_Some tk)
      then of_option KeyError tk
      else if String.eqb colname "_EXP" && bool_decide (is_Some ek)
      then of_option KeyError ek
      else Ok (default colname (_aliases t !! colname))
  end.

(** ** External interfaces *)

(** The pixelization library ([pixelization.py]) is not part of the
    engine; the engine uses these entry points (vectorised ones are
    given per element). *)
Class Pixelization := {
  is_cell_id : Z -> bool;
  cell_for_id : Z -> Z;
  obj_id_from_pos : Z -> Z -> option Z -> Z;
  is_temporal_cell : Z -> bool;
  static_cell_for_cell : Z -> Z;
  path_to_cell : Z -> string;
  id_for_cell_i : Z -> Z -> Z
}.

(** ** numpy helpers *)

Definition wrap_int64 (z : Z) : Z := (z + 2 ^ 63) mod 2 ^ 64 - 2 ^ 63.
Definition wrap_uint64 (z : Z) : Z := z mod 2 ^ 64.

(** [-x] and [x *= -1] on an int64 array element *)
Definition neg_int64 (z : Z) : Z := wrap_int64 (- z).

(** An n-dimensional array: its shape and its elements in C order. *)
Record ndarray (A : Type) := NdArray {
  shape : list nat;
  data : list A
}.
Arguments NdArray {A} shape data.
Arguments shape {A} n.
Arguments data {A} n.

(** [a.reshape(a.size)] *)
Definition flatten {A} (a : ndarray A) : list A := data a.
(** [a.reshape(shape)] for a flat [a] of matching size *)
Definition reshape {A} (sh : list nat) (l : list A) : ndarray A := NdArray sh l.

(** Insertion into a strictly increasing list. *)
Fixpoint insert_unique (x : Z) (u : list Z) : list Z :=
  match u with
  | [] => [x]
  | y :: u' =>
      if x <? y then x :: u
      else if x =? y then u
      else y :: insert_unique x u'
  end.

Definition sorted_unique (ar : list Z) : list Z := foldr insert_unique [] ar.

(** A list is increasing when its head is below everything after it. *)
Inductive increasing : list Z -> Prop :=
  | inc_nil : increasing []
  | inc_cons x u : Forall (fun y => x < y) u -> increasing u -> increasing (x :: u).

(** Position of the first occurrence. *)
Fixpoint index_of (x : Z) (l : list Z) : nat :=
  match l with
  | [] => O
  | y :: l' => if x =? y then O else S (index_of x l')
  end.

(** [np.unique(ar, return_index=True, return_inverse=True)]: the sorted
    distinct values, the index of the first occurrence of each, and for
    each input element its position among the distinct values. *)
Definition np_unique (ar : list Z) : list Z * list nat * list nat :=
  let u := sorted_unique ar in
  (u, map (fun x => index_of x ar) u, map (fun x => index_of x u) ar).

(** [a[mask] = vals] for a boolean mask: the selected positions are
    filled from [vals] in order. *)
Fixpoint mask_assign {A} (a : list A) (mask : list bool) (vals : list A) : list A :=
  match a, mask with
  | x :: a', true :: m' =>
      match vals with
      | v :: vs => v :: mask_assign a' m' vs
      | [] => x :: mask_assign a' m' []
      end
  | x :: a', false :: m' => x :: mask_assign a' m' vals
  | _, _ => a
  end.

(** [a[mask]] *)
Fixpoint mask_select {A} (a : list A) (mask : list bool) : list A :=
  match a, mask with
  | x :: a', b :: m' => if b then x :: mask_select a' m' else mask_select a' m'
  | _, _ => []
  end.

(** ** Tablets on disk *)

(** A structured array, column by column in dtype order. *)
Definition RecArray := list (string * list Z).

Definition ra_len (r : RecArray) : nat :=
  match r with
  | [] => O
  | (_, c) :: _ => length c
  end.

(** [rows[field]] *)
Definition ra_field (r : RecArray) (fld : string) : result (list Z) :=
  of_option ValueError (OrderedDict.get r fld).

(** [np.append(rows, rows2)] for two arrays of the same dtype *)
Definition ra_append (r r2 : RecArray) : RecArray :=
  zip_with (fun c c2 => (fst c, snd c ++ snd c2)) r r2.

(** [np.empty(0, dtype=np.dtype(schema['columns']))] *)
Definition ra_empty (cols : list (string * string)) : RecArray :=
  map (fun c => (fst c, [])) cols.

(** [rows[blobcol] *= -1] *)
Definition ra_negate (r : RecArray) (fld : string) : result RecArray :=
  if existsb (fun c => String.eqb (fst c) fld) r
  then Ok (map (fun c => if String.eqb (fst c) fld
                         then (fst c, map neg_int64 (snd c)) else c) r)
  else Raise ValueError.

Fixpoint ra_negate_all (r : RecArray) (flds : list string) : result RecArray :=
  match flds with
  | [] => Ok r
  | f :: fs => r' ← ra_negate r f; ra_negate_all r' fs
  end.

(** [barray[r]], with [d] where the index is out of range *)
Definition vl_get {B} (d : B) (barray : list B) (r : Z) : B :=
  default d (barray !! Z.to_nat r).

Section Storage.
(** [B]: what a VLArray holds (a pickled object or a typed array). *)
Context {B : Type}.

(** A row group of a tablet file: [/main] or [/cached]. *)
Record RowGroup := {
  rg_table : RecArray;
  rg_arrays : gmap string Z;
  rg_blobs : gmap string (list B)
}.

(** An open tablet file: [fp.root]. *)
Record Tablet := {
  main : option RowGroup;
  cached : option RowGroup
}.

(** The part of the file system the engine touches. *)
Record FS := {
  files : gmap string Tablet;
  lockfiles : gset string
}.

Context `{Pixelization}.

(** ['%s.%s.h5' % (self.name, cgroup)] *)
Definition _tablet_filename (t : Table) (cgroup : string) : string :=
  name t +:+ "." +:+ cgroup +:+ ".h5".

(** [_tablet_file], line 234 *)
Definition _tablet_file (t : Table) (cell_id : Z) (cgroup : string) : result string :=
  dp ← _get_cgroup_data_path t (Some cgroup);
  Ok (dp +:+ "/" +:+ path_to_cell cell_id +:+ "/" +:+ _tablet_filename t cgroup).

(** [tablet_exists], lines 240-254 *)
Definition tablet_exists (t : Table) (fs : FS) (cell_id : Z)
    (cgroup : option string) : result bool :=
  cgroup' ← match cgroup with
            | None => Ok (primary_cgroup t)
            | Some cg =>
                p ← _is_pseudotablet cg;
                Ok (if p : bool then primary_cgroup t else Some cg)
            end;
  cg ← of_option AssertionError cgroup';
  _ ← py_assert (bool_decide (is_Some (OrderedDict.get (_cgroups t) cg)));
  fn ← _tablet_file t cell_id cg;
  Ok (bool_decide (is_Some (files fs !! fn))).

(** [static_if_no_temporal], lines 280-302 *)
Definition static_if_no_temporal (t : Table) (fs : FS) (cell_id : Z) : result Z :=
  if negb (is_temporal_cell cell_id) then Ok cell_id
  else
    e ← tablet_exists t fs cell_id None;
    if e : bool then Ok cell_id
    else Ok (static_cell_for_cell cell_id).

(** [_open_tablet(cell_id, cgroup, mode='r')] *)
Definition _open_tablet_r (t : Table) (fs : FS) (cell_id : Z) (cgroup : string)
    : result Tablet :=
  fn ← _tablet_file t cell_id cgroup;
  of_option IOError (files fs !! fn).

(** What [fetch_tablet] returns: a structured array, or the ColGroup
    of pseudo-columns. *)
Inductive Fetched :=
  | Rows (r : RecArray)
  | PseudoCols (_CACHED : list bool) (_ROWIDX : list Z) (_ROWID : list Z).

(** [_fetch_pseudotablet], lines 1361-1391 *)
Definition _fetch_pseudotablet (t : Table) (fs : FS) (cell_id : Z)
    (cgroup : string) (include_cached : bool) : result Fetched :=
  _ ← py_assert (String.eqb cgroup "_PSEUDOCOLS");
  e ← tablet_exists t fs cell_id (primary_cgroup t);
  '(nrows1, nrows2) ←
    (if e : bool then
       pc ← of_option TypeError (primary_cgroup t);
       fp ← _open_tablet_r t fs cell_id pc;
       m ← of_option NoSuchNodeError (main fp);
       let nrows1 := ra_len (rg_table m) in
       let nrows2 := match include_cached, cached fp with
                     | true, Some c => ra_len (rg_table c)
                     | _, _ => O
                     end in
       Ok (nrows1, nrows2)
     else Ok (O, O));
  let nrows := (nrows1 + nrows2)%nat in
  let cached_col := replicate nrows1 false ++ replicate (nrows - nrows1) true in
  let rowidx := map Z.of_nat (seq 0 nrows) in
  let rowid := map (id_for_cell_i cell_id) rowidx in
  Ok (PseudoCols cached_col rowidx rowid).

(** [fetch_tablet], lines 1296-1359 *)
Definition fetch_tablet (t : Table) (fs : FS) (cell_id : Z)
    (cgroup : option string) (include_cached : bool) : result Fetched :=
  let cgroup := match cgroup with None => primary_cgroup t | Some cg => Some cg end in
  cell_id ← static_if_no_temporal t fs cell_id;
  cgroup ← of_option TypeError cgroup;
  p ← _is_pseudotablet cgroup;
  if p : bool then _fetch_pseudotablet t fs cell_id cgroup include_cached
  else
    e ← tablet_exists t fs cell_id (Some cgroup);
    if e : bool then
      fp ← _open_tablet_r t fs cell_id cgroup;
      m ← of_option NoSuchNodeError (main fp);
      let rows := rg_table m in
      match include_cached, cached fp with
      | true, Some c =>
          let rows2 := rg_table c in
          schema ← _get_schema t (Some cgroup);
          rows2 ← match sc_blobs schema with
                   | Some blobs => ra_negate_all rows2 (map fst (map_to_list blobs))
                   | None => Ok rows2
                   end;
          Ok (Rows (ra_append rows rows2))
      | _, _ => Ok (Rows rows)
      end
    else
      schema ← _get_schema t (Some cgroup);
      Ok (Rows (ra_empty (sc_columns schema))).

(** [_smart_load_blobs], lines 1164-1207.  Reading a VLArray at an
    array of indices gives the elements in that order (the wrapping of a
    single element for PyTables 2.2 only restores this). *)
Definition _smart_load_blobs (barray : list B) (refs : list Z) : result (list B) :=
  let '(ui, _, idx) := np_unique refs in
  _ ← py_assert (forallb (fun r => 0 <=? r) ui);
  objlist ← mapM (fun r => of_option IndexError (barray !! Z.to_nat r)) ui;
  mapM (fun i => of_option IndexError (objlist !! i)) idx.

(** [getattr(fp.root.<group>.blobs, column)] *)
Definition blob_array (g : option RowGroup) (column : string) : result (list B) :=
  rg ← of_option NoSuchNodeError g;
  of_option NoSuchNodeError (rg_blobs rg !! column).

(** [_fetch_blobs_fp], lines 1209-1263.  [py_none] is what a fresh
    [np.empty(n, dtype=object)] holds before it is filled.  The two
    masked assignments take their values from a one-element tuple
    around the loaded array; the assignment to a one-dimensional array
    reads the values off it in order. *)
Definition _fetch_blobs_fp (py_none : B) (fp : Tablet) (column : string)
    (refs : ndarray Z) (include_cached : bool) : result (ndarray B) :=
  let sh := shape refs in
  let refs := flatten refs in
  b1 ← blob_array (main fp) column;
  blobs ←
    match include_cached, cached fp with
    | true, Some _ =>
        b2 ← blob_array (cached fp) column;
        let blobs := replicate (length refs) py_none in
        let nonneg := map (fun r => 0 <=? r) refs in
        let neg := map (fun r => r <? 0) refs in
        l1 ← _smart_load_blobs b1 (mask_select refs nonneg);
        let blobs := mask_assign blobs nonneg l1 in
        l2 ← _smart_load_blobs b2 (map neg_int64 (mask_select refs neg));
        Ok (mask_assign blobs neg l2)
    | _, _ => _smart_load_blobs b1 refs
    end;
  Ok (reshape sh blobs).
End Storage.
Arguments RowGroup B : clear implicits.
Arguments Tablet B : clear implicits.
Arguments FS B : clear implicits.

(** ** Reading a tablet, in the words of the specification *)

(** The blob columns a schema declares. *)
Definition blob_columns (schema : Schema) : list string :=
  match sc_blobs schema with
  | Some blobs => map fst (map_to_list blobs)
  | None => []
  end.

(** The rows of [cached] as [fetch_tablet] hands them out: every
    blob-reference column negated, every other column as stored. *)
Definition negate_blob_columns (schema : Schema) (rows : RecArray) : RecArray :=
  map (fun c => if bool_decide (fst c ∈ blob_columns schema)
                then (fst c, map neg_int64 (snd c)) else c) rows.

(** ** Schema persistence *)

(** numpy's reading of dtype codes: [np.dtype(code)] (canonical name,
    [None] when numpy rejects the code) and [dtype.base == np.int64]. *)
Class NumpyDtype := {
  np_dtype : string -> option string;
  dtype_base_is_int64 : string -> bool
}.

(** The decoded [schema.cfg]: what [json.loads] returns, and what
    [json.dumps] is given (the text in between is taken to decode to the
    document that was encoded).  A key that the loader reads with
    [data[...]] may be missing ([None]); [cfg_cgroups] holds the pairs of
    the [cgroups] entry in file order, whether the file has them as an
    object or as a list of pairs: both go through [OrderedDict(pairs)]. *)
Record SchemaCfg := {
  cfg_name : option string;
  cfg_nrows : option Z;
  cfg_level : option Z;
  cfg_t0 : option Z;
  cfg_dt : option Z;
  cfg_cgroups : option (list (string * Schema));
  cfg_fgroups : option (gmap string FgroupDef);
  cfg_filters : option (gmap string Z);
  cfg_aliases : option (gmap string string)
}.

(** The schema of the pseudo-cgroup added at load time, lines 387-394. *)
Definition _PSEUDOCOLS_schema : Schema := {|
  sc_columns := [("_CACHED", "bool"); ("_ROWIDX", "u8"); ("_ROWID", "u8")];
  sc_primary_key := None;
  sc_spatial_keys := None;
  sc_temporal_key := None;
  sc_exposure_key := None;
  sc_blobs := None;
  sc_path := None;
  sc_expectedrows := None;
  sc_other := ∅
|}.

(** The loop state of [_rebuild_internal_schema]: the column index, the
    primary cgroup, and the names of the key columns this run has bound
    (the attributes refer to the ColumnType objects of the index, so
    they are read off the finished index). *)
Record Rebuild := {
  rb_columns : list (string * ColumnType);
  rb_primary_cgroup : option string;
  rb_primary_key : option string;
  rb_temporal_key : option string;
  rb_spatial_keys : option (string * string)
}.

Section Rebuild.
Context `{NumpyDtype}.

(** lines 437-442: one declared column *)
Definition rebuild_column (cgroup : string) (cols : list (string * ColumnType))
    (c : string * string) : result (list (string * ColumnType)) :=
  let '(colname, dtype) := c in
  _ ← py_assert (negb (bool_decide (is_Some (OrderedDict.get cols colname))));
  dt ← of_option TypeError (np_dtype dtype);
  Ok (OrderedDict.set cols colname
        {| col_name := colname; col_cgroup := cgroup; col_dtype := dt;
           col_is_blob := false |}).

Fixpoint rebuild_columns (cgroup : string) (cols : list (string * ColumnType))
    (l : list (string * string)) : result (list (string * ColumnType)) :=
  match l with
  | [] => Ok cols
  | c :: l' => cols' ← rebuild_column cgroup cols c; rebuild_columns cgroup cols' l'
  end.

(** lines 460-463: one blob column *)
Definition rebuild_blob (cols : list (string * ColumnType)) (colname : string)
    : result (list (string * ColumnType)) :=
  c ← of_option KeyError (OrderedDict.get cols colname);
  _ ← py_assert (dtype_base_is_int64 (col_dtype c));
  Ok (OrderedDict.set cols colname
        {| col_name := col_name c; col_cgroup := col_cgroup c;
           col_dtype := col_dtype c; col_is_blob := true |}).

Fixpoint rebuild_blobs (cols : list (string * ColumnType)) (l : list string)
    : result (list (string * ColumnType)) :=
  match l with
  | [] => Ok cols
  | b :: l' => cols' ← rebuild_blob cols b; rebuild_blobs cols' l'
  end.

(** [self.columns[name]] for a key column, when the schema names one *)
Definition check_key (cols : list (string * ColumnType)) (k : option string)
    : result unit :=
  match k with
  | Some n => _ ← of_option KeyError (OrderedDict.get cols n); Ok tt
  | None => Ok tt
  end.

(** lines 436-463: the body of the loop over [self._cgroups] *)
Definition rebuild_cgroup (st : Rebuild) (cg : string * Schema) : result Rebuild :=
  let '(cgroup, schema) := cg in
  cols ← rebuild_columns cgroup (rb_columns st) (sc_columns schema);
  first ← match rb_primary_cgroup st with
          | None => p ← _is_pseudotablet cgroup; Ok (negb p)
          | Some _ => Ok false
          end;
  st' ← (if first : bool then
           _ ← check_key cols (sc_primary_key schema);
           _ ← check_key cols (sc_temporal_key schema);
           _ ← check_key cols (fst <$> sc_spatial_keys schema);
           _ ← check_key cols (snd <$> sc_spatial_keys schema);
           Ok {| rb_columns := cols;
                 rb_primary_cgroup := Some cgroup;
                 rb_primary_key :=
                   match sc_primary_key schema with
                   | Some k => Some k | None => rb_primary_key st end;
                 rb_temporal_key :=
                   match sc_temporal_key schema with
                   | Some k => Some k | None => rb_temporal_key st end;
                 rb_spatial_keys :=
                   match sc_spatial_keys schema with
                   | Some k => Some k | None => rb_spatial_keys st end |}
         else
           _ ← py_assert (negb (bool_decide (is_Some (sc_primary_key schema))));
           _ ← py_assert (negb (bool_decide (is_Some (sc_spatial_keys schema))));
           _ ← py_assert (negb (bool_decide ("temporak_key" ∈ sc_other schema)));
           Ok {| rb_columns := cols;
                 rb_primary_cgroup := rb_primary_cgroup st;
                 rb_primary_key := rb_primary_key st;
                 rb_temporal_key := rb_temporal_key st;
                 rb_spatial_keys := rb_spatial_keys st |});
  cols' ← match sc_blobs schema with
          | Some blobs => rebuild_blobs (rb_columns st') (map fst (map_to_list blobs))
          | None => Ok (rb_columns st')
          end;
  Ok {| rb_columns := cols';
        rb_primary_cgroup := rb_primary_cgroup st';
        rb_primary_key := rb_primary_key st';
        rb_temporal_key := rb_temporal_key st';
        rb_spatial_keys := rb_spatial_keys st' |}.

Fixpoint rebuild_loop (st : Rebuild) (l : list (string * Schema)) : result Rebuild :=
  match l with
  | [] => Ok st
  | cg :: l' => st' ← rebuild_cgroup st cg; rebuild_loop st' l'
  end.

(** [_rebuild_internal_schema], lines 424-463.  [primary_key],
    [temporal_key] and [spatial_keys] are only assigned when the primary
    schema declares them; otherwise the attribute keeps its value. *)
Definition _rebuild_internal_schema (t : Table) : result Table :=
  st ← rebuild_loop {| rb_columns := []; rb_primary_cgroup := None;
                       rb_primary_key := None; rb_temporal_key := None;
                       rb_spatial_keys := None |} (_cgroups t);
  let col := OrderedDict.get (rb_columns st) in
  Ok {| path := path t; name := name t; _nrows := _nrows t; pix := pix t;
        _cgroups := _cgroups t; _fgroups := _fgroups t;
        _filters := _filters t; _aliases := _aliases t;
        columns := rb_columns st;
        primary_cgroup := rb_primary_cgroup st;
        primary_key :=
          match rb_primary_key st with
          | Some k => col k
          | None => primary_key t
          end;
        spatial_keys :=
          match rb_spatial_keys st with
          | Some (lon, lat) =>
              match col lon, col lat with
              | Some a, Some b => Some (a, b)
              | _, _ => spatial_keys t
              end
          | None => spatial_keys t
          end;
        temporal_key :=
          match rb_temporal_key st with
          | Some k => col k
          | None => temporal_key t
          end |}.

(** [_load_schema], lines 351-403 ([data] is the decoded file; the
    tablet-tree cache is not part of the schema state). *)
Definition _load_schema (t : Table) (data : SchemaCfg) : result Table :=
  nm ← of_option KeyError (cfg_name data);
  level ← of_option KeyError (cfg_level data);
  t0 ← of_option KeyError (cfg_t0 data);
  dt ← of_option KeyError (cfg_dt data);
  cgs ← of_option KeyError (cfg_cgroups data);
  let cgroups := OrderedDict.of_pairs cgs in
  let cgroups := OrderedDict.set cgroups "_PSEUDOCOLS" _PSEUDOCOLS_schema in
  _rebuild_internal_schema
    {| path := path t; name := nm; _nrows := cfg_nrows data;
       pix := {| pix_level := level; pix_t0 := t0; pix_dt := dt |};
       _cgroups := cgroups;
       _fgroups := default ∅ (cfg_fgroups data);
       _filters := default ∅ (cfg_filters data);
       _aliases := default ∅ (cfg_aliases data);
       columns := columns t;
       primary_cgroup := primary_cgroup t;
       primary_key := primary_key t;
       spatial_keys := spatial_keys t;
       temporal_key := temporal_key t |}.

(** [[(name, schema) for ... if name[0] != '_']], line 414 *)
Fixpoint stored_cgroups (l : list (string * Schema)) : result (list (string * Schema)) :=
  match l with
  | [] => Ok []
  | (n, s) :: l' =>
      p ← _is_pseudotablet n;
      rest ← stored_cgroups l';
      Ok (if p : bool then rest else (n, s) :: rest)
  end.

(** [_store_schema], lines 405-422: the document written to
    [schema.cfg]. *)
Definition _store_schema (t : Table) : result SchemaCfg :=
  cgs ← stored_cgroups (_cgroups t);
  Ok {| cfg_name := Some (name t);
        cfg_nrows := _nrows t;
        cfg_level := Some (pix_level (pix t));
        cfg_t0 := Some (pix_t0 (pix t));
        cfg_dt := Some (pix_dt (pix t));
        cfg_cgroups := Some cgs;
        cfg_fgroups := Some (_fgroups t);
        cfg_filters := Some (_filters t);
        cfg_aliases := Some (_aliases t) |}.
End Rebuild.

(** ** The write path *)

(** The Python objects a batch carries in its blob columns.  [id] is the
    built-in [id()]; [x is None] is [id x = id py_None].  [pickle] is
    what [barray.append] stores for an object, [empty_array] what it
    stores for [[]], [unpickle r b] the object that reading element [r]
    of a VLArray yields, [py_number z] the object that stands for the
    number [z] when an array of numbers is copied into an array of
    objects.  [list_set l] is [list(set(l))]: the elements of [l], once
    each, in the order in which Python iterates over the set, which the
    language leaves open. *)
Class PyRuntime := {
  PyObj : Type;
  Blob : Type;
  id : PyObj -> Z;
  py_None : PyObj;
  pickle : PyObj -> Blob;
  empty_array : Blob;
  unpickle : Z -> Blob -> PyObj;
  py_number : Z -> PyObj;
  list_set : list Z -> list Z;
  list_set_NoDup : forall l, NoDup (list_set l);
  list_set_elem : forall l x, x ∈ list_set l <-> x ∈ l
}.

Inductive Group := GMain | GCached.

(** Modelled from the spec: the in-cell object index that
    [pix._xyti_from_id] returns as its fourth component
    ([pixelization.py] is not part of the engine).  A key is a 64-bit
    unsigned integer whose upper 32 bits encode the cell and whose lower
    32 bits are the object index. *)
Definition obj_part (key : Z) : Z := Z.land key 4294967295.

(** [key & np.uint64(0xFFFFFFFF00000000)] *)
Definition cell_part_mask (key : Z) : Z := Z.land key 18446744069414584320.

Fixpoint list_max (l : list Z) : option Z :=
  match l with
  | [] => None
  | x :: l' => match list_max l' with
               | Some m => Some (Z.max x m)
               | None => Some x
               end
  end.

(** An index into an array of [n] elements; a negative index counts
    from the end. *)
Definition norm_index (n : nat) (i : Z) : result nat :=
  let j := if i <? 0 then Z.of_nat n + i else i in
  if (0 <=? j) && (j <? Z.of_nat n) then Ok (Z.to_nat j) else Raise IndexError.

(** [vals] as the values for [n] places: one value for each place, or
    a single value for all of them. *)
Definition broadcast {A} (n : nat) (vals : list A) : result (list A) :=
  if Nat.eqb (length vals) n then Ok vals
  else match vals with
       | [v] => Ok (replicate n v)
       | _ => Raise ValueError
       end.

(** [a[idx] = vals] for an integer index array (later writes win):
    every index has to lie in [a] (IndexError) and [vals] has to give
    one value for each index, or a single value (ValueError).  The
    indices are looked at first. *)
Definition scatter {A} (a : list A) (idx : list Z) (vals : list A) : result (list A) :=
  js ← mapM (norm_index (length a)) idx;
  vals ← broadcast (length idx) vals;
  Ok (fold_left (fun a jv => <[fst jv := snd jv]> a) (zip js vals) a).

(** [a[i]] for one integer index *)
Definition np_index {A} (a : list A) (i : Z) : result A :=
  let j := if i <? 0 then Z.of_nat (length a) + i else i in
  if 0 <=? j then of_option IndexError (a !! Z.to_nat j) else Raise IndexError.

Section Append.
Context `{PyRuntime}.

(** *** Storing one blob column, lines 1071-1105 *)

(** [x is None] *)
Definition is_None (x : PyObj) : bool := id x =? id py_None.

(** [flatB] holds the column ([colsB[colname]], flattened), [barray] the
    VLArray as it is on disk, [object_atom] tells whether its atom is an
    ObjectAtom.  The result is the reference column [rows[colname]] and
    the VLArray after the appends.  The assertion of line 1099 compares
    the objects found through the references with the objects of the
    column; here two objects compare equal when they are the same
    object. *)
Definition store_blobs (object_atom : bool) (barray : list Blob)
    (flatB : list PyObj) : result (list Z * list Blob) :=
  let idents := map id flatB in
  let '(_, idx, ito) := np_unique idents in
  uobjs ← mapM (fun i => of_option IndexError (flatB !! i)) idx;
  let bsize := Z.of_nat (length barray) in
  let ito := map (fun k => Z.of_nat k + bsize) ito in
  let '(uobjs, ito) :=
    match uobjs with
    | o :: rest =>
        if is_None o
        then (rest, map (fun r => if r - 1 =? bsize - 1 then 0 else r - 1) ito)
        else (uobjs, ito)
    | [] => (uobjs, ito)
    end in
  let uobjs2 := uobjs ++ [py_None] in
  got ← mapM (fun r => np_index uobjs2
                        (if r =? 0 then Z.of_nat (length uobjs) else r - bsize)) ito;
  _ ← py_assert (bool_decide (map id got = map id flatB));
  let stored := map (fun o => if is_None o && negb object_atom
                              then empty_array else pickle o) uobjs in
  Ok (ito, barray ++ stored).

(** *** Keys of the primary cgroup, lines 967-995 *)

(** The block works on the sequence arrays of the row group: it raises
    the sequence over the object indices that come in (line 976) and,
    when keys are to be generated, advances it (line 990).  It hands on
    the key column of this cell with the generated keys filled in. *)
Definition assign_keys (group : Group) (cell_id_given : bool) (key : string)
    (keysT : list Z) : st (gmap string Z) (list Z) :=
  let i := map obj_part keysT in
  let seqname := "_seq_" +:+ key in
  arrays ← st_get;
  id0 ←
    match arrays !! seqname with
    | Some s =>
        imax ← st_lift (of_option ValueError (list_max i));
        let id0 := Z.max s (imax + 1) in
        _ ← st_put (<[seqname := wrap_uint64 id0]> arrays);
        mret (Some id0)
    | None =>
        _ ← st_lift (py_assert (match group with GCached => true | GMain => false end));
        mret None
    end;
  if forallb (fun x => negb (x =? 0)) i then mret keysT
  else
    _ ← st_lift (py_assert (match group with GCached => false | GMain => true end));
    _ ← st_lift (py_assert (negb cell_id_given));
    let need_keys := map (fun x => x =? 0) i in
    let nnk := Z.of_nat (length (List.filter (fun b : bool => b) need_keys)) in
    id0 ← st_lift (of_option UnboundLocalError id0);
    let genIds := map (fun j => wrap_uint64 (id0 + Z.of_nat j))
                      (seq 0 (Z.to_nat nnk)) in
    arrays ← st_get;
    _ ← st_put (<[seqname := wrap_uint64 (id0 + nnk)]> arrays);
    let completed := zip_with (fun k g => wrap_uint64 (k + g))
                       (mask_select keysT need_keys) genIds in
    mret (mask_assign keysT need_keys completed).

(** [np.unique(idents, return_index=True, ...)] of line 1078: for each
    distinct object of the column the position where it comes first. *)
Definition unique_index (flatB : list PyObj) : list Z :=
  let '(_, idx, _) := np_unique (map id flatB) in map Z.of_nat idx.
End Append.

(** *** Locating updated rows, lines 998-1022 *)

(** Insert index [i] into a list of indices ordered by their keys, after
    the indices whose key is not larger. *)
Fixpoint insert_index (a : list Z) (i : nat) (sorted : list nat) : list nat :=
  match sorted with
  | [] => [i]
  | j :: s =>
      if default 0 (a !! i) <? default 0 (a !! j) then i :: sorted
      else j :: insert_index a i s
  end.

(** [a.argsort()] (numpy leaves the order of equal keys open; here equal
    keys keep their order) *)
Definition argsort (a : list Z) : list nat :=
  fold_left (fun s i => insert_index a i s) (seq 0 (length a)) [].

(** [np.searchsorted(a, v)] for one value: how many elements of the
    sorted [a] are smaller *)
Definition searchsorted (a : list Z) (v : Z) : Z :=
  Z.of_nat (length (List.filter (fun x => x <? v) a)).

Fixpoint list_min (l : list Z) : option Z :=
  match l with
  | [] => None
  | x :: l' => match list_min l' with
               | Some m => Some (Z.min x m)
               | None => Some x
               end
  end.

(** [id1]: the keys in the table, [id2]: the keys of the batch.  [None]
    stands for [idx = slice(None)], the pure append; otherwise the
    result is [idx] and [nnew]. *)
Definition update_index (id1 id2 : list Z) : result (option (list Z * Z)) :=
  let ii := argsort id1 in
  let id1 := map (fun j => default 0 (id1 !! j)) ii in
  let n1 := Z.of_nat (length id1) in
  let idx := map (searchsorted id1) id2 in
  m ← of_option ValueError (list_min idx);
  if m =? n1 then Ok None
  else
    let in_ := map (fun x => x <? n1) idx in
    let cmp := zip_with (fun x k => negb (default 0 (id1 !! Z.to_nat x) =? k))
                 (mask_select idx in_) (mask_select id2 in_) in
    let app := mask_assign (replicate (length id2) true) in_ cmp in
    let nnew := Z.of_nat (length (List.filter (fun b : bool => b) app)) in
    let idx := mask_assign idx app (map (fun j => n1 + Z.of_nat j) (seq 0 (Z.to_nat nnew))) in
    let napp := map negb app in
    let idx := mask_assign idx napp
                 (map (fun x => Z.of_nat (default O (ii !! Z.to_nat x)))
                      (mask_select idx napp)) in
    Ok (Some (idx, nnew)).

(** *** Column groups *)

Section ColGroup.
Context `{PyRuntime}.

(** A numpy array of numbers or of objects. *)
Inductive Column :=
  | NumCol (l : list Z)
  | ObjCol (l : list PyObj).

(** Modelled from the spec: [ColGroup] ([colgroup.py] is not part of the
    engine), a set of named columns of equal length, kept in the order
    they were added; its length is the length of its columns. *)
Definition ColGroup := list (string * Column).

Definition col_len (c : Column) : nat :=
  match c with
  | NumCol l => length l
  | ObjCol l => length l
  end.

Definition cg_len (cols : ColGroup) : nat :=
  match cols with
  | [] => O
  | (_, c) :: _ => col_len c
  end.

(** [col[mask]] *)
Definition col_select (c : Column) (mask : list bool) : Column :=
  match c with
  | NumCol l => NumCol (mask_select l mask)
  | ObjCol l => ObjCol (mask_select l mask)
  end.

(** [cols[name]] as an array of numbers *)
Definition num_col (cols : ColGroup) (name_ : string) : result (list Z) :=
  c ← of_option KeyError (OrderedDict.get cols name_);
  match c with
  | NumCol l => Ok l
  | ObjCol _ => Raise TypeError
  end.

(** [cols[name]] as an array of objects *)
Definition obj_col (cols : ColGroup) (name_ : string) : result (list PyObj) :=
  c ← of_option KeyError (OrderedDict.get cols name_);
  match c with
  | ObjCol l => Ok l
  | NumCol _ => Raise AssertionError
  end.

(** The elements of a column as they go into an array of objects. *)
Definition as_objects (c : Column) : list PyObj :=
  match c with
  | ObjCol l => l
  | NumCol l => map py_number l
  end.
End ColGroup.

(** *** Row buffers *)

(** [np.zeros(n, dtype=np.dtype(schema['columns']))] *)
Definition ra_zeros (n : nat) (cols : list (string * string)) : RecArray :=
  map (fun c => (fst c, replicate n 0)) cols.

(** [rows.resize(n)]: cut, or fill up with zeros *)
Definition ra_resize (n : nat) (r : RecArray) : RecArray :=
  map (fun c => (fst c, take n (snd c ++ replicate n 0))) r.

(** [rows[field] = col] and [rows[field][:] = col] *)
Definition ra_set (r : RecArray) (fld : string) (col : list Z) : result RecArray :=
  old ← ra_field r fld;
  _ ← of_option ValueError (guard (length old = length col));
  Ok (OrderedDict.set r fld col).

(** [rows[field][idx] = col] *)
Definition ra_scatter (r : RecArray) (fld : string) (idx : list Z) (col : list Z)
    : result RecArray :=
  old ← ra_field r fld;
  new ← scatter old idx col;
  Ok (OrderedDict.set r fld new).

(** *** One cgroup of one cell, lines 953-1111 *)

(** [idx]: [slice(None)] or an index array. *)
Inductive Index :=
  | Slice
  | IndexArray (l : list Z).

(** The local variables [nrows], [nnew] and [idx] of [append].  They
    live across the iterations of the loops over cells and cgroups: an
    iteration reads what an earlier one has left.  [None] is a variable
    that has not been bound yet; reading it raises. *)
Record LoopVars := {
  lv_nrows : option Z;
  lv_nnew : option Z;
  lv_idx : option Index
}.

Section WriteCgroup.
Context `{PyRuntime}.

(** [_get_row_group], lines 591-646: the row group, created from the
    schema when the file does not have it yet. *)
Definition new_row_group (group : Group) (schema : Schema) : RowGroup Blob :=
  {| rg_table := ra_empty (sc_columns schema);
     rg_arrays :=
       match group, sc_primary_key schema with
       | GMain, Some pk => {[("_seq_" +:+ pk) := 1]}
       | _, _ => ∅
       end;
     rg_blobs :=
       match sc_blobs schema with
       | Some blobs =>
           (fun blobdef : BlobDef =>
              match blob_type blobdef with
              | None => [pickle py_None]
              | Some ty => if String.eqb ty "object" then [pickle py_None]
                           else [empty_array]
              end) <$> blobs
       | None => ∅
       end |}.

Definition get_group (fp : Tablet Blob) (group : Group) : option (RowGroup Blob) :=
  match group with
  | GMain => main fp
  | GCached => cached fp
  end.

Definition set_group (fp : Tablet Blob) (group : Group) (g : RowGroup Blob)
    : Tablet Blob :=
  match group with
  | GMain => {| main := Some g; cached := cached fp |}
  | GCached => {| main := main fp; cached := Some g |}
  end.

Definition _get_row_group (fp : Tablet Blob) (group : Group) (schema : Schema)
    : RowGroup Blob :=
  match get_group fp group with
  | Some g => g
  | None => new_row_group group schema
  end.

(** [isinstance(barray.atom, tables.ObjectAtom)], as the schema has it *)
Definition object_atom (schema : Schema) (colname : string) : bool :=
  match sc_blobs schema with
  | Some blobs =>
      match blobs !! colname with
      | Some blobdef =>
          match blob_type blobdef with
          | None => true
          | Some ty => String.eqb ty "object"
          end
      | None => true
      end
  | None => true
  end.

Definition is_blob_col (schema : Schema) (colname : string) : bool :=
  match sc_blobs schema with
  | Some blobs => bool_decide (is_Some (blobs !! colname))
  | None => false
  end.

(** lines 964-965: the columns of the batch that belong to this cgroup,
    cut down to the rows of this cell *)
Definition select_columns (schema : Schema) (cols : ColGroup) (incell : list bool)
    : ColGroup :=
  omap (fun c : string * string =>
          match OrderedDict.get cols (fst c) with
          | Some col => Some (fst c, col_select col incell)
          | None => None
          end) (sc_columns schema).

(** A step on the sequence arrays of a row group is a step on the row
    group. *)
Definition on_arrays {A} (m : st (gmap string Z) A) : st (RowGroup Blob) A :=
  fun g => let '(arrays, r) := m (rg_arrays g) in
           ({| rg_table := rg_table g; rg_arrays := arrays;
               rg_blobs := rg_blobs g |}, r).

(** [t.truncate(0)], [t.append(rows)] and the VLArray of a blob column
    replaced, on the row group that is open. *)
Definition truncate_table : st (RowGroup Blob) unit :=
  fun g => ({| rg_table := map (fun c => (fst c, [])) (rg_table g);
               rg_arrays := rg_arrays g; rg_blobs := rg_blobs g |}, Ok tt).

Definition append_table (rows : RecArray) : st (RowGroup Blob) unit :=
  fun g => ({| rg_table := ra_append (rg_table g) rows;
               rg_arrays := rg_arrays g; rg_blobs := rg_blobs g |}, Ok tt).

Definition set_barray (colname : string) (barray : list Blob)
    : st (RowGroup Blob) unit :=
  fun g => ({| rg_table := rg_table g; rg_arrays := rg_arrays g;
               rg_blobs := <[colname := barray]> (rg_blobs g) |}, Ok tt).

(** lines 1031-1040, the body of the loop: the blobs of the existing
    rows, with the blobs of the batch (an object array) laid over them;
    the VLArray keeps its first element.  [fp] is the tablet as it was
    opened, [rows] the rows read from the table. *)
Definition merge_blob_column (py_none_blob : Blob) (fp : Tablet Blob)
    (group : Group) (rows : RecArray) (lv : LoopVars) (idx : list Z)
    (colsB : ColGroup) (colname : string) : st (RowGroup Blob) ColGroup :=
  g ← st_get;
  refs ← st_lift (ra_field rows colname);
  loaded ← st_lift (_fetch_blobs_fp py_none_blob (set_group fp group g) colname
                      (NdArray [length refs] refs) false);
  let bb := zip_with unpickle refs (data loaded) in
  let len0 := length bb in
  nrows ← st_lift (of_option UnboundLocalError (lv_nrows lv));
  nnew ← st_lift (of_option UnboundLocalError (lv_nnew lv));
  let n := Z.to_nat (nrows + nnew) in
  let bb := take n (bb ++ replicate (n - len0) py_None) in
  new ← st_lift (of_option KeyError (OrderedDict.get colsB colname));
  bb ← st_lift (scatter bb idx (as_objects new));
  barray ← st_lift (of_option NoSuchNodeError (rg_blobs g !! colname));
  _ ← set_barray colname (take 1 barray);
  mret (OrderedDict.set colsB colname (ObjCol bb)).

Fixpoint foldM {A S} (f : S -> A -> result S) (s : S) (l : list A) : result S :=
  match l with
  | [] => Ok s
  | x :: l' => s' ← f s x; foldM f s' l'
  end.

(** lines 1064-1067: one regular column *)
Definition put_regular_column (schema : Schema) (colsT : ColGroup)
    (idx : Index) (rows : RecArray) (colname : string)
    : result RecArray :=
  if is_blob_col schema colname then Ok rows
  else
    col ← num_col colsT colname;
    match idx with
    | Slice => ra_set rows colname col
    | IndexArray ix => ra_scatter rows colname ix col
    end.

(** lines 1071-1105: one blob column.  Line 1078 binds [idx] anew, to
    the index array of [np.unique]; the references are given the shape
    of the column of [rows] (line 1080) before the VLArray is looked up
    and the objects are stored. *)
Definition put_blob_column (schema : Schema) (colsB : ColGroup)
    (acc : RecArray * LoopVars) (colname : string)
    : st (RowGroup Blob) (RecArray * LoopVars) :=
  let '(rows, lv) := acc in
  flatB ← st_lift (obj_col colsB colname);
  let lv := {| lv_nrows := lv_nrows lv; lv_nnew := lv_nnew lv;
               lv_idx := Some (IndexArray (unique_index flatB)) |} in
  old ← st_lift (ra_field rows colname);
  _ ← st_lift (of_option ValueError (guard (length old = length flatB)));
  g ← st_get;
  barray ← st_lift (of_option NoSuchNodeError (rg_blobs g !! colname));
  '(ito, barray') ← st_lift (store_blobs (object_atom schema colname) barray flatB);
  _ ← set_barray colname barray';
  mret (OrderedDict.set rows colname ito, lv).

(** lines 967-1022: the block of the primary cgroup, on the row group
    that is open.  [colsT] holds the columns of this cgroup and cell,
    [cols] the whole batch; both come back with the keys completed. *)
Definition primary_block (t : Table) (group : Group) (_update cell_id_given : bool)
    (key : string) (colsT cols : ColGroup) (incell : list bool) (lv : LoopVars)
    : st (RowGroup Blob) (ColGroup * ColGroup * LoopVars) :=
  g ← st_get;
  let nrows := Z.of_nat (ra_len (rg_table g)) in
  keysT ← st_lift (num_col colsT key);
  keysT' ← on_arrays (assign_keys group cell_id_given key keysT);
  let colsT := OrderedDict.set colsT key (NumCol keysT') in
  allkeys ← st_lift (num_col cols key);
  let cols := OrderedDict.set cols key
                (NumCol (mask_assign allkeys incell keysT')) in
  if _update then
    pk ← st_lift (of_option AttributeError (primary_key t));
    id1 ← st_lift (ra_field (rg_table g) (col_name pk));
    ui ← st_lift (update_index id1 keysT');
    match ui with
    | None => mret (colsT, cols,
                    {| lv_nrows := Some nrows; lv_nnew := lv_nnew lv;
                       lv_idx := Some Slice |})
    | Some (idx, nnew) =>
        mret (colsT, cols,
              {| lv_nrows := Some nrows; lv_nnew := Some nnew;
                 lv_idx := Some (IndexArray idx) |})
    end
  else mret (colsT, cols,
             {| lv_nrows := Some nrows; lv_nnew := lv_nnew lv; lv_idx := lv_idx lv |}).

(** lines 1025-1061: the row buffer.  For an update whose [idx] is an
    index array it is the table read back and enlarged (the table in
    the file is emptied, the blobs merged); otherwise it is [nnew] rows
    of zeros.  The dictionary [colsB] is walked in the order of the
    columns of the cgroup. *)
Definition row_buffer (schema : Schema) (_update : bool) (fp : Tablet Blob)
    (group : Group) (colsT colsB : ColGroup) (lv : LoopVars)
    : st (RowGroup Blob) (ColGroup * RecArray * LoopVars) :=
  let zeros : st (RowGroup Blob) (ColGroup * RecArray * LoopVars) :=
    let nnew := cg_len colsT in
    mret (colsB, ra_zeros nnew (sc_columns schema),
          {| lv_nrows := lv_nrows lv; lv_nnew := Some (Z.of_nat nnew);
             lv_idx := Some Slice |}) in
  if _update then
    idx ← st_lift (of_option UnboundLocalError (lv_idx lv));
    match idx with
    | Slice => zeros
    | IndexArray idx =>
        g ← st_get;
        let rows := rg_table g in
        _ ← truncate_table;
        colsB ← st_foldM (merge_blob_column (pickle py_None) fp group rows lv idx)
                  colsB (map fst colsB);
        nrows ← st_lift (of_option UnboundLocalError (lv_nrows lv));
        nnew ← st_lift (of_option UnboundLocalError (lv_nnew lv));
        mret (colsB, ra_resize (Z.to_nat (nrows + nnew)) rows, lv)
    end
  else zeros.

(** lines 1063-1105: the regular columns, then the blob columns *)
Definition fill_rows (schema : Schema) (colsT colsB : ColGroup)
    (rows : RecArray) (lv : LoopVars)
    : st (RowGroup Blob) (RecArray * LoopVars) :=
  rows ← st_lift (idx ← of_option UnboundLocalError (lv_idx lv);
                  foldM (put_regular_column schema colsT idx) rows (map fst colsT));
  st_foldM (put_blob_column schema colsB) (rows, lv) (map fst colsB).

(** The body of the loop over cgroups for a cgroup that is not a
    pseudo-cgroup, from line 959 on.  [cols] is the whole batch,
    [incell] the mask of the rows of the current cell, [fp] the tablet
    as opened for writing.  The result is the tablet as the iteration
    leaves it, also when it raises, and the batch and the local
    variables it hands on. *)
Definition write_cgroup (t : Table) (group : Group) (_update cell_id_given : bool)
    (key : string) (cgroup : string) (schema : Schema) (fp : Tablet Blob)
    (cols : ColGroup) (incell : list bool) (lv : LoopVars)
    : Tablet Blob * result (ColGroup * LoopVars) :=
  let colsT := select_columns schema cols incell in
  let colsB := List.filter (fun c => is_blob_col schema (fst c)) colsT in
  let '(g, r) :=
    ('(colsT, cols, lv) ←
       (if bool_decide (Some cgroup = primary_cgroup t)
        then primary_block t group _update cell_id_given key colsT cols incell lv
        else mret (colsT, cols, lv));
     '(colsB, rows, lv) ← row_buffer schema _update fp group colsT colsB lv;
     '(rows, lv) ← fill_rows schema colsT colsB rows lv;
     _ ← append_table rows;
     mret (cols, lv)) (_get_row_group fp group schema) in
  (set_group fp group g, r).
End WriteCgroup.

(** *** [append], lines 838-1123 *)

Section AppendTop.
Context `{PyRuntime} `{Pixelization}.

(** A computation on the tablet store that may raise: the store as it
    is when the computation ends, and the outcome. *)
Definition store_result (A : Type) : Type := FS Blob * result A.

(** [_cell_prefix], line 278 *)
Definition _cell_prefix (t : Table) (cell_id : Z) : result string :=
  dp ← _get_cgroup_data_path t (primary_cgroup t);
  Ok (dp +:+ "/" +:+ path_to_cell cell_id +:+ "/" +:+ name t).

(** [_open_tablet(cell_id, mode='w', cgroup)], lines 687-709, with
    [_create_tablet] for a file that does not exist yet *)
Definition _open_tablet_w (t : Table) (fs : FS Blob) (cell_id : Z) (cgroup : string)
    : result (string * Tablet Blob) :=
  fn ← _tablet_file t cell_id cgroup;
  match files fs !! fn with
  | Some fp => Ok (fn, fp)
  | None =>
      schema ← _get_schema t (Some cgroup);
      Ok (fn, {| main := Some (new_row_group GMain schema); cached := None |})
  end.

(** lines 870-882: the primary-key column of the batch *)
Definition prepare_keys (cols : ColGroup) (key : string)
    (cell_id_given _update : bool) : result ColGroup :=
  match OrderedDict.get cols key with
  | None => Ok (OrderedDict.set cols key (NumCol (replicate (cg_len cols) 0)))
  | Some _ =>
      keys ← num_col cols key;
      let cid := map is_cell_id keys in
      _ ← py_assert (forallb (fun b : bool => b) cid || _update || cell_id_given);
      Ok (OrderedDict.set cols key
            (NumCol (zip_with (fun (c : bool) k => if c then cell_part_mask k else k)
                       cid keys)))
  end.

(** lines 895-923: the destination cell of every row *)
Definition assign_cells (t : Table) (group : Group) (cell_id : option (list Z))
    (cols : ColGroup) (key : string) : result (ColGroup * list Z) :=
  match cell_id with
  | Some cells =>
      _ ← py_assert (match group with GMain => false | GCached => true end);
      Ok (cols, match cells with
                | [c] => replicate (cg_len cols) c
                | _ => cells
                end)
  | None =>
      keys ← num_col cols key;
      cols ←
        (if forallb (fun k => negb (k =? 0)) keys then Ok cols
         else
           _ ← py_assert (match group with GMain => true | GCached => false end);
           let need_key := map (fun k => k =? 0) keys in
           '(lon, lat) ← of_option AssertionError (spatial_keys t);
           _ ← py_assert (negb (String.eqb (col_name lon) "")
                          && negb (String.eqb (col_name lat) ""));
           _ ← py_assert (bool_decide (is_Some (OrderedDict.get cols (col_name lon)))
                          && bool_decide (is_Some (OrderedDict.get cols (col_name lat))));
           lons ← num_col cols (col_name lon);
           lats ← num_col cols (col_name lat);
           ts ← match temporal_key t with
                | Some tk => tcol ← num_col cols (col_name tk);
                             Ok (map Some (mask_select tcol need_key))
                | None => Ok (replicate (length keys) None)
                end;
           let ids := zip_with (fun '(lo, la) tt => obj_id_from_pos lo la tt)
                        (zip (mask_select lons need_key) (mask_select lats need_key))
                        ts in
           Ok (OrderedDict.set cols key (NumCol (mask_assign keys need_key ids))));
      keys ← num_col cols key;
      Ok (cols, map cell_for_id keys)
  end.

(** lines 953-1111: all cgroups of the locked cell, in schema order.  A
    tablet is in the store from the moment it is opened for writing; a
    cgroup that raises leaves its tablet as it was when it raised, and
    the tablets written before it in place. *)
Fixpoint write_cell (t : Table) (group : Group) (_update cell_id_given : bool)
    (key : string) (cur_cell_id : Z) (incell : list bool)
    (cgroups : list (string * Schema))
    (fs : FS Blob) (cols : ColGroup) (lv : LoopVars)
    : store_result (ColGroup * LoopVars) :=
  match cgroups with
  | [] => (fs, Ok (cols, lv))
  | (cgroup, schema) :: rest =>
      match _is_pseudotablet cgroup with
      | Raise e => (fs, Raise e)
      | Ok true =>
          write_cell t group _update cell_id_given key cur_cell_id incell rest fs cols lv
      | Ok false =>
          match _open_tablet_w t fs cur_cell_id cgroup with
          | Raise e => (fs, Raise e)
          | Ok (fn, fp) =>
              let '(fp, r) := write_cgroup t group _update cell_id_given key cgroup
                                schema fp cols incell lv in
              let fs := {| files := <[fn := fp]> (files fs);
                           lockfiles := lockfiles fs |} in
              match r with
              | Raise e => (fs, Raise e)
              | Ok (cols, lv) =>
                  write_cell t group _update cell_id_given key cur_cell_id incell
                    rest fs cols lv
              end
          end
      end
  end.

(** lines 933-947: the first of 3600 rounds, going round the cells still
    to be written, whose cell has no lock file *)
Fixpoint find_unlocked (t : Table) (fs : FS Blob) (unique_cells : list Z)
    (ks : list nat) : result (nat * Z * string) :=
  match ks with
  | [] => Raise LockStuck
  | k :: ks' =>
      let i := (k mod length unique_cells)%nat in
      cur ← of_option IndexError (unique_cells !! i);
      prefix ← _cell_prefix t cur;
      let lock := prefix +:+ ".lock" in
      if bool_decide (lock ∈ lockfiles fs)
      then find_unlocked t fs unique_cells ks'
      else Ok (i, cur, lock)
  end.

(** lines 930-1118: the loop over the cells; [n] bounds the number of
    cells still to be written, [nrows] is [self._nrows]. *)
Fixpoint store_cells (n : nat) (t : Table) (group : Group)
    (_update cell_id_given : bool) (key : string) (cells : list Z)
    (unique_cells : list Z) (fs : FS Blob) (cols : ColGroup) (lv : LoopVars)
    (nrows : option Z) (ntot : Z)
    : (FS Blob * option Z) * result (ColGroup * Z) :=
  match n, unique_cells with
  | _, [] => ((fs, nrows), Ok (cols, ntot))
  | O, _ => ((fs, nrows), Ok (cols, ntot))
  | S n', _ =>
      match find_unlocked t fs unique_cells (seq 0 3600) with
      | Raise e => ((fs, nrows), Raise e)
      | Ok (i, cur_cell_id, lock) =>
          let fs := {| files := files fs; lockfiles := {[lock]} ∪ lockfiles fs |} in
          let incell := map (fun c => c =? cur_cell_id) cells in
          match write_cell t group _update cell_id_given key cur_cell_id incell
                  (_cgroups t) fs cols lv with
          | (fs, Raise e) => ((fs, nrows), Raise e)
          | (fs, Ok (cols, lv)) =>
              let fs := {| files := files fs;
                           lockfiles := lockfiles fs ∖ {[lock]} |} in
              match lv_nnew lv, nrows with
              | None, _ => ((fs, nrows), Raise UnboundLocalError)
              | Some _, None => ((fs, nrows), Raise TypeError)
              | Some nnew, Some nr =>
                  store_cells n' t group _update cell_id_given key cells
                    (delete i unique_cells) fs cols lv
                    (Some (nr + nnew)) (ntot + nnew)
              end
          end
      end
  end.

(** [self] with [_nrows] set *)
Definition with_nrows (t : Table) (nrows : option Z) : Table :=
  {| path := path t; name := name t; _nrows := nrows; pix := pix t;
     _cgroups := _cgroups t; _fgroups := _fgroups t;
     _filters := _filters t; _aliases := _aliases t;
     columns := columns t; primary_cgroup := primary_cgroup t;
     primary_key := primary_key t; spatial_keys := spatial_keys t;
     temporal_key := temporal_key t |}.

(** lines 862-867: the batch under its resolved column names *)
Definition resolve_columns (t : Table) (cols_ : list (string * Column))
    : result ColGroup :=
  foldM (fun cols nc =>
           n ← resolve_alias t (fst nc);
           Ok (OrderedDict.set cols n (snd nc))) [] cols_.

(** lines 858-923: everything [append] does before it takes the first
    lock: the batch with its names resolved and its key column
    prepared, the name of the key column and the cell of every row. *)
Definition append_prepare (t : Table) (cols_ : list (string * Column))
    (group : Group) (cell_id : option (list Z)) (_update : bool)
    : result (string * ColGroup * list Z) :=
  _ ← py_assert (negb _update
                 || match group with GCached => false | GMain => true end);
  cols ← resolve_columns t cols_;
  _ ← py_assert (negb (bool_decide (cols = [])));
  pk ← of_option AttributeError (primary_key t);
  let key := col_name pk in
  cols ← prepare_keys cols key (bool_decide (is_Some cell_id)) _update;
  '(cols, cells) ← assign_cells t group cell_id cols key;
  Ok (key, cols, cells).

(** [append(cols_, group, cell_id, _update)]: the table object and the
    store afterwards, and the key column returned. *)
Definition append (t : Table) (fs : FS Blob) (cols_ : list (string * Column))
    (group : Group) (cell_id : option (list Z)) (_update : bool)
    : (Table * FS Blob) * result (list Z) :=
  match append_prepare t cols_ group cell_id _update with
  | Raise e => ((t, fs), Raise e)
  | Ok (key, cols, cells) =>
      let unique_cells := list_set cells in
      match store_cells (length unique_cells) t group _update
              (bool_decide (is_Some cell_id)) key cells unique_cells fs cols
              {| lv_nrows := None; lv_nnew := None; lv_idx := None |} (_nrows t) 0 with
      | ((fs, nrows), Raise e) => ((with_nrows t nrows, fs), Raise e)
      | ((fs, nrows), Ok (cols, ntot)) =>
          ((with_nrows t nrows, fs),
           _ ← py_assert (_update || (ntot =? Z.of_nat (cg_len cols)));
           keys ← num_col cols key;
           _ ← py_assert (Nat.eqb (length (sorted_unique keys)) (cg_len cols));
           Ok keys)
      end
  end.
End AppendTop.

(** ** The sequence invariant, in the words of the specification *)

(** The largest object index among the keys of a batch. *)
Definition max_obj_part (keys : list Z) : Z :=
  default 0 (list_max (map obj_part keys)).

(** The number of keys of a batch that ask for a generated index. *)
Definition keys_to_generate (keys : list Z) : Z :=
  Z.of_nat (length (List.filter (fun k => obj_part k =? 0) keys)).

(** Every element of column [fld] of a structured array satisfies [P]. *)
Definition column_all (P : Z -> Prop) (fld : string) (table : RecArray) : Prop :=
  forall c, OrderedDict.get table fld = Some c -> Forall P c.

(** Every key in column [key] of the row table has an object index
    below [s]. *)
Definition keys_below (s : Z) (key : string) (table : RecArray) : Prop :=
  column_all (fun k => obj_part k < s) key table.

(** ** Blob deduplication, in the words of the specification *)

Section BlobSpec.
Context `{PyRuntime}.

(** The first object of the batch whose identity is [x]. *)
Definition first_with_id (flatB : list PyObj) (x : Z) : PyObj :=
  default py_None (flatB !! index_of x (map id flatB)).

(** Whether the smallest identity in the batch is that of [None]. *)
Definition none_first (flatB : list PyObj) : bool :=
  match sorted_unique (map id flatB) with
  | x :: _ => x =? id py_None
  | [] => false
  end.

(** The objects that get appended to the VLArray: one per identity,
    without [None] when [None] has the smallest identity. *)
Definition stored_objects (flatB : list PyObj) : list PyObj :=
  let uobjs := map (first_with_id flatB) (sorted_unique (map id flatB)) in
  if none_first flatB then tail uobjs else uobjs.

(** The reference a row gets for the object [o]; [bsize] is the length
    of the VLArray before the write. *)
Definition blob_ref (bsize : Z) (flatB : list PyObj) (o : PyObj) : Z :=
  let k := Z.of_nat (index_of (id o) (sorted_unique (map id flatB))) in
  if none_first flatB then (if k =? 0 then 0 else k - 1 + bsize) else k + bsize.

(** What the VLArray holds for an appended object. *)
Definition stored_blob (object_atom : bool) (o : PyObj) : Blob :=
  if is_None o && negb object_atom then empty_array else pickle o.
End BlobSpec.

(** ** Sorted order and fresh keys, for the statements about updates *)

(** A list in non-decreasing order. *)
Inductive nondecreasing : list Z -> Prop :=
  | nd_nil : nondecreasing []
  | nd_cons x u : Forall (fun y => x <= y) u -> nondecreasing u -> nondecreasing (x :: u).

(** The keys of a batch that no row of the table has. *)
Definition fresh_keys (id1 id2 : list Z) : list Z :=
  List.filter (fun k => negb (bool_decide (k ∈ id1))) id2.

(** The arrays [update_index] works with (lines 1003-1014): the
    permutation [ii] that sorts the keys of the table, the sorted keys,
    their number, the insertion point of a batch key, and whether a
    batch key is marked in [app]. *)
Definition ui_order (id1 : list Z) : list nat := argsort id1.

Definition ui_sorted (id1 : list Z) : list Z :=
  map (fun j => default 0 (id1 !! j)) (ui_order id1).

Definition ui_len (id1 : list Z) : Z := Z.of_nat (length (ui_sorted id1)).

Definition ui_search (id1 : list Z) : Z -> Z := searchsorted (ui_sorted id1).

Definition ui_app (id1 : list Z) (k : Z) : bool :=
  if ui_search id1 k <? ui_len id1
  then negb (default 0 (ui_sorted id1 !! Z.to_nat (ui_search id1 k)) =? k)
  else true.

(** ** Key accessors, lines 1446-1464 *)

(** [get_primary_key]: [self.primary_key.name]; without a primary key
    the attribute is [None], which has no [name]. *)
Definition get_primary_key (t : Table) : result string :=
  pk ← of_option AttributeError (primary_key t);
  Ok (col_name pk).

(** [get_spatial_keys]: the two names, or [(None, None)]. *)
Definition get_spatial_keys (t : Table) : option string * option string :=
  match spatial_keys t with
  | Some (lon, lat) => (Some (col_name lon), Some (col_name lat))
  | None => (None, None)
  end.

(** [get_temporal_key]: the name, or [None]. *)
Definition get_temporal_key (t : Table) : option string :=
  match temporal_key t with
  | Some tk => Some (col_name tk)
  | None => None
  end.

(** ** The column index, in terms of the cgroup schemas *)

(** The column names the cgroups declare, in cgroup order. *)
Definition declared_columns (cgs : list (string * Schema)) : list string :=
  concat (map (fun cg => map fst (sc_columns (snd cg))) cgs).

Section IndexSpec.
Context `{NumpyDtype}.

(** The entry [ct] of the index under the name [n] agrees with the
    cgroups [cgs]: it carries its own name, the cgroup that declares
    the column and numpy's name for the declared dtype; it is marked as
    a blob column exactly when some cgroup lists it under [blobs], and
    then it is an int64 column. *)
Definition column_agrees (cgs : list (string * Schema)) (n : string)
    (ct : ColumnType) : Prop :=
  col_name ct = n /\
  (exists schema dtype,
     (col_cgroup ct, schema) ∈ cgs /\ (n, dtype) ∈ sc_columns schema /\
     np_dtype dtype = Some (col_dtype ct)) /\
  (col_is_blob ct = true <->
     exists cg schema, (cg, schema) ∈ cgs /\ n ∈ blob_columns schema) /\
  (col_is_blob ct = true -> dtype_base_is_int64 (col_dtype ct) = true).

(** The index [cols] agrees with the cgroups [cgs]: it lists the
    declared columns once each, in cgroup order, every entry agrees, and
    every column listed under [blobs] is in the index. *)
Definition index_agrees (cgs : list (string * Schema))
    (cols : list (string * ColumnType)) : Prop :=
  map fst cols = declared_columns cgs /\
  NoDup (map fst cols) /\
  (forall n ct, OrderedDict.get cols n = Some ct -> column_agrees cgs n ct) /\
  (forall cg schema n, (cg, schema) ∈ cgs -> n ∈ blob_columns schema ->
                       n ∈ map fst cols).
End IndexSpec.

(** ** Changes to the schema that are committed at once *)

(** [self] with one attribute set *)
Definition with_cgroups (t : Table) (cgs : list (string * Schema)) : Table :=
  {| path := path t; name := name t; _nrows := _nrows t; pix := pix t;
     _cgroups := cgs; _fgroups := _fgroups t;
     _filters := _filters t; _aliases := _aliases t;
     columns := columns t; primary_cgroup := primary_cgroup t;
     primary_key := primary_key t; spatial_keys := spatial_keys t;
     temporal_key := temporal_key t |}.

Definition with_fgroups (t : Table) (fgs : gmap string FgroupDef) : Table :=
  {| path := path t; name := name t; _nrows := _nrows t; pix := pix t;
     _cgroups := _cgroups t; _fgroups := fgs;
     _filters := _filters t; _aliases := _aliases t;
     columns := columns t; primary_cgroup := primary_cgroup t;
     primary_key := primary_key t; spatial_keys := spatial_keys t;
     temporal_key := temporal_key t |}.

Definition with_filters (t : Table) (fls : gmap string Z) : Table :=
  {| path := path t; name := name t; _nrows := _nrows t; pix := pix t;
     _cgroups := _cgroups t; _fgroups := _fgroups t;
     _filters := fls; _aliases := _aliases t;
     columns := columns t; primary_cgroup := primary_cgroup t;
     primary_key := primary_key t; spatial_keys := spatial_keys t;
     temporal_key := temporal_key t |}.

Definition with_aliases (t : Table) (als : gmap string string) : Table :=
  {| path := path t; name := name t; _nrows := _nrows t; pix := pix t;
     _cgroups := _cgroups t; _fgroups := _fgroups t;
     _filters := _filters t; _aliases := als;
     columns := columns t; primary_cgroup := primary_cgroup t;
     primary_key := primary_key t; spatial_keys := spatial_keys t;
     temporal_key := temporal_key t |}.

(** The three methods below change one attribute and call
    [_store_schema]: the result is the object as changed and the
    document written to [schema.cfg].  (What the object holds after an
    exception is not part of the result.) *)

(** [define_alias], lines 791-807 *)
Definition define_alias (t : Table) (alias colname : string)
    : result (Table * SchemaCfg) :=
  _ ← py_assert (bool_decide (is_Some (OrderedDict.get (columns t) colname)));
  let t := with_aliases t (<[alias := colname]> (_aliases t)) in
  data ← _store_schema t;
  Ok (t, data).

(** [define_fgroup], lines 221-228 *)
Definition define_fgroup (t : Table) (fgroup : string) (fgroupdef : FgroupDef)
    : result (Table * SchemaCfg) :=
  let t := with_fgroups t (<[fgroup := fgroupdef]> (_fgroups t)) in
  data ← _store_schema t;
  Ok (t, data).

(** [set_default_filters], lines 212-219 *)
Definition set_default_filters (t : Table) (filters : gmap string Z)
    : result (Table * SchemaCfg) :=
  let t := with_filters t filters in
  data ← _store_schema t;
  Ok (t, data).

(** ** lsd: URIs, lines 103-171 *)

(** The callable [_get_fgroup_filter] returns. *)
Inductive FileOpener := GzipFile | BZ2File | builtin_file.

(** The arguments it returns with it: the dict of the file group's
    filter, or the empty tuple of the plain case. *)
Inductive FilterArgs := KwArgs (kw : list (string * Z)) | EmptyTuple.

(** [_get_fgroup_filter], lines 121-171.  For a filter other than gzip
    and bzip2 the message of the exception is formatted from a string
    with two conversions and the single value [fgroup]: the formatting
    raises [TypeError] before the exception exists. *)
Definition _get_fgroup_filter (t : Table) (fgroup : string)
    : result (FileOpener * FilterArgs * string) :=
  match _fgroups t !! fgroup ≫= fg_filter with
  | Some (filter, kwargs) =>
      if String.eqb filter "gzip" then Ok (GzipFile, KwArgs kwargs, ".gz")
      else if String.eqb filter "bzip2" then Ok (BZ2File, KwArgs kwargs, ".bz2")
      else Raise TypeError
  | None => Ok (builtin_file, EmptyTuple, "")
  end.

(** [s.partition(':')]: the text before the first colon and the text
    after it, when there is a colon. *)
Fixpoint cut_colon (s : string) : option (string * string) :=
  match s with
  | EmptyString => None
  | String c s' =>
      if Ascii.eqb c ":"%char then Some (EmptyString, s')
      else match cut_colon s' with
           | Some (a, b) => Some (String c a, b)
           | None => None
           end
  end.

(** [s.split(':', n)] *)
Fixpoint split_colon (n : nat) (s : string) : list string :=
  match n with
  | O => [s]
  | S n' =>
      match cut_colon s with
      | Some (a, b) => a :: split_colon n' b
      | None => [s]
      end
  end.

(** What [resolve_uri] returns, without and with [return_parts]. *)
Inductive Resolved :=
  | UriPath (p : string)
  | UriParts (p : string) (tabname fgroup fn : string)
             (file : FileOpener) (args : FilterArgs) (suffix : string).

(** [resolve_uri], lines 103-119.  Unpacking the split into four names
    raises [ValueError] when it has fewer parts. *)
Definition resolve_uri (t : Table) (uri : string) (return_parts : bool)
    : result Resolved :=
  _ ← py_assert (String.eqb (String.substring 0 4 uri) "lsd:");
  match split_colon 3 uri with
  | [_; tabname; fgroup; fn] =>
      '(file, args, suffix) ← _get_fgroup_filter t fgroup;
      p ← _get_fgroup_path t fgroup;
      let p := p +:+ "/" +:+ fn +:+ suffix in
      if return_parts then Ok (UriParts p tabname fgroup fn file args suffix)
      else Ok (UriPath p)
  | _ => Raise ValueError
  end.

(** Whether a string has a colon. *)
Fixpoint has_colon (s : string) : bool :=
  match s with
  | EmptyString => false
  | String c s' => Ascii.eqb c ":"%char || has_colon s'
  end.

(** ** Creating column groups and tables *)

(** Besides the built-in exceptions the engine raises plain
    [Exception]s with a message. *)
Inductive Raised :=
  | Builtin (e : PyError)
  | Exception (msg : string).

Inductive outcome (A : Type) :=
  | Returns (a : A)
  | Raises (r : Raised).
Arguments Returns {A} a.
Arguments Raises {A} r.

#[global] Instance outcome_bind : MBind outcome := fun A B k m =>
  match m with
  | Returns a => k a
  | Raises r => Raises r
  end.

Definition lift {A} (m : result A) : outcome A :=
  match m with
  | Ok a => Returns a
  | Raise e => Raises (Builtin e)
  end.

(** [utils.py] is not part of the engine; the engine asks it whether a
    dtype code is a scalar int64 ([is_scalar_of_type(code, np.int64)]),
    and has it create directories ([mkdir_p], given here by the set of
    directories that exist afterwards). *)
Class Utils := {
  is_scalar_of_type_int64 : string -> bool;
  mkdir_p : gset string -> string -> gset string
}.

(** The string that holds one double quote. *)
Definition dquote : string := String (Ascii.ascii_of_nat 34) EmptyString.

(** [s.replace('O8', 'i8')] *)
Fixpoint replace_O8 (s : string) : string :=
  match s with
  | EmptyString => EmptyString
  | String c s' =>
      match s' with
      | String c' s'' =>
          if Ascii.eqb c "O"%char && Ascii.eqb c' "8"%char
          then String "i"%char (String "8"%char (replace_O8 s''))
          else String c (replace_O8 s')
      | EmptyString => String c EmptyString
      end
  end.

(** lines 528-530: [name] is given an empty blob definition unless it
    has one *)
Definition mark_blob (blobs : option (gmap string BlobDef)) (name_ : string)
    : option (gmap string BlobDef) :=
  let b := default ∅ blobs in
  Some (if bool_decide (is_Some (b !! name_)) then b
        else <[name_ := {| blob_type := None; blob_expectedsizeinMB := None |}]> b).

(** lines 521-530: every dtype with ['O8'] in it becomes a blob
    reference *)
Definition convert_objects (schema : Schema) : Schema :=
  {| sc_columns := map (fun c => (fst c, replace_O8 (snd c))) (sc_columns schema);
     sc_primary_key := sc_primary_key schema;
     sc_spatial_keys := sc_spatial_keys schema;
     sc_temporal_key := sc_temporal_key schema;
     sc_exposure_key := sc_exposure_key schema;
     sc_blobs :=
       fold_left (fun blobs c =>
                    if String.eqb (snd c) (replace_O8 (snd c)) then blobs
                    else mark_blob blobs (fst c))
         (sc_columns schema) (sc_blobs schema);
     sc_path := sc_path schema;
     sc_expectedrows := sc_expectedrows schema;
     sc_other := sc_other schema |}.

Section Create.
Context `{NumpyDtype} `{Utils}.

(** lines 540-543: [dict(schema['columns'])] keeps, for a name given
    twice, the later dtype *)
Definition check_blob_dtypes (schema : Schema) : result unit :=
  let cols := OrderedDict.of_pairs (sc_columns schema) in
  _ ← mapM (fun blobcol =>
              dt ← of_option KeyError (OrderedDict.get cols blobcol);
              py_assert (is_scalar_of_type_int64 dt))
       (blob_columns schema);
  Ok tt.

(** [create_cgroup], lines 496-548: the object with the new cgroup and
    the document written to [schema.cfg].  (Line 538 sets
    [primary_cgroup], which the rebuild of line 547 computes anew; what
    the object holds after an exception is not part of the result.) *)
Definition create_cgroup (t : Table) (cgroup : string) (schema : Schema)
    (ignore_if_exists : bool) : outcome (Table * SchemaCfg) :=
  if bool_decide (is_Some (OrderedDict.get (_cgroups t) cgroup)) && negb ignore_if_exists
  then Raises (Exception "Trying to create a cgroup that already exists!")
  else
    p ← lift (_is_pseudotablet cgroup);
    if p : bool
    then Raises (Exception "cgroups beginning with '_' are reserved for system use.")
    else
      let schema := convert_objects schema in
      if bool_decide (is_Some (sc_spatial_keys schema))
         && negb (bool_decide (is_Some (sc_primary_key schema)))
      then Raises (Exception "Trying to create spatial keys in a non-primary cgroup!")
      else
        _ ← match sc_primary_key schema, primary_cgroup t with
            | Some _, Some pc =>
                Raises (Exception ("Trying to create a primary cgroup (" +:+ dquote
                                   +:+ cgroup +:+ dquote +:+ ") while one (" +:+ dquote
                                   +:+ pc +:+ dquote +:+ ") already exists!"))
            | _, _ => Returns tt
            end;
        _ ← lift (check_blob_dtypes schema);
        let t := with_cgroups t (OrderedDict.set (_cgroups t) cgroup schema) in
        t ← lift (_rebuild_internal_schema t);
        data ← lift (_store_schema t);
        Returns (t, data).

(** The directories and the [schema.cfg] files on disk. *)
Record Disk := {
  dirs : gset string;
  schema_cfgs : gmap string SchemaCfg
}.

(** The attributes of class [Table] before [__init__] has run; the
    level of the default pixelization comes from the environment
    ([PIXLEVEL], 7 without it). *)
Definition class_attributes (pixlevel : Z) : Table := {|
  path := "."; name := ""; _nrows := Some 0;
  pix := {| pix_level := pixlevel; pix_t0 := 54335; pix_dt := 1 |};
  _cgroups := []; _fgroups := ∅; _filters := ∅; _aliases := ∅;
  columns := []; primary_cgroup := None;
  primary_key := None; spatial_keys := None; temporal_key := None
|}.

(** [_load_schema] from the file: [file(schemacfg)] raises [IOError]
    when there is none *)
Definition _load_schema_file (self : Table) (d : Disk) : result Table :=
  data ← of_option IOError (schema_cfgs d !! (path self +:+ "/schema.cfg"));
  _load_schema self data.

(** [_create], lines 766-789 *)
Definition _create (self : Table) (d : Disk) (name_ path_ : string)
    (level t0 dt : option Z) : Disk * outcome Table :=
  let d := {| dirs := mkdir_p (dirs d) path_; schema_cfgs := schema_cfgs d |} in
  if bool_decide (is_Some (schema_cfgs d !! (path_ +:+ "/schema.cfg")))
  then (d, Raises (Exception ("Creating a new table in '" +:+ path_
                              +:+ "' would overwrite an existing one.")))
  else
    let self :=
      {| path := path_; name := name_; _nrows := _nrows self;
         pix := {| pix_level := default (pix_level (pix self)) level;
                   pix_t0 := default (pix_t0 (pix self)) t0;
                   pix_dt := default (pix_dt (pix self)) dt |};
         _cgroups := []; _fgroups := ∅; _filters := ∅; _aliases := ∅;
         columns := []; primary_cgroup := primary_cgroup self;
         primary_key := primary_key self; spatial_keys := spatial_keys self;
         temporal_key := temporal_key self |} in
    match _store_schema self with
    | Raise e => (d, Raises (Builtin e))
    | Ok data =>
        let d := {| dirs := dirs d;
                    schema_cfgs := <[(path_ +:+ "/schema.cfg") := data]> (schema_cfgs d) |} in
        (d, lift (_load_schema_file self d))
    end.

(** [Table.__init__], lines 750-764 *)
Definition Table__init__ (pixlevel : Z) (d : Disk) (path_ mode : string)
    (name_ : option string) (level t0 dt : option Z) : Disk * outcome Table :=
  let self := class_attributes pixlevel in
  if String.eqb mode "c" then
    match name_ with
    | None => (d, Raises (Builtin AssertionError))
    | Some n => _create self d n path_ level t0 dt
    end
  else
    let self := {| path := path_; name := name self; _nrows := _nrows self;
                   pix := pix self; _cgroups := _cgroups self;
                   _fgroups := _fgroups self; _filters := _filters self;
                   _aliases := _aliases self; columns := columns self;
                   primary_cgroup := primary_cgroup self;
                   primary_key := primary_key self;
                   spatial_keys := spatial_keys self;
                   temporal_key := temporal_key self |} in
    if bool_decide (path_ ∈ dirs d)
    then (d, lift (_load_schema_file self d))
    else (d, Raises (Builtin IOError)).
End Create.

(** ** Reading blobs, dropping row groups *)

Section FetchBlobs.
Context `{Pixelization} {B : Type}.

(** [fetch_blobs], lines 1265-1294.  [len(refs)] is the first
    dimension of the array, and raises for an array without dimensions;
    a cell is opened for reading without taking its lock. *)
Definition fetch_blobs (t : Table) (fs : FS B) (py_none : B) (cell_id : Z)
    (column : string) (refs : ndarray Z) (include_cached : bool)
    : result (ndarray B) :=
  match shape refs with
  | [] => Raise TypeError
  | n :: _ =>
      if Nat.eqb n 0 then Ok (NdArray (shape refs) [])
      else
        ct ← of_option KeyError (OrderedDict.get (columns t) column);
        cell_id ← static_if_no_temporal t fs cell_id;
        fp ← _open_tablet_r t fs cell_id (col_cgroup ct);
        _fetch_blobs_fp py_none fp column refs include_cached
  end.
End FetchBlobs.

Section DropRowGroup.
Context `{PyRuntime} `{Pixelization}.

(** [if group in fp.root: fp.removeNode('/', group, recursive=True)] *)
Definition remove_group (fp : Tablet Blob) (group : string) : Tablet Blob :=
  if String.eqb group "main" then {| main := None; cached := cached fp |}
  else if String.eqb group "cached" then {| main := main fp; cached := None |}
  else fp.

(** lines 657-662: the loop over the cgroups of the locked cell; a
    tablet that is not there is created by opening it for writing *)
Fixpoint drop_groups (t : Table) (cell_id : Z) (group : string)
    (cgroups : list string) (fs : FS Blob) : store_result unit :=
  match cgroups with
  | [] => (fs, Ok tt)
  | cgroup :: rest =>
      match _is_pseudotablet cgroup with
      | Raise e => (fs, Raise e)
      | Ok true => drop_groups t cell_id group rest fs
      | Ok false =>
          match _open_tablet_w t fs cell_id cgroup with
          | Raise e => (fs, Raise e)
          | Ok (fn, fp) =>
              drop_groups t cell_id group rest
                {| files := <[fn := remove_group fp group]> (files fs);
                   lockfiles := lockfiles fs |}
          end
      end
  end.

(** [drop_row_group], lines 648-662.  The cell is locked with
    [retries = -1]: [lockfile] waits for as long as the lock file is
    there, so with a lock file in place the call does not return
    ([None]).  The lock is removed when the loop has run through, not
    when it raises. *)
Definition drop_row_group (t : Table) (fs : FS Blob) (cell_id : Z) (group : string)
    : option (store_result unit) :=
  match _cell_prefix t cell_id with
  | Raise e => Some (fs, Raise e)
  | Ok prefix =>
      let lock := prefix +:+ ".lock" in
      if bool_decide (lock ∈ lockfiles fs) then None
      else
        let fs := {| files := files fs; lockfiles := {[lock]} ∪ lockfiles fs |} in
        match drop_groups t cell_id group (map fst (_cgroups t)) fs with
        | (fs, Raise e) => Some (fs, Raise e)
        | (fs, Ok _) =>
            Some ({| files := files fs; lockfiles := lockfiles fs ∖ {[lock]} |}, Ok tt)
        end
  end.
End DropRowGroup.

(** ** Tablets of different cells and cgroups *)

Section Distinct.
Context `{Pixelization}.

(** No two tablets of the cells [cells] share a file: the path of a
    tablet tells its cell and its cgroup. *)
Definition tablet_files_distinct (t : Table) (cells : list Z) : Prop :=
  forall c1 c2 cg1 cg2 fn,
    c1 ∈ cells -> c2 ∈ cells ->
    cg1 ∈ map fst (_cgroups t) -> cg2 ∈ map fst (_cgroups t) ->
    _tablet_file t c1 cg1 = Ok fn -> _tablet_file t c2 cg2 = Ok fn ->
    c1 = c2 /\ cg1 = cg2.
End Distinct.

(** The rows of [main] in the tablet file [fn], none when the file or
    the row group is not there. *)
Definition rows_on_disk {B} (fs : FS B) (fn : string) (schema : Schema) : RecArray :=
  match files fs !! fn ≫= main with
  | Some g => rg_table g
  | None => ra_empty (sc_columns schema)
  end.

(** The VLArray of the blob column [column] in [main] of the tablet
    file [fn]; [_get_row_group] creates it with its one element when
    the file or the row group is not there. *)
Definition blobs_on_disk `{PyRuntime} (fs : FS Blob) (fn : string) (schema : Schema)
    (column : string) : option (list Blob) :=
  match files fs !! fn ≫= main with
  | Some g => rg_blobs g !! column
  | None => rg_blobs (new_row_group GMain schema) !! column
  end.

(** The number of rows of the batch that go to the cell whose mask is
    [incell]. *)
Definition rows_in_cell (incell : list bool) : nat :=
  length (List.filter (fun b : bool => b) incell).

(** Whether the batch gives a column of the cgroup: whether [colsT] of
    line 964 has a column. *)
Definition gives_column `{PyRuntime} (schema : Schema) (cols : ColGroup) : bool :=
  existsb (fun c : string * string =>
             bool_decide (is_Some (OrderedDict.get cols (fst c))))
          (sc_columns schema).

(** The batch as a later iteration finds it: the key column may have
    had keys filled in; the other columns are the same, and every
    column has the length it had. *)
Definition same_batch `{PyRuntime} (key : string) (cols cols' : ColGroup) : Prop :=
  (forall x, x <> key -> OrderedDict.get cols' x = OrderedDict.get cols x) /\
  (forall x, col_len <$> OrderedDict.get cols' x = col_len <$> OrderedDict.get cols x).

(** ** Example data *)

Definition stars_schema : Schema := {|
  sc_columns := [("obj_id", "u8"); ("ra", "f8"); ("dec", "f8"); ("spectrum", "i8")];
  sc_primary_key := Some "obj_id";
  sc_spatial_keys := Some ("ra", "dec");
  sc_temporal_key := None;
  sc_exposure_key := None;
  sc_blobs := Some {["spectrum" := {| blob_type := None; blob_expectedsizeinMB := None |}]};
  sc_path := None;
  sc_expectedrows := None;
  sc_other := ∅
|}.

(** A table [stars] with one file group [img] that declares its own path
    and one user alias. *)
Definition stars : Table := {|
  path := "/db/stars";
  name := "stars";
  _nrows := Some 2;
  pix := {| pix_level := 7; pix_t0 := 54335; pix_dt := 1 |};
  _cgroups := [("main", stars_schema); ("_PSEUDOCOLS", _PSEUDOCOLS_schema)];
  _fgroups := {["img" := {| fg_path := Some "/data/img"; fg_filter := None |}]};
  _filters := ∅;
  _aliases := {["flux" := "spectrum"]};
  columns :=
    [("obj_id", {| col_name := "obj_id"; col_cgroup := "main";
                   col_dtype := "uint64"; col_is_blob := false |});
     ("ra", {| col_name := "ra"; col_cgroup := "main";
               col_dtype := "float64"; col_is_blob := false |});
     ("dec", {| col_name := "dec"; col_cgroup := "main";
                col_dtype := "float64"; col_is_blob := false |});
     ("spectrum", {| col_name := "spectrum"; col_cgroup := "main";
                     col_dtype := "int64"; col_is_blob := true |});
     ("_CACHED", {| col_name := "_CACHED"; col_cgroup := "_PSEUDOCOLS";
                    col_dtype := "bool"; col_is_blob := false |});
     ("_ROWIDX", {| col_name := "_ROWIDX"; col_cgroup := "_PSEUDOCOLS";
                    col_dtype := "uint64"; col_is_blob := false |});
     ("_ROWID", {| col_name := "_ROWID"; col_cgroup := "_PSEUDOCOLS";
                   col_dtype := "uint64"; col_is_blob := false |})];
  primary_cgroup := Some "main";
  primary_key := Some {| col_name := "obj_id"; col_cgroup := "main";
                         col_dtype := "uint64"; col_is_blob := false |};
  spatial_keys :=
    Some ({| col_name := "ra"; col_cgroup := "main";
             col_dtype := "float64"; col_is_blob := false |},
          {| col_name := "dec"; col_cgroup := "main";
             col_dtype := "float64"; col_is_blob := false |});
  temporal_key := None
|}.

(** A small pixelization for the examples: a cell is temporal when bits
    32..47 of its id are set, its static cell has them cleared, the low
    32 bits of a key are the object index. *)
#[local] Instance example_pix : Pixelization := {|
  is_cell_id k := Z.land k 4294967295 =? 0;
  cell_for_id k := Z.land k 18446744069414584320;
  obj_id_from_pos lon lat t := 281474976710656;
  is_temporal_cell c := negb (Z.land (Z.shiftr c 32) 65535 =? 0);
  static_cell_for_cell c := Z.land c 18446462603027808255;
  path_to_cell c := pretty c;
  id_for_cell_i c i := Z.lor c i
|}.

(** The static cell [2^48] and the temporal cell above it. *)
Definition static_cell : Z := 281474976710656.
Definition temporal_cell : Z := 281474976710656 + 3 * 4294967296.

Definition example_main : RowGroup string := {|
  rg_table := [("obj_id", [281474976710657; 281474976710658]);
               ("ra", [10; 20]); ("dec", [-5; 5]); ("spectrum", [1; 0])];
  rg_arrays := {["_seq_obj_id" := 3]};
  rg_blobs := {["spectrum" := ["N."; "s1"]]}
|}.

Definition example_cached : RowGroup string := {|
  rg_table := [("obj_id", [562949953421313]);
               ("ra", [30]); ("dec", [7]); ("spectrum", [1])];
  rg_arrays := ∅;
  rg_blobs := {["spectrum" := ["N."; "n1"]]}
|}.

(** One tablet, in the static cell; nothing in the temporal cell. *)
Definition example_fs : FS string := {|
  files := {["/db/stars/tablets/281474976710656/stars.main.h5" :=
               {| main := Some example_main; cached := Some example_cached |}]};
  lockfiles := ∅
|}.

(** numpy dtype codes used in the examples. *)
#[local] Instance example_dtypes : NumpyDtype := {|
  np_dtype code :=
    if String.eqb code "u8" then Some "uint64"
    else if String.eqb code "i8" then Some "int64"
    else if String.eqb code "f8" then Some "float64"
    else if String.eqb code "bool" then Some "bool"
    else None;
  dtype_base_is_int64 dt := String.eqb dt "int64"
|}.

(** An object of class Table before any schema is loaded. *)
Definition blank_table (p : string) : Table := {|
  path := p; name := ""; _nrows := Some 0;
  pix := {| pix_level := 7; pix_t0 := 54335; pix_dt := 1 |};
  _cgroups := []; _fgroups := ∅; _filters := ∅; _aliases := ∅;
  columns := []; primary_cgroup := None;
  primary_key := None; spatial_keys := None; temporal_key := None
|}.

Definition scratch_schema : Schema := {|
  sc_columns := [("tmp", "i8")];
  sc_primary_key := None;
  sc_spatial_keys := None;
  sc_temporal_key := None;
  sc_exposure_key := None;
  sc_blobs := None;
  sc_path := None;
  sc_expectedrows := None;
  sc_other := ∅
|}.

(** A [schema.cfg] as [_store_schema] writes it, and one that also
    lists a cgroup with a reserved name. *)
Definition stars_cfg : SchemaCfg := {|
  cfg_name := Some "stars"; cfg_nrows := Some 2;
  cfg_level := Some 7; cfg_t0 := Some 54335; cfg_dt := Some 1;
  cfg_cgroups := Some [("main", stars_schema)];
  cfg_fgroups := Some {["img" := {| fg_path := Some "/data/img"; fg_filter := None |}]};
  cfg_filters := Some ∅;
  cfg_aliases := Some {["flux" := "spectrum"]}
|}.

Definition reserved_cfg : SchemaCfg := {|
  cfg_name := Some "stars"; cfg_nrows := Some 2;
  cfg_level := Some 7; cfg_t0 := Some 54335; cfg_dt := Some 1;
  cfg_cgroups := Some [("main", stars_schema); ("_scratch", scratch_schema)];
  cfg_fgroups := Some ∅; cfg_filters := Some ∅;
  cfg_aliases := Some ∅
|}.

(** Python objects for the examples: an address and the pickled
    value.  [None] lives at address 9000; an unpickled blob is a new
    object on the heap, except that unpickling [None] gives [None].  A
    set of cells is gone through in the order of the last occurrences
    of its elements. *)
#[local] Instance example_runtime : PyRuntime := {|
  PyObj := Z * string;
  Blob := string;
  id := fst;
  py_None := (9000, "N.");
  pickle := snd;
  empty_array := "[]";
  unpickle r b := if String.eqb b "N." then (9000, "N.") else (r + 1000000, b);
  py_number z := (z, "num");
  list_set := remove_dups;
  list_set_NoDup := NoDup_remove_dups;
  list_set_elem l x := elem_of_remove_dups l x
|}.

(** [True] is a static object like [None]; here it lies below it. *)
Definition obj_True : Z * string := (8000, "T.").
Definition obj_None : Z * string := (9000, "N.").
Definition obj_spec1 : Z * string := (2000016, "spec1").
Definition obj_spec2 : Z * string := (2000032, "spec2").

(** The tablet of [static_cell] as opened for writing, a batch of three
    rows for that cell, and the loop variables before the first cgroup. *)
Definition example_tablet : Tablet (@Blob example_runtime) :=
  {| main := Some example_main; cached := Some example_cached |}.

Definition example_batch : ColGroup :=
  [("ra", NumCol [1; 2; 3]); ("dec", NumCol [3; 4; 5]);
   ("spectrum", ObjCol [obj_spec1; obj_None; obj_spec1]);
   ("obj_id", NumCol [281474976710656; 281474976710656; 281474976710656])].

Definition no_loop_vars : LoopVars :=
  {| lv_nrows := None; lv_nnew := None; lv_idx := None |}.

(** Three new rows for [static_cell]; the first and the third share one
    spectrum object, the second has none. *)
Definition new_rows : list (string * Column) :=
  [("ra", NumCol [1; 2; 3]); ("dec", NumCol [3; 4; 5]);
   ("flux", ObjCol [obj_spec1; obj_None; obj_spec1])].

(** An update of the row with object index 1 and a new row with object
    index 14. *)
Definition updated_rows : list (string * Column) :=
  [("_ID", NumCol [281474976710657; 281474976710670]);
   ("ra", NumCol [100; 200]); ("dec", NumCol [300; 400]);
   ("flux", ObjCol [obj_spec2; obj_spec1])].

(** The [main] group of the tablet of [static_cell] after an append. *)
Definition main_after (r : (Table * FS (@Blob example_runtime)) * result (list Z))
    : option (RowGroup (@Blob example_runtime)) :=
  files (snd (fst r)) !! "/db/stars/tablets/281474976710656/stars.main.h5"
  ≫= main.

(** What the examples take from [utils.py]. *)
#[local] Instance example_utils : Utils := {|
  is_scalar_of_type_int64 code := String.eqb code "i8";
  mkdir_p ds p := {[p]} ∪ ds
|}.

Definition empty_disk : Disk := {| dirs := ∅; schema_cfgs := ∅ |}.

(** A table created at [/db/new], as [__init__] leaves it. *)
Definition new_table : Table :=
  match snd (Table__init__ 7 empty_disk "/db/new" "c" (Some "new") None None None) with
  | Returns t => t
  | Raises _ => class_attributes 7
  end.

(** A primary cgroup with an object column. *)
Definition spectra_schema : Schema := {|
  sc_columns := [("obj_id", "u8"); ("ra", "f8"); ("dec", "f8"); ("spectrum", "O8")];
  sc_primary_key := Some "obj_id";
  sc_spatial_keys := Some ("ra", "dec");
  sc_temporal_key := None;
  sc_exposure_key := None;
  sc_blobs := None;
  sc_path := None;
  sc_expectedrows := None;
  sc_other := ∅
|}.

(** A table whose cgroup [aux] lists under [blobs] the column [note],
    which the cgroup [main] declares. *)
Definition crossed_main_schema : Schema := {|
  sc_columns := [("obj_id", "u8"); ("note", "i8")];
  sc_primary_key := Some "obj_id";
  sc_spatial_keys := None;
  sc_temporal_key := None;
  sc_exposure_key := None;
  sc_blobs := None;
  sc_path := None;
  sc_expectedrows := None;
  sc_other := ∅
|}.

Definition crossed_aux_schema : Schema := {|
  sc_columns := [("mag", "f8")];
  sc_primary_key := None;
  sc_spatial_keys := None;
  sc_temporal_key := None;
  sc_exposure_key := None;
  sc_blobs := Some {["note" := {| blob_type := None; blob_expectedsizeinMB := None |}]};
  sc_path := None;
  sc_expectedrows := None;
  sc_other := ∅
|}.

Definition crossed : Table := {|
  path := "/db/crossed"; name := "crossed"; _nrows := Some 0; pix := pix stars;
  _cgroups := [("main", crossed_main_schema); ("aux", crossed_aux_schema)];
  _fgroups := ∅; _filters := ∅; _aliases := ∅;
  columns := [];
  primary_cgroup := None; primary_key := None;
  spatial_keys := None; temporal_key := None
|}.

Definition crossed_rebuilt : Table :=
  match _rebuild_internal_schema crossed with
  | Ok t => t
  | Raise _ => crossed
  end.

(** * Theorems *)

(** ** File-group paths *)

(** The second test of [_get_fgroup_path] looks for a file group that is
    itself called [path]: without one, the default directory is returned
    whatever the fgroup's own definition says. *)
Lemma _get_fgroup_path_no_path_fgroup (t : Table) (fgroup : string) :
  _fgroups t !! "path" = None ->
  _get_fgroup_path t fgroup = Ok (path t +:+ "/files/" +:+ fgroup).
Proof.
  intros Hp. unfold _get_fgroup_path. rewrite Hp.
  rewrite (bool_decide_eq_false_2 (is_Some None)) by (intros [? ?]; discriminate).
  simpl. now rewrite orb_true_r.
Qed.

(** C9 (code evaluated at the failing input): file group [img] of table
    [stars] is defined and its definition holds the path [/data/img],
    yet [_get_fgroup_path] answers with the default directory. *)
Theorem get_fgroup_path_drops_declared_path :
  (fg_path <$> _fgroups stars !! "img") = Some (Some "/data/img") /\
  _get_fgroup_path stars "img" = Ok "/db/stars/files/img".
Proof.
  split.
  - reflexivity.
  - apply (_get_fgroup_path_no_path_fgroup stars "img"). reflexivity.
Qed.

(** ** Alias resolution *)

(** C7: with [schema] the schema of the primary cgroup, each built-in
    alias resolves to its key when that key is declared; a name that is
    not a built-in alias, or a built-in alias whose key is not declared,
    resolves through the user alias map, and to itself when the map has no
    entry for it. *)
Theorem resolve_alias_spec (t : Table) (schema : Schema) :
  _get_schema t (primary_cgroup t) = Ok schema ->
  (forall pk, sc_primary_key schema = Some pk -> resolve_alias t "_ID" = Ok pk) /\
  (forall lon lat, sc_spatial_keys schema = Some (lon, lat) ->
     resolve_alias t "_LON" = Ok lon /\ resolve_alias t "_LAT" = Ok lat) /\
  (forall tk, sc_temporal_key schema = Some tk -> resolve_alias t "_TIME" = Ok tk) /\
  (forall ek, sc_exposure_key schema = Some ek -> resolve_alias t "_EXP" = Ok ek) /\
  (forall colname,
     (colname = "_ID" -> sc_primary_key schema = None) ->
     (colname = "_LON" \/ colname = "_LAT" -> sc_spatial_keys schema = None) ->
     (colname = "_TIME" -> sc_temporal_key schema = None) ->
     (colname = "_EXP" -> sc_exposure_key schema = None) ->
     resolve_alias t colname =
       Ok (match _aliases t !! colname with Some c => c | None => colname end)).
Proof.
  intros Hs. unfold resolve_alias. rewrite Hs. cbn [mbind result_bind rbind].
  repeat split.
  - intros pk ->. reflexivity.
  - destruct (sc_primary_key schema); cbn; rewrite H; reflexivity.
  - destruct (sc_primary_key schema); cbn; rewrite H; reflexivity.
  - intros tk ->. destruct (sc_spatial_keys schema); reflexivity.
  - intros ek ->. destruct (sc_spatial_keys schema), (sc_temporal_key schema); reflexivity.
  - intros colname Hid Hsp Htm Hex.
    destruct (String.eqb_spec colname "_ID") as [E | E].
    { rewrite (Hid E). subst. cbn. reflexivity. }
    destruct (String.eqb_spec colname "_LON") as [E1 | E1].
    { rewrite (Hsp (or_introl E1)). subst. cbn. reflexivity. }
    destruct (String.eqb_spec colname "_LAT") as [E2 | E2].
    { rewrite (Hsp (or_intror E2)). subst. cbn. reflexivity. }
    destruct (String.eqb_spec colname "_TIME") as [E3 | E3].
    { rewrite (Htm E3). subst. cbn. reflexivity. }
    destruct (String.eqb_spec colname "_EXP") as [E4 | E4].
    { rewrite (Hex E4). subst. cbn. reflexivity. }
    cbn. reflexivity.
Qed.

Lemma resolve_alias_spec_witness :
  resolve_alias stars "_ID" = Ok "obj_id" /\
  resolve_alias stars "_LAT" = Ok "dec" /\
  resolve_alias stars "_TIME" = Ok "_TIME" /\
  resolve_alias stars "flux" = Ok "spectrum" /\
  resolve_alias stars "ra" = Ok "ra".
Proof.
  destruct (resolve_alias_spec stars stars_schema eq_refl) as (Hid & Hsp & _ & _ & Hother).
  split; [exact (Hid "obj_id" eq_refl) |].
  split; [exact (proj2 (Hsp "ra" "dec" eq_refl)) |].
  split; [apply (Hother "_TIME"); intros; try reflexivity; try discriminate; intuition discriminate |].
  split; [apply (Hother "flux"); intros; try reflexivity; try discriminate; intuition discriminate |].
  apply (Hother "ra"); intros; try reflexivity; try discriminate; intuition discriminate.
Defined.

(** ** The error monad *)

Lemma bind_Ok {A B} (a : A) (k : A -> result B) : (Ok a ≫= k) = k a.
Proof. reflexivity. Qed.

Lemma bind_Raise {A B} (e : PyError) (k : A -> result B) : (Raise e ≫= k) = Raise e.
Proof. reflexivity. Qed.

(** Steps on an object changed in place: what a step that returns went
    through. *)
Lemma st_bind_Ok_inv {S A B} (m : st S A) (k : A -> st S B) (s s' : S) (b : B) :
  (m ≫= k) s = (s', Ok b) ->
  exists a s1, m s = (s1, Ok a) /\ k a s1 = (s', Ok b).
Proof.
  unfold mbind, st_mbind, st_bind. destruct (m s) as [s1 [a | e]]; [eauto | discriminate].
Qed.

Lemma st_bind_Ok {S A B} (m : st S A) (k : A -> st S B) (s s1 : S) (a : A) :
  m s = (s1, Ok a) -> (m ≫= k) s = k a s1.
Proof. intros Hm. unfold mbind, st_mbind, st_bind. rewrite Hm. reflexivity. Qed.

Lemma st_bind_Raise {S A B} (m : st S A) (k : A -> st S B) (s s1 : S) (e : PyError) :
  m s = (s1, Raise e) -> (m ≫= k) s = (s1, Raise e).
Proof. intros Hm. unfold mbind, st_mbind, st_bind. rewrite Hm. reflexivity. Qed.

Lemma st_lift_Ok_inv {S A} (r : result A) (s s' : S) (a : A) :
  st_lift r s = (s', Ok a) -> r = Ok a /\ s' = s.
Proof. unfold st_lift. intros [= <- ->]. auto. Qed.

Lemma st_ret_inv {S A} (a b : A) (s s' : S) :
  (mret a : st S A) s = (s', Ok b) -> b = a /\ s' = s.
Proof. unfold mret, st_mret. intros [= <- <-]. auto. Qed.

(** A step, and a loop of steps, that keep a property of the object
    whether they return or raise. *)
Lemma st_bind_keeps {S A B} (P : S -> Prop) (m : st S A) (k : A -> st S B) (s : S) :
  P (fst (m s)) -> (forall a s1, m s = (s1, Ok a) -> P (fst (k a s1))) ->
  P (fst ((m ≫= k) s)).
Proof.
  unfold mbind, st_mbind, st_bind. destruct (m s) as [s1 [a | e]]; cbn; eauto.
Qed.

Lemma st_foldM_keeps {S A X} (P : S -> Prop) (f : X -> A -> st S X) (l : list A) :
  (forall x a s, P s -> P (fst (f x a s))) ->
  forall x s, P s -> P (fst (st_foldM f x l s)).
Proof.
  intros Hf. induction l as [| a l IH]; intros x s Hs; [exact Hs |].
  cbn [st_foldM]. apply st_bind_keeps; [apply Hf, Hs |].
  intros x' s1 E. apply IH. specialize (Hf x a s Hs). rewrite E in Hf. exact Hf.
Qed.

Lemma st_foldM_invariant {S A X} (f : X -> A -> st S X) (I : S -> X -> Prop)
    (l : list A) (x : X) (s : S) (x' : X) (s' : S) :
  (forall x a s x' s', a ∈ l -> I s x -> f x a s = (s', Ok x') -> I s' x') ->
  I s x -> st_foldM f x l s = (s', Ok x') -> I s' x'.
Proof.
  revert x s. induction l as [| a l IH]; intros x s Hf Hx.
  - cbn [st_foldM]. intros Hr. apply st_ret_inv in Hr. destruct Hr as [-> ->]. exact Hx.
  - cbn [st_foldM]. intros Hr. apply st_bind_Ok_inv in Hr.
    destruct Hr as (x1 & s1 & H1 & Hr). apply (IH x1 s1); [| | exact Hr].
    + intros x2 b s2 x3 s3 Hb. apply Hf. right. exact Hb.
    + apply (Hf x a s x1 s1); [left | exact Hx | exact H1].
Qed.

Lemma mapM_Ok {A B} (f : A -> result B) (g : A -> B) (l : list A) :
  Forall (fun x => f x = Ok (g x)) l -> mapM f l = Ok (map g l).
Proof.
  induction 1 as [| x l Hx _ IH]; [reflexivity |].
  cbn [mapM]. rewrite Hx, bind_Ok, IH. reflexivity.
Qed.

Lemma mapM_map {A B C} (f : B -> result C) (h : A -> B) (l : list A) :
  mapM f (map h l) = mapM (fun x => f (h x)) l.
Proof.
  induction l as [| x l IH]; [reflexivity |].
  cbn [map mapM]. rewrite IH. reflexivity.
Qed.

(** ** [np.unique] *)

Lemma insert_unique_In (x y : Z) (u : list Z) :
  In y (insert_unique x u) <-> y = x \/ In y u.
Proof.
  induction u as [| z u IH]; cbn [insert_unique].
  - cbn. intuition.
  - destruct (Z.ltb_spec x z); [cbn; intuition |].
    destruct (Z.eqb_spec x z); [subst; cbn; intuition |].
    cbn [In]. rewrite IH. intuition.
Qed.

Lemma sorted_unique_In (x : Z) (ar : list Z) :
  In x (sorted_unique ar) <-> In x ar.
Proof.
  induction ar as [| y ar IH]; [reflexivity |].
  cbn [sorted_unique foldr]. fold (sorted_unique ar).
  rewrite insert_unique_In, IH. cbn. intuition.
Qed.

Lemma insert_unique_increasing (x : Z) (u : list Z) :
  increasing u -> increasing (insert_unique x u).
Proof.
  induction 1 as [| z u Hz Hu IH]; cbn [insert_unique].
  - repeat constructor.
  - destruct (Z.ltb_spec x z).
    + constructor; [| constructor; assumption].
      constructor; [assumption |].
      eapply Forall_impl; [exact Hz |]. cbn. intros. lia.
    + destruct (Z.eqb_spec x z); [constructor; assumption |].
      constructor; [| assumption].
      apply Forall_forall. intros y Hy.
      rewrite list_elem_of_In, insert_unique_In in Hy. destruct Hy as [-> | Hy]; [lia |].
      rewrite Forall_forall in Hz. apply Hz. rewrite list_elem_of_In. exact Hy.
Qed.

Lemma sorted_unique_increasing (ar : list Z) : increasing (sorted_unique ar).
Proof.
  induction ar; [constructor |].
  apply insert_unique_increasing. assumption.
Qed.

Lemma increasing_NoDup (u : list Z) : increasing u -> NoDup u.
Proof.
  induction 1 as [| x u Hx _ IH]; constructor; [| assumption].
  intros Hin. rewrite Forall_forall in Hx. specialize (Hx _ Hin). lia.
Qed.

Lemma index_of_lookup (x : Z) (l : list Z) :
  In x l -> l !! index_of x l = Some x.
Proof.
  induction l as [| y l IH]; [intros [] |].
  intros Hin. cbn [index_of].
  destruct (Z.eqb_spec x y); [subst; reflexivity |].
  destruct Hin as [-> | Hin]; [congruence |]. cbn. auto.
Qed.

Lemma index_of_first (x : Z) (l : list Z) (j : nat) :
  (j < index_of x l)%nat -> l !! j <> Some x.
Proof.
  revert j. induction l as [| y l IH]; intros j; cbn [index_of]; [lia |].
  destruct (Z.eqb_spec x y); [lia |].
  destruct j; cbn; [congruence |]. intros Hj. apply IH. lia.
Qed.

(** ** Loading blobs *)

Section Blobs.
Context {B : Type}.
Implicit Types (barray : list B) (refs : list Z).

(** A negative reference stops [_smart_load_blobs] at its assertion,
    before the VLArray is read. *)
Lemma _smart_load_blobs_negative barray refs :
  Exists (fun r => r < 0) refs ->
  _smart_load_blobs barray refs = Raise AssertionError.
Proof.
  intros Hex. unfold _smart_load_blobs, np_unique.
  replace (forallb (fun r => 0 <=? r) (sorted_unique refs)) with false; [reflexivity |].
  symmetry. apply not_true_is_false. intros Hall.
  rewrite forallb_forall in Hall.
  apply Exists_exists in Hex. destruct Hex as (r & Hr & Hneg).
  rewrite list_elem_of_In, <- sorted_unique_In in Hr.
  apply Hall in Hr. lia.
Qed.

Lemma _smart_load_blobs_assert_passes refs :
  Forall (fun r => 0 <= r) refs ->
  forallb (fun r => 0 <=? r) (sorted_unique refs) = true.
Proof.
  intros Hall. apply forallb_forall. intros r Hr.
  rewrite sorted_unique_In, <- list_elem_of_In in Hr.
  rewrite Forall_forall in Hall. specialize (Hall _ Hr). lia.
Qed.

(** Without negative references the assertion is never the outcome. *)
Lemma _smart_load_blobs_nonneg barray refs :
  Forall (fun r => 0 <= r) refs ->
  _smart_load_blobs barray refs <> Raise AssertionError.
Proof.
  intros Hall. unfold _smart_load_blobs, np_unique.
  rewrite (_smart_load_blobs_assert_passes refs Hall).
  cbn [py_assert]. rewrite bind_Ok.
  destruct (mapM _ (sorted_unique refs)) as [objlist | e] eqn:E1.
  - rewrite bind_Ok.
    generalize (map (fun x => index_of x (sorted_unique refs)) refs) as idx.
    induction idx as [| i idx IH]; cbn [mapM]; [discriminate |].
    destruct (objlist !! i); cbn [of_option]; [| discriminate].
    rewrite bind_Ok. destruct (mapM _ idx); [discriminate | exact IH].
  - rewrite bind_Raise. intros [= ->].
    revert E1. generalize (sorted_unique refs) as u.
    induction u as [| r u IH]; cbn [mapM]; [discriminate |].
    destruct (barray !! Z.to_nat r); cbn [of_option]; [| discriminate].
    rewrite bind_Ok. destruct (mapM _ u); [discriminate |].
    rewrite bind_Raise. intros [= ->]. apply IH. reflexivity.
Qed.

(** Valid references: every position gets the element its reference
    names. *)
Lemma _smart_load_blobs_Ok (d : B) barray refs :
  Forall (fun r => 0 <= r /\ (Z.to_nat r < length barray)%nat) refs ->
  _smart_load_blobs barray refs = Ok (map (vl_get d barray) refs).
Proof.
  intros Hall. unfold _smart_load_blobs, np_unique.
  rewrite _smart_load_blobs_assert_passes
    by (eapply Forall_impl; [exact Hall | cbn; tauto]).
  cbn [py_assert]. rewrite bind_Ok.
  rewrite (mapM_Ok _ (vl_get d barray)); cycle 1.
  { apply Forall_forall. intros r Hr.
    rewrite list_elem_of_In, sorted_unique_In, <- list_elem_of_In in Hr.
    rewrite Forall_forall in Hall. destruct (Hall _ Hr) as [_ Hlt].
    unfold vl_get. destruct (lookup_lt_is_Some_2 barray _ Hlt) as [b ->]. reflexivity. }
  rewrite bind_Ok, mapM_map.
  apply mapM_Ok, Forall_forall. intros r Hr.
  rewrite list_lookup_fmap, index_of_lookup; [reflexivity |].
  rewrite sorted_unique_In, <- list_elem_of_In. exact Hr.
Qed.

Lemma mask_select_filter {A} (p : A -> bool) (l : list A) :
  mask_select l (map p l) = List.filter p l.
Proof.
  induction l as [| x l IH]; [reflexivity |].
  cbn. destruct (p x); rewrite IH; reflexivity.
Qed.

(** Filling the positions selected by [p] and then those selected by its
    complement, each from the list computed for that side, is a map. *)
Lemma mask_assign_partition {A} (p : A -> bool) (f g : A -> B) (d : B) (l : list A) :
  mask_assign
    (mask_assign (replicate (length l) d) (map p l) (map f (List.filter p l)))
    (map (fun x => negb (p x)) l) (map g (List.filter (fun x => negb (p x)) l))
  = map (fun x => if p x then f x else g x) l.
Proof.
  induction l as [| x l IH]; [reflexivity |].
  cbn. destruct (p x); cbn; rewrite IH; reflexivity.
Qed.
End Blobs.

Section FetchBlobs.
Context {B : Type} (py_none : B).

Lemma _fetch_blobs_fp_main_only (fp : Tablet B) column (refs : ndarray Z)
    (include_cached : bool) (b1 : list B) :
  include_cached = false \/ cached fp = None ->
  blob_array (main fp) column = Ok b1 ->
  _fetch_blobs_fp py_none fp column refs include_cached =
    (blobs ← _smart_load_blobs b1 (data refs); Ok (reshape (shape refs) blobs)).
Proof.
  intros Hside Hb1. unfold _fetch_blobs_fp, flatten. rewrite Hb1, bind_Ok.
  destruct Hside as [-> | ->]; [reflexivity |].
  destruct include_cached; reflexivity.
Qed.

(** C10: when only [main] is read (no [include_cached], or no [cached]
    group in the file), a negative reference anywhere in [refs] makes the
    load fail on the assertion of [_smart_load_blobs] and no blob array is
    returned; with all references non-negative the assertion never
    fires, and with all of them inside the VLArray the blobs come back. *)
Theorem fetch_blobs_main_only_rejects_negative_refs
    (fp : Tablet B) (column : string) (refs : ndarray Z)
    (include_cached : bool) (b1 : list B) :
  include_cached = false \/ cached fp = None ->
  blob_array (main fp) column = Ok b1 ->
  (Exists (fun r => r < 0) (data refs) ->
     _fetch_blobs_fp py_none fp column refs include_cached = Raise AssertionError) /\
  (Forall (fun r => 0 <= r) (data refs) ->
     _fetch_blobs_fp py_none fp column refs include_cached <> Raise AssertionError) /\
  (Forall (fun r => 0 <= r /\ (Z.to_nat r < length b1)%nat) (data refs) ->
     _fetch_blobs_fp py_none fp column refs include_cached =
       Ok (NdArray (shape refs) (map (vl_get py_none b1) (data refs)))).
Proof.
  intros Hside Hb1.
  rewrite (_fetch_blobs_fp_main_only fp column refs include_cached b1 Hside Hb1).
  repeat split.
  - intros Hneg. rewrite (_smart_load_blobs_negative b1 _ Hneg). reflexivity.
  - intros Hpos. pose proof (_smart_load_blobs_nonneg b1 _ Hpos) as Hne.
    destruct (_smart_load_blobs b1 (data refs)) as [blobs | e]; [discriminate |].
    rewrite bind_Raise. congruence.
  - intros Hok. rewrite (_smart_load_blobs_Ok py_none b1 _ Hok). reflexivity.
Qed.

(** C5: with [include_cached] and a [cached] group in the file, valid
    references are resolved side by side: a non-negative [r] to element
    [r] of [main/blobs/<col>], a negative [r] to element [-r] of
    [cached/blobs/<col>]; the result has the shape of [refs] and holds,
    at each position, the blob of the reference at that position. *)
Theorem fetch_blobs_with_cache_resolves
    (fp : Tablet B) (column : string) (refs : ndarray Z)
    (c : RowGroup B) (b1 b2 : list B) :
  cached fp = Some c ->
  blob_array (main fp) column = Ok b1 ->
  blob_array (cached fp) column = Ok b2 ->
  Z.of_nat (length b2) <= 2 ^ 63 ->
  Forall (fun r => (0 <= r -> (Z.to_nat r < length b1)%nat) /\
                   (r < 0 -> (Z.to_nat (- r) < length b2)%nat)) (data refs) ->
  exists blobs,
    _fetch_blobs_fp py_none fp column refs true = Ok blobs /\
    shape blobs = shape refs /\
    Forall2 (fun r b => (0 <= r -> b1 !! Z.to_nat r = Some b) /\
                        (r < 0 -> b2 !! Z.to_nat (- r) = Some b))
            (data refs) (data blobs).
Proof.
  intros Hc Hb1 Hb2 Hlen Hall.
  set (f := fun r => vl_get py_none b1 r).
  set (g := fun r => vl_get py_none b2 (neg_int64 r)).
  set (p := fun r => 0 <=? r).
  assert (Hneg : forall r, r < 0 -> (Z.to_nat (- r) < length b2)%nat -> neg_int64 r = - r).
  { intros r Hr Hin. unfold neg_int64, wrap_int64.
    assert (- r < 2 ^ 63) by lia.
    rewrite Z.mod_small by lia. lia. }
  exists (NdArray (shape refs) (map (fun r => if p r then f r else g r) (data refs))).
  split; [| split; [reflexivity |]].
  - unfold _fetch_blobs_fp, flatten. rewrite Hb1, bind_Ok.
    rewrite Hc in Hb2 |- *. rewrite Hb2, bind_Ok.
    fold p. rewrite (mask_select_filter p).
    rewrite (_smart_load_blobs_Ok py_none b1); cycle 1.
    { apply Forall_forall. intros r Hr.
      rewrite list_elem_of_In, filter_In, <- list_elem_of_In in Hr. destruct Hr as [Hr Hp].
      rewrite Forall_forall in Hall. destruct (Hall _ Hr) as [H1 _].
      unfold p in Hp. apply Z.leb_le in Hp. auto. }
    rewrite bind_Ok.
    replace (map (fun r => r <? 0) (data refs))
      with (map (fun r => negb (p r)) (data refs))
      by (apply map_ext; intros r; unfold p; symmetry; apply Z.ltb_antisym).
    rewrite (mask_select_filter (fun r => negb (p r))).
    rewrite (_smart_load_blobs_Ok py_none b2); cycle 1.
    { apply Forall_forall. intros r' Hr'.
      rewrite list_elem_of_In, in_map_iff in Hr'. destruct Hr' as (r & <- & Hr).
      rewrite filter_In, <- list_elem_of_In in Hr. destruct Hr as [Hr Hp].
      rewrite Forall_forall in Hall. destruct (Hall _ Hr) as [_ H2].
      unfold p in Hp. apply negb_true_iff, Z.leb_gt in Hp.
      rewrite (Hneg r Hp (H2 Hp)). split; [lia | auto]. }
    rewrite bind_Ok, map_map. fold g. fold f.
    rewrite (mask_assign_partition p f g py_none). reflexivity.
  - cbn [data]. apply Forall2_fmap_r, Forall_Forall2_diag.
    eapply Forall_impl; [exact Hall |]. cbn. intros r [H1 H2].
    unfold p, f, g, vl_get.
    destruct (Z.leb_spec 0 r) as [Hr | Hr]; (split; [intros Hr' | intros Hr']; try lia).
    + destruct (lookup_lt_is_Some_2 b1 _ (H1 Hr)) as [b ->]. reflexivity.
    + rewrite (Hneg r Hr (H2 Hr)).
      destruct (lookup_lt_is_Some_2 b2 _ (H2 Hr)) as [b ->]. reflexivity.
Qed.
End FetchBlobs.

(** ** Reading tablets *)

Example example_fs_static_exists :
  tablet_exists stars example_fs static_cell (Some "main") = Ok true /\
  tablet_exists stars example_fs temporal_cell (Some "main") = Ok false /\
  static_if_no_temporal stars example_fs temporal_cell = Ok static_cell.
Proof. vm_compute. auto. Qed.

Lemma ra_negate_fields (r r' : RecArray) (fld : string) :
  ra_negate r fld = Ok r' -> map fst r' = map fst r.
Proof.
  unfold ra_negate. destruct (existsb _ r); [| discriminate].
  intros [= <-]. rewrite map_map. apply map_ext.
  intros [n c]. cbn. destruct (String.eqb n fld); reflexivity.
Qed.

(** Negating the columns named in a duplicate-free list, one after the
    other, negates each named column once and leaves the others alone. *)
Lemma ra_negate_all_spec (flds : list string) (r : RecArray) :
  NoDup flds ->
  Forall (fun f => f ∈ map fst r) flds ->
  ra_negate_all r flds =
    Ok (map (fun c => if bool_decide (fst c ∈ flds)
                      then (fst c, map neg_int64 (snd c)) else c) r).
Proof.
  intros Hnd. revert r. induction Hnd as [| f fs Hnotin Hnd IH]; intros r Hall.
  - cbn. f_equal. symmetry. rewrite <- (map_id r) at 2. apply map_ext.
    intros c. rewrite bool_decide_eq_false_2; [reflexivity | apply not_elem_of_nil].
  - apply Forall_cons in Hall. destruct Hall as [Hf Hall].
    cbn [ra_negate_all]. unfold ra_negate at 1.
    assert (Hex : existsb (fun c => String.eqb (fst c) f) r = true).
    { apply existsb_exists. apply list_elem_of_In, in_map_iff in Hf.
      destruct Hf as (c & <- & Hc). exists c. split; [exact Hc | apply String.eqb_refl]. }
    rewrite Hex, bind_Ok. rewrite IH; cycle 1.
    { eapply Forall_impl; [exact Hall |]. cbn. intros g Hg.
      rewrite map_map. erewrite map_ext; [exact Hg |].
      intros [n c]. cbn. destruct (String.eqb n f); reflexivity. }
    f_equal. rewrite map_map. apply map_ext. intros [n c]. cbn.
    destruct (String.eqb_spec n f) as [-> | Hne]; cbn.
    + rewrite (bool_decide_eq_false_2 (f ∈ fs)) by exact Hnotin.
      rewrite (bool_decide_eq_true_2 (f ∈ f :: fs)) by apply list_elem_of_here.
      reflexivity.
    + destruct (decide (n ∈ fs)) as [Hin | Hout].
      * rewrite (bool_decide_eq_true_2 _ Hin).
        rewrite (bool_decide_eq_true_2 (n ∈ f :: fs)) by (apply list_elem_of_further, Hin).
        reflexivity.
      * rewrite (bool_decide_eq_false_2 _ Hout).
        rewrite (bool_decide_eq_false_2 (n ∈ f :: fs)); [reflexivity |].
        intros H. inversion H; subst; tauto.
Qed.

Lemma blob_columns_NoDup (schema : Schema) : NoDup (blob_columns schema).
Proof.
  unfold blob_columns. destruct (sc_blobs schema); [| constructor].
  apply NoDup_fst_map_to_list.
Qed.

Section ReadPath.
Context `{Pixelization} {B : Type}.
Implicit Types (t : Table) (fs : FS B).

(** C4, amended: for a cgroup that is not a pseudo-cgroup, [fetch_tablet]
    reads the cell [c] that [static_if_no_temporal] gives for [cell_id].
    When the tablet file of [c] does not exist the result is the empty
    array with the cgroup's columns.  When it exists the result is the
    rows of [main]; with [include_cached] and a [cached] group in the
    file, the rows of [cached], every blob-reference column negated,
    follow the rows of [main]. *)
Theorem fetch_tablet_reads_effective_cell t fs (cell_id : Z) (cgroup : string)
    (include_cached : bool) (c : Z) (schema : Schema) :
  _is_pseudotablet cgroup = Ok false ->
  static_if_no_temporal t fs cell_id = Ok c ->
  _get_schema t (Some cgroup) = Ok schema ->
  (tablet_exists t fs c (Some cgroup) = Ok false ->
     fetch_tablet t fs cell_id (Some cgroup) include_cached
       = Ok (Rows (ra_empty (sc_columns schema)))) /\
  (forall fp m,
     tablet_exists t fs c (Some cgroup) = Ok true ->
     _open_tablet_r t fs c cgroup = Ok fp ->
     main fp = Some m ->
     (include_cached = false \/ cached fp = None ->
        fetch_tablet t fs cell_id (Some cgroup) include_cached
          = Ok (Rows (rg_table m))) /\
     (forall k,
        include_cached = true ->
        cached fp = Some k ->
        Forall (fun b => b ∈ map fst (rg_table k)) (blob_columns schema) ->
        fetch_tablet t fs cell_id (Some cgroup) include_cached
          = Ok (Rows (ra_append (rg_table m)
                        (negate_blob_columns schema (rg_table k)))))).
Proof.
  intros Hps Hcell Hschema. unfold fetch_tablet.
  rewrite Hcell, bind_Ok. cbn [of_option]. rewrite bind_Ok, Hps, bind_Ok.
  split.
  - intros ->. rewrite bind_Ok, Hschema. reflexivity.
  - intros fp m -> Hopen Hmain. rewrite bind_Ok, Hopen, bind_Ok, Hmain.
    cbn [of_option]. rewrite bind_Ok. split.
    + intros [-> | ->]; [reflexivity |]. destruct include_cached; reflexivity.
    + intros k -> -> Hflds. rewrite Hschema, bind_Ok.
      unfold negate_blob_columns.
      pose proof (ra_negate_all_spec (blob_columns schema) (rg_table k)
                    (blob_columns_NoDup schema) Hflds) as Hneg.
      unfold blob_columns in Hneg at 1. unfold blob_columns at 1 in Hflds.
      destruct (sc_blobs schema) as [blobs |] eqn:Eb.
      * rewrite Hneg. reflexivity.
      * rewrite bind_Ok. cbn in Hneg. injection Hneg as Hneg.
        rewrite <- Hneg. reflexivity.
Qed.

(** C6: the pseudo-columns of a cell.  Without a tablet of the primary
    cgroup all three columns are empty.  With one, [n_main] rows in
    [main] and [n_cached] rows in [cached] (counted only under
    [include_cached] and when the group exists), the columns have length
    [n_main + n_cached]; [_CACHED] is [n_main] times false followed by
    [n_cached] times true, [_ROWIDX] counts from zero, and [_ROWID] is
    [id_for_cell_i cell_id] of [_ROWIDX]. *)
Theorem fetch_pseudotablet_columns t fs (cell_id : Z) (include_cached : bool) :
  (tablet_exists t fs cell_id (primary_cgroup t) = Ok false ->
     _fetch_pseudotablet t fs cell_id "_PSEUDOCOLS" include_cached
       = Ok (PseudoCols [] [] [])) /\
  (forall pc fp m,
     primary_cgroup t = Some pc ->
     tablet_exists t fs cell_id (Some pc) = Ok true ->
     _open_tablet_r t fs cell_id pc = Ok fp ->
     main fp = Some m ->
     let n_main := ra_len (rg_table m) in
     let n_cached := match cached fp with
                     | Some k => if include_cached then ra_len (rg_table k) else O
                     | None => O
                     end in
     let n := (n_main + n_cached)%nat in
     exists col_cached col_rowidx col_rowid,
       _fetch_pseudotablet t fs cell_id "_PSEUDOCOLS" include_cached
         = Ok (PseudoCols col_cached col_rowidx col_rowid) /\
       length col_cached = n /\ length col_rowidx = n /\ length col_rowid = n /\
       col_cached = replicate n_main false ++ replicate n_cached true /\
       (forall i, (i < n)%nat ->
          col_cached !! i = Some (bool_decide (n_main <= i)%nat) /\
          col_rowidx !! i = Some (Z.of_nat i) /\
          col_rowid !! i = Some (id_for_cell_i cell_id (Z.of_nat i))) /\
       col_rowid = map (id_for_cell_i cell_id) col_rowidx).
Proof.
  split.
  - unfold _fetch_pseudotablet. intros ->. reflexivity.
  - intros pc fp m Hpc Hex Hopen Hmain n_main n_cached n.
    unfold _fetch_pseudotablet.
    change (py_assert ("_PSEUDOCOLS" =? "_PSEUDOCOLS")%string) with (Ok tt).
    rewrite bind_Ok, Hpc, Hex. cbn [of_option]. rewrite !bind_Ok, Hopen, bind_Ok, Hmain.
    cbn [of_option]. rewrite !bind_Ok.
    assert (Hn2 : match include_cached, cached fp with
                  | true, Some c => ra_len (rg_table c)
                  | _, _ => O
                  end = n_cached).
    { subst n_cached. destruct include_cached, (cached fp); reflexivity. }
    rewrite Hn2. fold n_main. fold n.
    replace (n - n_main)%nat with n_cached by (subst n; lia).
    eexists _, _, _. split; [reflexivity |].
    repeat split.
    + rewrite length_app, !length_replicate. reflexivity.
    + rewrite length_map, length_seq. reflexivity.
    + rewrite !length_map, length_seq. reflexivity.
    + destruct (decide (i < n_main)%nat) as [Hlt | Hge].
      * rewrite lookup_app_l by (rewrite length_replicate; exact Hlt).
        rewrite lookup_replicate_2 by exact Hlt.
        rewrite bool_decide_eq_false_2 by lia. reflexivity.
      * rewrite lookup_app_r by (rewrite length_replicate; lia).
        rewrite length_replicate, lookup_replicate_2 by (subst n; lia).
        rewrite bool_decide_eq_true_2 by lia. reflexivity.
    + rewrite list_lookup_fmap, lookup_seq_lt by assumption. reflexivity.
    + rewrite !list_lookup_fmap, lookup_seq_lt by assumption. reflexivity.
Qed.
End ReadPath.

Lemma fetch_tablet_reads_effective_cell_witness :
  fetch_tablet stars example_fs temporal_cell (Some "main") true
    = Ok (Rows [("obj_id", [281474976710657; 281474976710658; 562949953421313]);
                ("ra", [10; 20; 30]); ("dec", [-5; 5; 7]);
                ("spectrum", [1; 0; -1])]).
Proof.
  assert (Hcell : static_if_no_temporal stars example_fs temporal_cell = Ok static_cell)
    by (vm_compute; reflexivity).
  destruct (fetch_tablet_reads_effective_cell stars example_fs temporal_cell
              "main" true static_cell stars_schema eq_refl Hcell eq_refl)
    as [_ Hex].
  assert (Hexists : tablet_exists stars example_fs static_cell (Some "main") = Ok true)
    by (vm_compute; reflexivity).
  assert (Hopen : _open_tablet_r stars example_fs static_cell "main"
                  = Ok {| main := Some example_main; cached := Some example_cached |})
    by (vm_compute; reflexivity).
  destruct (Hex _ example_main Hexists Hopen eq_refl) as [_ Hcached].
  rewrite (Hcached example_cached eq_refl eq_refl).
  - vm_compute. reflexivity.
  - vm_compute. repeat constructor.
Defined.

(** C4 as stated fails at a temporal cell without a tablet whose static
    cell is populated: the tablet file of [temporal_cell] does not exist,
    and [fetch_tablet] returns the rows of the static cell instead of an
    empty array. *)
Lemma fetch_tablet_missing_file_not_empty :
  tablet_exists stars example_fs temporal_cell (Some "main") = Ok false /\
  fetch_tablet stars example_fs temporal_cell (Some "main") false
    = Ok (Rows (rg_table example_main)) /\
  fetch_tablet stars example_fs temporal_cell (Some "main") false
    <> Ok (Rows (ra_empty (sc_columns stars_schema))).
Proof.
  split; [vm_compute; reflexivity |].
  assert (E : fetch_tablet stars example_fs temporal_cell (Some "main") false
              = Ok (Rows (rg_table example_main))) by (vm_compute; reflexivity).
  split; [exact E |]. rewrite E. discriminate.
Qed.

Lemma fetch_pseudotablet_columns_witness :
  exists col_rowidx col_rowid,
    _fetch_pseudotablet stars example_fs static_cell "_PSEUDOCOLS" true
      = Ok (PseudoCols [false; false; true] col_rowidx col_rowid) /\
    col_rowidx !! 2%nat = Some 2 /\
    col_rowid !! 2%nat = Some 281474976710658.
Proof.
  destruct (fetch_pseudotablet_columns stars example_fs static_cell true) as [_ Hex].
  assert (Hexists : tablet_exists stars example_fs static_cell (Some "main") = Ok true)
    by (vm_compute; reflexivity).
  assert (Hopen : _open_tablet_r stars example_fs static_cell "main"
                  = Ok {| main := Some example_main; cached := Some example_cached |})
    by (vm_compute; reflexivity).
  destruct (Hex "main" _ example_main eq_refl Hexists Hopen eq_refl)
    as (c & ri & rid & Hfetch & _ & _ & _ & Hc & Hi & _).
  exists ri, rid. destruct (Hi 2%nat) as (_ & H2 & H3); [cbn; lia |].
  cbn in Hc. subst c. auto.
Defined.

(** ** OrderedDict *)

Lemma od_set_fresh {V} (d : list (string * V)) (k : string) (v : V) :
  k ∉ map fst d -> OrderedDict.set d k v = d ++ [(k, v)].
Proof.
  induction d as [| [k' v'] d IH]; intros Hk; [reflexivity |].
  cbn [OrderedDict.set]. cbn in Hk.
  destruct (String.eqb_spec k' k) as [-> | Hne].
  - exfalso. apply Hk. left.
  - cbn. f_equal. apply IH. intros Hin. apply Hk. right. exact Hin.
Qed.

Lemma od_set_keys {V} (d : list (string * V)) (k : string) (v : V) :
  map fst (OrderedDict.set d k v) =
    if bool_decide (k ∈ map fst d) then map fst d else map fst d ++ [k].
Proof.
  induction d as [| [k' v'] d IH]; [reflexivity |].
  cbn [OrderedDict.set]. destruct (String.eqb_spec k' k) as [-> | Hne].
  - cbn. rewrite bool_decide_eq_true_2 by left. reflexivity.
  - cbn [map fst]. rewrite IH. destruct (decide (k ∈ map fst d)) as [Hin | Hout].
    + rewrite !bool_decide_eq_true_2; [reflexivity | right; exact Hin | exact Hin].
    + rewrite !bool_decide_eq_false_2; [reflexivity | | exact Hout].
      intros Hin. inversion Hin; subst; congruence.
Qed.

Lemma od_fold_set_keys {V} (l acc : list (string * V)) :
  NoDup (map fst acc) ->
  NoDup (map fst (fold_left (fun d kv => OrderedDict.set d (fst kv) (snd kv)) l acc)) /\
  (forall k, k ∈ map fst (fold_left (fun d kv => OrderedDict.set d (fst kv) (snd kv)) l acc) ->
             k ∈ map fst acc \/ k ∈ map fst l).
Proof.
  revert acc. induction l as [| [k v] l IH]; intros acc Hnd; cbn [fold_left].
  - split; [exact Hnd | auto].
  - destruct (IH (OrderedDict.set acc k v)) as [Hnd' Hsub].
    { rewrite od_set_keys. case_bool_decide; [exact Hnd |].
      apply NoDup_app. split; [exact Hnd |]. split; [| apply NoDup_singleton].
      intros x Hx Hx'. apply list_elem_of_singleton in Hx'. subst. contradiction. }
    split; [exact Hnd' |]. intros k' Hk'. apply Hsub in Hk'. cbn [map fst].
    rewrite od_set_keys in Hk'. destruct Hk' as [Hk' | Hk'].
    + case_bool_decide; [left; exact Hk' |].
      apply elem_of_app in Hk'. destruct Hk' as [Hk' | Hk']; [left; exact Hk' |].
      apply list_elem_of_singleton in Hk'. subst. right. left.
    + right. right. exact Hk'.
Qed.

Lemma od_of_pairs_NoDup {V} (l : list (string * V)) :
  NoDup (map fst (OrderedDict.of_pairs l)).
Proof. apply od_fold_set_keys. constructor. Qed.

Lemma od_of_pairs_keys {V} (l : list (string * V)) (k : string) :
  k ∈ map fst (OrderedDict.of_pairs l) -> k ∈ map fst l.
Proof.
  intros Hk. destruct (od_fold_set_keys l [] (NoDup_nil_2)) as [_ Hsub].
  destruct (Hsub k Hk) as [Hnil | Hl]; [inversion Hnil | exact Hl].
Qed.

(** Rebuilding an OrderedDict from its own items gives it back. *)
Lemma od_fold_set_unique {V} (l acc : list (string * V)) :
  NoDup (map fst (acc ++ l)) ->
  fold_left (fun d kv => OrderedDict.set d (fst kv) (snd kv)) l acc = acc ++ l.
Proof.
  revert acc. induction l as [| [k v] l IH]; intros acc Hnd; cbn [fold_left].
  - rewrite app_nil_r. reflexivity.
  - cbn [fst snd]. rewrite od_set_fresh.
    + rewrite IH; rewrite <- app_assoc; [reflexivity | exact Hnd].
    + rewrite map_app in Hnd. apply NoDup_app in Hnd. destruct Hnd as (_ & Hdisj & _).
      intros Hin. apply (Hdisj k Hin). left.
Qed.

Lemma od_of_pairs_unique {V} (l : list (string * V)) :
  NoDup (map fst l) -> OrderedDict.of_pairs l = l.
Proof. intros Hnd. unfold OrderedDict.of_pairs. rewrite od_fold_set_unique; auto. Qed.

(** ** Schema persistence *)

Example load_stars_cfg : _load_schema (blank_table "/db/stars") stars_cfg = Ok stars.
Proof. vm_compute. reflexivity. Qed.

Section SchemaRoundTrip.
Context `{NumpyDtype}.

Lemma stored_cgroups_plain (l : list (string * Schema)) :
  Forall (fun cg => _is_pseudotablet (fst cg) = Ok false) l ->
  stored_cgroups l = Ok l.
Proof.
  induction 1 as [| [n s] l Hn _ IH]; [reflexivity |].
  cbn [stored_cgroups]. cbn in Hn. rewrite Hn, bind_Ok, IH. reflexivity.
Qed.

Lemma stored_cgroups_app (l l' r r' : list (string * Schema)) :
  stored_cgroups l = Ok r -> stored_cgroups l' = Ok r' ->
  stored_cgroups (l ++ l') = Ok (r ++ r').
Proof.
  revert r. induction l as [| [n s] l IH]; intros r.
  - intros [= <-]. auto.
  - cbn [stored_cgroups app]. destruct (_is_pseudotablet n) as [p |]; [| discriminate].
    rewrite !bind_Ok. destruct (stored_cgroups l) as [rest |]; [| discriminate].
    rewrite bind_Ok. intros [= <-] Hl'. rewrite (IH rest eq_refl Hl'), bind_Ok.
    destruct p; reflexivity.
Qed.

Lemma pseudo_name_not_plain (l : list (string * Schema)) :
  Forall (fun cg => _is_pseudotablet (fst cg) = Ok false) l ->
  "_PSEUDOCOLS" ∉ map fst l.
Proof.
  intros Hall Hin. apply list_elem_of_fmap in Hin. destruct Hin as ([n s] & Hn & Hin).
  rewrite Forall_forall in Hall. specialize (Hall _ Hin). cbn in Hn, Hall.
  subst n. discriminate Hall.
Qed.

(** What [_store_schema] keeps of the cgroups of a freshly loaded table. *)
Lemma stored_cgroups_loaded (cgs : list (string * Schema)) :
  Forall (fun cg => _is_pseudotablet (fst cg) = Ok false) cgs ->
  stored_cgroups
    (OrderedDict.set (OrderedDict.of_pairs cgs) "_PSEUDOCOLS" _PSEUDOCOLS_schema)
  = Ok (OrderedDict.of_pairs cgs).
Proof.
  intros Hall.
  assert (Hall' : Forall (fun cg => _is_pseudotablet (fst cg) = Ok false)
                    (OrderedDict.of_pairs cgs)).
  { apply Forall_forall. intros [n s] Hin.
    assert (Hk : n ∈ map fst cgs).
    { apply od_of_pairs_keys. apply list_elem_of_fmap. exists (n, s). auto. }
    apply list_elem_of_fmap in Hk. destruct Hk as ([n' s'] & -> & Hin').
    rewrite Forall_forall in Hall. exact (Hall _ Hin'). }
  rewrite od_set_fresh by (apply pseudo_name_not_plain, Hall').
  rewrite <- (app_nil_r (OrderedDict.of_pairs cgs)) at 2.
  apply stored_cgroups_app; [apply stored_cgroups_plain, Hall' | reflexivity].
Qed.

(** A second rebuild over the same cgroups, starting from the attributes
    the first one left, changes nothing. *)
Lemma _rebuild_internal_schema_again (t t1 t' : Table) :
  _rebuild_internal_schema t = Ok t1 ->
  _cgroups t' = _cgroups t ->
  path t' = path t -> name t' = name t -> _nrows t' = _nrows t ->
  pix t' = pix t -> _fgroups t' = _fgroups t -> _filters t' = _filters t ->
  _aliases t' = _aliases t ->
  primary_key t' = primary_key t1 ->
  spatial_keys t' = spatial_keys t1 ->
  temporal_key t' = temporal_key t1 ->
  _rebuild_internal_schema t' = Ok t1.
Proof.
  unfold _rebuild_internal_schema.
  intros Hr Hcg Hp Hn Hnr Hpix Hfg Hfl Hal Hpk Hsk Htk.
  rewrite Hcg. destruct (rebuild_loop _ (_cgroups t)) as [st |]; [| discriminate].
  rewrite bind_Ok in Hr |- *. injection Hr as <-. cbn in Hpk, Hsk, Htk.
  rewrite Hp, Hn, Hnr, Hpix, Hfg, Hfl, Hal, Hpk, Hsk, Htk. f_equal. f_equal.
  - destruct (rb_primary_key st); reflexivity.
  - destruct (rb_spatial_keys st) as [[lon lat] |]; [| reflexivity].
    destruct (OrderedDict.get (rb_columns st) lon); [| reflexivity].
    destruct (OrderedDict.get (rb_columns st) lat); reflexivity.
  - destruct (rb_temporal_key st); reflexivity.
Qed.

Lemma _rebuild_internal_schema_keeps (t t1 : Table) :
  _rebuild_internal_schema t = Ok t1 ->
  path t1 = path t /\ name t1 = name t /\ _nrows t1 = _nrows t /\ pix t1 = pix t /\
  _cgroups t1 = _cgroups t /\ _fgroups t1 = _fgroups t /\
  _filters t1 = _filters t /\ _aliases t1 = _aliases t.
Proof.
  unfold _rebuild_internal_schema.
  destruct (rebuild_loop _ (_cgroups t)) as [st |]; [| discriminate].
  rewrite bind_Ok. intros [= <-]. cbn. tauto.
Qed.

(** C8, amended: let [schema.cfg] hold [data], with no cgroup whose name
    is empty or begins with an underscore (the names [_store_schema]
    leaves out).  If loading [data] gives the table state [t1], then
    storing [t1] succeeds, and loading the stored document again, into
    the same object, gives [t1] once more: name, row count,
    pixelization parameters, cgroups in order with [_PSEUDOCOLS] last,
    fgroups, filters, aliases and the rebuilt column index with its key
    attributes are all the same. *)
Theorem load_store_load (t : Table) (data : SchemaCfg) (cgs : list (string * Schema))
    (t1 : Table) :
  cfg_cgroups data = Some cgs ->
  Forall (fun cg => _is_pseudotablet (fst cg) = Ok false) cgs ->
  _load_schema t data = Ok t1 ->
  exists data',
    _store_schema t1 = Ok data' /\
    _load_schema t1 data' = Ok t1.
Proof.
  intros Hcgs Hplain Hload. unfold _load_schema in Hload.
  destruct (cfg_name data) as [nm |]; [| discriminate].
  destruct (cfg_level data) as [level |]; [| discriminate].
  destruct (cfg_t0 data) as [t0 |]; [| discriminate].
  destruct (cfg_dt data) as [dt |]; [| discriminate].
  rewrite Hcgs in Hload. cbn [of_option] in Hload. rewrite !bind_Ok in Hload.
  destruct (_rebuild_internal_schema_keeps _ _ Hload)
    as (Hp & Hn & Hnr & Hpix & Hcg & Hfg & Hfl & Hal).
  cbn in Hp, Hn, Hnr, Hpix, Hcg, Hfg, Hfl, Hal.
  unfold _store_schema. rewrite Hcg, (stored_cgroups_loaded cgs Hplain), bind_Ok.
  eexists. split; [reflexivity |].
  unfold _load_schema. cbn [cfg_name cfg_level cfg_t0 cfg_dt cfg_cgroups cfg_nrows
                            cfg_fgroups cfg_filters cfg_aliases of_option].
  rewrite !bind_Ok.
  rewrite (od_of_pairs_unique (OrderedDict.of_pairs cgs)) by apply od_of_pairs_NoDup.
  eapply _rebuild_internal_schema_again; [exact Hload | ..]; cbn; try reflexivity;
    try congruence.
  rewrite Hpix. reflexivity.
Qed.
End SchemaRoundTrip.

Lemma load_store_load_witness :
  exists data',
    _store_schema stars = Ok data' /\
    _load_schema stars data' = Ok stars.
Proof.
  apply (load_store_load (blank_table "/db/stars") stars_cfg
           [("main", stars_schema)] stars).
  - reflexivity.
  - repeat constructor.
  - vm_compute. reflexivity.
Defined.

(** C8 as stated fails for a [schema.cfg] that lists a cgroup with a
    reserved name: the first load keeps [_scratch] and its column, the
    stored document leaves it out, and the second load gives a state
    without them. *)
Lemma load_store_load_drops_reserved_cgroup :
  exists t1 data' t2,
    _load_schema (blank_table "/db/stars") reserved_cfg = Ok t1 /\
    _store_schema t1 = Ok data' /\
    _load_schema t1 data' = Ok t2 /\
    map fst (_cgroups t1) = ["main"; "_scratch"; "_PSEUDOCOLS"] /\
    map fst (_cgroups t2) = ["main"; "_PSEUDOCOLS"] /\
    t2 <> t1.
Proof.
  destruct (_load_schema (blank_table "/db/stars") reserved_cfg) as [t1 | e] eqn:E1;
    [| vm_compute in E1; discriminate E1].
  destruct (_store_schema t1) as [data' | e] eqn:E2;
    [| vm_compute in E1; injection E1 as <-; vm_compute in E2; discriminate E2].
  destruct (_load_schema t1 data') as [t2 | e] eqn:E3;
    [| vm_compute in E1; injection E1 as <-; vm_compute in E2; injection E2 as <-;
       vm_compute in E3; discriminate E3].
  exists t1, data', t2.
  vm_compute in E1. injection E1 as <-.
  vm_compute in E2. injection E2 as <-.
  vm_compute in E3. injection E3 as <-.
  repeat split; try reflexivity.
  intros Heq. apply (f_equal (fun t => length (_cgroups t))) in Heq.
  vm_compute in Heq. discriminate Heq.
Qed.

(** ** The write path: keys given by the caller *)

Lemma od_get_set {V} (d : list (string * V)) (k : string) (v : V) :
  OrderedDict.get (OrderedDict.set d k v) k = Some v.
Proof.
  induction d as [| [k' v'] d IH]; cbn.
  - rewrite String.eqb_refl. reflexivity.
  - destruct (String.eqb_spec k' k) as [-> | Hne]; cbn.
    + rewrite String.eqb_refl. reflexivity.
    + destruct (String.eqb_spec k' k); [contradiction | exact IH].
Qed.

Lemma od_get_set_other {V} (d : list (string * V)) (k k' : string) (v : V) :
  k <> k' -> OrderedDict.get (OrderedDict.set d k v) k' = OrderedDict.get d k'.
Proof.
  intros Hne. induction d as [| [k0 v0] d IH]; cbn.
  - destruct (String.eqb_spec k k'); [contradiction | reflexivity].
  - destruct (String.eqb_spec k0 k) as [-> | Hne0]; cbn.
    + destruct (String.eqb_spec k k'); [contradiction | reflexivity].
    + destruct (String.eqb_spec k0 k'); [reflexivity | exact IH].
Qed.

(** Masking a key with [0xFFFFFFFF00000000] leaves no object index. *)
Lemma obj_part_cell_part_mask (k : Z) : obj_part (cell_part_mask k) = 0.
Proof.
  unfold obj_part, cell_part_mask. rewrite <- Z.land_assoc. cbn. apply Z.land_0_r.
Qed.

(** The mask keeps the upper 32 bits of a 64-bit key and clears the
    lower 32. *)
Lemma cell_part_mask_spec (k : Z) :
  0 <= k < 2 ^ 64 -> cell_part_mask k = k - k mod 2 ^ 32.
Proof.
  intros Hk. unfold cell_part_mask.
  replace (k - k mod 2 ^ 32) with (Z.shiftl (Z.shiftr k 32) 32).
  - change 18446744069414584320 with (Z.shiftl (Z.ones 32) 32).
    apply Z.bits_inj'. intros n Hn.
    rewrite Z.land_spec, !Z.shiftl_spec by exact Hn.
    destruct (Z.ltb_spec n 32) as [Hlo | Hhi].
    + rewrite (Z.testbit_neg_r (Z.ones 32)), (Z.testbit_neg_r (Z.shiftr k 32)) by lia.
      apply andb_false_r.
    + rewrite Z.shiftr_spec by lia. replace (n - 32 + 32) with n by lia.
      destruct (Z.ltb_spec n 64) as [Hlt | Hge].
      * rewrite Z.ones_spec_low by lia. apply andb_true_r.
      * rewrite Z.ones_spec_high by lia. rewrite andb_false_r.
        symmetry. apply Z.bits_above_log2; [lia |].
        destruct (Z.eq_dec k 0) as [-> | Hne]; [cbn; lia |].
        pose proof (proj1 (Z.log2_lt_pow2 k 64 ltac:(lia)) ltac:(lia)). lia.
  - rewrite Z.shiftl_mul_pow2, Z.shiftr_div_pow2 by lia.
    pose proof (Z.div_mod k (2 ^ 32) ltac:(lia)). lia.
Qed.

Lemma zip_with_map_l {A B C} (f : B -> A -> C) (g : A -> B) (l : list A) :
  zip_with f (map g l) l = map (fun x => f (g x) x) l.
Proof. induction l as [| x l IH]; cbn; [| rewrite IH]; reflexivity. Qed.

Section KeyContract.
Context `{PyRuntime} `{Pixelization}.

Lemma num_col_nonempty (cols : ColGroup) (key : string) (keys : list Z) :
  num_col cols key = Ok keys -> cols <> [].
Proof. intros Hk ->. discriminate Hk. Qed.

Lemma prepare_keys_given (cols : ColGroup) (key : string) (keys : list Z)
    (cell_id_given _update : bool) :
  num_col cols key = Ok keys ->
  prepare_keys cols key cell_id_given _update =
    if forallb (fun b : bool => b) (map is_cell_id keys) || _update || cell_id_given
    then Ok (OrderedDict.set cols key
               (NumCol (map (fun k => if is_cell_id k then cell_part_mask k else k) keys)))
    else Raise AssertionError.
Proof.
  intros Hk. unfold prepare_keys. unfold num_col in Hk.
  destruct (OrderedDict.get cols key) as [c |] eqn:Eg; [| discriminate Hk].
  unfold num_col. rewrite Eg. cbn [of_option] in Hk |- *. rewrite bind_Ok in Hk |- *.
  destruct c as [l | l]; [| discriminate Hk]. injection Hk as ->.
  rewrite bind_Ok, zip_with_map_l.
  destruct (forallb _ _ || _update || cell_id_given); reflexivity.
Qed.

(** C3: the caller supplies the key column [keys] (under the resolved
    name of the primary key).  If some key is not a bare cell id, the
    update flag is off and no [cell_id] was passed, [append] raises the
    assertion and leaves the table object and the tablet store as they
    were; so a batch that [append] stores had only bare cell ids, or
    the update flag, or a [cell_id].  In an accepted batch the key
    column keeps its length; a key that [is_cell_id] does not recognise
    stays as it is, and a key that it recognises has its object index
    cleared: the lower 32 bits of the 64-bit key are set to zero and
    the upper 32 bits are kept.  It is this batch from which [append]
    goes on to find the cell of every row. *)
Theorem append_key_contract (t : Table) (fs : FS Blob)
    (cols_ : list (string * Column)) (group : Group) (cell_id : option (list Z))
    (_update : bool) (cols : ColGroup) (pk : ColumnType) (keys : list Z) :
  resolve_columns t cols_ = Ok cols ->
  primary_key t = Some pk ->
  num_col cols (col_name pk) = Ok keys ->
  (forallb is_cell_id keys = false -> _update = false -> cell_id = None ->
     append t fs cols_ group cell_id _update = ((t, fs), Raise AssertionError)) /\
  (forall t' fs' ks,
     append t fs cols_ group cell_id _update = ((t', fs'), Ok ks) ->
     forallb is_cell_id keys = true \/ _update = true \/ is_Some cell_id) /\
  (forallb is_cell_id keys = true \/ _update = true \/ is_Some cell_id ->
     exists cols' keys',
       prepare_keys cols (col_name pk) (bool_decide (is_Some cell_id)) _update
         = Ok cols' /\
       num_col cols' (col_name pk) = Ok keys' /\
       length keys' = length keys /\
       (forall i k, keys !! i = Some k ->
          exists k', keys' !! i = Some k' /\
            (is_cell_id k = false -> k' = k) /\
            (is_cell_id k = true ->
               obj_part k' = 0 /\ (0 <= k < 2 ^ 64 -> k' = k - k mod 2 ^ 32))) /\
       append_prepare t cols_ group cell_id _update =
         (_ ← py_assert (negb _update
                         || match group with GCached => false | GMain => true end);
          '(cols2, cells) ← assign_cells t group cell_id cols' (col_name pk);
          Ok (col_name pk, cols2, cells))).
Proof.
  intros Hcols Hpk Hkeys.
  assert (Hforall : forallb (fun b : bool => b) (map is_cell_id keys)
                    = forallb is_cell_id keys).
  { clear. induction keys as [| k l IH]; cbn; [| rewrite IH]; reflexivity. }
  assert (Hrej : forallb is_cell_id keys = false -> _update = false -> cell_id = None ->
                 append t fs cols_ group cell_id _update = ((t, fs), Raise AssertionError)).
  { intros Hcid -> ->. unfold append, append_prepare. cbn [negb orb py_assert].
    rewrite bind_Ok, Hcols, bind_Ok.
    rewrite (bool_decide_eq_false_2 _ (num_col_nonempty _ _ _ Hkeys)).
    cbn [negb py_assert]. rewrite bind_Ok, Hpk. cbn [of_option]. rewrite bind_Ok.
    rewrite (prepare_keys_given _ _ _ _ _ Hkeys), Hforall, Hcid.
    rewrite (bool_decide_eq_false_2 (is_Some None)) by (intros [? ?]; discriminate).
    reflexivity. }
  split; [exact Hrej |]. split.
  - intros t' fs' ks Happ.
    destruct (forallb is_cell_id keys) eqn:Hcid; [left; reflexivity |].
    destruct _update; [right; left; reflexivity |].
    destruct cell_id as [c |]; [right; right; eexists; reflexivity |].
    rewrite (Hrej eq_refl eq_refl eq_refl) in Happ. discriminate Happ.
  - intros Hacc. rewrite (prepare_keys_given _ _ _ _ _ Hkeys), Hforall.
    assert (Hguard : forallb is_cell_id keys || _update
                     || bool_decide (is_Some cell_id) = true).
    { destruct Hacc as [-> | [-> | Hc]]; [reflexivity | apply orb_true_iff; left;
        apply orb_true_r |].
      rewrite (bool_decide_eq_true_2 _ Hc). apply orb_true_r. }
    rewrite Hguard. eexists. eexists. split; [reflexivity |].
    split; [| split; [| split]].
    + unfold num_col. rewrite od_get_set. reflexivity.
    + apply length_map.
    + intros i k Hi. rewrite list_lookup_fmap, Hi. cbn [fmap option_fmap option_map].
      eexists. split; [reflexivity |].
      destruct (is_cell_id k); split; try discriminate; try reflexivity.
      intros _. split; [apply obj_part_cell_part_mask | apply cell_part_mask_spec].
    + unfold append_prepare.
      destruct (py_assert (negb _update || _)) as [[] | e]; [| reflexivity].
      rewrite !bind_Ok, Hcols, bind_Ok.
      rewrite (bool_decide_eq_false_2 _ (num_col_nonempty _ _ _ Hkeys)).
      cbn [negb py_assert]. rewrite bind_Ok, Hpk. cbn [of_option]. rewrite bind_Ok.
      rewrite (prepare_keys_given _ _ _ _ _ Hkeys), Hforall, Hguard, bind_Ok.
      reflexivity.
Qed.
End KeyContract.

Lemma append_key_contract_witness :
  append stars example_fs
    [("_ID", NumCol [281474976710656; 281474976710663]); ("ra", NumCol [1; 2]);
     ("dec", NumCol [3; 4])] GMain None false
  = ((stars, example_fs), Raise AssertionError) /\
  exists cols',
    prepare_keys
      [("obj_id", NumCol [281474976710656; 281474976710663]);
       ("ra", NumCol [1; 2]); ("dec", NumCol [3; 4])] "obj_id" false true
      = Ok cols' /\
    num_col cols' "obj_id" = Ok [281474976710656; 281474976710663].
Proof.
  split.
  - refine (proj1 (append_key_contract stars example_fs _ GMain None false
                     [("obj_id", NumCol [281474976710656; 281474976710663]);
                      ("ra", NumCol [1; 2]); ("dec", NumCol [3; 4])]
                     _ [281474976710656; 281474976710663] _ eq_refl _) _ eq_refl eq_refl).
    + vm_compute. reflexivity.
    + vm_compute. reflexivity.
    + vm_compute. reflexivity.
  - destruct (proj2 (proj2 (@append_key_contract example_runtime example_pix
                              stars example_fs
                              [("_ID", @NumCol example_runtime
                                         [281474976710656; 281474976710663]);
                               ("ra", NumCol [1; 2]); ("dec", NumCol [3; 4])]
                              GMain None true
                              [("obj_id", @NumCol example_runtime
                                            [281474976710656; 281474976710663]);
                               ("ra", NumCol [1; 2]); ("dec", NumCol [3; 4])]
                              _ [281474976710656; 281474976710663]
                              ltac:(vm_compute; reflexivity) eq_refl
                              ltac:(vm_compute; reflexivity)))
                (or_intror (or_introl eq_refl)))
      as (cols' & keys' & Hprep & Hnum & Hlen & Hpt & _).
    cbn [col_name] in Hnum. exists cols'. split; [exact Hprep |]. rewrite Hnum. f_equal.
    destruct keys' as [| a [| b [| c keys']]]; try discriminate Hlen.
    destruct (Hpt 0%nat 281474976710656 eq_refl) as (k0 & [= <-] & _ & H0).
    destruct (Hpt 1%nat 281474976710663 eq_refl) as (k1 & [= <-] & H1 & _).
    destruct (H0 eq_refl) as [_ H0']. rewrite (H0' ltac:(lia)), (H1 eq_refl).
    reflexivity.
Defined.

(** ** The write path: the per-cell sequence *)

Lemma obj_part_mod (k : Z) : obj_part k = k mod 2 ^ 32.
Proof. unfold obj_part. change 4294967295 with (Z.ones 32). apply Z.land_ones. lia. Qed.

Lemma obj_part_range (k : Z) : 0 <= obj_part k < 2 ^ 32.
Proof. rewrite obj_part_mod. apply Z.mod_pos_bound. lia. Qed.

Lemma list_max_ge (l : list Z) (m : Z) :
  list_max l = Some m -> Forall (fun x => x <= m) l.
Proof.
  revert m. induction l as [| x l IH]; intros m; [constructor |].
  cbn [list_max]. destruct (list_max l) as [m' |] eqn:E.
  - intros [= <-]. constructor; [lia |].
    eapply Forall_impl; [exact (IH m' eq_refl) |]. cbn. intros. lia.
  - intros [= <-]. constructor; [lia |].
    destruct l; [constructor | cbn in E; destruct (list_max l); discriminate].
Qed.

Lemma list_max_In (l : list Z) (m : Z) : list_max l = Some m -> m ∈ l.
Proof.
  revert m. induction l as [| x l IH]; intros m; [discriminate |].
  cbn [list_max]. destruct (list_max l) as [m' |] eqn:E; intros [= <-].
  - destruct (Z.max_spec x m') as [[_ ->] | [_ ->]]; [right; auto | left].
  - left.
Qed.

Lemma mask_assign_Forall {A} (P : A -> Prop) (a : list A) (mask : list bool)
    (vals : list A) :
  Forall P a -> Forall P vals -> Forall P (mask_assign a mask vals).
Proof.
  intros Ha. revert mask vals. induction Ha as [| x a Hx Ha IH]; intros mask vals Hv.
  - destruct mask as [| [] ?]; constructor.
  - destruct mask as [| [] mask]; cbn [mask_assign].
    + constructor; assumption.
    + destruct Hv as [| v vs Hv Hvs].
      * constructor; [exact Hx | apply IH; constructor].
      * constructor; [exact Hv | apply IH; exact Hvs].
    + constructor; [exact Hx | apply IH; exact Hv].
Qed.

Lemma mask_assign_length {A} (a : list A) (mask : list bool) (vals : list A) :
  length (mask_assign a mask vals) = length a.
Proof.
  revert mask vals. induction a as [| x a IH]; intros mask vals.
  - destruct mask as [| [] ?]; reflexivity.
  - destruct mask as [| [] mask]; cbn [mask_assign]; [reflexivity | |].
    + destruct vals; cbn; rewrite IH; reflexivity.
    + cbn. rewrite IH. reflexivity.
Qed.

Lemma zip_with_Forall {A B C} (f : A -> B -> C) (P : A -> Prop) (Q : B -> Prop)
    (R : C -> Prop) (l : list A) (k : list B) :
  (forall x y, P x -> Q y -> R (f x y)) ->
  Forall P l -> Forall Q k -> Forall R (zip_with f l k).
Proof.
  intros Hf Hl. revert k. induction Hl as [| x l Hx _ IH]; intros k Hk; [constructor |].
  destruct Hk as [| y k Hy Hk]; cbn; constructor; auto.
Qed.

(** A generated key carries the generated index, reduced to 32 bits. *)
Lemma obj_part_completed (k g : Z) :
  obj_part k = 0 -> 0 <= g -> obj_part (wrap_uint64 (k + g)) <= g.
Proof.
  intros Hk Hg. rewrite obj_part_mod in Hk. rewrite obj_part_mod. unfold wrap_uint64.
  rewrite Z.mod_mod_divide by (exists (2 ^ 32); reflexivity).
  rewrite <- Zplus_mod_idemp_l, Hk, Z.add_0_l. apply Z.mod_le; lia.
Qed.


Lemma filter_no_zero_part (keys : list Z) :
  forallb (fun x => negb (x =? 0)) (map obj_part keys) = true ->
  List.filter (fun k => obj_part k =? 0) keys = [].
Proof.
  induction keys as [| k l IH]; [reflexivity |].
  cbn. intros Hall. apply andb_true_iff in Hall. destruct Hall as [Hk Hl].
  apply negb_true_iff in Hk. rewrite Hk. apply IH, Hl.
Qed.

Section Sequence.
Context `{PyRuntime}.

(** The block of the primary cgroup on a [main] row group whose
    sequence array holds [s]. *)
Lemma assign_keys_main (cell_id_given : bool) (key : string)
    (arrays arrays' : gmap string Z) (keysT keysT' : list Z) (s : Z) :
  arrays !! ("_seq_" +:+ key) = Some s ->
  0 <= s < 2 ^ 63 ->
  Z.of_nat (length keysT) < 2 ^ 63 ->
  assign_keys GMain cell_id_given key keysT arrays = (arrays', Ok keysT') ->
  let s' := Z.max s (max_obj_part keysT + 1) + keys_to_generate keysT in
  arrays' !! ("_seq_" +:+ key) = Some s' /\
  s <= s' /\ 1 <= s' /\
  Forall (fun k => obj_part k < s') keysT'.
Proof.
  intros Hseq Hs Hlen. unfold assign_keys.
  unfold mbind, st_mbind, st_bind, st_get, st_put, st_lift, mret, st_mret.
  rewrite Hseq. unfold max_obj_part, keys_to_generate.
  destruct (list_max (map obj_part keysT)) as [imax |] eqn:Emax; [| discriminate].
  change (default 0 (Some imax)) with imax.
  cbn [of_option].
  pose proof (list_max_ge _ _ Emax) as Hmax.
  assert (Himax : 0 <= imax < 2 ^ 32).
  { apply list_max_In, list_elem_of_fmap in Emax. destruct Emax as (k & -> & _).
    apply obj_part_range. }
  set (id0 := Z.max s (imax + 1)) in *.
  assert (Hid0 : 1 <= id0 < 2 ^ 63 + 1) by (subst id0; lia).
  assert (Horig : Forall (fun k => obj_part k < id0) keysT).
  { apply Forall_forall. intros k Hk. rewrite Forall_forall in Hmax.
    assert (obj_part k <= imax) by (apply Hmax, list_elem_of_fmap; eauto).
    subst id0. lia. }
  set (nnk := Z.of_nat (length (List.filter (fun k => obj_part k =? 0) keysT))).
  assert (Hnnk : 0 <= nnk <= Z.of_nat (length keysT)).
  { subst nnk. split; [lia |]. apply inj_le, filter_length_le. }
  assert (Hwrap0 : wrap_uint64 id0 = id0).
  { unfold wrap_uint64. apply Z.mod_small. lia. }
  destruct (forallb (fun x => negb (x =? 0)) (map obj_part keysT)) eqn:Eall.
  - intros [= <- <-]. cbv zeta.
    assert (nnk = 0) as -> by (subst nnk; rewrite filter_no_zero_part by exact Eall; reflexivity).
    rewrite Z.add_0_r, lookup_insert_eq, Hwrap0.
    repeat split; try lia. exact Horig.
  - cbn [py_assert]. destruct cell_id_given; [discriminate |].
    cbn [negb py_assert of_option].
    assert (Hcount : Z.of_nat (length (List.filter (fun b : bool => b)
                       (map (fun x => x =? 0) (map obj_part keysT)))) = nnk).
    { subst nnk. f_equal. clear. induction keysT as [| k l IH]; [reflexivity |].
      cbn. destruct (obj_part k =? 0); cbn; rewrite IH; reflexivity. }
    rewrite Hcount. intros [= <- <-]. cbv zeta.
    assert (Hwrap1 : wrap_uint64 (id0 + nnk) = id0 + nnk).
    { unfold wrap_uint64. apply Z.mod_small. lia. }
    rewrite lookup_insert_eq, Hwrap1.
    repeat split; try lia.
    apply mask_assign_Forall.
    + eapply Forall_impl; [exact Horig |]. cbn. intros. lia.
    + rewrite map_map, mask_select_filter.
      apply (zip_with_Forall _ (fun k => obj_part k = 0) (fun g => 0 <= g < id0 + nnk)).
      * intros k g Hk Hg. pose proof (obj_part_completed k g Hk). lia.
      * apply Forall_forall. intros k Hk.
        rewrite list_elem_of_In, filter_In in Hk. destruct Hk as [_ Hk]. lia.
      * apply Forall_forall. intros g Hg. apply list_elem_of_fmap in Hg.
        destruct Hg as (j & -> & Hj). rewrite list_elem_of_In, in_seq in Hj.
        unfold wrap_uint64. rewrite Z.mod_small; lia.
Qed.
End Sequence.

(** ** Row buffers *)

Lemma od_get_in {V} (d : list (string * V)) (k : string) (v : V) :
  OrderedDict.get d k = Some v -> k ∈ map fst d.
Proof.
  induction d as [| [k' v'] d IH]; [discriminate |]. cbn.
  destruct (String.eqb_spec k' k) as [-> | Hne]; [left | right; auto].
Qed.

Lemma od_set_fields {V} (d : list (string * V)) (k : string) (v v' : V) :
  OrderedDict.get d k = Some v -> map fst (OrderedDict.set d k v') = map fst d.
Proof.
  intros Hg. rewrite od_set_keys, bool_decide_eq_true_2; [reflexivity |].
  eapply od_get_in, Hg.
Qed.

Lemma of_option_Ok {A} (e : PyError) (o : option A) (a : A) :
  of_option e o = Ok a -> o = Some a.
Proof. destruct o; [intros [= ->]; reflexivity | discriminate]. Qed.

Lemma bind_Ok_inv {A B} (m : result A) (k : A -> result B) (b : B) :
  (m ≫= k) = Ok b -> exists a, m = Ok a /\ k a = Ok b.
Proof. destruct m as [a | e]; [eauto | discriminate]. Qed.

Lemma broadcast_Forall {A} (P : A -> Prop) (n : nat) (vals vals' : list A) :
  Forall P vals -> broadcast n vals = Ok vals' -> Forall P vals'.
Proof.
  intros Hv. unfold broadcast. destruct (Nat.eqb _ _); [intros [= <-]; exact Hv |].
  destruct vals as [| v [| w vals]]; try discriminate. intros [= <-].
  apply Forall_replicate. inversion Hv; assumption.
Qed.

Lemma broadcast_length {A} (n : nat) (vals vals' : list A) :
  broadcast n vals = Ok vals' -> length vals' = n.
Proof.
  unfold broadcast. destruct (Nat.eqb_spec (length vals) n) as [E | _].
  - intros [= <-]. exact E.
  - destruct vals as [| v [| w vals]]; try discriminate. intros [= <-].
    apply length_replicate.
Qed.

Lemma fold_insert_Forall {A} (P : A -> Prop) (jv : list (nat * A)) (a : list A) :
  Forall P a -> Forall (fun x => P (snd x)) jv ->
  Forall P (fold_left (fun a jv => <[fst jv := snd jv]> a) jv a).
Proof.
  revert a. induction jv as [| [j v] jv IH]; intros a Ha Hjv; [exact Ha |].
  cbn [fold_left fst snd]. inversion Hjv; subst. apply IH; [| assumption].
  apply Forall_insert; assumption.
Qed.

Lemma fold_insert_length {A} (jv : list (nat * A)) (a : list A) :
  length (fold_left (fun a jv => <[fst jv := snd jv]> a) jv a) = length a.
Proof.
  revert a. induction jv as [| [j v] jv IH]; intros a; [reflexivity |].
  cbn [fold_left fst snd]. rewrite IH. apply length_insert.
Qed.

Lemma scatter_Forall {A} (P : A -> Prop) (a a' : list A) (idx : list Z) (vals : list A) :
  Forall P a -> Forall P vals -> scatter a idx vals = Ok a' -> Forall P a'.
Proof.
  intros Ha Hv. unfold scatter. intros Hs.
  apply bind_Ok_inv in Hs. destruct Hs as (js & _ & Hs).
  apply bind_Ok_inv in Hs. destruct Hs as (vals' & Hb & [= <-]).
  apply fold_insert_Forall; [exact Ha |].
  pose proof (broadcast_Forall P _ _ _ Hv Hb) as Hv'.
  apply Forall_forall. intros [j v] Hin. apply elem_of_zip_r in Hin.
  rewrite Forall_forall in Hv'. apply Hv', Hin.
Qed.

Lemma scatter_length {A} (a a' : list A) (idx : list Z) (vals : list A) :
  scatter a idx vals = Ok a' -> length a' = length a.
Proof.
  unfold scatter. intros Hs.
  apply bind_Ok_inv in Hs. destruct Hs as (js & _ & Hs).
  apply bind_Ok_inv in Hs. destruct Hs as (vals' & _ & [= <-]).
  apply fold_insert_length.
Qed.

Section Columns.
Context (P : Z -> Prop) (key : string).

Lemma column_all_set (r r' : RecArray) (fld : string) (col : list Z) :
  ra_set r fld col = Ok r' ->
  (fld = key -> Forall P col) ->
  column_all P key r ->
  column_all P key r' /\ map fst r' = map fst r.
Proof.
  unfold ra_set, ra_field. intros Hset Hcol Hr.
  apply bind_Ok_inv in Hset. destruct Hset as (old & Hold & Hset).
  apply of_option_Ok in Hold.
  apply bind_Ok_inv in Hset. destruct Hset as (_ & _ & [= <-]).
  split; [| eapply od_set_fields, Hold].
  intros c. destruct (decide (fld = key)) as [-> | Hne].
  - rewrite od_get_set. intros [= <-]. auto.
  - rewrite od_get_set_other by exact Hne. apply Hr.
Qed.

Lemma column_all_scatter (r r' : RecArray) (fld : string) (idx col : list Z) :
  ra_scatter r fld idx col = Ok r' ->
  (fld = key -> Forall P col) ->
  column_all P key r ->
  column_all P key r' /\ map fst r' = map fst r.
Proof.
  unfold ra_scatter, ra_field. intros Hset Hcol Hr.
  apply bind_Ok_inv in Hset. destruct Hset as (old & Hold & Hset).
  apply of_option_Ok in Hold.
  apply bind_Ok_inv in Hset. destruct Hset as (new & Hnew & [= <-]).
  split; [| eapply od_set_fields, Hold].
  intros c. destruct (decide (fld = key)) as [-> | Hne].
  - rewrite od_get_set. intros [= <-].
    eapply scatter_Forall; [apply Hr, Hold | auto | exact Hnew].
  - rewrite od_get_set_other by exact Hne. apply Hr.
Qed.

Lemma column_all_resize (n : nat) (r : RecArray) :
  P 0 -> column_all P key r ->
  column_all P key (ra_resize n r) /\ map fst (ra_resize n r) = map fst r.
Proof.
  intros H0 Hr. split.
  - unfold ra_resize. intros c Hc. induction r as [| [f col] r IH]; [discriminate |].
    cbn in Hc. destruct (String.eqb_spec f key) as [-> | Hne].
    + injection Hc as <-. apply Forall_take, Forall_app. split.
      * apply Hr. cbn. rewrite String.eqb_refl. reflexivity.
      * apply Forall_replicate, H0.
    + apply IH; [| exact Hc]. intros c' Hc'. apply Hr. cbn.
      destruct (String.eqb_spec f key); [contradiction | exact Hc'].
  - unfold ra_resize. rewrite map_map. reflexivity.
Qed.

Lemma column_all_zeros (n : nat) (cols : list (string * string)) :
  P 0 ->
  column_all P key (ra_zeros n cols) /\ map fst (ra_zeros n cols) = map fst cols.
Proof.
  intros H0. split.
  - unfold ra_zeros. intros c Hc. induction cols as [| [f ty] cols IH]; [discriminate |].
    cbn in Hc. destruct (String.eqb f key).
    + injection Hc as <-. apply Forall_replicate, H0.
    + apply IH, Hc.
  - unfold ra_zeros. rewrite map_map. reflexivity.
Qed.

Lemma column_all_append (r r2 : RecArray) :
  map fst r = map fst r2 ->
  column_all P key r -> column_all P key r2 ->
  column_all P key (ra_append r r2).
Proof.
  unfold ra_append. revert r2. induction r as [| [f col] r IH]; intros r2 Hf Hr Hr2 c.
  - destruct r2; discriminate.
  - destruct r2 as [| [f2 col2] r2]; [discriminate |].
    cbn in Hf. injection Hf as <- Hf. cbn.
    destruct (String.eqb_spec f key) as [-> | Hne].
    + intros [= <-]. apply Forall_app. split.
      * apply Hr. cbn. rewrite String.eqb_refl. reflexivity.
      * apply Hr2. cbn. rewrite String.eqb_refl. reflexivity.
    + apply IH; [exact Hf | |].
      * intros c' Hc'. apply Hr. cbn.
        destruct (String.eqb_spec f key); [contradiction | exact Hc'].
      * intros c' Hc'. apply Hr2. cbn.
        destruct (String.eqb_spec f key); [contradiction | exact Hc'].
Qed.

Lemma column_all_empty (cols : list (string * string)) :
  column_all P key (ra_empty cols).
Proof.
  unfold ra_empty. intros c Hc. induction cols as [| [f ty] cols IH]; [discriminate |].
  cbn in Hc. destruct (String.eqb f key); [injection Hc as <-; constructor | auto].
Qed.
End Columns.

(** ** The write path: one cgroup of one cell *)

Lemma foldM_invariant {A S} (f : S -> A -> result S) (I : S -> Prop)
    (l : list A) (s s' : S) :
  (forall s x s', x ∈ l -> I s -> f s x = Ok s' -> I s') ->
  I s -> foldM f s l = Ok s' -> I s'.
Proof.
  revert s. induction l as [| x l IH]; intros s Hstep Hs; cbn [foldM].
  - intros [= <-]. exact Hs.
  - intros Hf. apply bind_Ok_inv in Hf. destruct Hf as (s1 & Hx & Hf).
    apply (IH s1); [| | exact Hf].
    + intros s2 y s3 Hy. apply Hstep. right. exact Hy.
    + apply (Hstep s x s1); [left | exact Hs | exact Hx].
Qed.

Section WriteInvariants.
Context `{PyRuntime} (P : Z -> Prop) (key : string).

Lemma put_regular_column_inv (schema : Schema) (colsT : ColGroup)
    (idx : Index) (rows rows' : RecArray) (colname : string) :
  (forall kc, num_col colsT key = Ok kc -> Forall P kc) ->
  put_regular_column schema colsT idx rows colname = Ok rows' ->
  column_all P key rows ->
  column_all P key rows' /\ map fst rows' = map fst rows.
Proof.
  intros Hkc. unfold put_regular_column.
  destruct (is_blob_col schema colname); [intros [= <-]; auto |].
  intros Hput Hrows. apply bind_Ok_inv in Hput. destruct Hput as (col & Hcol & Hput).
  destruct idx as [| ix].
  - eapply column_all_set; [exact Hput | | exact Hrows].
    intros ->. apply Hkc, Hcol.
  - eapply column_all_scatter; [exact Hput | | exact Hrows].
    intros ->. apply Hkc, Hcol.
Qed.

(** What a blob column that is stored went through. *)
Lemma put_blob_column_Ok (schema : Schema) (colsB : ColGroup)
    (g g' : RowGroup Blob) (rows rows' : RecArray) (lv lv' : LoopVars)
    (colname : string) :
  put_blob_column schema colsB (rows, lv) colname g = (g', Ok (rows', lv')) ->
  exists flatB old barray ito barray',
    obj_col colsB colname = Ok flatB /\
    OrderedDict.get rows colname = Some old /\ length old = length flatB /\
    rg_blobs g !! colname = Some barray /\
    store_blobs (object_atom schema colname) barray flatB = Ok (ito, barray') /\
    g' = {| rg_table := rg_table g; rg_arrays := rg_arrays g;
            rg_blobs := <[colname := barray']> (rg_blobs g) |} /\
    rows' = OrderedDict.set rows colname ito /\
    lv' = {| lv_nrows := lv_nrows lv; lv_nnew := lv_nnew lv;
             lv_idx := Some (IndexArray (unique_index flatB)) |}.
Proof.
  unfold put_blob_column. intros Hput.
  apply st_bind_Ok_inv in Hput. destruct Hput as (flatB & g1 & Hflat & Hput).
  apply st_lift_Ok_inv in Hflat. destruct Hflat as [Hflat ->].
  apply st_bind_Ok_inv in Hput. destruct Hput as (old & g1 & Hold & Hput).
  apply st_lift_Ok_inv in Hold. destruct Hold as [Hold ->]. apply of_option_Ok in Hold.
  apply st_bind_Ok_inv in Hput. destruct Hput as (u & g1 & Hlen & Hput).
  apply st_lift_Ok_inv in Hlen. destruct Hlen as [Hlen ->]. apply of_option_Ok in Hlen.
  apply st_bind_Ok_inv in Hput. destruct Hput as (g0 & g1 & Hget & Hput).
  injection Hget as <- <-.
  apply st_bind_Ok_inv in Hput. destruct Hput as (barray & g1 & Hba & Hput).
  apply st_lift_Ok_inv in Hba. destruct Hba as [Hba ->]. apply of_option_Ok in Hba.
  apply st_bind_Ok_inv in Hput. destruct Hput as ([ito barray'] & g1 & Hst & Hput).
  apply st_lift_Ok_inv in Hst. destruct Hst as [Hst ->].
  apply st_bind_Ok_inv in Hput. destruct Hput as (u1 & g1 & Hset & Hput).
  injection Hset as <- _. apply st_ret_inv in Hput. destruct Hput as [[= -> ->] ->].
  exists flatB, old, barray, ito, barray'.
  repeat split; try assumption.
Qed.

Lemma put_blob_column_inv (schema : Schema) (colsB : ColGroup)
    (g g' : RowGroup Blob) (rows rows' : RecArray) (lv lv' : LoopVars)
    (colname : string) :
  colname <> key ->
  put_blob_column schema colsB (rows, lv) colname g = (g', Ok (rows', lv')) ->
  column_all P key rows ->
  column_all P key rows' /\ map fst rows' = map fst rows /\
  rg_arrays g' = rg_arrays g /\ rg_table g' = rg_table g.
Proof.
  intros Hne Hput Hrows. apply put_blob_column_Ok in Hput.
  destruct Hput as (flatB & old & barray & ito & barray' & _ & Hold & _ & _ & _ &
                    -> & -> & _).
  cbn [rg_arrays rg_table]. split; [| split; [eapply od_set_fields, Hold | auto]].
  intros c. rewrite od_get_set_other by exact Hne. apply Hrows.
Qed.

Lemma merge_blob_column_inv (py_none_blob : Blob) (fp : Tablet Blob) (group : Group)
    (rows : RecArray) (lv : LoopVars) (idx : list Z)
    (g g' : RowGroup Blob) (colsB colsB' : ColGroup) (colname : string) :
  merge_blob_column py_none_blob fp group rows lv idx colsB colname g
    = (g', Ok colsB') ->
  rg_table g' = rg_table g /\ rg_arrays g' = rg_arrays g /\
  map fst colsB' = map fst colsB.
Proof.
  unfold merge_blob_column. intros Hm.
  apply st_bind_Ok_inv in Hm. destruct Hm as (g0 & g1 & Hget & Hm).
  injection Hget as <- <-.
  apply st_bind_Ok_inv in Hm. destruct Hm as (refs & g1 & Hr & Hm).
  apply st_lift_Ok_inv in Hr. destruct Hr as [_ ->].
  apply st_bind_Ok_inv in Hm. destruct Hm as (loaded & g1 & Hr & Hm).
  apply st_lift_Ok_inv in Hr. destruct Hr as [_ ->].
  apply st_bind_Ok_inv in Hm. destruct Hm as (nrows & g1 & Hr & Hm).
  apply st_lift_Ok_inv in Hr. destruct Hr as [_ ->].
  apply st_bind_Ok_inv in Hm. destruct Hm as (nnew & g1 & Hr & Hm).
  apply st_lift_Ok_inv in Hr. destruct Hr as [_ ->].
  apply st_bind_Ok_inv in Hm. destruct Hm as (new & g1 & Hnew & Hm).
  apply st_lift_Ok_inv in Hnew. destruct Hnew as [Hnew ->]. apply of_option_Ok in Hnew.
  apply st_bind_Ok_inv in Hm. destruct Hm as (bb & g1 & Hr & Hm).
  apply st_lift_Ok_inv in Hr. destruct Hr as [_ ->].
  apply st_bind_Ok_inv in Hm. destruct Hm as (barray & g1 & Hr & Hm).
  apply st_lift_Ok_inv in Hr. destruct Hr as [_ ->].
  apply st_bind_Ok_inv in Hm. destruct Hm as (u & g1 & Hset & Hm).
  injection Hset as <- _. apply st_ret_inv in Hm. destruct Hm as [-> ->].
  repeat split. eapply od_set_fields, Hnew.
Qed.

(** The regular and the blob columns leave the key column of the row
    buffer holding keys of the batch only, when the key column is not
    itself a blob column. *)
Lemma fill_rows_inv (schema : Schema) (colsT colsB : ColGroup)
    (g g' : RowGroup Blob) (rows rows' : RecArray) (lv lv' : LoopVars) :
  (forall kc, num_col colsT key = Ok kc -> Forall P kc) ->
  Forall (fun n => is_blob_col schema n = true) (map fst colsB) ->
  is_blob_col schema key = false ->
  fill_rows schema colsT colsB rows lv g = (g', Ok (rows', lv')) ->
  column_all P key rows ->
  column_all P key rows' /\ map fst rows' = map fst rows /\
  rg_arrays g' = rg_arrays g /\ rg_table g' = rg_table g.
Proof.
  intros Hkc Hblob Hkey. unfold fill_rows. intros Hfill Hrows.
  apply st_bind_Ok_inv in Hfill. destruct Hfill as (rows1 & g1 & Hreg & Hfill).
  apply st_lift_Ok_inv in Hreg. destruct Hreg as [Hreg ->].
  apply bind_Ok_inv in Hreg. destruct Hreg as (idx & _ & Hreg).
  assert (H1 : column_all P key rows1 /\ map fst rows1 = map fst rows).
  { apply (foldM_invariant _ (fun r => column_all P key r /\ map fst r = map fst rows)
             _ _ _) in Hreg; [exact Hreg | | auto].
    intros r x r' _ [Hr Hf] Hput.
    destruct (put_regular_column_inv _ _ _ _ _ _ Hkc Hput Hr) as [Hr' Hf'].
    split; [exact Hr' | congruence]. }
  destruct H1 as [Hr1 Hf1].
  apply (st_foldM_invariant _
           (fun g1 acc => column_all P key (fst acc) /\ map fst (fst acc) = map fst rows /\
                          rg_arrays g1 = rg_arrays g /\
                          rg_table g1 = rg_table g)) in Hfill.
  - exact Hfill.
  - intros [r1 lv1] x g1 [r2 lv2] g2 Hx (Hr & Hf & Ha & Ht) Hput. cbn [fst snd] in *.
    assert (Hne : x <> key).
    { rewrite Forall_forall in Hblob. specialize (Hblob x Hx). congruence. }
    destruct (put_blob_column_inv _ _ _ _ _ _ _ _ _ Hne Hput Hr) as (Hr' & Hf' & Ha' & Ht').
    repeat split; [exact Hr' | congruence | congruence | congruence].
  - cbn. auto.
Qed.

Lemma column_all_truncated (r : RecArray) :
  column_all P key (map (fun c => (fst c, [])) r).
Proof.
  intros c Hc. induction r as [| [f col] r IH]; [discriminate |].
  cbn in Hc. destruct (String.eqb f key); [injection Hc as <-; constructor | auto].
Qed.

(** The row buffer and the emptied or untouched table both hold, in the
    key column, only keys that were there before, and zeros. *)
Lemma row_buffer_inv (schema : Schema) (_update : bool) (fp : Tablet Blob)
    (group : Group) (g g' : RowGroup Blob) (colsT colsB colsB' : ColGroup)
    (rows : RecArray) (lv lv' : LoopVars) :
  P 0 ->
  column_all P key (rg_table g) ->
  map fst (rg_table g) = map fst (sc_columns schema) ->
  row_buffer schema _update fp group colsT colsB lv g = (g', Ok (colsB', rows, lv')) ->
  column_all P key rows /\ map fst rows = map fst (sc_columns schema) /\
  column_all P key (rg_table g') /\
  map fst (rg_table g') = map fst (sc_columns schema) /\
  rg_arrays g' = rg_arrays g /\ map fst colsB' = map fst colsB.
Proof.
  intros H0 Hg Hf. unfold row_buffer.
  assert (Hz : forall lvz,
            (mret (colsB, ra_zeros (cg_len colsT) (sc_columns schema), lvz)
               : st (RowGroup Blob) _) g = (g', Ok (colsB', rows, lv')) ->
            column_all P key rows /\ map fst rows = map fst (sc_columns schema) /\
            column_all P key (rg_table g') /\
            map fst (rg_table g') = map fst (sc_columns schema) /\
            rg_arrays g' = rg_arrays g /\ map fst colsB' = map fst colsB).
  { intros lvz Hr. apply st_ret_inv in Hr. destruct Hr as [[= -> -> ->] ->].
    destruct (column_all_zeros P key (cg_len colsT) (sc_columns schema) H0). auto 10. }
  cbv zeta. destruct _update; [| apply Hz].
  intros Hrb. apply st_bind_Ok_inv in Hrb. destruct Hrb as (ix & g1 & Hix & Hrb).
  apply st_lift_Ok_inv in Hix. destruct Hix as [_ ->].
  destruct ix as [| idx]; [eapply Hz, Hrb |].
  apply st_bind_Ok_inv in Hrb. destruct Hrb as (g0 & g1 & Hget & Hrb).
  injection Hget as <- <-.
  apply st_bind_Ok_inv in Hrb. destruct Hrb as (u & g1 & Htr & Hrb).
  injection Htr as <- _.
  apply st_bind_Ok_inv in Hrb. destruct Hrb as (colsB1 & g2 & Hmerge & Hrb).
  apply st_bind_Ok_inv in Hrb. destruct Hrb as (nrows & g3 & Hr & Hrb).
  apply st_lift_Ok_inv in Hr. destruct Hr as [_ ->].
  apply st_bind_Ok_inv in Hrb. destruct Hrb as (nnew & g3 & Hr & Hrb).
  apply st_lift_Ok_inv in Hr. destruct Hr as [_ ->].
  apply st_ret_inv in Hrb. destruct Hrb as [[= -> -> ->] ->].
  apply (st_foldM_invariant _
           (fun g1 cB => rg_table g1 = map (fun c => (fst c, [])) (rg_table g) /\
                         rg_arrays g1 = rg_arrays g /\
                         map fst cB = map fst colsB)) in Hmerge.
  - destruct Hmerge as (Ht & Ha & Hn).
    destruct (column_all_resize P key (Z.to_nat (nrows + nnew))
                (rg_table g) H0 Hg) as [Hr Hrf].
    rewrite Ht. repeat split; try assumption; try congruence.
    + apply column_all_truncated.
    + rewrite map_map. cbn [fst]. exact Hf.
  - intros c2 x ga c3 gb _ (Ht & Ha & Hn) Hm.
    destruct (merge_blob_column_inv _ _ _ _ _ _ _ _ _ _ _ Hm) as (Ht' & Ha' & Hn').
    repeat split; congruence.
  - cbn. auto.
Qed.
End WriteInvariants.

Lemma ra_append_fields (r r2 : RecArray) :
  map fst r = map fst r2 -> map fst (ra_append r r2) = map fst r.
Proof.
  unfold ra_append. revert r2. induction r as [| [f c] r IH]; intros r2 Hf.
  - reflexivity.
  - destruct r2 as [| [f2 c2] r2]; [discriminate |].
    cbn in Hf |- *. injection Hf as _ Hf. rewrite (IH r2 Hf). reflexivity.
Qed.

Section SequenceInvariant.
Context `{PyRuntime}.

(** What the block of the primary cgroup went through when it returns. *)
Lemma primary_block_Ok (t : Table) (group : Group) (_update cell_id_given : bool)
    (key : string) (g g1 : RowGroup Blob) (colsT colsT1 cols cols1 : ColGroup)
    (incell : list bool) (lv lv1 : LoopVars) :
  primary_block t group _update cell_id_given key colsT cols incell lv g
    = (g1, Ok (colsT1, cols1, lv1)) ->
  exists keysT arrays keysT' allkeys,
    num_col colsT key = Ok keysT /\
    assign_keys group cell_id_given key keysT (rg_arrays g) = (arrays, Ok keysT') /\
    num_col cols key = Ok allkeys /\
    g1 = {| rg_table := rg_table g; rg_arrays := arrays; rg_blobs := rg_blobs g |} /\
    colsT1 = OrderedDict.set colsT key (NumCol keysT') /\
    cols1 = OrderedDict.set cols key (NumCol (mask_assign allkeys incell keysT')) /\
    lv_nrows lv1 = Some (Z.of_nat (ra_len (rg_table g))) /\
    if _update
    then exists pk id1,
           primary_key t = Some pk /\
           ra_field (rg_table g) (col_name pk) = Ok id1 /\
           match update_index id1 keysT' with
           | Ok None => lv_nnew lv1 = lv_nnew lv /\ lv_idx lv1 = Some Slice
           | Ok (Some (idx, nnew)) =>
               lv_nnew lv1 = Some nnew /\ lv_idx lv1 = Some (IndexArray idx)
           | Raise _ => False
           end
    else lv_nnew lv1 = lv_nnew lv /\ lv_idx lv1 = lv_idx lv.
Proof.
  unfold primary_block. intros Hpb.
  apply st_bind_Ok_inv in Hpb. destruct Hpb as (g0 & ga & Hget & Hpb).
  injection Hget as <- <-.
  apply st_bind_Ok_inv in Hpb. destruct Hpb as (keysT & ga & Hk & Hpb).
  apply st_lift_Ok_inv in Hk. destruct Hk as [Hk ->].
  apply st_bind_Ok_inv in Hpb. destruct Hpb as (keysT' & ga & Ha & Hpb).
  unfold on_arrays in Ha.
  destruct (assign_keys group cell_id_given key keysT (rg_arrays g))
    as [arrays ra] eqn:Eassign.
  injection Ha as <- ->.
  apply st_bind_Ok_inv in Hpb. destruct Hpb as (allkeys & ga & Hall & Hpb).
  apply st_lift_Ok_inv in Hall. destruct Hall as [Hall ->].
  exists keysT, arrays, keysT', allkeys.
  destruct _update.
  - apply st_bind_Ok_inv in Hpb. destruct Hpb as (pk & ga & Hpk & Hpb).
    apply st_lift_Ok_inv in Hpk. destruct Hpk as [Hpk ->]. apply of_option_Ok in Hpk.
    apply st_bind_Ok_inv in Hpb. destruct Hpb as (id1 & ga & Hid & Hpb).
    apply st_lift_Ok_inv in Hid. destruct Hid as [Hid ->].
    apply st_bind_Ok_inv in Hpb. destruct Hpb as (ui & ga & Hui & Hpb).
    apply st_lift_Ok_inv in Hui. destruct Hui as [Hui ->].
    destruct ui as [[idx nnew] |]; apply st_ret_inv in Hpb;
      destruct Hpb as [[= -> -> ->] ->]; cbn [lv_nrows lv_nnew lv_idx];
      repeat split; try assumption; exists pk, id1; rewrite Hui; auto.
  - apply st_ret_inv in Hpb. destruct Hpb as [[= -> -> ->] ->].
    cbn [lv_nrows lv_nnew lv_idx]. repeat split; assumption.
Qed.

Lemma primary_block_main (t : Table) (_update cell_id_given : bool) (key : string)
    (g g1 : RowGroup Blob) (colsT colsT1 cols cols1 : ColGroup)
    (incell : list bool) (lv lv1 : LoopVars) (s : Z) (keysT : list Z) :
  rg_arrays g !! ("_seq_" +:+ key) = Some s ->
  0 <= s < 2 ^ 63 ->
  num_col colsT key = Ok keysT ->
  Z.of_nat (length keysT) < 2 ^ 63 ->
  primary_block t GMain _update cell_id_given key colsT cols incell lv g
    = (g1, Ok (colsT1, cols1, lv1)) ->
  let s' := Z.max s (max_obj_part keysT + 1) + keys_to_generate keysT in
  rg_arrays g1 !! ("_seq_" +:+ key) = Some s' /\
  s <= s' /\ 1 <= s' /\
  rg_table g1 = rg_table g /\
  (forall kc, num_col colsT1 key = Ok kc -> Forall (fun k => obj_part k < s') kc).
Proof.
  intros Hseq Hs Hkeys Hlen Hpb. apply primary_block_Ok in Hpb.
  destruct Hpb as (keysT0 & arrays & keysT' & allkeys & Hk & Hassign & _ & -> & -> & _).
  rewrite Hkeys in Hk. injection Hk as <-.
  destruct (assign_keys_main _ _ _ _ _ _ _ Hseq Hs Hlen Hassign) as (Hs' & Hle & H1 & Hall).
  cbn [rg_arrays rg_table].
  repeat split; try assumption.
  intros kc. unfold num_col. rewrite od_get_set. cbn. intros [= <-]. exact Hall.
Qed.

(** What one cgroup of one cell went through when it returns. *)
Lemma write_cgroup_Ok (t : Table) (group : Group) (_update cell_id_given : bool)
    (key cgroup : string) (schema : Schema) (fp fp' : Tablet Blob)
    (cols cols' : ColGroup) (incell : list bool) (lv lv' : LoopVars) :
  write_cgroup t group _update cell_id_given key cgroup schema fp cols incell lv
    = (fp', Ok (cols', lv')) ->
  let g0 := _get_row_group fp group schema in
  let colsT := select_columns schema cols incell in
  let colsB := List.filter (fun c => is_blob_col schema (fst c)) colsT in
  exists g1 colsT1 lv1 g2 colsB2 rows lv2 g3 rows3,
    (if bool_decide (Some cgroup = primary_cgroup t)
     then primary_block t group _update cell_id_given key colsT cols incell lv g0
          = (g1, Ok (colsT1, cols', lv1))
     else g1 = g0 /\ colsT1 = colsT /\ cols' = cols /\ lv1 = lv) /\
    row_buffer schema _update fp group colsT1 colsB lv1 g1
      = (g2, Ok (colsB2, rows, lv2)) /\
    fill_rows schema colsT1 colsB2 rows lv2 g2 = (g3, Ok (rows3, lv')) /\
    fp' = set_group fp group
            {| rg_table := ra_append (rg_table g3) rows3;
               rg_arrays := rg_arrays g3; rg_blobs := rg_blobs g3 |}.
Proof.
  unfold write_cgroup. cbv zeta. intros Hw.
  match type of Hw with (let '(_, _) := ?m ?g0 in _) = _ =>
    destruct (m g0) as [gz r] eqn:Em end.
  injection Hw as <- ->.
  apply st_bind_Ok_inv in Em. destruct Em as ([[colsT1 cols1] lv1] & g1 & Hpb & Em).
  apply st_bind_Ok_inv in Em. destruct Em as ([[colsB2 rows] lv2] & g2 & Hrb & Em).
  apply st_bind_Ok_inv in Em. destruct Em as ([rows3 lv3] & g3 & Hfill & Em).
  apply st_bind_Ok_inv in Em. destruct Em as (u & g4 & Happ & Em).
  injection Happ as <- _. apply st_ret_inv in Em. destruct Em as [[= -> ->] ->].
  exists g1, colsT1, lv1, g2, colsB2, rows, lv2, g3, rows3.
  split; [| auto].
  destruct (bool_decide (Some cgroup = primary_cgroup t)); [exact Hpb |].
  apply st_ret_inv in Hpb. destruct Hpb as [[= -> -> ->] ->]. auto.
Qed.

Lemma filter_blob_names (schema : Schema) (colsT : ColGroup) :
  Forall (fun n => is_blob_col schema n = true)
    (map fst (List.filter (fun c => is_blob_col schema (fst c)) colsT)).
Proof.
  apply Forall_forall. intros n Hn. apply list_elem_of_fmap in Hn.
  destruct Hn as (c & -> & Hc). rewrite list_elem_of_In, filter_In in Hc. tauto.
Qed.

(** C2: the sequence of a cell stays above the object indices of the
    keys in its [main] row table.  (1) A write to the [main] group of
    the primary cgroup starts from sequence value [s], above every
    object index in the key column; it leaves the value
    [max s (max_obj_part keysT + 1) + keys_to_generate keysT]: raised
    over the incoming object indices, then advanced by the number of
    generated keys; every key then in the table has its object index
    below that value.  (2) A write to [cached] gives the same result
    whatever the [main] group of the tablet holds, and leaves [main],
    with its sequence array, as it was.  (3) A freshly created [main]
    group starts with sequence 1 and no keys. *)
Theorem append_keeps_sequence_above_keys :
  (forall (t : Table) (_update cell_id_given : bool) (key cgroup : string)
          (schema : Schema) (fp fp' : Tablet Blob) (cols cols' : ColGroup)
          (incell : list bool) (lv lv' : LoopVars) (s : Z) (keysT : list Z),
     primary_cgroup t = Some cgroup ->
     map fst (rg_table (_get_row_group fp GMain schema)) = map fst (sc_columns schema) ->
     rg_arrays (_get_row_group fp GMain schema) !! ("_seq_" +:+ key) = Some s ->
     0 <= s < 2 ^ 63 ->
     keys_below s key (rg_table (_get_row_group fp GMain schema)) ->
     is_blob_col schema key = false ->
     num_col (select_columns schema cols incell) key = Ok keysT ->
     Z.of_nat (length keysT) < 2 ^ 63 ->
     write_cgroup t GMain _update cell_id_given key cgroup schema fp cols incell lv
       = (fp', Ok (cols', lv')) ->
     exists g',
       main fp' = Some g' /\
       rg_arrays g' !! ("_seq_" +:+ key)
         = Some (Z.max s (max_obj_part keysT + 1) + keys_to_generate keysT) /\
       keys_below (Z.max s (max_obj_part keysT + 1) + keys_to_generate keysT)
         key (rg_table g') /\
       map fst (rg_table g') = map fst (sc_columns schema)) /\
  (forall (t : Table) (cell_id_given : bool) (key cgroup : string)
          (schema : Schema) (fp fp' : Tablet Blob) (cols cols' : ColGroup)
          (incell : list bool) (lv lv' : LoopVars) (m : option (RowGroup Blob)),
     write_cgroup t GCached false cell_id_given key cgroup schema fp cols incell lv
       = (fp', Ok (cols', lv')) ->
     main fp' = main fp /\
     write_cgroup t GCached false cell_id_given key cgroup schema
       {| main := m; cached := cached fp |} cols incell lv
       = ({| main := m; cached := cached fp' |}, Ok (cols', lv'))) /\
  (forall (schema : Schema) (key : string),
     sc_primary_key schema = Some key ->
     rg_arrays (new_row_group GMain schema) !! ("_seq_" +:+ key) = Some 1 /\
     keys_below 1 key (rg_table (new_row_group GMain schema)) /\
     map fst (rg_table (new_row_group GMain schema)) = map fst (sc_columns schema)).
Proof.
  split; [| split].
  - intros t _update cell_id_given key cgroup schema fp fp' cols cols' incell lv lv'
      s keysT Hprim Hfields Hseq Hs Hbelow Hkey Hkeys Hlen Hw.
    apply write_cgroup_Ok in Hw. cbv zeta in Hw.
    destruct Hw as (g1 & colsT1 & lv1 & g2 & colsB2 & rows & lv2 & g3 & rows3 &
                    Hpb & Hrb & Hfill & ->).
    rewrite (bool_decide_eq_true_2 (Some cgroup = primary_cgroup t)) in Hpb by congruence.
    destruct (primary_block_main _ _ _ _ _ _ _ _ _ _ _ _ _ _ _ Hseq Hs Hkeys Hlen Hpb)
      as (Hs' & Hle & H1 & Ht1 & Hkc).
    set (s' := Z.max s (max_obj_part keysT + 1) + keys_to_generate keysT) in *.
    set (P := fun k => obj_part k < s').
    assert (H0 : P 0) by (unfold P; change (obj_part 0) with 0; lia).
    assert (Hg1 : column_all P key (rg_table g1)).
    { rewrite Ht1. intros c Hc. eapply Forall_impl; [exact (Hbelow c Hc) |].
      unfold P. cbn. intros. lia. }
    rewrite <- Ht1 in Hfields.
    destruct (row_buffer_inv P key _ _ _ _ _ _ _ _ _ _ _ _ H0 Hg1 Hfields Hrb)
      as (Hrows & Hrf & Hg2 & Hg2f & Ha2 & Hn2).
    assert (HB : Forall (fun n => is_blob_col schema n = true) (map fst colsB2)).
    { rewrite Hn2. apply filter_blob_names. }
    destruct (fill_rows_inv P key _ _ _ _ _ _ _ _ _ Hkc HB Hkey Hfill Hrows)
      as (Hrows3 & Hrf3 & Ha3 & Ht3).
    eexists. split; [reflexivity |]. cbn [rg_arrays rg_table].
    rewrite Ha3, Ha2, Ht3. split; [exact Hs' |].
    assert (Hsame : map fst (rg_table g2) = map fst rows3) by congruence.
    split.
    + apply column_all_append; assumption.
    + rewrite ra_append_fields by exact Hsame. exact Hg2f.
  - intros t cell_id_given key cgroup schema fp fp' cols cols' incell lv lv' m.
    unfold write_cgroup, row_buffer, _get_row_group.
    cbn [get_group set_group main cached].
    match goal with |- (let '(_, _) := ?m ?g0 in _) = _ -> _ =>
      destruct (m g0) as [gz r] end.
    intros [= <- ->]. split; reflexivity.
  - intros schema key Hpk. unfold new_row_group. rewrite Hpk. cbn [rg_arrays rg_table].
    split; [apply lookup_singleton_eq |]. split.
    + apply column_all_empty.
    + unfold ra_empty. rewrite map_map. reflexivity.
Qed.
End SequenceInvariant.

Lemma append_keeps_sequence_above_keys_witness :
  exists fp' cols' lv' g',
    write_cgroup stars GMain false false "obj_id" "main" stars_schema
      example_tablet example_batch [true; true; true] no_loop_vars
      = (fp', Ok (cols', lv')) /\
    main fp' = Some g' /\
    rg_arrays g' !! "_seq_obj_id" = Some 6 /\
    keys_below 6 "obj_id" (rg_table g').
Proof.
  destruct (write_cgroup stars GMain false false "obj_id" "main" stars_schema
              example_tablet example_batch [true; true; true] no_loop_vars)
    as [fp' [[cols' lv'] | e]] eqn:E; [| vm_compute in E; discriminate E].
  destruct (proj1 append_keeps_sequence_above_keys stars false false "obj_id" "main"
              stars_schema example_tablet fp' example_batch cols'
              [true; true; true] no_loop_vars lv' 3
              [281474976710656; 281474976710656; 281474976710656])
    as (g' & Hmain & Hseq & Hbelow & _).
  - reflexivity.
  - reflexivity.
  - vm_compute. reflexivity.
  - lia.
  - intros c Hc. vm_compute in Hc. injection Hc as <-.
    repeat constructor.
  - reflexivity.
  - vm_compute. reflexivity.
  - cbn. lia.
  - exact E.
  - exists fp', cols', lv', g'. auto.
Defined.

(** ** Storing a blob column *)

Lemma index_of_lt (x : Z) (l : list Z) : In x l -> (index_of x l < length l)%nat.
Proof.
  induction l as [| y l IH]; [intros [] |]. intros Hin. cbn.
  destruct (Z.eqb_spec x y); [lia |].
  destruct Hin as [-> | Hin]; [congruence |]. specialize (IH Hin). lia.
Qed.

Lemma index_of_0 (x y : Z) (l : list Z) : index_of x (y :: l) = O -> x = y.
Proof. cbn. destruct (Z.eqb_spec x y); [auto | discriminate]. Qed.

Section StoreBlobs.
Context `{PyRuntime}.
Implicit Types (flatB : list PyObj) (barray : list Blob).

Lemma first_with_id_lookup flatB (x : Z) :
  In x (map id flatB) ->
  flatB !! index_of x (map id flatB) = Some (first_with_id flatB x) /\
  id (first_with_id flatB x) = x.
Proof.
  intros Hin. pose proof (index_of_lookup x _ Hin) as Hl.
  rewrite list_lookup_fmap in Hl. unfold first_with_id.
  destruct (flatB !! index_of x (map id flatB)) as [o |]; [| discriminate].
  cbn in Hl |- *. injection Hl as Hl. auto.
Qed.

Lemma is_None_spec (o : PyObj) : is_None o = true <-> id o = id py_None.
Proof. unfold is_None. apply Z.eqb_eq. Qed.

(** [store_blobs] on a VLArray that holds its sentinel: it returns, the
    reference of every row is [blob_ref] of the object in that row, and
    the VLArray gains the blobs of [stored_objects]. *)
Lemma store_blobs_eq (object_atom : bool) barray flatB :
  barray <> [] ->
  store_blobs object_atom barray flatB =
    Ok (map (blob_ref (Z.of_nat (length barray)) flatB) flatB,
        barray ++ map (stored_blob object_atom) (stored_objects flatB)).
Proof.
  intros Hne.
  assert (Hb : 1 <= Z.of_nat (length barray)) by (destruct barray; [congruence | cbn; lia]).
  unfold store_blobs, np_unique, blob_ref, stored_objects, none_first.
  set (idents := map id flatB). set (u := sorted_unique idents).
  set (bsize := Z.of_nat (length barray)) in *.
  assert (Hu : forall x, In x u <-> In x idents) by (intros x; apply sorted_unique_In).
  rewrite mapM_map. rewrite (mapM_Ok _ (first_with_id flatB)); cycle 1.
  { apply Forall_forall. intros x Hx. rewrite list_elem_of_In, Hu in Hx.
    destruct (first_with_id_lookup flatB x Hx) as [Hl _].
    fold idents in Hl. rewrite Hl. reflexivity. }
  rewrite bind_Ok, !map_map.
  assert (Hidx : forall x, In x idents ->
            u !! index_of x u = Some x /\ (index_of x u < length u)%nat).
  { intros x Hx. apply Hu in Hx. split; [apply index_of_lookup | apply index_of_lt]; exact Hx. }
  destruct u as [| x0 rest] eqn:Eu.
  - (* an empty batch *)
    assert (flatB = []) as ->.
    { destruct flatB as [| o l]; [reflexivity |]. exfalso.
      apply (proj2 (Hu (id o))). left. reflexivity. }
    reflexivity.
  - assert (Hx0 : In x0 idents) by (apply Hu; left; reflexivity).
    destruct (first_with_id_lookup flatB x0 Hx0) as [_ Hid0].
    cbn [map]. unfold is_None at 1. rewrite Hid0.
    destruct (Z.eqb_spec x0 (id py_None)) as [Hnone | Hnone].
    + (* None has the smallest identity *)
      cbn [tail]. subst idents. unfold stored_blob. rewrite !map_map, mapM_map.
      rewrite (mapM_Ok _
        (fun o => if index_of (id o) (x0 :: rest) is O then py_None
                  else first_with_id flatB (id o))); cycle 1.
      { apply Forall_forall. intros o Ho.
        assert (Hin : In (id o) (map id flatB)).
        { apply in_map_iff. exists o. split; [reflexivity | apply list_elem_of_In, Ho]. }
        destruct (Hidx _ Hin) as [Hl Hlt].
        destruct (index_of (id o) (x0 :: rest)) as [| k] eqn:Ek.
        - replace (Z.of_nat 0 + bsize - 1 =? bsize - 1) with true
            by (symmetry; apply Z.eqb_eq; lia).
          cbn [Z.eqb]. unfold np_index. rewrite length_map.
          replace (Z.of_nat (length rest) <? 0) with false by (symmetry; apply Z.ltb_ge; lia).
          replace (0 <=? Z.of_nat (length rest)) with true by (symmetry; apply Z.leb_le; lia).
          rewrite Nat2Z.id, lookup_app_r by (rewrite length_map; lia).
          rewrite length_map, Nat.sub_diag. reflexivity.
        - replace (Z.of_nat (S k) + bsize - 1 =? bsize - 1) with false
            by (symmetry; apply Z.eqb_neq; lia).
          replace (Z.of_nat (S k) + bsize - 1 =? 0) with false
            by (symmetry; apply Z.eqb_neq; lia).
          unfold np_index.
          replace (Z.of_nat (S k) + bsize - 1 - bsize) with (Z.of_nat k) by lia.
          replace (Z.of_nat k <? 0) with false by (symmetry; apply Z.ltb_ge; lia).
          replace (0 <=? Z.of_nat k) with true by (symmetry; apply Z.leb_le; lia).
          rewrite Nat2Z.id. cbn [length] in Hlt.
          rewrite lookup_app_l by (rewrite length_map; lia).
          rewrite list_lookup_fmap.
          change (rest !! k) with ((x0 :: rest) !! S k). rewrite Hl. reflexivity. }
      rewrite bind_Ok.
      rewrite bool_decide_eq_true_2; cycle 1.
      { rewrite map_map. apply map_ext_in. intros o Ho.
        assert (Hin : In (id o) (map id flatB)) by (apply in_map_iff; eauto).
        destruct (Hidx _ Hin) as [Hl _].
        destruct (index_of (id o) (x0 :: rest)) eqn:Ek.
        - apply index_of_0 in Ek. congruence.
        - apply first_with_id_lookup, Hin. }
      cbn [py_assert]. rewrite bind_Ok. f_equal. f_equal.
      apply map_ext. intros o.
      destruct (index_of (id o) (x0 :: rest)) as [| k].
      * replace (Z.of_nat 0 + bsize - 1 =? bsize - 1) with true
          by (symmetry; apply Z.eqb_eq; lia). reflexivity.
      * replace (Z.of_nat (S k) + bsize - 1 =? bsize - 1) with false
          by (symmetry; apply Z.eqb_neq; lia).
        replace (Z.of_nat (S k) =? 0) with false by (symmetry; apply Z.eqb_neq; lia).
        lia.
    + (* the smallest identity is not that of None *)
      subst idents. unfold stored_blob. rewrite !map_map, mapM_map.
      rewrite (mapM_Ok _ (fun o => first_with_id flatB (id o))); cycle 1.
      { apply Forall_forall. intros o Ho.
        assert (Hin : In (id o) (map id flatB)).
        { apply in_map_iff. exists o. split; [reflexivity | apply list_elem_of_In, Ho]. }
        destruct (Hidx _ Hin) as [Hl Hlt].
        replace (Z.of_nat (index_of (id o) (x0 :: rest)) + bsize =? 0) with false
          by (symmetry; apply Z.eqb_neq; lia).
        unfold np_index.
        replace (Z.of_nat (index_of (id o) (x0 :: rest)) + bsize - bsize)
          with (Z.of_nat (index_of (id o) (x0 :: rest))) by lia.
        replace (Z.of_nat (index_of (id o) (x0 :: rest)) <? 0) with false
          by (symmetry; apply Z.ltb_ge; lia).
        replace (0 <=? Z.of_nat (index_of (id o) (x0 :: rest))) with true
          by (symmetry; apply Z.leb_le; lia).
        rewrite Nat2Z.id.
        change (first_with_id flatB x0 :: map (first_with_id flatB) rest)
          with (map (first_with_id flatB) (x0 :: rest)).
        rewrite lookup_app_l by (rewrite length_map; exact Hlt).
        rewrite list_lookup_fmap, Hl. reflexivity. }
      rewrite bind_Ok.
      rewrite bool_decide_eq_true_2; cycle 1.
      { rewrite map_map. apply map_ext_in. intros o Ho.
        apply first_with_id_lookup, in_map_iff. eauto. }
      reflexivity.
Qed.
End StoreBlobs.

Section BlobDedup.
Context `{PyRuntime}.
Implicit Types (flatB : list PyObj) (barray : list Blob).

Lemma stored_objects_ids flatB :
  map id (map (first_with_id flatB) (sorted_unique (map id flatB)))
  = sorted_unique (map id flatB).
Proof.
  rewrite map_map. rewrite <- (map_id (sorted_unique (map id flatB))) at 2.
  apply map_ext_in. intros x Hx. apply first_with_id_lookup, sorted_unique_In, Hx.
Qed.

Lemma NoDup_tail {A} (l : list A) : NoDup l -> NoDup (tail l).
Proof. destruct 1; [constructor | assumption]. Qed.

Lemma elem_of_tail {A} (x : A) (l : list A) : x ∈ tail l -> x ∈ l.
Proof. destruct l; [auto | right; assumption]. Qed.

Lemma map_tail {A B} (f : A -> B) (l : list A) : map f (tail l) = tail (map f l).
Proof. destruct l; reflexivity. Qed.

(** What [store_blobs] does with a batch, on a VLArray that holds its
    sentinel.  Rows that hold the same object get the same reference;
    the appended objects have pairwise different identities and all
    come from the batch.  When [None] has the smallest identity of the
    batch, its rows get reference 0 and it is not appended; when it is
    in the batch without having the smallest identity, its rows get a
    reference other than 0 and it is appended like any other object. *)
Lemma store_blobs_dedup (object_atom : bool) barray flatB :
  barray <> [] ->
  exists ito,
    store_blobs object_atom barray flatB =
      Ok (ito, barray ++ map (stored_blob object_atom) (stored_objects flatB)) /\
    length ito = length flatB /\
    (forall i j x y, flatB !! i = Some x -> flatB !! j = Some y ->
                     id x = id y -> ito !! i = ito !! j) /\
    NoDup (map id (stored_objects flatB)) /\
    (forall o, o ∈ stored_objects flatB -> exists o', o' ∈ flatB /\ id o' = id o) /\
    (none_first flatB = true ->
       (forall i x, flatB !! i = Some x -> id x = id py_None -> ito !! i = Some 0) /\
       id py_None ∉ map id (stored_objects flatB)) /\
    (none_first flatB = false ->
       forall i x, flatB !! i = Some x -> id x = id py_None ->
         (exists r, ito !! i = Some r /\ 0 < r) /\
         id py_None ∈ map id (stored_objects flatB)).
Proof.
  intros Hne. eexists. split; [apply store_blobs_eq, Hne |].
  assert (Hb : 1 <= Z.of_nat (length barray)) by (destruct barray; [congruence | cbn; lia]).
  pose proof (sorted_unique_increasing (map id flatB)) as Hinc.
  pose proof (increasing_NoDup _ Hinc) as Hnd.
  pose proof (stored_objects_ids flatB) as Hids.
  split; [apply length_map |]. split; [| split; [| split; [| split]]].
  - intros i j x y Hi Hj Hxy. rewrite !list_lookup_fmap, Hi, Hj. cbn.
    unfold blob_ref. rewrite Hxy. reflexivity.
  - unfold stored_objects. destruct (none_first flatB).
    + rewrite map_tail, Hids. apply NoDup_tail, Hnd.
    + rewrite Hids. exact Hnd.
  - intros o Ho.
    assert (Hin : o ∈ map (first_with_id flatB) (sorted_unique (map id flatB))).
    { unfold stored_objects in Ho. destruct (none_first flatB); [| exact Ho].
      apply elem_of_tail, Ho. }
    apply list_elem_of_fmap in Hin. destruct Hin as (x & -> & Hx).
    rewrite list_elem_of_In, sorted_unique_In in Hx.
    destruct (first_with_id_lookup flatB x Hx) as [Hl Hid].
    exists (first_with_id flatB x). split; [| reflexivity].
    eapply list_elem_of_lookup_2, Hl.
  - intros Hnf. unfold none_first in Hnf. unfold stored_objects, blob_ref, none_first.
    destruct (sorted_unique (map id flatB)) as [| x0 rest] eqn:Eu; [discriminate |].
    rewrite Hnf. apply Z.eqb_eq in Hnf. subst x0. split.
    + intros i x Hi Hx. rewrite list_lookup_fmap, Hi. cbn [fmap option_fmap option_map].
      rewrite Hx. cbn [index_of]. rewrite Z.eqb_refl. reflexivity.
    + rewrite map_tail, Hids. cbn [tail]. inversion Hnd; subst. assumption.
  - intros Hnf i x Hi Hx. unfold stored_objects, blob_ref. rewrite Hnf. split.
    + rewrite list_lookup_fmap, Hi. cbn. eexists. split; [reflexivity | lia].
    + rewrite Hids, list_elem_of_In, sorted_unique_In, <- Hx.
      apply in_map, list_elem_of_In. eapply list_elem_of_lookup_2, Hi.
Qed.
End BlobDedup.

(** C1 (code evaluated at the failing input): a batch that holds an
    object whose identity is below that of [None].  The VLArray holds
    only its sentinel.  The two rows with [True] share reference 1;
    the row with [None] gets reference 2, not 0, and [None] is appended
    to the VLArray a second time. *)
Theorem store_blobs_None_not_smallest_id :
  id obj_True < id obj_None /\
  store_blobs true ["N."] [obj_True; obj_None; obj_True]
    = Ok ([1; 2; 1], ["N."; "T."; "N."]).
Proof. split; [reflexivity | vm_compute; reflexivity]. Qed.

(** With [None] at the smallest identity of the batch the same column
    shape gives reference 0 and appends nothing for it. *)
Example store_blobs_None_smallest_id :
  store_blobs true ["N."] [obj_spec1; obj_None; obj_spec1]
    = Ok ([1; 0; 1], ["N."; "spec1"]).
Proof. vm_compute. reflexivity. Qed.

(** ** Loading blobs: examples *)

Lemma fetch_blobs_with_cache_resolves_witness :
  exists blobs,
    _fetch_blobs_fp "N." example_tablet "spectrum"
      (NdArray [2; 2]%nat [1; -1; 0; 1]) true = Ok blobs /\
    shape blobs = [2; 2]%nat /\
    data blobs = ["s1"; "n1"; "N."; "s1"].
Proof.
  destruct (fetch_blobs_with_cache_resolves "N." example_tablet "spectrum"
              (NdArray [2; 2]%nat [1; -1; 0; 1]) example_cached
              ["N."; "s1"] ["N."; "n1"] eq_refl eq_refl eq_refl)
    as (blobs & Hfetch & Hshape & Hdata).
  - cbn. lia.
  - repeat constructor; cbn; lia.
  - exists blobs. split; [exact Hfetch |]. split; [exact Hshape |].
    destruct blobs as [sh d]. cbn [data] in Hdata |- *.
    repeat match goal with
           | Hf : Forall2 _ (_ :: _) _ |- _ =>
               apply Forall2_cons_inv_l in Hf;
               let b := fresh "b" in let d' := fresh "d" in
               let Hb := fresh "Hb" in let Hd := fresh "Hd" in
               destruct Hf as (b & d' & Hb & Hf & ->)
           | Hf : Forall2 _ [] _ |- _ => apply Forall2_nil_inv_l in Hf; subst
           end.
    repeat match goal with
           | Hb : (0 <= ?r -> _) /\ (?r < 0 -> _) |- _ =>
               destruct Hb as [Hp Hn];
               first [ specialize (Hp ltac:(lia)); cbn in Hp; injection Hp as <-; clear Hn
                     | specialize (Hn ltac:(lia)); cbn in Hn; injection Hn as <-; clear Hp ]
           end.
    reflexivity.
Defined.

Lemma fetch_blobs_main_only_rejects_negative_refs_witness :
  _fetch_blobs_fp "N." example_tablet "spectrum"
    (NdArray [3]%nat [1; -1; 0]) false = Raise AssertionError /\
  _fetch_blobs_fp "N." example_tablet "spectrum"
    (NdArray [3]%nat [1; 1; 0]) false = Ok (NdArray [3]%nat ["s1"; "s1"; "N."]).
Proof.
  split.
  - refine (proj1 (fetch_blobs_main_only_rejects_negative_refs "N." example_tablet
                     "spectrum" (NdArray [3]%nat [1; -1; 0]) false ["N."; "s1"]
                     (or_introl eq_refl) eq_refl) _).
    apply Exists_cons_tl, Exists_cons_hd. lia.
  - refine (proj2 (proj2 (fetch_blobs_main_only_rejects_negative_refs "N."
                     example_tablet "spectrum" (NdArray [3]%nat [1; 1; 0]) false
                     ["N."; "s1"] (or_introl eq_refl) eq_refl)) _).
    repeat constructor; cbn; lia.
Defined.

(** ** [append] end to end *)

(** Appending [new_rows]: the keys are generated from the sequence of
    the cell (3 before, 6 after), the shared spectrum is stored once,
    the row without spectrum refers to element 0. *)
Example append_new_rows :
  let r := append stars example_fs new_rows GMain None false in
  snd r = Ok [281474976710659; 281474976710660; 281474976710661] /\
  _nrows (fst (fst r)) = Some 5 /\
  (rg_table <$> main_after r) =
    Some [("obj_id", [281474976710657; 281474976710658; 281474976710659;
                      281474976710660; 281474976710661]);
          ("ra", [10; 20; 1; 2; 3]); ("dec", [-5; 5; 3; 4; 5]);
          ("spectrum", [1; 0; 2; 0; 2])] /\
  (main_after r ≫= fun g => rg_blobs g !! "spectrum") = Some ["N."; "s1"; "spec1"] /\
  (main_after r ≫= fun g => rg_arrays g !! "_seq_obj_id") = Some 6 /\
  lockfiles (snd (fst r)) = ∅.
Proof. vm_compute. repeat split; reflexivity. Qed.

(** Updating one row and adding one: the row count grows by one, the
    updated row is overwritten in place, the sequence moves above the
    new object index. *)
Example append_updated_rows :
  let r := append stars example_fs updated_rows GMain None true in
  snd r = Ok [281474976710657; 281474976710670] /\
  _nrows (fst (fst r)) = Some 3 /\
  (rg_table <$> main_after r) =
    Some [("obj_id", [281474976710657; 281474976710658; 281474976710670]);
          ("ra", [100; 20; 200]); ("dec", [300; 5; 400]);
          ("spectrum", [2; 0; 1])] /\
  (main_after r ≫= fun g => rg_blobs g !! "spectrum") = Some ["N."; "spec1"; "spec2"] /\
  (main_after r ≫= fun g => rg_arrays g !! "_seq_obj_id") = Some 15.
Proof. vm_compute. repeat split; reflexivity. Qed.
(** ** [append]: lock files *)

Section AppendLocks.
Context `{PyRuntime} `{Pixelization}.

Lemma write_cell_lockfiles (t : Table) (group : Group) (_update cell_id_given : bool)
    (key : string) (cur : Z) (incell : list bool) (cgroups : list (string * Schema))
    (fs : FS Blob) (cols : ColGroup) (lv : LoopVars) :
  lockfiles (fst (write_cell t group _update cell_id_given key cur incell cgroups
                    fs cols lv)) = lockfiles fs.
Proof.
  revert fs cols lv. induction cgroups as [| [cgroup schema] rest IH]; intros fs cols lv.
  - reflexivity.
  - cbn [write_cell]. destruct (_is_pseudotablet cgroup) as [[|] | e]; [apply IH | | reflexivity].
    destruct (_open_tablet_w t fs cur cgroup) as [[fn fp] | e]; [| reflexivity].
    destruct (write_cgroup _ _ _ _ _ _ _ _ _ _ _) as [fp' [[cs l] | e]]; [| reflexivity].
    rewrite IH. reflexivity.
Qed.

Lemma find_unlocked_spec (t : Table) (fs : FS Blob) (unique_cells : list Z)
    (ks : list nat) (i : nat) (cur : Z) (lock : string) :
  find_unlocked t fs unique_cells ks = Ok (i, cur, lock) ->
  (lock ∉ lockfiles fs) /\ unique_cells !! i = Some cur /\
  exists prefix, _cell_prefix t cur = Ok prefix /\ lock = prefix +:+ ".lock".
Proof.
  induction ks as [| k ks IH]; [discriminate |]. cbn [find_unlocked].
  destruct (unique_cells !! (k mod length unique_cells)%nat) as [c |] eqn:Ec;
    [| discriminate].
  cbn [of_option]. rewrite bind_Ok.
  destruct (_cell_prefix t c) as [prefix |] eqn:Ep; [| discriminate].
  rewrite bind_Ok. case_bool_decide as Hl; [exact IH |].
  intros [= <- <- <-]. split; [exact Hl |]. split; [exact Ec |]. eauto.
Qed.

Lemma store_cells_lockfiles (n : nat) (t : Table) (group : Group)
    (_update cell_id_given : bool) (key : string) (cells unique_cells : list Z)
    (fs : FS Blob) (cols : ColGroup) (lv : LoopVars) (nrows : option Z) (ntot : Z) :
  let r := store_cells n t group _update cell_id_given key cells unique_cells
             fs cols lv nrows ntot in
  lockfiles fs ⊆ lockfiles (fst (fst r)) /\
  (forall x, snd r = Ok x -> lockfiles (fst (fst r)) = lockfiles fs).
Proof.
  revert unique_cells fs cols lv nrows ntot.
  induction n as [| n IH]; intros unique_cells fs cols lv nrows ntot.
  - destruct unique_cells; cbn; auto.
  - destruct unique_cells as [| c0 ucs]; [cbn; auto |].
    cbn [store_cells]. set (ucells := c0 :: ucs).
    destruct (find_unlocked t fs ucells (seq 0 3600)) as [[[i cur] lock] | e] eqn:Ef;
      [| cbn; split; [reflexivity | discriminate]].
    apply find_unlocked_spec in Ef. destruct Ef as (Hfree & _ & _).
    set (fs1 := {| files := files fs; lockfiles := {[lock]} ∪ lockfiles fs |}).
    assert (Hsub : lockfiles fs ⊆ lockfiles fs1).
    { intros x Hx. unfold fs1. cbn [lockfiles]. rewrite elem_of_union. right. exact Hx. }
    pose proof (write_cell_lockfiles t group _update cell_id_given key cur
                  (map (fun c => c =? cur) cells) (_cgroups t) fs1 cols lv) as Hw.
    destruct (write_cell t group _update cell_id_given key cur
                (map (fun c => c =? cur) cells) (_cgroups t) fs1 cols lv)
      as [fs2 [[cols2 lv2] | e]].
    + cbn [fst] in Hw.
      set (fs3 := {| files := files fs2; lockfiles := lockfiles fs2 ∖ {[lock]} |}).
      assert (Hl3 : lockfiles fs3 = lockfiles fs).
      { unfold fs3. cbn [lockfiles]. rewrite Hw. unfold fs1. cbn [lockfiles].
        apply set_eq. intros x.
        rewrite elem_of_difference, elem_of_union, elem_of_singleton.
        split; [tauto |]. intros Hx. split; [tauto | congruence]. }
      destruct (lv_nnew lv2) as [nnew |];
        [| cbn [fst snd]; rewrite Hl3; split; [reflexivity | discriminate]].
      destruct nrows as [nr |].
      * specialize (IH (delete i ucells) fs3 cols2 lv2 (Some (nr + nnew))
                      (ntot + nnew)).
        cbn zeta in IH. rewrite Hl3 in IH. exact IH.
      * cbn [fst snd]. rewrite Hl3. split; [reflexivity | discriminate].
    + cbn [fst] in Hw. cbn [fst snd]. split; [| discriminate]. rewrite Hw. exact Hsub.
Qed.

(** [append] takes the lock of one cell at a time and removes it when
    the cell is written (line 1114).  It never removes a lock file it
    found; when it returns normally, the lock files are the ones that
    were there before the call. *)
Theorem append_lockfiles (t : Table) (fs : FS Blob) (cols_ : list (string * Column))
    (group : Group) (cell_id : option (list Z)) (_update : bool) :
  let r := append t fs cols_ group cell_id _update in
  lockfiles fs ⊆ lockfiles (snd (fst r)) /\
  (forall keys, snd r = Ok keys -> lockfiles (snd (fst r)) = lockfiles fs).
Proof.
  unfold append.
  destruct (append_prepare t cols_ group cell_id _update) as [[[key cols] cells] | e];
    [| cbn; split; [reflexivity | discriminate]].
  pose proof (store_cells_lockfiles (length (list_set cells)) t group _update
                (bool_decide (is_Some cell_id)) key cells (list_set cells) fs cols
                {| lv_nrows := None; lv_nnew := None; lv_idx := None |} (_nrows t) 0) as Hs.
  cbn zeta in Hs.
  destruct (store_cells _ _ _ _ _ _ _ _ _ _ _ _ _) as [[fs' nrows] [[cols' ntot] | e]];
    cbn in Hs |- *.
  - destruct Hs as [Hsub Heq]. split; [exact Hsub |]. intros keys _. eapply Heq. reflexivity.
  - destruct Hs as [Hsub _]. split; [exact Hsub | discriminate].
Qed.
End AppendLocks.

(** ** [append]: the files it writes *)

Section AppendFrame.
Context `{PyRuntime} `{Pixelization}.

Lemma _open_tablet_w_file (t : Table) (fs : FS Blob) (cell_id : Z) (cgroup fn : string)
    (fp : Tablet Blob) :
  _open_tablet_w t fs cell_id cgroup = Ok (fn, fp) ->
  _tablet_file t cell_id cgroup = Ok fn.
Proof.
  unfold _open_tablet_w. destruct (_tablet_file t cell_id cgroup) as [fn' |]; [| discriminate].
  rewrite bind_Ok. destruct (files fs !! fn').
  - intros [= <- _]. reflexivity.
  - destruct (_get_schema t (Some cgroup)); [| discriminate].
    rewrite bind_Ok. intros [= <- _]. reflexivity.
Qed.

Lemma write_cell_files_frame (t : Table) (group : Group) (_update cell_id_given : bool)
    (key : string) (cur : Z) (incell : list bool) (cgroups : list (string * Schema))
    (fs : FS Blob) (cols : ColGroup) (lv : LoopVars) (p : string) :
  (forall cg, cg ∈ map fst cgroups -> _tablet_file t cur cg <> Ok p) ->
  files (fst (write_cell t group _update cell_id_given key cur incell cgroups
                fs cols lv)) !! p = files fs !! p.
Proof.
  revert fs cols lv. induction cgroups as [| [cgroup schema] rest IH];
    intros fs cols lv Hp; [reflexivity |].
  assert (Hrest : forall cg, cg ∈ map fst rest -> _tablet_file t cur cg <> Ok p).
  { intros cg Hcg. apply Hp. right. exact Hcg. }
  cbn [write_cell].
  destruct (_is_pseudotablet cgroup) as [[|] | e]; [apply IH, Hrest | | reflexivity].
  destruct (_open_tablet_w t fs cur cgroup) as [[fn fp] |] eqn:Eo; [| reflexivity].
  assert (Hfn : fn <> p).
  { intros ->. apply _open_tablet_w_file in Eo. apply (Hp cgroup); [left | exact Eo]. }
  destruct (write_cgroup t group _update cell_id_given key cgroup schema fp cols incell lv)
    as [fp' [[cols' lv'] | e]].
  - rewrite IH by exact Hrest. cbn [files]. apply lookup_insert_ne, Hfn.
  - cbn [fst files]. apply lookup_insert_ne, Hfn.
Qed.

Lemma elem_of_delete_index {A} (x : A) (i : nat) (l : list A) :
  x ∈ delete i l -> x ∈ l.
Proof.
  revert i. induction l as [| y l IH]; intros [| i]; cbn; intros Hx;
    try (inversion Hx; fail).
  - right. exact Hx.
  - inversion Hx; subst; [left | right; eapply IH; eassumption].
Qed.

Lemma store_cells_files_frame (n : nat) (t : Table) (group : Group)
    (_update cell_id_given : bool) (key : string) (cells unique_cells : list Z)
    (fs : FS Blob) (cols : ColGroup) (lv : LoopVars) (nrows : option Z) (ntot : Z)
    (p : string) :
  (forall c cg, c ∈ unique_cells -> cg ∈ map fst (_cgroups t) ->
                _tablet_file t c cg <> Ok p) ->
  files (fst (fst (store_cells n t group _update cell_id_given key cells unique_cells
                     fs cols lv nrows ntot))) !! p = files fs !! p.
Proof.
  revert unique_cells fs cols lv nrows ntot.
  induction n as [| n IH]; intros unique_cells fs cols lv nrows ntot Hp.
  - destruct unique_cells; reflexivity.
  - destruct unique_cells as [| c0 ucs]; [reflexivity |].
    cbn [store_cells]. set (ucells := c0 :: ucs) in *.
    destruct (find_unlocked t fs ucells (seq 0 3600)) as [[[i cur] lock] | e] eqn:Ef;
      [| reflexivity].
    apply find_unlocked_spec in Ef. destruct Ef as (_ & Hcur & _).
    set (fs1 := {| files := files fs; lockfiles := {[lock]} ∪ lockfiles fs |}).
    pose proof (write_cell_files_frame t group _update cell_id_given key cur
                  (map (fun c => c =? cur) cells) (_cgroups t) fs1 cols lv p) as Hw.
    destruct (write_cell t group _update cell_id_given key cur
                (map (fun c => c =? cur) cells) (_cgroups t) fs1 cols lv)
      as [fs2 [[cols2 lv2] | e]]; cbn [fst] in Hw.
    + destruct (lv_nnew lv2) as [nnew |];
        [| cbn [fst files]; apply Hw; intros cg; apply Hp;
           eapply list_elem_of_lookup_2, Hcur].
      destruct nrows as [nr |].
      * rewrite IH.
        -- cbn [files]. apply Hw. intros cg. apply Hp.
           eapply list_elem_of_lookup_2, Hcur.
        -- intros c cg Hc. apply Hp. eapply elem_of_delete_index, Hc.
      * cbn [fst files]. apply Hw. intros cg. apply Hp.
        eapply list_elem_of_lookup_2, Hcur.
    + cbn [fst]. apply Hw. intros cg. apply Hp. eapply list_elem_of_lookup_2, Hcur.
Qed.

(** [append] opens, for every cell a row of the batch goes to, the
    tablet of every cgroup of that cell; a file whose path is not the
    path of such a tablet is after the call, whether it returns or
    raises, what it was before. *)
Theorem append_writes_only_tablets_of_batch_cells (t : Table) (fs : FS Blob)
    (cols_ : list (string * Column)) (group : Group) (cell_id : option (list Z))
    (_update : bool) (p : string) :
  (forall key cols cells c cg,
     append_prepare t cols_ group cell_id _update = Ok (key, cols, cells) ->
     c ∈ cells -> cg ∈ map fst (_cgroups t) -> _tablet_file t c cg <> Ok p) ->
  files (snd (fst (append t fs cols_ group cell_id _update))) !! p = files fs !! p.
Proof.
  intros Hp. unfold append.
  destruct (append_prepare t cols_ group cell_id _update) as [[[key cols] cells] | e];
    [| reflexivity].
  pose proof (store_cells_files_frame (length (list_set cells)) t group _update
                (bool_decide (is_Some cell_id)) key cells (list_set cells) fs cols
                {| lv_nrows := None; lv_nnew := None; lv_idx := None |} (_nrows t) 0 p) as Hs.
  destruct (store_cells _ _ _ _ _ _ _ _ _ _ _ _ _) as [[fs' nrows] [[cols' ntot] | e]];
    cbn [fst snd] in Hs |- *; apply Hs; intros c cg Hc;
    apply (Hp key cols cells c cg eq_refl);
    apply list_set_elem, Hc.
Qed.
End AppendFrame.
Lemma append_lockfiles_witness :
  lockfiles (snd (fst (@append example_runtime example_pix stars example_fs new_rows GMain None false)))
  = lockfiles example_fs.
Proof.
  apply (proj2 (@append_lockfiles example_runtime example_pix stars example_fs new_rows GMain None false)
           [281474976710659; 281474976710660; 281474976710661]).
  vm_compute. reflexivity.
Defined.

Lemma append_writes_only_tablets_of_batch_cells_witness :
  files (snd (fst (@append example_runtime example_pix stars example_fs new_rows GMain None false)))
    !! "/db/stars/tablets/562949953421312/stars.main.h5"
  = files example_fs !! "/db/stars/tablets/562949953421312/stars.main.h5".
Proof.
  apply (@append_writes_only_tablets_of_batch_cells example_runtime example_pix stars example_fs new_rows GMain None
           false "/db/stars/tablets/562949953421312/stars.main.h5").
  intros key cols cells c cg Hprep Hc Hcg.
  vm_compute in Hprep. injection Hprep as _ _ <-.
  assert (Ec : c = 281474976710656).
  { repeat (apply elem_of_cons in Hc; destruct Hc as [Hc | Hc]; [exact Hc |]).
    inversion Hc. }
  subst c. cbn in Hcg.
  repeat (apply elem_of_cons in Hcg; destruct Hcg as [-> | Hcg];
          [vm_compute; discriminate |]).
  inversion Hcg.
Defined.

(** ** [append]: the row count *)

Section AppendCount.
Context `{PyRuntime} `{Pixelization}.

Lemma cg_len_set_same (cols : ColGroup) (k : string) (l l' : list Z) :
  num_col cols k = Ok l -> length l' = length l ->
  cg_len (OrderedDict.set cols k (NumCol l')) = cg_len cols.
Proof.
  unfold num_col. destruct cols as [| [k0 c0] rest]; [discriminate |].
  cbn [OrderedDict.get OrderedDict.set]. destruct (String.eqb k0 k).
  - cbn. destruct c0; [| discriminate]. intros [= ->] Hl. exact Hl.
  - reflexivity.
Qed.

Lemma cg_len_set_fresh (cols : ColGroup) (k : string) (c : Column) :
  cols <> [] -> OrderedDict.get cols k = None ->
  cg_len (OrderedDict.set cols k c) = cg_len cols.
Proof.
  destruct cols as [| [k0 c0] rest]; [congruence |]. intros _.
  cbn [OrderedDict.get OrderedDict.set]. destruct (String.eqb k0 k); [discriminate |].
  reflexivity.
Qed.

Lemma primary_block_cg_len (t : Table) (group : Group) (_update cell_id_given : bool)
    (key : string) (g g1 : RowGroup Blob) (colsT colsT1 cols cols1 : ColGroup)
    (incell : list bool) (lv lv1 : LoopVars) :
  primary_block t group _update cell_id_given key colsT cols incell lv g
    = (g1, Ok (colsT1, cols1, lv1)) ->
  cg_len cols1 = cg_len cols.
Proof.
  intros Hpb. apply primary_block_Ok in Hpb.
  destruct Hpb as (keysT & arrays & keysT' & allkeys & _ & _ & Hall & _ & _ & -> & _).
  eapply cg_len_set_same; [exact Hall | apply mask_assign_length].
Qed.

Lemma write_cgroup_cg_len (t : Table) (group : Group) (_update cell_id_given : bool)
    (key cgroup : string) (schema : Schema) (fp fp' : Tablet Blob)
    (cols cols' : ColGroup) (incell : list bool) (lv lv' : LoopVars) :
  write_cgroup t group _update cell_id_given key cgroup schema fp cols incell lv
    = (fp', Ok (cols', lv')) ->
  cg_len cols' = cg_len cols.
Proof.
  intros Hw. apply write_cgroup_Ok in Hw. cbv zeta in Hw.
  destruct Hw as (g1 & colsT1 & lv1 & g2 & colsB2 & rows & lv2 & g3 & rows3 &
                  Hpb & _).
  case_bool_decide.
  - eapply primary_block_cg_len, Hpb.
  - destruct Hpb as (_ & _ & -> & _). reflexivity.
Qed.

Lemma write_cell_cg_len (t : Table) (group : Group) (_update cell_id_given : bool)
    (key : string) (cur : Z) (incell : list bool) (cgroups : list (string * Schema))
    (fs fs' : FS Blob) (cols cols' : ColGroup) (lv lv' : LoopVars) :
  write_cell t group _update cell_id_given key cur incell cgroups fs cols lv
    = (fs', Ok (cols', lv')) ->
  cg_len cols' = cg_len cols.
Proof.
  revert fs cols lv. induction cgroups as [| [cgroup schema] rest IH]; intros fs cols lv.
  - intros [= _ <- _]. reflexivity.
  - cbn [write_cell]. destruct (_is_pseudotablet cgroup) as [[|] | e];
      [apply IH | | discriminate].
    destruct (_open_tablet_w t fs cur cgroup) as [[fn fp] |]; [| discriminate].
    destruct (write_cgroup t group _update cell_id_given key cgroup schema fp cols incell lv)
      as [fp' [[cols1 lv1] | e]] eqn:Ew; [| discriminate].
    intros Hrest. apply IH in Hrest. rewrite Hrest.
    eapply write_cgroup_cg_len, Ew.
Qed.

Lemma store_cells_count (n : nat) (t : Table) (group : Group)
    (_update cell_id_given : bool) (key : string) (cells unique_cells : list Z)
    (fs fs' : FS Blob) (cols cols' : ColGroup) (lv : LoopVars)
    (nrows nrows' : option Z) (ntot ntot' : Z) :
  store_cells n t group _update cell_id_given key cells unique_cells fs cols lv nrows ntot
    = ((fs', nrows'), Ok (cols', ntot')) ->
  nrows' = (fun r => r + (ntot' - ntot)) <$> nrows /\ cg_len cols' = cg_len cols.
Proof.
  assert (Hstop : forall (o : option Z) (z : Z), o = (fun r => r + (z - z)) <$> o).
  { intros [r |] z; cbn; [f_equal; lia | reflexivity]. }
  revert unique_cells fs cols lv nrows ntot.
  induction n as [| n IH]; intros unique_cells fs cols lv nrows ntot.
  - destruct unique_cells; cbn [store_cells]; intros [= _ <- <- <-]; auto.
  - destruct unique_cells as [| c0 ucs]; [cbn [store_cells]; intros [= _ <- <- <-]; auto |].
    cbn [store_cells]. set (ucells := c0 :: ucs) in *.
    destruct (find_unlocked t fs ucells (seq 0 3600)) as [[[i cur] lock] | e];
      [| discriminate].
    destruct (write_cell _ _ _ _ _ _ _ _ _ _ _) as [fs2 [[cols2 lv2] | e]] eqn:Ew;
      [| discriminate].
    apply write_cell_cg_len in Ew.
    destruct (lv_nnew lv2) as [nnew |]; [| discriminate].
    destruct nrows as [nr |]; [| discriminate].
    intros Hrest. apply IH in Hrest. destruct Hrest as [-> ->].
    split; [cbn; f_equal; lia | exact Ew].
Qed.

Lemma prepare_keys_cg_len (cols cols' : ColGroup) (key : string)
    (cell_id_given _update : bool) :
  cols <> [] ->
  prepare_keys cols key cell_id_given _update = Ok cols' ->
  cg_len cols' = cg_len cols.
Proof.
  intros Hne. unfold prepare_keys.
  destruct (OrderedDict.get cols key) as [c |] eqn:Eg.
  - intros Hp. apply bind_Ok_inv in Hp. destruct Hp as (keys & Hk & Hp).
    apply bind_Ok_inv in Hp. destruct Hp as (u & _ & [= <-]).
    eapply cg_len_set_same; [exact Hk |].
    rewrite length_zip_with, length_map. lia.
  - intros [= <-]. apply cg_len_set_fresh; assumption.
Qed.

Lemma assign_cells_cg_len (t : Table) (group : Group) (cell_id : option (list Z))
    (cols cols' : ColGroup) (key : string) (cells : list Z) :
  assign_cells t group cell_id cols key = Ok (cols', cells) ->
  cg_len cols' = cg_len cols.
Proof.
  unfold assign_cells. destruct cell_id as [given |].
  - intros Ha. apply bind_Ok_inv in Ha. destruct Ha as (u & _ & [= <- _]). reflexivity.
  - intros Ha. apply bind_Ok_inv in Ha. destruct Ha as (keys & Hk & Ha).
    apply bind_Ok_inv in Ha. destruct Ha as (cols1 & Hc & Ha).
    apply bind_Ok_inv in Ha. destruct Ha as (keys1 & _ & [= <- _]).
    destruct (forallb _ keys); [injection Hc as <-; reflexivity |].
    apply bind_Ok_inv in Hc. destruct Hc as (u1 & _ & Hc).
    apply bind_Ok_inv in Hc. destruct Hc as ([lon lat] & _ & Hc).
    apply bind_Ok_inv in Hc. destruct Hc as (u2 & _ & Hc).
    apply bind_Ok_inv in Hc. destruct Hc as (u3 & _ & Hc).
    apply bind_Ok_inv in Hc. destruct Hc as (lons & _ & Hc).
    apply bind_Ok_inv in Hc. destruct Hc as (lats & _ & Hc).
    apply bind_Ok_inv in Hc. destruct Hc as (ts & _ & [= <-]).
    eapply cg_len_set_same; [exact Hk | apply mask_assign_length].
Qed.

(** A plain append (not an update) that returns has raised the row
    count [_nrows] by the number of rows of the batch: the assertion of
    line 1120 passed, and line 1117 added the rows of every cell.  A
    table without a row count stays without one, which only a batch of no
    rows gets to. *)
Theorem append_counts_rows (t : Table) (fs : FS Blob) (cols_ : list (string * Column))
    (group : Group) (cell_id : option (list Z)) (cols0 : ColGroup) (keys : list Z) :
  resolve_columns t cols_ = Ok cols0 ->
  snd (append t fs cols_ group cell_id false) = Ok keys ->
  _nrows (fst (fst (append t fs cols_ group cell_id false)))
  = (fun r => r + Z.of_nat (cg_len cols0)) <$> _nrows t.
Proof.
  intros Hres. unfold append.
  destruct (append_prepare t cols_ group cell_id false) as [[[key cols] cells] |] eqn:Ep;
    [| discriminate].
  unfold append_prepare in Ep. rewrite Hres in Ep. cbn [negb orb py_assert] in Ep.
  rewrite !bind_Ok in Ep.
  apply bind_Ok_inv in Ep. destruct Ep as (u & Hne & Ep).
  apply bind_Ok_inv in Ep. destruct Ep as (pk & _ & Ep).
  apply bind_Ok_inv in Ep. destruct Ep as (cols1 & Hprep & Ep).
  apply bind_Ok_inv in Ep. destruct Ep as ([cols2 cells2] & Hass & [= <- <- <-]).
  assert (Hne' : cols0 <> []).
  { intros E. rewrite E, bool_decide_eq_true_2 in Hne by reflexivity. discriminate Hne. }
  apply prepare_keys_cg_len in Hprep; [| exact Hne'].
  apply assign_cells_cg_len in Hass.
  destruct (store_cells _ _ _ _ _ _ _ _ _ _ _ _ _) as [[fs' nrows'] [[cols' ntot] | e]] eqn:Es;
    [| discriminate].
  apply store_cells_count in Es. destruct Es as [-> Hlen].
  cbn [fst snd with_nrows _nrows orb]. intros Hfin.
  apply bind_Ok_inv in Hfin. destruct Hfin as (u' & Hassert & _).
  unfold py_assert in Hassert. destruct (ntot =? Z.of_nat (cg_len cols')) eqn:En;
    [| discriminate].
  apply Z.eqb_eq in En. rewrite En, Hlen, Hass, Hprep, Z.sub_0_r. reflexivity.
Qed.
End AppendCount.

Lemma append_counts_rows_witness :
  _nrows (fst (fst (@append example_runtime example_pix stars example_fs new_rows
                      GMain None false)))
  = Some 5.
Proof.
  apply (@append_counts_rows example_runtime example_pix stars example_fs new_rows
           GMain None
           [("ra", @NumCol example_runtime [1; 2; 3]); ("dec", NumCol [3; 4; 5]);
            ("spectrum", @ObjCol example_runtime [obj_spec1; obj_None; obj_spec1])]
           [281474976710659; 281474976710660; 281474976710661]).
  - vm_compute. reflexivity.
  - vm_compute. reflexivity.
Defined.

(** ** Storing a blob column and reading it back *)

Section StoreLoad.
Context `{PyRuntime}.
Implicit Types (flatB : list PyObj) (barray : list Blob).

Lemma blob_ref_stored (object_atom : bool) barray flatB (o : PyObj) :
  barray <> [] -> o ∈ flatB ->
  let r := blob_ref (Z.of_nat (length barray)) flatB o in
  0 <= r /\
  if is_None o && none_first flatB
  then r = 0
  else (barray ++ map (stored_blob object_atom) (stored_objects flatB)) !! Z.to_nat r
       = Some (stored_blob object_atom (first_with_id flatB (id o))).
Proof.
  intros Hne Ho.
  assert (Hb : 1 <= Z.of_nat (length barray)) by (destruct barray; [congruence | cbn; lia]).
  assert (Hin : In (id o) (sorted_unique (map id flatB))).
  { apply sorted_unique_In, in_map, list_elem_of_In, Ho. }
  pose proof (index_of_lookup _ _ Hin) as Hl.
  unfold blob_ref, stored_objects, none_first in *.
  destruct (sorted_unique (map id flatB)) as [| x0 rest] eqn:Eu; [destruct Hin |].
  destruct (x0 =? id py_None) eqn:E0.
  - apply Z.eqb_eq in E0.
    destruct (index_of (id o) (x0 :: rest)) as [| k'] eqn:Ek.
    + apply index_of_0 in Ek. change (Z.of_nat 0 =? 0) with true. cbn iota.
      split; [lia |]. unfold is_None. rewrite Ek, E0, Z.eqb_refl. reflexivity.
    + assert (Hno : is_None o = false).
      { unfold is_None. apply Z.eqb_neq. intros Hid.
        cbn in Ek. rewrite Hid, E0, Z.eqb_refl in Ek. discriminate Ek. }
      rewrite Hno. cbn [andb]. replace (Z.of_nat (S k') =? 0) with false
        by (symmetry; apply Z.eqb_neq; lia).
      split; [lia |].
      replace (Z.to_nat (Z.of_nat (S k') - 1 + Z.of_nat (length barray)))
        with (length barray + k')%nat by lia.
      rewrite lookup_app_r by lia. replace (length barray + k' - length barray)%nat
        with k' by lia.
      cbn [map tail]. change ((x0 :: rest) !! S k') with (rest !! k') in Hl.
      rewrite (list_lookup_fmap (stored_blob object_atom)).
      rewrite (list_lookup_fmap (first_with_id flatB)), Hl. reflexivity.
  - rewrite andb_false_r. split; [lia |].
    set (k := index_of (id o) (x0 :: rest)) in *.
    replace (Z.to_nat (Z.of_nat k + Z.of_nat (length barray)))
      with (length barray + k)%nat by lia.
    rewrite lookup_app_r by lia. replace (length barray + k - length barray)%nat
      with k by lia.
    rewrite (list_lookup_fmap (stored_blob object_atom)).
    rewrite (list_lookup_fmap (first_with_id flatB)), Hl. reflexivity.
Qed.

Lemma store_blobs_then_load_lemma (object_atom : bool) barray barray' flatB (ito : list Z) :
  barray <> [] ->
  store_blobs object_atom barray flatB = Ok (ito, barray') ->
  (forall k b, barray !! k = Some b -> barray' !! k = Some b) /\
  exists loaded,
    _smart_load_blobs barray' ito = Ok loaded /\
    length loaded = length flatB /\
    forall i o b, flatB !! i = Some o -> loaded !! i = Some b ->
      if is_None o && none_first flatB
      then barray !! O = Some b
      else exists o', o' ∈ flatB /\ id o' = id o /\ b = stored_blob object_atom o'.
Proof.
  intros Hne. rewrite store_blobs_eq by exact Hne. intros [= <- <-].
  set (barray' := barray ++ map (stored_blob object_atom) (stored_objects flatB)).
  assert (Eb : exists b0, barray !! O = Some b0).
  { destruct barray as [| b0 brest]; [congruence | eauto]. }
  destruct Eb as [b0 Eb].
  assert (Hrange : Forall (fun r => 0 <= r /\ (Z.to_nat r < length barray')%nat)
                     (map (blob_ref (Z.of_nat (length barray)) flatB) flatB)).
  { apply Forall_forall. intros r Hr. apply list_elem_of_fmap in Hr.
    destruct Hr as (o & -> & Ho).
    destruct (blob_ref_stored object_atom barray flatB o Hne Ho) as [H0 Hr].
    split; [exact H0 |]. destruct (is_None o && none_first flatB).
    - rewrite Hr. unfold barray'. rewrite length_app.
      apply lookup_lt_Some in Eb. cbn. lia.
    - eapply lookup_lt_Some, Hr. }
  split.
  { intros k b Hk. unfold barray'. apply lookup_app_l_Some, Hk. }
  exists (map (vl_get b0 barray') (map (blob_ref (Z.of_nat (length barray)) flatB) flatB)).
  split; [apply _smart_load_blobs_Ok, Hrange |].
  split; [rewrite !length_map; reflexivity |].
  intros i o b Hi. rewrite !list_lookup_fmap, Hi. cbn. intros [= <-].
  assert (Ho : o ∈ flatB) by (eapply list_elem_of_lookup_2, Hi).
  destruct (blob_ref_stored object_atom barray flatB o Hne Ho) as [H0 Hr].
  destruct (is_None o && none_first flatB).
  - rewrite Hr. unfold vl_get, barray'. cbn [Z.to_nat].
    rewrite (lookup_app_l_Some _ _ _ _ Eb). exact Eb.
  - unfold vl_get. fold barray' in Hr. rewrite Hr. cbn.
    assert (Hin : In (id o) (map id flatB)) by (apply in_map, list_elem_of_In, Ho).
    destruct (first_with_id_lookup flatB (id o) Hin) as [Hl Hid].
    exists (first_with_id flatB (id o)). split; [| auto].
    eapply list_elem_of_lookup_2, Hl.
Qed.

(** Writing a blob column and reading it back through the references
    written for its rows.  [store_blobs] only appends to the VLArray, so
    the references of earlier rows keep their blobs.  Read with
    [_smart_load_blobs], the reference of a row gives the blob stored for
    the object of that row (an object of the batch with the same
    identity); for a row holding [None], when [None] has the smallest
    identity of the batch, it is reference 0 and gives the first element
    of the VLArray as it was. *)
Theorem store_blobs_then_load (object_atom : bool) barray barray' flatB (ito : list Z) :
  barray <> [] ->
  store_blobs object_atom barray flatB = Ok (ito, barray') ->
  (forall k b, barray !! k = Some b -> barray' !! k = Some b) /\
  exists loaded,
    _smart_load_blobs barray' ito = Ok loaded /\
    length loaded = length flatB /\
    forall i o b, flatB !! i = Some o -> loaded !! i = Some b ->
      if is_None o && none_first flatB
      then barray !! O = Some b
      else exists o', o' ∈ flatB /\ id o' = id o /\ b = stored_blob object_atom o'.
Proof. apply store_blobs_then_load_lemma. Qed.
End StoreLoad.

Lemma store_blobs_then_load_witness :
  exists loaded,
    @_smart_load_blobs string ["N."; "s1"; "spec1"] [2; 0; 2] = Ok loaded /\
    length loaded = 3%nat.
Proof.
  destruct (@store_blobs_then_load example_runtime true ["N."; "s1"] ["N."; "s1"; "spec1"]
              [obj_spec1; obj_None; obj_spec1] [2; 0; 2])
    as (_ & loaded & Hload & Hlen & _).
  - discriminate.
  - vm_compute. reflexivity.
  - exists loaded. split; assumption.
Defined.

(** ** Locating updated rows *)

Lemma insert_index_perm (a : list Z) (i : nat) (s : list nat) :
  insert_index a i s ≡ₚ i :: s.
Proof.
  induction s as [| j s IH]; [reflexivity |]. cbn [insert_index].
  destruct (_ <? _); [reflexivity |]. rewrite IH. apply perm_swap.
Qed.

Lemma insert_index_sorted (a : list Z) (i : nat) (s : list nat) :
  nondecreasing (map (fun j => default 0 (a !! j)) s) ->
  nondecreasing (map (fun j => default 0 (a !! j)) (insert_index a i s)).
Proof.
  set (key := fun j => default 0 (a !! j)).
  induction s as [| j s IH]; intros Hs.
  - cbn. constructor; constructor.
  - cbn [insert_index]. fold (key i) (key j). inversion Hs as [| x u Hall Hu]; subst.
    destruct (Z.ltb_spec (key i) (key j)) as [Hlt | Hge].
    + cbn [map]. constructor; [| exact Hs]. constructor; [lia |].
      eapply Forall_impl; [exact Hall |]. cbn. intros. lia.
    + cbn [map]. constructor; [| apply IH, Hu].
      assert (Hp : map key (insert_index a i s) ≡ₚ key i :: map key s).
      { change (key i :: map key s) with (map key (i :: s)).
        apply Permutation_map, insert_index_perm. }
      rewrite Hp. constructor; assumption.
Qed.

Lemma argsort_spec (a : list Z) :
  argsort a ≡ₚ seq 0 (length a) /\
  nondecreasing (map (fun j => default 0 (a !! j)) (argsort a)).
Proof.
  unfold argsort.
  assert (Hgen : forall l acc,
            nondecreasing (map (fun j => default 0 (a !! j)) acc) ->
            fold_left (fun s i => insert_index a i s) l acc ≡ₚ acc ++ l /\
            nondecreasing (map (fun j => default 0 (a !! j))
                             (fold_left (fun s i => insert_index a i s) l acc))).
  { induction l as [| i l IH]; intros acc Hacc; cbn [fold_left].
    - rewrite app_nil_r. auto.
    - destruct (IH (insert_index a i acc) (insert_index_sorted a i acc Hacc)) as [Hp Hs].
      split; [| exact Hs]. rewrite Hp, insert_index_perm.
      apply Permutation_middle. }
  destruct (Hgen (seq 0 (length a)) [] nd_nil) as [Hp Hs]. auto.
Qed.

(** In a sorted list, the number of elements below [v] is the position
    of the first element that is not below it. *)
Lemma searchsorted_spec (s : list Z) (v : Z) :
  nondecreasing s ->
  0 <= searchsorted s v <= Z.of_nat (length s) /\
  (forall y, s !! Z.to_nat (searchsorted s v) = Some y -> v <= y) /\
  (v ∈ s -> s !! Z.to_nat (searchsorted s v) = Some v).
Proof.
  unfold searchsorted. rewrite Nat2Z.id.
  induction 1 as [| x u Hall Hu IH].
  - cbn. split; [lia |]. split; [discriminate |]. intros Hin. inversion Hin.
  - cbn [List.filter]. destruct (Z.ltb_spec x v) as [Hlt | Hge].
    + cbn [length lookup list_lookup]. destruct IH as (Hr & Hy & Hv).
      split; [cbn [length]; lia |]. split; [exact Hy |].
      intros Hin. apply Hv. inversion Hin; subst; [lia | assumption].
    + assert (Hnil : List.filter (fun x0 => x0 <? v) u = []).
      { clear IH Hu. induction u as [| y u IHu]; [reflexivity |].
        inversion Hall; subst. cbn. destruct (Z.ltb_spec y v); [lia |].
        apply IHu. assumption. }
      rewrite Hnil. cbn [length]. split; [lia |]. split.
      * intros y [= <-]. exact Hge.
      * intros Hin. cbn. f_equal. inversion Hin; subst; [reflexivity |].
        rewrite Forall_forall in Hall. specialize (Hall v ltac:(assumption)). lia.
Qed.

(** [a[mask] = vals] where the values are numbered in the order of the
    selected positions. *)
Lemma mask_assign_numbered {A} (p : A -> bool) (f : A -> Z) (c : Z) (l : list A)
    (b j : nat) :
  mask_assign (map f l) (map p l)
    (map (fun r => c + Z.of_nat r) (seq b (length (List.filter p l)))) !! j
  = (fun k => if p k then c + Z.of_nat (b + length (List.filter p (take j l))) else f k)
      <$> l !! j.
Proof.
  revert b j. induction l as [| x l IH]; intros b j; [destruct j; reflexivity |].
  cbn [map List.filter]. destruct (p x) eqn:Ep.
  - cbn [length seq map mask_assign]. destruct j as [| j].
    + cbn. rewrite Ep. do 2 f_equal. lia.
    + cbn [lookup list_lookup]. change (list_lookup j ?m) with (m !! j).
      rewrite IH. cbn [take List.filter]. rewrite Ep. cbn [length].
      destruct (l !! j) as [k |]; [| reflexivity]. cbn. destruct (p k); [| reflexivity].
      do 2 f_equal. lia.
  - cbn [mask_assign]. destruct j as [| j].
    + cbn. rewrite Ep. reflexivity.
    + cbn [lookup list_lookup]. change (list_lookup j ?m) with (m !! j).
      rewrite IH. cbn [take List.filter]. rewrite Ep. reflexivity.
Qed.

(** [a[mask] = h(a[mask])] *)
Lemma mask_assign_mapped {A} (h : A -> A) (a : list A) (mask : list bool) :
  mask_assign a mask (map h (mask_select a mask))
  = zip_with (fun x (b : bool) => if b then h x else x) a mask ++ drop (length mask) a.
Proof.
  revert mask. induction a as [| x a IH]; intros [| [|] mask]; cbn; try reflexivity.
  - rewrite IH. reflexivity.
  - rewrite IH. reflexivity.
Qed.

Section UpdateIndex.
Variables id1 id2 : list Z.

Local Abbreviation ii := (ui_order id1).
Local Abbreviation s := (ui_sorted id1).
Local Abbreviation n1 := (ui_len id1).
Local Abbreviation ss := (ui_search id1).
Local Abbreviation isnew := (ui_app id1).

Lemma update_index_sorted_keys :
  nondecreasing s /\ length s = length id1 /\ (forall k, k ∈ s <-> k ∈ id1) /\
  (forall x k, s !! x = Some k -> exists p, ii !! x = Some p /\ id1 !! p = Some k).
Proof.
  destruct (argsort_spec id1) as [Hp Hs]. fold ii in Hp, Hs. fold s in Hs.
  assert (Hlen : length s = length id1).
  { unfold ui_sorted. rewrite length_map, Hp, length_seq. reflexivity. }
  assert (Hlook : forall x k, s !! x = Some k ->
                    exists p, ii !! x = Some p /\ id1 !! p = Some k).
  { intros x k Hx. unfold ui_sorted in Hx. rewrite list_lookup_fmap in Hx.
    destruct (ii !! x) as [p |] eqn:Ep; [| discriminate]. cbn in Hx. injection Hx as Hx.
    exists p. split; [reflexivity |].
    assert (Hin : p ∈ seq 0 (length id1)).
    { rewrite <- Hp. eapply list_elem_of_lookup_2, Ep. }
    apply elem_of_seq in Hin.
    destruct (lookup_lt_is_Some_2 id1 p ltac:(lia)) as [k' Hk'].
    rewrite Hk' in Hx |- *. cbn in Hx. congruence. }
  split; [exact Hs |]. split; [exact Hlen |]. split; [| exact Hlook].
  intros k. split.
  - intros Hk. apply list_elem_of_lookup_1 in Hk. destruct Hk as [x Hx].
    destruct (Hlook x k Hx) as (p & _ & Hp'). eapply list_elem_of_lookup_2, Hp'.
  - intros Hk. apply list_elem_of_lookup_1 in Hk. destruct Hk as [p Hp'].
    assert (Hin : p ∈ ii).
    { rewrite Hp. apply elem_of_seq. apply lookup_lt_Some in Hp'. lia. }
    apply list_elem_of_lookup_1 in Hin. destruct Hin as [x Hx].
    apply list_elem_of_lookup_2 with x. unfold ui_sorted.
    rewrite list_lookup_fmap, Hx. cbn. rewrite Hp'. reflexivity.
Qed.

Lemma isnew_spec (k : Z) : isnew k = negb (bool_decide (k ∈ id1)).
Proof.
  destruct update_index_sorted_keys as (Hs & Hlen & Hin & _).
  destruct (searchsorted_spec s k Hs) as (Hr & Hy & Hv). fold ss in Hr, Hy, Hv.
  unfold ui_app. case_bool_decide as Hk.
  - rewrite <- Hin in Hk. specialize (Hv Hk).
    assert (Hlt : ss k < n1).
    { apply lookup_lt_Some in Hv. unfold ui_len. lia. }
    rewrite (proj2 (Z.ltb_lt _ _) Hlt), Hv. cbn. rewrite Z.eqb_refl. reflexivity.
  - destruct (Z.ltb_spec (ss k) n1) as [Hlt | Hge]; [| reflexivity].
    destruct (lookup_lt_is_Some_2 s (Z.to_nat (ss k)) ltac:(unfold ui_len in Hlt; lia))
      as [y Hy'].
    rewrite Hy'. cbn. destruct (Z.eqb_spec y k) as [-> | Hne]; [| reflexivity].
    exfalso. apply Hk, Hin. eapply list_elem_of_lookup_2, Hy'.
Qed.

Lemma update_index_eq :
  update_index id1 id2 =
    m ← of_option ValueError (list_min (map ss id2));
    if m =? n1 then Ok None
    else
      let nnew := Z.of_nat (length (List.filter isnew id2)) in
      let idx := mask_assign (map ss id2) (map isnew id2)
                   (map (fun j => n1 + Z.of_nat j) (seq 0 (Z.to_nat nnew))) in
      let napp := map negb (map isnew id2) in
      Ok (Some (mask_assign idx napp
                  (map (fun x => Z.of_nat (default O (ii !! Z.to_nat x)))
                       (mask_select idx napp)), nnew)).
Proof.
  unfold update_index. fold ii. fold s. fold n1. fold ss.
  destruct (of_option ValueError (list_min (map ss id2))) as [m |]; [| reflexivity].
  rewrite !bind_Ok. destruct (m =? n1); [reflexivity |].
  assert (Happ : mask_assign (replicate (length id2) true)
                   (map (fun x => x <? n1) (map ss id2))
                   (zip_with (fun x k => negb (default 0 (s !! Z.to_nat x) =? k))
                      (mask_select (map ss id2) (map (fun x => x <? n1) (map ss id2)))
                      (mask_select id2 (map (fun x => x <? n1) (map ss id2))))
                 = map isnew id2).
  { rewrite map_map. clear. induction id2 as [| k l IH]; [reflexivity |].
    cbn. unfold ui_app at 1. destruct (ss k <? n1); cbn; rewrite IH; reflexivity. }
  rewrite Happ. replace (length (List.filter (fun b : bool => b) (map isnew id2)))
    with (length (List.filter isnew id2)).
  - reflexivity.
  - clear. induction id2 as [| k l IH]; [reflexivity |].
    cbn. destruct (isnew k); cbn; rewrite IH; reflexivity.
Qed.

Lemma filter_isnew (l : list Z) : List.filter isnew l = fresh_keys id1 l.
Proof. apply List.filter_ext. intros k. apply isnew_spec. Qed.

Lemma list_min_le (l : list Z) (m : Z) :
  list_min l = Some m -> m ∈ l /\ Forall (fun x => m <= x) l.
Proof.
  revert m. induction l as [| x l IH]; [discriminate |]. intros m. cbn [list_min].
  destruct (list_min l) as [m' |] eqn:El.
  - destruct (IH m' eq_refl) as [Hin Hall]. intros [= <-]. split.
    + destruct (Z.min_spec x m') as [[_ ->] | [_ ->]]; [left | right; exact Hin].
    + constructor; [lia |]. eapply Forall_impl; [exact Hall |]. cbn. intros. lia.
  - destruct l as [| y l']; [| cbn in El; destruct (list_min l'); discriminate].
    intros [= <-]. split; [left |]. constructor; [lia | constructor].
Qed.

(** The index array of an update (lines 1003-1022).  [id1] holds the
    keys of the rows in the table, [id2] the keys of the batch.  When
    [update_index] gives an index array, it has one entry per row of the
    batch: for a key that the table has, the position of a row with
    that key; for a key that the table does not have, the next free
    position past the end of the table, counted in batch order.  The
    number of new rows is the number of batch keys that the table does
    not have. *)
Theorem update_index_locates_rows (idx : list Z) (nnew : Z) :
  update_index id1 id2 = Ok (Some (idx, nnew)) ->
  length idx = length id2 /\
  nnew = Z.of_nat (length (fresh_keys id1 id2)) /\
  forall j k, id2 !! j = Some k ->
    if bool_decide (k ∈ id1)
    then exists p, idx !! j = Some (Z.of_nat p) /\ id1 !! p = Some k
    else idx !! j = Some (Z.of_nat (length id1)
                          + Z.of_nat (length (fresh_keys id1 (take j id2)))).
Proof.
  rewrite update_index_eq.
  destruct (of_option ValueError (list_min (map ss id2))) as [m |]; [| discriminate].
  rewrite bind_Ok. destruct (m =? n1); [discriminate |]. cbn zeta.
  rewrite Nat2Z.id. intros [= <- <-].
  destruct update_index_sorted_keys as (Hs & Hlen & Hin & Hlook).
  split; [rewrite !mask_assign_length, length_map; reflexivity |].
  split; [rewrite filter_isnew; reflexivity |].
  intros j k Hj. rewrite mask_assign_mapped.
  rewrite (drop_ge (mask_assign _ _ _))
    by (rewrite mask_assign_length, !length_map; reflexivity).
  rewrite app_nil_r, lookup_zip_with.
  rewrite (mask_assign_numbered isnew ss n1 id2 0 j), Hj.
  rewrite (list_lookup_fmap negb), (list_lookup_fmap isnew), Hj. cbn.
  rewrite isnew_spec, filter_isnew. case_bool_decide as Hk; cbn.
  - destruct (searchsorted_spec s k Hs) as (_ & _ & Hv).
    destruct (Hlook _ _ (Hv (proj2 (Hin k) Hk))) as (p & Hp & Hp').
    exists p. fold ss in Hp. rewrite Hp. auto.
  - unfold ui_len. rewrite Hlen. reflexivity.
Qed.

(** The shortcut of lines 1008-1009: [update_index] reports a pure
    append when every key of the batch is above every key of the table
    (so also for an empty table).  A batch without rows raises: numpy's
    [min] of an empty array is a [ValueError]. *)
Theorem update_index_pure_append :
  (update_index id1 id2 = Ok None <->
     id2 <> [] /\ forall k k1, k ∈ id2 -> k1 ∈ id1 -> k1 < k) /\
  (id2 = [] -> update_index id1 id2 = Raise ValueError).
Proof.
  destruct update_index_sorted_keys as (Hs & Hlen & Hin & Hlook).
  assert (Hss : forall k, ss k = n1 <-> forall k1, k1 ∈ id1 -> k1 < k).
  { intros k. unfold ui_search, ui_len, searchsorted. split.
    - intros Hall k1 Hk1. apply Hin in Hk1.
      assert (Hf : List.filter (fun x => x <? k) s = s).
      { clear -Hall. revert Hall. induction s as [| x l IH]; [reflexivity |].
        cbn. destruct (Z.ltb_spec x k).
        - cbn. intros Hl. f_equal. apply IH. lia.
        - intros Hl. pose proof (List.filter_length_le (fun x => x <? k) l). lia. }
      rewrite <- Hf, list_elem_of_In, filter_In in Hk1. lia.
    - intros Hall. do 2 f_equal. apply forallb_filter_id, forallb_forall.
      intros x Hx. apply Z.ltb_lt, Hall, Hin, list_elem_of_In, Hx. }
  split; [| intros ->; reflexivity].
  rewrite update_index_eq. split.
  - destruct (list_min (map ss id2)) as [m |] eqn:Em; [| discriminate].
    cbn [of_option]. rewrite bind_Ok.
    destruct (Z.eqb_spec m n1) as [-> | Hne]; [| discriminate]. intros _.
    split; [intros ->; discriminate Em |].
    intros k k1 Hk. apply Hss. apply list_min_le in Em. destruct Em as [_ Hmin].
    rewrite Forall_forall in Hmin.
    assert (Hle : n1 <= ss k) by (apply Hmin, list_elem_of_fmap; eauto).
    destruct (searchsorted_spec s k Hs) as (Hr & _). fold ss n1 in Hr. lia.
  - intros [Hne Hall].
    destruct (list_min (map ss id2)) as [m |] eqn:Em.
    + cbn [of_option]. rewrite bind_Ok. apply list_min_le in Em. destruct Em as [Hm _].
      apply list_elem_of_fmap in Hm. destruct Hm as (k & -> & Hk).
      rewrite (proj2 (Hss k) (fun k1 => Hall k k1 Hk)), Z.eqb_refl. reflexivity.
    + destruct id2 as [| k l]; [congruence |]. cbn in Em.
      destruct (list_min (map ss l)); discriminate.
Qed.
End UpdateIndex.

Lemma update_index_locates_rows_witness :
  exists p, [1; 2] !! 0%nat = Some (Z.of_nat p) /\
            [281474976710657; 281474976710658] !! p = Some 281474976710658.
Proof.
  destruct (update_index_locates_rows [281474976710657; 281474976710658]
              [281474976710658; 281474976710670] [1; 2] 1) as (_ & _ & Hj).
  - vm_compute. reflexivity.
  - exact (Hj 0%nat 281474976710658 eq_refl).
Defined.

(** ** The rebuilt column index *)

Lemma od_get_None {V} (d : list (string * V)) (k : string) :
  OrderedDict.get d k = None -> k ∉ map fst d.
Proof.
  induction d as [| [k' v'] d IH]; cbn; [intros _ Hin; inversion Hin |].
  destruct (String.eqb_spec k' k) as [-> | Hne]; [discriminate |].
  intros Hg Hin. inversion Hin; subst; [congruence | exact (IH Hg ltac:(assumption))].
Qed.

Lemma od_get_Some_elem {V} (d : list (string * V)) (k : string) (v : V) :
  OrderedDict.get d k = Some v -> (k, v) ∈ d.
Proof.
  induction d as [| [k' v'] d IH]; [discriminate |]. cbn.
  destruct (String.eqb_spec k' k) as [-> | Hne]; [intros [= ->]; left | right; auto].
Qed.

Section RebuildIndex.
Context `{NumpyDtype}.

Lemma rebuild_columns_spec (cgroup : string) (l : list (string * string))
    (cols cols' : list (string * ColumnType)) :
  NoDup (map fst cols) ->
  rebuild_columns cgroup cols l = Ok cols' ->
  map fst cols' = map fst cols ++ map fst l /\
  NoDup (map fst cols') /\
  forall n ct, OrderedDict.get cols' n = Some ct ->
    OrderedDict.get cols n = Some ct \/
    ((n ∉ map fst cols) /\
     exists dtype dt, (n, dtype) ∈ l /\ np_dtype dtype = Some dt /\
       ct = {| col_name := n; col_cgroup := cgroup; col_dtype := dt;
               col_is_blob := false |}).
Proof.
  revert cols. induction l as [| [colname dtype] l IH]; intros cols Hnd.
  - intros [= <-]. rewrite app_nil_r. auto.
  - cbn [rebuild_columns]. intros Hr. apply bind_Ok_inv in Hr.
    destruct Hr as (cols1 & Hc & Hr). unfold rebuild_column in Hc.
    destruct (OrderedDict.get cols colname) as [c |] eqn:Eg;
      [rewrite bool_decide_eq_true_2 in Hc by eauto; discriminate |].
    rewrite bool_decide_eq_false_2 in Hc by (intros [? ?]; discriminate).
    cbn [negb py_assert] in Hc. rewrite bind_Ok in Hc.
    destruct (np_dtype dtype) as [dt |] eqn:Ed; [| discriminate].
    cbn [of_option] in Hc. rewrite bind_Ok in Hc. injection Hc as <-.
    apply od_get_None in Eg.
    set (ct0 := {| col_name := colname; col_cgroup := cgroup; col_dtype := dt;
                   col_is_blob := false |}) in *.
    assert (Hnd1 : NoDup (map fst (OrderedDict.set cols colname ct0))).
    { rewrite od_set_fresh, map_app by exact Eg. apply NoDup_app.
      split; [exact Hnd |]. split; [| apply NoDup_singleton].
      intros x Hx Hx'. apply list_elem_of_singleton in Hx'. subst. contradiction. }
    destruct (IH _ Hnd1 Hr) as (Hk & Hnd' & Hget).
    split; [| split; [exact Hnd' |]].
    + rewrite Hk, od_set_fresh, map_app, <- app_assoc by exact Eg. reflexivity.
    + intros n ct Hn. destruct (Hget n ct Hn) as [Hold | (Hnew & dtype' & dt' & Hin & Hd & ->)].
      * destruct (String.eqb_spec colname n) as [<- | Hne].
        -- rewrite od_get_set in Hold. injection Hold as <-. right.
           split; [exact Eg |]. exists dtype, dt. split; [left | auto].
        -- rewrite od_get_set_other in Hold by exact Hne. left. exact Hold.
      * right. split.
        -- intros Hin'. apply Hnew. rewrite od_set_fresh, map_app by exact Eg.
           apply elem_of_app. left. exact Hin'.
        -- exists dtype', dt'. split; [right; exact Hin | auto].
Qed.

Lemma rebuild_blobs_spec (l : list string) (cols cols' : list (string * ColumnType)) :
  rebuild_blobs cols l = Ok cols' ->
  map fst cols' = map fst cols /\
  (forall b, b ∈ l -> b ∈ map fst cols) /\
  forall n ct', OrderedDict.get cols' n = Some ct' ->
    exists ct, OrderedDict.get cols n = Some ct /\
      col_name ct' = col_name ct /\ col_cgroup ct' = col_cgroup ct /\
      col_dtype ct' = col_dtype ct /\
      col_is_blob ct' = col_is_blob ct || bool_decide (n ∈ l) /\
      (n ∈ l -> dtype_base_is_int64 (col_dtype ct) = true).
Proof.
  revert cols. induction l as [| b l IH]; intros cols.
  - intros [= <-]. split; [reflexivity |]. split; [intros b Hb; inversion Hb |].
    intros n ct Hn. exists ct. rewrite orb_false_r.
    repeat split; try assumption. intros Hin. inversion Hin.
  - cbn [rebuild_blobs]. intros Hr. apply bind_Ok_inv in Hr.
    destruct Hr as (cols1 & Hb & Hr). unfold rebuild_blob in Hb.
    destruct (OrderedDict.get cols b) as [c |] eqn:Eg; [| discriminate].
    cbn [of_option] in Hb. rewrite bind_Ok in Hb.
    destruct (dtype_base_is_int64 (col_dtype c)) eqn:Ei; [| discriminate].
    cbn [py_assert] in Hb. rewrite bind_Ok in Hb. injection Hb as <-.
    destruct (IH _ Hr) as (Hk & Hin & Hget).
    rewrite (od_set_fields _ _ _ _ Eg) in Hk, Hin.
    split; [exact Hk |]. split.
    + intros b' Hb'. inversion Hb'; subst; [eapply od_get_in, Eg | apply Hin; assumption].
    + intros n ct' Hn. destruct (Hget n ct' Hn) as (ct1 & H1 & Hnm & Hcg & Hdt & Hbl & Hi).
      destruct (String.eqb_spec b n) as [<- | Hne].
      * rewrite od_get_set in H1. injection H1 as <-. cbn in Hnm, Hcg, Hdt, Hbl.
        exists c. rewrite (bool_decide_eq_true_2 (b ∈ b :: l)) by left.
        rewrite orb_true_r. repeat split; auto.
      * rewrite od_get_set_other in H1 by exact Hne. exists ct1.
        repeat split; auto.
        -- rewrite Hbl. f_equal. apply bool_decide_ext. split; [right; assumption |].
           intros Hin'. inversion Hin'; subst; [congruence | assumption].
        -- intros Hin'. apply Hi. inversion Hin'; subst; [congruence | assumption].
Qed.

Lemma rebuild_cgroup_columns (st st' : Rebuild) (cg : string) (schema : Schema) :
  rebuild_cgroup st (cg, schema) = Ok st' ->
  exists cols1,
    rebuild_columns cg (rb_columns st) (sc_columns schema) = Ok cols1 /\
    rebuild_blobs cols1 (blob_columns schema) = Ok (rb_columns st').
Proof.
  unfold rebuild_cgroup. intros Hr.
  apply bind_Ok_inv in Hr. destruct Hr as (cols1 & Hc & Hr).
  apply bind_Ok_inv in Hr. destruct Hr as (first & _ & Hr).
  apply bind_Ok_inv in Hr. destruct Hr as (st1 & H1 & Hr).
  apply bind_Ok_inv in Hr. destruct Hr as (cols2 & Hb & [= <-]).
  exists cols1. split; [exact Hc |]. cbn [rb_columns].
  assert (E1 : rb_columns st1 = cols1).
  { destruct first.
    - apply bind_Ok_inv in H1. destruct H1 as (u1 & _ & H1).
      apply bind_Ok_inv in H1. destruct H1 as (u2 & _ & H1).
      apply bind_Ok_inv in H1. destruct H1 as (u3 & _ & H1).
      apply bind_Ok_inv in H1. destruct H1 as (u4 & _ & [= <-]). reflexivity.
    - apply bind_Ok_inv in H1. destruct H1 as (u1 & _ & H1).
      apply bind_Ok_inv in H1. destruct H1 as (u2 & _ & H1).
      apply bind_Ok_inv in H1. destruct H1 as (u3 & _ & [= <-]). reflexivity. }
  rewrite E1 in Hb. unfold blob_columns. destruct (sc_blobs schema); [exact Hb |].
  injection Hb as <-. reflexivity.
Qed.

Lemma declared_columns_snoc (cgs : list (string * Schema)) (cg : string * Schema) :
  declared_columns (cgs ++ [cg]) = declared_columns cgs ++ map fst (sc_columns (snd cg)).
Proof.
  unfold declared_columns. rewrite map_app, concat_app. cbn. rewrite app_nil_r.
  reflexivity.
Qed.

Lemma rebuild_cgroup_index (cgs : list (string * Schema)) (st st' : Rebuild)
    (cg : string) (schema : Schema) :
  index_agrees cgs (rb_columns st) ->
  rebuild_cgroup st (cg, schema) = Ok st' ->
  index_agrees (cgs ++ [(cg, schema)]) (rb_columns st').
Proof.
  intros (Hk & Hnd & Hag & Hbl) Hr.
  destruct (rebuild_cgroup_columns _ _ _ _ Hr) as (cols1 & Hc & Hb).
  destruct (rebuild_columns_spec _ _ _ _ Hnd Hc) as (Hk1 & Hnd1 & Hget1).
  destruct (rebuild_blobs_spec _ _ _ Hb) as (Hk2 & Hin2 & Hget2).
  split; [| split; [| split]].
  - rewrite Hk2, Hk1, Hk, declared_columns_snoc. reflexivity.
  - rewrite Hk2. exact Hnd1.
  - intros n ct' Hn.
    destruct (Hget2 n ct' Hn) as (ct1 & H1 & Hnm & Hcg & Hdt & Hb' & Hi).
    destruct (Hget1 n ct1 H1) as [Hold | (Hnew & dtype & dt & Hin & Hd & ->)].
    + destruct (Hag n ct1 Hold) as (Hn1 & (s1 & d1 & Hm1 & Hd1 & Hnp1) & Hb1 & Hi1).
      split; [congruence |]. split; [| split].
      * exists s1, d1. rewrite Hcg, Hdt. split; [apply elem_of_app; left; exact Hm1 | auto].
      * rewrite Hb'. split.
        -- intros Hor. apply orb_true_iff in Hor. destruct Hor as [Hor | Hor].
           ++ apply Hb1 in Hor. destruct Hor as (cg' & s' & Hm & Hl).
              exists cg', s'. split; [apply elem_of_app; left; exact Hm | exact Hl].
           ++ apply bool_decide_eq_true_1 in Hor. exists cg, schema.
              split; [apply elem_of_app; right; left | exact Hor].
        -- intros (cg' & s' & Hm & Hl). apply orb_true_iff.
           apply elem_of_app in Hm. destruct Hm as [Hm | Hm].
           ++ left. apply Hb1. eauto.
           ++ apply list_elem_of_singleton in Hm. injection Hm as -> ->.
              right. apply bool_decide_eq_true_2. exact Hl.
      * rewrite Hb', Hdt. intros Hor. apply orb_true_iff in Hor.
        destruct Hor as [Hor | Hor]; [auto |].
        apply Hi. apply bool_decide_eq_true_1 in Hor. exact Hor.
    + cbn in Hnm, Hcg, Hdt, Hb'. split; [exact Hnm |]. split; [| split].
      * exists schema, dtype. rewrite Hcg, Hdt.
        split; [apply elem_of_app; right; left | auto].
      * rewrite Hb'. split.
        -- intros Hor. apply bool_decide_eq_true_1 in Hor. exists cg, schema.
           split; [apply elem_of_app; right; left | exact Hor].
        -- intros (cg' & s' & Hm & Hl). apply elem_of_app in Hm. destruct Hm as [Hm | Hm].
           ++ exfalso. apply Hnew. eapply Hbl; eassumption.
           ++ apply list_elem_of_singleton in Hm. injection Hm as -> ->.
              apply bool_decide_eq_true_2. exact Hl.
      * rewrite Hb', Hdt. intros Hor. apply Hi. apply bool_decide_eq_true_1 in Hor.
        exact Hor.
  - intros cg' s' n Hm Hl. rewrite Hk2. apply elem_of_app in Hm. destruct Hm as [Hm | Hm].
    + rewrite Hk1. apply elem_of_app. left. eapply Hbl; eassumption.
    + apply list_elem_of_singleton in Hm. injection Hm as -> ->. apply Hin2, Hl.
Qed.

Lemma rebuild_loop_index (l cgs : list (string * Schema)) (st st' : Rebuild) :
  index_agrees cgs (rb_columns st) ->
  rebuild_loop st l = Ok st' ->
  index_agrees (cgs ++ l) (rb_columns st').
Proof.
  revert cgs st. induction l as [| [cg schema] l IH]; intros cgs st Hinv.
  - intros [= <-]. rewrite app_nil_r. exact Hinv.
  - cbn [rebuild_loop]. intros Hr. apply bind_Ok_inv in Hr.
    destruct Hr as (st1 & H1 & Hr).
    rewrite (cons_middle (cg, schema) cgs l), app_assoc.
    eapply IH; [| exact Hr]. eapply rebuild_cgroup_index; eassumption.
Qed.

Lemma rebuild_loop_index_keys (l : list (string * Schema)) (st st' : Rebuild) :
  rebuild_loop st l = Ok st' ->
  forall k, k ∈ map fst (rb_columns st) -> k ∈ map fst (rb_columns st').
Proof.
  revert st. induction l as [| [cg schema] l IH]; intros st.
  - intros [= <-]. auto.
  - cbn [rebuild_loop]. intros Hr. apply bind_Ok_inv in Hr.
    destruct Hr as (st1 & H1 & Hr). intros k Hk. apply (IH _ Hr).
    destruct (rebuild_cgroup_columns _ _ _ _ H1) as (cols1 & Hc & Hb).
    apply rebuild_blobs_spec in Hb. destruct Hb as (-> & _ & _).
    revert Hc Hk. generalize (rb_columns st) as cols. generalize (sc_columns schema) as cl.
    induction cl as [| [n d] cl IHc]; intros cols; [intros [= <-]; auto |].
    cbn [rebuild_columns]. intros Hc. apply bind_Ok_inv in Hc.
    destruct Hc as (cols2 & H2 & Hc). intros Hk. apply (IHc _ Hc).
    unfold rebuild_column in H2.
    apply bind_Ok_inv in H2. destruct H2 as (u & _ & H2).
    apply bind_Ok_inv in H2. destruct H2 as (dt & _ & [= <-]).
    rewrite od_set_keys. case_bool_decide; [exact Hk |].
    apply elem_of_app. left. exact Hk.
Qed.

Lemma rebuild_internal_schema_index_lemma (t t' : Table) :
  _rebuild_internal_schema t = Ok t' ->
  index_agrees (_cgroups t) (columns t').
Proof.
  unfold _rebuild_internal_schema. intros Hr. apply bind_Ok_inv in Hr.
  destruct Hr as (st & Hl & [= <-]). cbn [columns].
  eapply (rebuild_loop_index (_cgroups t) []); [| exact Hl].
  cbn. split; [reflexivity |]. split; [constructor |]. split; [discriminate |].
  intros cg schema n Hm. inversion Hm.
Qed.

(** What [_rebuild_internal_schema] leaves in [self.columns] when it
    returns: the columns the cgroups declare, once each and in cgroup
    order (a name declared twice trips the assertion of line 438); each
    entry carries its name, the cgroup that declares it and numpy's
    name of its dtype, and is marked as a blob column exactly when some
    cgroup of the table, the declaring one or any other, lists its name
    under [blobs] (the loop of lines 460-463 looks the name up in the
    whole index), in which case it is an int64 column (line 462). *)
Theorem rebuild_internal_schema_index (t t' : Table) :
  _rebuild_internal_schema t = Ok t' ->
  index_agrees (_cgroups t) (columns t').
Proof. apply rebuild_internal_schema_index_lemma. Qed.
End RebuildIndex.

Lemma rebuild_internal_schema_index_witness :
  index_agrees (_cgroups stars) (columns stars) /\
  index_agrees (_cgroups crossed) (columns crossed_rebuilt) /\
  OrderedDict.get (columns crossed_rebuilt) "note" =
    Some {| col_name := "note"; col_cgroup := "main";
            col_dtype := "int64"; col_is_blob := true |} /\
  blob_columns crossed_main_schema = [].
Proof.
  split; [| split; [| split; reflexivity]].
  - apply (@rebuild_internal_schema_index example_dtypes stars stars).
    vm_compute. reflexivity.
  - apply (@rebuild_internal_schema_index example_dtypes crossed crossed_rebuilt).
    vm_compute. reflexivity.
Defined.

(** ** The key attributes after a rebuild *)

Lemma od_in_get {V} (d : list (string * V)) (k : string) :
  k ∈ map fst d -> is_Some (OrderedDict.get d k).
Proof.
  induction d as [| [k' v'] d IH]; cbn; [intros Hin; inversion Hin |].
  destruct (String.eqb_spec k' k) as [-> | Hne]; [eauto |].
  intros Hin. inversion Hin; subst; [congruence | auto].
Qed.

Lemma od_get_app_fresh {V} (l1 l2 : list (string * V)) (k : string) (v : V) :
  k ∉ map fst l1 -> OrderedDict.get (l1 ++ (k, v) :: l2) k = Some v.
Proof.
  induction l1 as [| [k' v'] l1 IH]; cbn; intros Hk.
  - rewrite String.eqb_refl. reflexivity.
  - destruct (String.eqb_spec k' k) as [-> | Hne]; [exfalso; apply Hk; left |].
    apply IH. intros Hin. apply Hk. right. exact Hin.
Qed.

Section RebuildKeys.
Context `{NumpyDtype}.

Lemma rebuild_loop_app (l1 l2 : list (string * Schema)) (st : Rebuild) :
  rebuild_loop st (l1 ++ l2) = (st1 ← rebuild_loop st l1; rebuild_loop st1 l2).
Proof.
  revert st. induction l1 as [| cg l1 IH]; intros st; [reflexivity |].
  cbn [rebuild_loop app]. destruct (rebuild_cgroup st cg) as [st1 |]; [| reflexivity].
  rewrite !bind_Ok. apply IH.
Qed.

(** A cgroup met after the primary one, or a pseudo-cgroup met before
    it, leaves the key attributes alone and declares no primary or
    spatial key. *)
Lemma rebuild_cgroup_secondary (st st' : Rebuild) (cg : string) (schema : Schema) :
  is_Some (rb_primary_cgroup st) \/ _is_pseudotablet cg = Ok true ->
  rebuild_cgroup st (cg, schema) = Ok st' ->
  rb_primary_cgroup st' = rb_primary_cgroup st /\
  rb_primary_key st' = rb_primary_key st /\
  rb_temporal_key st' = rb_temporal_key st /\
  rb_spatial_keys st' = rb_spatial_keys st /\
  sc_primary_key schema = None /\ sc_spatial_keys schema = None.
Proof.
  intros Hsec. unfold rebuild_cgroup. intros Hr.
  apply bind_Ok_inv in Hr. destruct Hr as (cols1 & _ & Hr).
  apply bind_Ok_inv in Hr. destruct Hr as (first & Hf & Hr).
  apply bind_Ok_inv in Hr. destruct Hr as (st1 & H1 & Hr).
  apply bind_Ok_inv in Hr. destruct Hr as (cols2 & _ & [= <-]). cbn.
  assert (Ef : first = false).
  { destruct (rb_primary_cgroup st) as [pc |]; [injection Hf as <-; reflexivity |].
    destruct Hsec as [[? ?] | Hp]; [discriminate |].
    rewrite Hp, bind_Ok in Hf. injection Hf as <-. reflexivity. }
  subst first.
  apply bind_Ok_inv in H1. destruct H1 as (u1 & Hpk & H1).
  apply bind_Ok_inv in H1. destruct H1 as (u2 & Hsk & H1).
  apply bind_Ok_inv in H1. destruct H1 as (u3 & _ & [= <-]). cbn.
  destruct (sc_primary_key schema);
    [rewrite bool_decide_eq_true_2 in Hpk by eauto; discriminate |].
  destruct (sc_spatial_keys schema);
    [rewrite bool_decide_eq_true_2 in Hsk by eauto; discriminate |].
  auto 6.
Qed.

Lemma rebuild_loop_secondary (l : list (string * Schema)) (st st' : Rebuild) :
  is_Some (rb_primary_cgroup st) \/
    Forall (fun c => _is_pseudotablet (fst c) = Ok true) l ->
  rebuild_loop st l = Ok st' ->
  rb_primary_cgroup st' = rb_primary_cgroup st /\
  rb_primary_key st' = rb_primary_key st /\
  rb_temporal_key st' = rb_temporal_key st /\
  rb_spatial_keys st' = rb_spatial_keys st /\
  Forall (fun c => sc_primary_key (snd c) = None /\ sc_spatial_keys (snd c) = None) l.
Proof.
  revert st. induction l as [| [cg schema] l IH]; intros st Hsec.
  - intros [= <-]. auto 6.
  - cbn [rebuild_loop]. intros Hr. apply bind_Ok_inv in Hr.
    destruct Hr as (st1 & H1 & Hr).
    apply rebuild_cgroup_secondary in H1.
    + destruct H1 as (E1 & E2 & E3 & E4 & Hp & Hs).
      apply IH in Hr.
      * destruct Hr as (F1 & F2 & F3 & F4 & Hall).
        rewrite F1, F2, F3, F4. repeat split; try assumption.
        constructor; [split; assumption | exact Hall].
      * rewrite E1. destruct Hsec as [Hsec | Hsec]; [left; exact Hsec |].
        right. inversion Hsec; assumption.
    + destruct Hsec as [Hsec | Hsec]; [left; exact Hsec |].
      right. inversion Hsec; assumption.
Qed.

(** The first cgroup that is not a pseudo-cgroup becomes the primary
    one; the key columns it names are in the index. *)
Lemma rebuild_cgroup_primary (st st' : Rebuild) (cg : string) (schema : Schema) :
  rb_primary_cgroup st = None -> _is_pseudotablet cg = Ok false ->
  rebuild_cgroup st (cg, schema) = Ok st' ->
  rb_primary_cgroup st' = Some cg /\
  rb_primary_key st' = match sc_primary_key schema with
                       | Some k => Some k | None => rb_primary_key st end /\
  rb_temporal_key st' = match sc_temporal_key schema with
                        | Some k => Some k | None => rb_temporal_key st end /\
  rb_spatial_keys st' = match sc_spatial_keys schema with
                        | Some k => Some k | None => rb_spatial_keys st end /\
  (forall k, sc_primary_key schema = Some k \/ sc_temporal_key schema = Some k \/
             fst <$> sc_spatial_keys schema = Some k \/
             snd <$> sc_spatial_keys schema = Some k ->
             k ∈ map fst (rb_columns st')).
Proof.
  intros Hnone Hp Hr.
  destruct (rebuild_cgroup_columns _ _ _ _ Hr) as (cols1 & Hc & Hb).
  apply rebuild_blobs_spec in Hb. destruct Hb as (Hk & _ & _).
  unfold rebuild_cgroup in Hr. rewrite Hc, bind_Ok, Hnone, Hp, !bind_Ok in Hr.
  cbn [negb] in Hr.
  apply bind_Ok_inv in Hr. destruct Hr as (st1 & H1 & Hr).
  apply bind_Ok_inv in Hr. destruct Hr as (cols2 & _ & [= <-]). cbn.
  apply bind_Ok_inv in H1. destruct H1 as (u1 & Hpk & H1).
  apply bind_Ok_inv in H1. destruct H1 as (u2 & Htk & H1).
  apply bind_Ok_inv in H1. destruct H1 as (u3 & Hlon & H1).
  apply bind_Ok_inv in H1. destruct H1 as (u4 & Hlat & [= <-]). cbn.
  repeat split; try reflexivity.
  assert (Hck : forall o k, check_key cols1 o = Ok tt -> o = Some k ->
                            k ∈ map fst cols1).
  { intros o k Ho ->. cbn in Ho. destruct (OrderedDict.get cols1 k) eqn:Eg; [| discriminate].
    eapply od_get_in, Eg. }
  destruct u1, u2, u3, u4. cbn in Hk. rewrite Hk.
  intros k [Hk' | [Hk' | [Hk' | Hk']]].
  - exact (Hck _ k Hpk Hk').
  - exact (Hck _ k Htk Hk').
  - exact (Hck _ k Hlon Hk').
  - exact (Hck _ k Hlat Hk').
Qed.

(** The key attributes after [_rebuild_internal_schema]: the primary
    cgroup is the first cgroup whose name does not begin with an
    underscore; no other cgroup declares a primary key or spatial keys
    (lines 456-457); the accessors [get_primary_key],
    [get_spatial_keys] and [get_temporal_key] give the names the primary
    cgroup declares, which are also what the built-in aliases [_ID],
    [_LON], [_LAT] and [_TIME] resolve to.  A key the primary cgroup does
    not declare leaves the attribute with the value it had. *)
Theorem rebuild_internal_schema_keys (t t' : Table) (l1 l2 : list (string * Schema))
    (cg : string) (schema : Schema) :
  _rebuild_internal_schema t = Ok t' ->
  _cgroups t = l1 ++ (cg, schema) :: l2 ->
  Forall (fun c => _is_pseudotablet (fst c) = Ok true) l1 ->
  _is_pseudotablet cg = Ok false ->
  primary_cgroup t' = Some cg /\
  Forall (fun c => sc_primary_key (snd c) = None /\ sc_spatial_keys (snd c) = None)
    (l1 ++ l2) /\
  match sc_primary_key schema with
  | Some k => get_primary_key t' = Ok k /\ resolve_alias t' "_ID" = Ok k
  | None => primary_key t' = primary_key t
  end /\
  match sc_spatial_keys schema with
  | Some (lon, lat) =>
      get_spatial_keys t' = (Some lon, Some lat) /\
      resolve_alias t' "_LON" = Ok lon /\ resolve_alias t' "_LAT" = Ok lat
  | None => spatial_keys t' = spatial_keys t
  end /\
  match sc_temporal_key schema with
  | Some k => get_temporal_key t' = Some k /\ resolve_alias t' "_TIME" = Ok k
  | None => temporal_key t' = temporal_key t
  end.
Proof.
  intros Hr Hcg Hl1 Hp.
  pose proof (rebuild_internal_schema_index_lemma t t' Hr) as Hidx.
  unfold _rebuild_internal_schema in Hr. apply bind_Ok_inv in Hr.
  destruct Hr as (st & Hloop & Ht'). injection Ht' as Ht'.
  rewrite Hcg, rebuild_loop_app in Hloop. apply bind_Ok_inv in Hloop.
  destruct Hloop as (st1 & Hloop1 & Hloop). cbn [rebuild_loop] in Hloop.
  apply bind_Ok_inv in Hloop. destruct Hloop as (st2 & Hprim & Hloop2).
  apply rebuild_loop_secondary in Hloop1; [| right; exact Hl1].
  cbn in Hloop1. destruct Hloop1 as (E1 & E2 & E3 & E4 & Hall1).
  pose proof (rebuild_loop_index_keys _ _ _ Hloop2) as Hgrow.
  apply rebuild_cgroup_primary in Hprim; [| exact E1 | exact Hp].
  destruct Hprim as (P1 & P2 & P3 & P4 & Hin).
  apply rebuild_loop_secondary in Hloop2; [| left; rewrite P1; eauto].
  destruct Hloop2 as (F1 & F2 & F3 & F4 & Hall2).
  rewrite P1 in F1. rewrite P2, E2 in F2. rewrite P3, E3 in F3. rewrite P4, E4 in F4.
  assert (Hcol : forall k, k ∈ map fst (rb_columns st2) ->
                   exists ct, OrderedDict.get (rb_columns st) k = Some ct /\
                              col_name ct = k).
  { intros k Hk. apply Hgrow in Hk. destruct (od_in_get _ _ Hk) as [ct Hct].
    exists ct. split; [exact Hct |].
    destruct Hidx as (_ & _ & Hag & _). subst t'. cbn in Hag.
    destruct (Hag k ct Hct) as [Hn _]. exact Hn. }
  assert (Hsch : _get_schema t' (primary_cgroup t') = Ok schema).
  { subst t'. cbn. rewrite F1, Hcg. cbn. rewrite od_get_app_fresh; [reflexivity |].
    intros Hin'. apply list_elem_of_fmap in Hin'. destruct Hin' as ([n s'] & -> & Hin').
    rewrite Forall_forall in Hl1. specialize (Hl1 _ Hin'). cbn in Hl1, Hp. congruence. }
  split; [subst t'; exact F1 |].
  split; [apply Forall_app; split; assumption |].
  unfold get_primary_key, get_spatial_keys, get_temporal_key, resolve_alias.
  rewrite Hsch, !bind_Ok. subst t'. cbn.
  rewrite F2, F3, F4.
  split; [| split].
  - destruct (sc_primary_key schema) as [k |] eqn:Ek; [| reflexivity].
    destruct (Hcol k (Hin k (or_introl eq_refl))) as (ct & -> & Hn). cbn.
    rewrite Hn. split; reflexivity.
  - destruct (sc_spatial_keys schema) as [[lon lat] |] eqn:Ek; [| reflexivity].
    destruct (Hcol lon (Hin lon (or_intror (or_intror (or_introl eq_refl)))))
      as (ct1 & -> & Hn1).
    destruct (Hcol lat (Hin lat (or_intror (or_intror (or_intror eq_refl)))))
      as (ct2 & -> & Hn2).
    rewrite Hn1, Hn2. destruct (sc_primary_key schema); auto.
  - destruct (sc_temporal_key schema) as [k |] eqn:Ek; [| reflexivity].
    destruct (Hcol k (Hin k (or_intror (or_introl eq_refl)))) as (ct & -> & Hn). cbn.
    rewrite Hn. split; [reflexivity |].
    destruct (sc_primary_key schema); destruct (sc_spatial_keys schema); reflexivity.
Qed.
End RebuildKeys.

Lemma rebuild_internal_schema_keys_witness :
  get_primary_key stars = Ok "obj_id" /\ resolve_alias stars "_ID" = Ok "obj_id".
Proof.
  destruct (@rebuild_internal_schema_keys example_dtypes stars stars []
              [("_PSEUDOCOLS", _PSEUDOCOLS_schema)] "main" stars_schema)
    as (_ & _ & Hpk & _).
  - vm_compute. reflexivity.
  - reflexivity.
  - constructor.
  - reflexivity.
  - exact Hpk.
Defined.

(** ** lsd: URIs *)

Lemma cut_colon_app (a b : string) :
  has_colon a = false -> cut_colon (a +:+ ":" +:+ b) = Some (a, b).
Proof.
  induction a as [| c a IH]; [reflexivity |]. simpl in *.
  destruct (Ascii.eqb c ":"); [discriminate |]. simpl. intros Ha.
  rewrite (IH Ha). reflexivity.
Qed.

Lemma cut_colon_Some (s a b : string) :
  cut_colon s = Some (a, b) -> s = a +:+ ":" +:+ b /\ has_colon a = false.
Proof.
  revert a. induction s as [| c s IH]; [discriminate |]. intros a. cbn [cut_colon].
  destruct (Ascii.eqb_spec c ":"%char) as [-> | Hc].
  - intros [= <- <-]. auto.
  - destruct (cut_colon s) as [[a' b'] |]; [| discriminate]. intros [= <- <-].
    destruct (IH a' eq_refl) as [-> Ha]. simpl.
    rewrite Ha. destruct (Ascii.eqb_spec c ":"%char); [contradiction | auto].
Qed.

(** What [resolve_uri] reads off a URI.  A URI put together as
    [lsd:tabname:fgroup:fn], with no colon in the first two names,
    resolves to the file [fn] under the path of the file group, with
    the suffix of the group's filter; [fn] may hold colons, and the
    table name is handed back without being compared with the name of
    the table.  Nothing else resolves: a URI for which [resolve_uri]
    returns has this form. *)
Theorem resolve_uri_reads_four_parts (t : Table) :
  (forall tabname fgroup fn,
     has_colon tabname = false -> has_colon fgroup = false ->
     resolve_uri t ("lsd:" +:+ tabname +:+ ":" +:+ fgroup +:+ ":" +:+ fn) true =
       '(file, args, suffix) ← _get_fgroup_filter t fgroup;
       p ← _get_fgroup_path t fgroup;
       Ok (UriParts (p +:+ "/" +:+ fn +:+ suffix) tabname fgroup fn file args suffix)) /\
  (forall uri return_parts r,
     resolve_uri t uri return_parts = Ok r ->
     exists tabname fgroup fn,
       uri = "lsd:" +:+ tabname +:+ ":" +:+ fgroup +:+ ":" +:+ fn /\
       has_colon tabname = false /\ has_colon fgroup = false).
Proof.
  split.
  - intros tabname fgroup fn Ht Hf. unfold resolve_uri.
    assert (Hpre : forall rest, String.substring 0 4 ("lsd:" +:+ rest) = "lsd:")
      by (intros [| c rest]; reflexivity).
    rewrite Hpre. cbn [String.eqb Ascii.eqb Bool.eqb py_assert]. rewrite bind_Ok.
    change ("lsd:" +:+ tabname +:+ ":" +:+ fgroup +:+ ":" +:+ fn)
      with ("lsd" +:+ ":" +:+ (tabname +:+ ":" +:+ fgroup +:+ ":" +:+ fn)).
    cbn [split_colon]. rewrite (cut_colon_app "lsd") by reflexivity.
    rewrite (cut_colon_app tabname) by exact Ht.
    rewrite (cut_colon_app fgroup) by exact Hf. reflexivity.
  - intros uri rp r. unfold resolve_uri. intros Hr.
    apply bind_Ok_inv in Hr. destruct Hr as (u & Ha & Hr).
    unfold py_assert in Ha.
    destruct (String.eqb_spec (String.substring 0 4 uri) "lsd:") as [Hpre |];
      [| discriminate].
    cbn [split_colon] in Hr.
    destruct (cut_colon uri) as [[a0 b0] |] eqn:E0; [| discriminate].
    destruct (cut_colon b0) as [[a1 b1] |] eqn:E1; [| discriminate].
    destruct (cut_colon b1) as [[a2 b2] |] eqn:E2; [| discriminate].
    apply cut_colon_Some in E0, E1, E2.
    destruct E0 as [-> H0], E1 as [-> H1], E2 as [-> H2].
    exists a1, a2, b2. split; [| auto].
    assert (Ea : a0 = "lsd").
    { destruct a0 as [| c0 [| c1 [| c2 [| c3 a0]]]]; simpl in Hpre, H0;
        try discriminate Hpre.
      - inversion Hpre; subst. reflexivity.
      - inversion Hpre; subst. simpl in H0. discriminate H0. }
    subst a0. reflexivity.
Qed.
(** ** Aliases, file groups and filters *)

Section CommitSync.
Context `{NumpyDtype}.

Lemma _store_schema_attrs (t : Table) (fgs : gmap string FgroupDef)
    (fls : gmap string Z) (als : gmap string string) (data : SchemaCfg) :
  _store_schema t = Ok data ->
  _store_schema (with_aliases (with_filters (with_fgroups t fgs) fls) als)
  = Ok {| cfg_name := cfg_name data; cfg_nrows := cfg_nrows data;
          cfg_level := cfg_level data; cfg_t0 := cfg_t0 data; cfg_dt := cfg_dt data;
          cfg_cgroups := cfg_cgroups data;
          cfg_fgroups := Some fgs; cfg_filters := Some fls; cfg_aliases := Some als |}.
Proof.
  unfold _store_schema. cbn [_cgroups with_aliases with_filters with_fgroups].
  destruct (stored_cgroups (_cgroups t)) as [cgs |]; [| discriminate].
  rewrite !bind_Ok. intros [= <-]. reflexivity.
Qed.

Lemma _rebuild_internal_schema_attrs (t t1 : Table) (fgs : gmap string FgroupDef)
    (fls : gmap string Z) (als : gmap string string) :
  _rebuild_internal_schema t = Ok t1 ->
  _rebuild_internal_schema (with_aliases (with_filters (with_fgroups t fgs) fls) als)
  = Ok (with_aliases (with_filters (with_fgroups t1 fgs) fls) als).
Proof.
  unfold _rebuild_internal_schema. cbn [_cgroups with_aliases with_filters with_fgroups].
  destruct (rebuild_loop _ (_cgroups t)) as [st |]; [| discriminate].
  rewrite !bind_Ok. intros [= <-]. reflexivity.
Qed.

(** An object that agrees with its [schema.cfg] still does when its
    file groups, filters and aliases are replaced and the schema is
    stored again. *)
Lemma commit_in_sync (t : Table) (data0 : SchemaCfg) (fgs : gmap string FgroupDef)
    (fls : gmap string Z) (als : gmap string string) :
  _store_schema t = Ok data0 -> _load_schema t data0 = Ok t ->
  exists data,
    _store_schema (with_aliases (with_filters (with_fgroups t fgs) fls) als) = Ok data /\
    _load_schema (with_aliases (with_filters (with_fgroups t fgs) fls) als) data
    = Ok (with_aliases (with_filters (with_fgroups t fgs) fls) als).
Proof.
  intros Hs Hl. eexists. split; [apply _store_schema_attrs, Hs |].
  unfold _store_schema in Hs.
  destruct (stored_cgroups (_cgroups t)) as [cgs |]; [| discriminate].
  rewrite bind_Ok in Hs. injection Hs as <-.
  unfold _load_schema in Hl |- *. cbn [cfg_name cfg_nrows cfg_level cfg_t0 cfg_dt
    cfg_cgroups cfg_fgroups cfg_filters cfg_aliases of_option] in Hl |- *.
  rewrite !bind_Ok in Hl |- *. cbn [default] in Hl |- *.
  apply (_rebuild_internal_schema_attrs _ _ fgs fls als) in Hl. exact Hl.
Qed.

(** [define_alias], [define_fgroup] and [set_default_filters] on an
    object that agrees with its [schema.cfg] (storing it writes a
    document that loads to the same state): each returns, unless the
    aliased column is missing, and leaves the object in agreement with
    the document it has written. *)
Theorem commits_keep_object_and_file_in_sync (t : Table) (data0 : SchemaCfg) :
  _store_schema t = Ok data0 -> _load_schema t data0 = Ok t ->
  (forall alias colname,
     is_Some (OrderedDict.get (columns t) colname) ->
     exists t' data, define_alias t alias colname = Ok (t', data) /\
                     _aliases t' = <[alias := colname]> (_aliases t) /\
                     _load_schema t' data = Ok t') /\
  (forall fgroup fgroupdef,
     exists t' data, define_fgroup t fgroup fgroupdef = Ok (t', data) /\
                     _fgroups t' = <[fgroup := fgroupdef]> (_fgroups t) /\
                     _load_schema t' data = Ok t') /\
  (forall filters,
     exists t' data, set_default_filters t filters = Ok (t', data) /\
                     _filters t' = filters /\
                     _load_schema t' data = Ok t').
Proof.
  intros Hs Hl.
  assert (Hid : forall x, with_aliases (with_filters (with_fgroups x (_fgroups x))
                            (_filters x)) (_aliases x) = x) by (intros []; reflexivity).
  split; [| split].
  - intros alias colname Hcol.
    destruct (commit_in_sync t data0 (_fgroups t) (_filters t)
                (<[alias := colname]> (_aliases t)) Hs Hl) as (data & Hs' & Hl').
    unfold define_alias. rewrite (bool_decide_eq_true_2 _ Hcol). cbn [py_assert].
    rewrite bind_Ok.
    replace (with_aliases t (<[alias := colname]> (_aliases t)))
      with (with_aliases (with_filters (with_fgroups t (_fgroups t)) (_filters t))
              (<[alias := colname]> (_aliases t))) by (destruct t; reflexivity).
    rewrite Hs', bind_Ok. eauto.
  - intros fgroup fgroupdef.
    destruct (commit_in_sync t data0 (<[fgroup := fgroupdef]> (_fgroups t)) (_filters t)
                (_aliases t) Hs Hl) as (data & Hs' & Hl').
    unfold define_fgroup.
    replace (with_fgroups t (<[fgroup := fgroupdef]> (_fgroups t)))
      with (with_aliases (with_filters (with_fgroups t (<[fgroup := fgroupdef]> (_fgroups t)))
                            (_filters t)) (_aliases t)) by (destruct t; reflexivity).
    rewrite Hs', bind_Ok. eauto.
  - intros filters.
    destruct (commit_in_sync t data0 (_fgroups t) filters (_aliases t) Hs Hl)
      as (data & Hs' & Hl').
    unfold set_default_filters.
    replace (with_filters t filters)
      with (with_aliases (with_filters (with_fgroups t (_fgroups t)) filters)
              (_aliases t)) by (destruct t; reflexivity).
    rewrite Hs', bind_Ok. eauto.
Qed.

(** [define_alias] and [resolve_alias]: the new alias resolves to the
    column, unless its name is one of the built-in aliases, which are
    looked at first; every other name resolves as before.  A column
    that is not in the table makes [define_alias] raise. *)
Theorem define_alias_then_resolve (t t' : Table) (alias colname : string)
    (data : SchemaCfg) (schema : Schema) :
  define_alias t alias colname = Ok (t', data) ->
  _get_schema t (primary_cgroup t) = Ok schema ->
  is_Some (OrderedDict.get (columns t) colname) /\
  cfg_aliases data = Some (<[alias := colname]> (_aliases t)) /\
  (alias ∉ ["_ID"; "_LON"; "_LAT"; "_TIME"; "_EXP"] ->
     resolve_alias t' alias = Ok colname) /\
  (forall x, x <> alias -> resolve_alias t' x = resolve_alias t x).
Proof.
  unfold define_alias. intros Hd Hsch.
  apply bind_Ok_inv in Hd. destruct Hd as (u & Ha & Hd).
  apply bind_Ok_inv in Hd. destruct Hd as (d & Hst & [= <- <-]).
  split.
  { unfold py_assert in Ha. case_bool_decide; [assumption | discriminate]. }
  split.
  { unfold _store_schema in Hst. apply bind_Ok_inv in Hst.
    destruct Hst as (cgs & _ & [= <-]). reflexivity. }
  unfold resolve_alias. cbn [primary_cgroup with_aliases _aliases].
  change (_get_schema (with_aliases t (<[alias := colname]> (_aliases t))))
    with (_get_schema t).
  rewrite Hsch, !bind_Ok. split.
  - intros Hnot.
    assert (Hne : forall b, b ∈ ["_ID"; "_LON"; "_LAT"; "_TIME"; "_EXP"] ->
                            String.eqb alias b = false).
    { intros b Hb. apply String.eqb_neq. intros ->. contradiction. }
    rewrite !Hne by (repeat (first [left | right])). cbn [andb].
    rewrite lookup_insert_eq. reflexivity.
  - intros x Hx. rewrite lookup_insert_ne by congruence. reflexivity.
Qed.
End CommitSync.

Lemma commits_keep_object_and_file_in_sync_witness :
  exists t' data, define_alias stars "lon" "ra" = Ok (t', data) /\
                  _aliases t' = <["lon" := "ra"]> (_aliases stars) /\
                  _load_schema t' data = Ok t'.
Proof.
  destruct (_store_schema stars) as [data0 |] eqn:Es; [| vm_compute in Es; discriminate Es].
  refine (proj1 (@commits_keep_object_and_file_in_sync example_dtypes stars data0 Es _)
            "lon" "ra" _).
  - vm_compute in Es. injection Es as <-. vm_compute. reflexivity.
  - vm_compute. eauto.
Defined.

Lemma define_alias_then_resolve_witness :
  exists t' data, define_alias stars "lon" "ra" = Ok (t', data) /\
                  resolve_alias t' "lon" = Ok "ra".
Proof.
  destruct (define_alias stars "lon" "ra") as [[t' data] |] eqn:Ed;
    [| vm_compute in Ed; discriminate Ed].
  exists t', data. split; [reflexivity |].
  apply (proj1 (proj2 (proj2 (define_alias_then_resolve stars t' "lon" "ra"
                                data stars_schema Ed eq_refl)))).
  intros Hin. repeat (apply elem_of_cons in Hin; destruct Hin as [Hin | Hin];
                      [discriminate Hin |]).
  inversion Hin.
Defined.

(** ** [create_cgroup] *)

Lemma blob_columns_elem (schema : Schema) (n : string) :
  n ∈ blob_columns schema <->
  exists b, sc_blobs schema = Some b /\ is_Some (b !! n).
Proof.
  unfold blob_columns. destruct (sc_blobs schema) as [b |].
  - split.
    + intros Hin. exists b. split; [reflexivity |].
      apply list_elem_of_fmap in Hin. destruct Hin as ([k v] & -> & Hin).
      apply elem_of_map_to_list in Hin. cbn. eauto.
    + intros (b' & [= <-] & [v Hv]). apply list_elem_of_fmap. exists (n, v).
      split; [reflexivity |]. apply elem_of_map_to_list. exact Hv.
  - split; [intros Hin; inversion Hin | intros (b & Hb & _); discriminate].
Qed.

Lemma mark_blob_keeps (blobs : option (gmap string BlobDef)) (n m : string) :
  is_Some (default ∅ blobs !! n) -> is_Some (default ∅ (mark_blob blobs m) !! n).
Proof.
  intros Hn. unfold mark_blob. change (default ∅ (Some ?x)) with x.
  case_bool_decide; [exact Hn |].
  destruct (decide (m = n)) as [-> | Hne].
  - rewrite lookup_insert_eq. eauto.
  - rewrite lookup_insert_ne by exact Hne. exact Hn.
Qed.

Lemma mark_blob_marks (blobs : option (gmap string BlobDef)) (n : string) :
  is_Some (default ∅ (mark_blob blobs n) !! n).
Proof.
  unfold mark_blob. change (default ∅ (Some ?x)) with x.
  case_bool_decide; [assumption |].
  rewrite lookup_insert_eq. eauto.
Qed.

Lemma convert_objects_marks (cols : list (string * string))
    (blobs : option (gmap string BlobDef)) (n : string) :
  is_Some (default ∅ blobs !! n) \/
    (exists d, (n, d) ∈ cols /\ d <> replace_O8 d) ->
  is_Some (default ∅
             (fold_left (fun blobs c =>
                           if String.eqb (snd c) (replace_O8 (snd c)) then blobs
                           else mark_blob blobs (fst c)) cols blobs) !! n).
Proof.
  revert blobs. induction cols as [| [m d] cols IH]; intros blobs; cbn [fold_left].
  - intros [Hn | (d & Hin & _)]; [exact Hn | inversion Hin].
  - intros Hn. apply IH. cbn [fst snd].
    destruct (String.eqb_spec d (replace_O8 d)) as [Heq | Hne].
    + destruct Hn as [Hn | (d' & Hin & Hd')]; [left; exact Hn |].
      inversion Hin; subst; [congruence | right; eauto].
    + destruct Hn as [Hn | (d' & Hin & Hd')]; [left; apply mark_blob_keeps, Hn |].
      inversion Hin; subst; [left; apply mark_blob_marks | right; eauto].
Qed.

Lemma convert_objects_blob_columns (schema : Schema) (n d : string) :
  (n, d) ∈ sc_columns schema -> d <> replace_O8 d ->
  n ∈ blob_columns (convert_objects schema).
Proof.
  intros Hin Hd. apply blob_columns_elem. cbn [convert_objects sc_blobs].
  pose proof (convert_objects_marks (sc_columns schema) (sc_blobs schema) n
                (or_intror (ex_intro _ d (conj Hin Hd)))) as Hm.
  destruct (fold_left _ _ _) as [b |]; [eauto |].
  cbn in Hm. destruct Hm as [? Hm]. rewrite lookup_empty in Hm. discriminate.
Qed.

Section CreateCgroup.
Context `{NumpyDtype} `{Utils}.

(** [create_cgroup] when it returns.  The name is not a reserved one;
    a cgroup of that name was not there, or [ignore_if_exists] was set,
    and then its schema has been replaced; spatial keys come with a
    primary key, and a primary key only into a table that had no
    primary cgroup.  The table then holds the cgroup with every ['O8']
    of a dtype turned into ['i8'], each such column is in the index as
    an int64 blob column, and the document written to [schema.cfg]
    lists the cgroup. *)
Theorem create_cgroup_returns (t t' : Table) (cgroup : string) (schema : Schema)
    (ignore_if_exists : bool) (data : SchemaCfg) :
  create_cgroup t cgroup schema ignore_if_exists = Returns (t', data) ->
  _is_pseudotablet cgroup = Ok false /\
  (is_Some (OrderedDict.get (_cgroups t) cgroup) -> ignore_if_exists = true) /\
  (is_Some (sc_spatial_keys schema) -> is_Some (sc_primary_key schema)) /\
  (is_Some (sc_primary_key schema) -> primary_cgroup t = None) /\
  _get_schema t' (Some cgroup) = Ok (convert_objects schema) /\
  (forall n d, (n, d) ∈ sc_columns schema -> d <> replace_O8 d ->
     exists ct, OrderedDict.get (columns t') n = Some ct /\
                col_is_blob ct = true /\ dtype_base_is_int64 (col_dtype ct) = true) /\
  (exists cgs, cfg_cgroups data = Some cgs /\ (cgroup, convert_objects schema) ∈ cgs).
Proof.
  unfold create_cgroup. intros Hc.
  destruct (bool_decide (is_Some (OrderedDict.get (_cgroups t) cgroup))
            && negb ignore_if_exists) eqn:Eex; [discriminate |].
  destruct (_is_pseudotablet cgroup) as [[|] |] eqn:Ep; try discriminate.
  cbn [lift mbind outcome_bind] in Hc.
  destruct (bool_decide (is_Some (sc_spatial_keys (convert_objects schema)))
            && negb (bool_decide (is_Some (sc_primary_key (convert_objects schema)))))
    eqn:Esk; [discriminate |].
  cbn [convert_objects sc_spatial_keys sc_primary_key] in Esk, Hc.
  assert (Hprim : is_Some (sc_primary_key schema) -> primary_cgroup t = None).
  { intros [k Hk]. rewrite Hk in Hc. destruct (primary_cgroup t); [discriminate | reflexivity]. }
  assert (Hrest :
    exists t1,
      _rebuild_internal_schema
        (with_cgroups t (OrderedDict.set (_cgroups t) cgroup (convert_objects schema)))
      = Ok t1 /\ exists d1, _store_schema t1 = Ok d1 /\ (t1, d1) = (t', data)).
  { destruct (match sc_primary_key schema with Some _ => _ | None => _ end);
      [| discriminate].
    cbn [mbind outcome_bind] in Hc.
    destruct (check_blob_dtypes (convert_objects schema)); [| discriminate].
    cbn [lift mbind outcome_bind] in Hc.
    destruct (_rebuild_internal_schema _) as [t1 |] eqn:Er; [| discriminate].
    cbn [lift mbind outcome_bind] in Hc.
    destruct (_store_schema t1) as [d1 |] eqn:Es; [| discriminate].
    cbn [lift mbind outcome_bind] in Hc. injection Hc as <- <-. eauto. }
  clear Hc. destruct Hrest as (t1 & Hreb & d1 & Hst & [= <- <-]).
  destruct (_rebuild_internal_schema_keeps _ _ Hreb) as (_ & _ & _ & _ & Hcg & _).
  cbn [with_cgroups _cgroups] in Hcg.
  pose proof (rebuild_internal_schema_index_lemma _ _ Hreb) as (_ & _ & Hag & Hbl).
  cbn [with_cgroups _cgroups] in Hag, Hbl.
  assert (Hmem : (cgroup, convert_objects schema)
                 ∈ OrderedDict.set (_cgroups t) cgroup (convert_objects schema)).
  { apply od_get_Some_elem, od_get_set. }
  split; [reflexivity |]. split.
  { intros Hex. rewrite (bool_decide_eq_true_2 _ Hex) in Eex.
    destruct ignore_if_exists; [reflexivity | discriminate]. }
  split.
  { intros Hsk. rewrite (bool_decide_eq_true_2 _ Hsk) in Esk.
    case_bool_decide; [assumption | discriminate]. }
  split; [exact Hprim |]. split.
  { cbn [_get_schema]. rewrite Hcg, od_get_set. reflexivity. }
  split.
  - intros n d Hin Hd.
    pose proof (convert_objects_blob_columns schema n d Hin Hd) as Hb.
    destruct (od_in_get _ _ (Hbl _ _ _ Hmem Hb)) as [ct Hct].
    exists ct. split; [exact Hct |].
    destruct (Hag n ct Hct) as (_ & _ & Hisb & Hint).
    assert (Hblob : col_is_blob ct = true) by (apply Hisb; eauto).
    auto.
  - unfold _store_schema in Hst. apply bind_Ok_inv in Hst.
    destruct Hst as (cgs & Hcgs & [= <-]). exists cgs. split; [reflexivity |].
    rewrite Hcg in Hcgs. revert Hcgs Hmem.
    generalize (OrderedDict.set (_cgroups t) cgroup (convert_objects schema)) as l.
    intros l. revert cgs. induction l as [| [n s] l IH]; intros cgs;
      [intros _ Hm; inversion Hm |].
    cbn [stored_cgroups]. intros Hs Hm.
    apply bind_Ok_inv in Hs. destruct Hs as (p & Hp & Hs).
    apply bind_Ok_inv in Hs. destruct Hs as (rest & Hr & [= <-]).
    inversion Hm; subst.
    + rewrite Ep in Hp. injection Hp as <-. left.
    + destruct p; [| right]; eapply IH; eauto.
Qed.
End CreateCgroup.

Lemma create_cgroup_returns_witness :
  exists t' data ct,
    create_cgroup new_table "main" spectra_schema false = Returns (t', data) /\
    OrderedDict.get (columns t') "spectrum" = Some ct /\
    col_is_blob ct = true /\ dtype_base_is_int64 (col_dtype ct) = true.
Proof.
  destruct (create_cgroup new_table "main" spectra_schema false) as [[t' data] | r] eqn:Ec;
    [| vm_compute in Ec; discriminate Ec].
  destruct (@create_cgroup_returns example_dtypes example_utils new_table t' "main"
              spectra_schema false data Ec) as (_ & _ & _ & _ & _ & Hcol & _).
  destruct (Hcol "spectrum" "O8") as (ct & Hct & Hb & Hi).
  - cbn. repeat (first [left | right]).
  - discriminate.
  - exists t', data, ct. auto.
Defined.

(** ** Creating and opening a table *)

Section CreateOpen.
Context `{NumpyDtype} `{Utils}.

(** A table created with mode ['c'] and opened again.  Creating writes
    a [schema.cfg] without cgroups and loads it; the table has the
    pseudo-cgroup with its three columns, no primary cgroup and no
    rows, and the pixelization asked for (the class defaults where
    nothing was asked).  Opening the same path afterwards gives the
    same state.  Creating a table where one is raises and leaves the
    [schema.cfg] files as they are. *)
Theorem create_then_open (pixlevel : Z) (d d' : Disk) (path_ name_ : string)
    (level t0 dt : option Z) (t : Table) :
  (forall ds p, p ∈ mkdir_p ds p) ->
  Table__init__ pixlevel d path_ "c" (Some name_) level t0 dt = (d', Returns t) ->
  Table__init__ pixlevel d' path_ "r" None None None None = (d', Returns t) /\
  path t = path_ /\ name t = name_ /\ _nrows t = Some 0 /\
  pix t = {| pix_level := default pixlevel level; pix_t0 := default 54335 t0;
             pix_dt := default 1 dt |} /\
  primary_cgroup t = None /\
  map fst (_cgroups t) = ["_PSEUDOCOLS"] /\
  map fst (columns t) = ["_CACHED"; "_ROWIDX"; "_ROWID"] /\
  (forall name2 level2 t02 dt2,
     exists d2 msg,
       Table__init__ pixlevel d' path_ "c" (Some name2) level2 t02 dt2
         = (d2, Raises (Exception msg)) /\
       schema_cfgs d2 = schema_cfgs d').
Proof.
  intros Hmk. unfold Table__init__. cbn [String.eqb Ascii.eqb Bool.eqb].
  unfold _create. cbn [schema_cfgs dirs].
  case_bool_decide as Hex; [discriminate |].
  unfold _store_schema. cbn [_cgroups stored_cgroups]. rewrite bind_Ok.
  cbn [class_attributes name _nrows pix pix_level pix_t0 pix_dt primary_cgroup
       primary_key spatial_keys temporal_key _fgroups _filters _aliases].
  unfold _load_schema_file. cbn [path schema_cfgs dirs].
  rewrite !lookup_insert_eq. cbn [of_option]. rewrite !bind_Ok.
  unfold _load_schema.
  cbn [cfg_name cfg_nrows cfg_level cfg_t0 cfg_dt cfg_cgroups cfg_fgroups cfg_filters
       cfg_aliases of_option path columns primary_cgroup primary_key spatial_keys
       temporal_key]. rewrite !bind_Ok.
  unfold _rebuild_internal_schema.
  cbn [_cgroups OrderedDict.of_pairs fold_left OrderedDict.set rebuild_loop path name
       _nrows pix _fgroups _filters _aliases primary_key spatial_keys temporal_key].
  destruct (rebuild_cgroup _ ("_PSEUDOCOLS", _PSEUDOCOLS_schema)) as [st |] eqn:Est;
    [| discriminate].
  rewrite !bind_Ok. cbn [lift]. intros [= <- <-].
  cbn [dirs schema_cfgs]. rewrite (bool_decide_eq_true_2 _ (Hmk _ _)).
  rewrite lookup_insert_eq. cbn [of_option]. rewrite !bind_Ok.
  cbn [cfg_name cfg_nrows cfg_level cfg_t0 cfg_dt cfg_cgroups cfg_fgroups cfg_filters
       cfg_aliases of_option path columns primary_cgroup primary_key spatial_keys
       temporal_key]. rewrite !bind_Ok.
  cbn [_cgroups OrderedDict.of_pairs fold_left OrderedDict.set rebuild_loop path name
       _nrows pix _fgroups _filters _aliases primary_key spatial_keys temporal_key].
  rewrite Est, !bind_Ok. cbn [lift].
  unfold rebuild_cgroup in Est.
  cbn [sc_columns _PSEUDOCOLS_schema rebuild_columns rb_columns] in Est.
  unfold rebuild_column in Est. cbn [OrderedDict.get] in Est.
  rewrite (bool_decide_eq_false_2 (is_Some None)) in Est by (intros [? ?]; discriminate).
  cbn [negb py_assert] in Est. rewrite bind_Ok in Est.
  destruct (np_dtype "bool") as [dtb |]; [| discriminate].
  destruct (np_dtype "u8") as [dtu |]; [| discriminate].
  vm_compute in Est. injection Est as <-.
  cbn [default from_option].
  repeat split.
  intros name2 level2 t02 dt2. rewrite (bool_decide_eq_true_2 (is_Some (Some _))) by eauto.
  eexists _, _. split; reflexivity.
Qed.
End CreateOpen.

Lemma create_then_open_witness :
  exists d' t,
    Table__init__ 7 empty_disk "/db/new" "c" (Some "new") None None None
      = (d', Returns t) /\
    Table__init__ 7 d' "/db/new" "r" None None None None = (d', Returns t).
Proof.
  destruct (Table__init__ 7 empty_disk "/db/new" "c" (Some "new") None None None)
    as [d' [t | r]] eqn:Ei; [| vm_compute in Ei; discriminate Ei].
  exists d', t. split; [reflexivity |].
  apply (proj1 (@create_then_open example_dtypes example_utils 7 empty_disk d' "/db/new"
                  "new" None None None t
                  (fun ds p => proj2 (elem_of_union {[p]} ds p)
                                 (or_introl (proj2 (elem_of_singleton p p) eq_refl)))
                  Ei)).
Defined.

(** ** The static fallback of the readers *)

Section StaticFallback.
Context `{Pixelization} {B : Type}.

(** [fetch_tablet] and [fetch_blobs] both read the cell that
    [static_if_no_temporal] gives.  When the static cell of [cell_id]
    is not itself a temporal cell, that cell is a fixed point of
    [static_if_no_temporal], and reading it directly gives what reading
    [cell_id] gives: the rows and blobs of a temporal cell without a
    tablet are those of its static cell. *)
Theorem readers_fall_back_to_static_cell (t : Table) (fs : FS B) (cell_id c : Z) :
  is_temporal_cell (static_cell_for_cell cell_id) = false ->
  static_if_no_temporal t fs cell_id = Ok c ->
  static_if_no_temporal t fs c = Ok c /\
  (forall cgroup include_cached,
     fetch_tablet t fs cell_id cgroup include_cached
     = fetch_tablet t fs c cgroup include_cached) /\
  (forall py_none column refs include_cached,
     fetch_blobs t fs py_none cell_id column refs include_cached
     = fetch_blobs t fs py_none c column refs include_cached).
Proof.
  intros Hst Hc.
  assert (Hfix : static_if_no_temporal t fs c = Ok c).
  { unfold static_if_no_temporal in Hc |- *.
    destruct (is_temporal_cell cell_id) eqn:Et; cbn [negb] in Hc.
    - destruct (tablet_exists t fs cell_id None) as [[|] |] eqn:Ee; try discriminate;
        rewrite bind_Ok in Hc; injection Hc as <-.
      + rewrite Et. cbn [negb]. rewrite Ee, bind_Ok. reflexivity.
      + rewrite Hst. reflexivity.
    - injection Hc as <-. rewrite Et. reflexivity. }
  split; [exact Hfix |]. split.
  - intros cgroup ic. unfold fetch_tablet. rewrite Hc, Hfix. reflexivity.
  - intros py_none column refs ic. unfold fetch_blobs.
    destruct (shape refs) as [| n sh]; [reflexivity |].
    destruct (n =? 0)%nat; [reflexivity |].
    destruct (of_option KeyError (OrderedDict.get (columns t) column)); [| reflexivity].
    rewrite !bind_Ok, Hc, Hfix. reflexivity.
Qed.
End StaticFallback.

Lemma readers_fall_back_to_static_cell_witness :
  fetch_tablet stars example_fs temporal_cell (Some "main") true
  = fetch_tablet stars example_fs static_cell (Some "main") true.
Proof.
  apply (proj1 (proj2 (@readers_fall_back_to_static_cell example_pix string stars
                         example_fs temporal_cell static_cell eq_refl eq_refl))).
Defined.

(** ** Dropping a row group *)

Section DropRowGroupSpec.
Context `{PyRuntime} `{Pixelization}.

Lemma remove_group_spec (fp : Tablet Blob) :
  main (remove_group fp "main") = None /\
  cached (remove_group fp "main") = cached fp /\
  cached (remove_group fp "cached") = None /\
  main (remove_group fp "cached") = main fp.
Proof. repeat split. Qed.

(** The loop of [drop_row_group] over some cgroups: every file that was
    there is still there, with the row group that is not dropped as it
    was; the tablet of each cgroup that is not a pseudo-cgroup is there
    without the dropped row group; the lock files stay. *)
Lemma drop_groups_spec (t : Table) (cell_id : Z) (group : string) (keep : bool)
    (cgroups : list string) (fs fs' : FS Blob) :
  group = (if keep then "cached" else "main") ->
  let kept (fp : Tablet Blob) := if keep then main fp else cached fp in
  let dropped (fp : Tablet Blob) := if keep then cached fp else main fp in
  drop_groups t cell_id group cgroups fs = (fs', Ok tt) ->
  lockfiles fs' = lockfiles fs /\
  (forall fn fp0, files fs !! fn = Some fp0 ->
     exists fp, files fs' !! fn = Some fp /\ kept fp = kept fp0 /\
                (dropped fp0 = None -> dropped fp = None)) /\
  (forall cg, cg ∈ cgroups -> _is_pseudotablet cg = Ok false ->
     exists fn fp, _tablet_file t cell_id cg = Ok fn /\
                   files fs' !! fn = Some fp /\ dropped fp = None).
Proof.
  intros Hg kept dropped. revert fs.
  induction cgroups as [| cgroup rest IH]; intros fs.
  - intros [= <-]. split; [reflexivity |]. split; [eauto |].
    intros cg Hin. inversion Hin.
  - cbn [drop_groups].
    destruct (_is_pseudotablet cgroup) as [[|] |] eqn:Ep; [| | discriminate].
    + intros Hd. destruct (IH fs Hd) as (Hl & Hold & Hnew).
      split; [exact Hl |]. split; [exact Hold |].
      intros cg Hin Hcg. apply elem_of_cons in Hin. destruct Hin as [-> | Hin];
        [congruence | auto].
    + destruct (_open_tablet_w t fs cell_id cgroup) as [[fn fp] |] eqn:Eo; [| discriminate].
      intros Hd. destruct (IH _ Hd) as (Hl & Hold & Hnew). cbn [lockfiles files] in Hl, Hold.
      assert (Hrm : kept (remove_group fp group) = kept fp /\
                    dropped (remove_group fp group) = None).
      { subst group. unfold kept, dropped. destruct keep; split; reflexivity. }
      destruct Hrm as [Hk Hdr].
      split; [exact Hl |]. split.
      * intros fn0 fp0 Hf0. destruct (decide (fn = fn0)) as [<- | Hne].
        -- destruct (Hold fn (remove_group fp group)) as (fp1 & H1 & Hk1 & Hd1);
             [apply lookup_insert_eq |].
           exists fp1. split; [exact H1 |].
           assert (Efp : fp = fp0).
           { unfold _open_tablet_w in Eo.
             destruct (_tablet_file t cell_id cgroup) as [fn' |]; [| discriminate].
             rewrite bind_Ok in Eo. destruct (files fs !! fn') eqn:Ef.
             - injection Eo as <- <-. congruence.
             - apply bind_Ok_inv in Eo. destruct Eo as (s & _ & [= <- _]). congruence. }
           subst fp0. split; [congruence | auto].
        -- apply Hold. rewrite lookup_insert_ne by exact Hne. exact Hf0.
      * intros cg Hin Hcg. apply elem_of_cons in Hin. destruct Hin as [-> | Hin]; [| auto].
        apply _open_tablet_w_file in Eo.
        destruct (Hold fn (remove_group fp group)) as (fp1 & H1 & _ & Hd1);
          [apply lookup_insert_eq |].
        exists fn, fp1. auto.
Qed.

Lemma drop_row_group_spec (t : Table) (fs fs' : FS Blob) (cell_id : Z)
    (keep : bool) :
  let group := if keep then "cached" else "main" in
  let kept (fp : Tablet Blob) := if keep then main fp else cached fp in
  let dropped (fp : Tablet Blob) := if keep then cached fp else main fp in
  drop_row_group t fs cell_id group = Some (fs', Ok tt) ->
  lockfiles fs' = lockfiles fs /\
  (forall fn fp0, files fs !! fn = Some fp0 ->
     exists fp, files fs' !! fn = Some fp /\ kept fp = kept fp0) /\
  (forall cg, cg ∈ map fst (_cgroups t) -> _is_pseudotablet cg = Ok false ->
     exists fn fp, _tablet_file t cell_id cg = Ok fn /\
                   files fs' !! fn = Some fp /\ dropped fp = None).
Proof.
  intros group kept dropped. unfold drop_row_group.
  destruct (_cell_prefix t cell_id) as [prefix |]; [| discriminate].
  case_bool_decide as Hlock; [discriminate |].
  destruct (drop_groups _ _ _ _ _) as [fs1 [[] | e]] eqn:Ed; [| discriminate].
  intros [= <-]. cbn [lockfiles files].
  destruct (drop_groups_spec t cell_id group keep _ _ _ eq_refl Ed) as (Hl & Hold & Hnew).
  cbn [lockfiles files] in Hl, Hold. split.
  - rewrite Hl. apply set_eq. intros x.
    rewrite elem_of_difference, elem_of_union, elem_of_singleton.
    split; [tauto |]. intros Hx. split; [tauto | congruence].
  - split; [| exact Hnew]. intros fn fp0 Hf0.
    destruct (Hold fn fp0 Hf0) as (fp & Hfp & Hk & _). eauto.
Qed.

(** [drop_row_group] for one of the two row groups, when it returns
    normally.  The lock files are as before.  Every tablet that was
    there is still there and keeps its other row group.  Every cgroup
    that is not a pseudo-cgroup now has a tablet in the cell, created
    if there was none, and that tablet is without the dropped row
    group. *)
Theorem drop_row_group_returns (t : Table) (fs fs' : FS Blob) (cell_id : Z)
    (keep : bool) :
  let group := if keep then "cached" else "main" in
  let kept (fp : Tablet Blob) := if keep then main fp else cached fp in
  let dropped (fp : Tablet Blob) := if keep then cached fp else main fp in
  drop_row_group t fs cell_id group = Some (fs', Ok tt) ->
  lockfiles fs' = lockfiles fs /\
  (forall fn fp0, files fs !! fn = Some fp0 ->
     exists fp, files fs' !! fn = Some fp /\ kept fp = kept fp0) /\
  (forall cg, cg ∈ map fst (_cgroups t) -> _is_pseudotablet cg = Ok false ->
     exists fn fp, _tablet_file t cell_id cg = Ok fn /\
                   files fs' !! fn = Some fp /\ dropped fp = None).
Proof. apply drop_row_group_spec. Qed.
End DropRowGroupSpec.

Section DropThenFetch.
Context `{PyRuntime} `{Pixelization}.

(** After [drop_row_group(cell_id, 'cached')] has returned, the cell
    has no neighbour cache: for every cgroup that is not a
    pseudo-cgroup, [fetch_tablet] with [include_cached] gives what it
    gives without.  (The primary cgroup of a table is not a
    pseudo-cgroup.) *)
Theorem drop_cached_then_fetch (t : Table) (fs fs' : FS Blob) (cell_id : Z)
    (cg : string) :
  (forall pc, primary_cgroup t = Some pc -> _is_pseudotablet pc = Ok false) ->
  drop_row_group t fs cell_id "cached" = Some (fs', Ok tt) ->
  cg ∈ map fst (_cgroups t) -> _is_pseudotablet cg = Ok false ->
  fetch_tablet t fs' cell_id (Some cg) true = fetch_tablet t fs' cell_id (Some cg) false.
Proof.
  intros Hprim Hdrop Hcg Hp.
  destruct (drop_row_group_spec t fs fs' cell_id true Hdrop) as (_ & _ & Hnew).
  cbn zeta in Hnew.
  assert (Hex : forall c, c ∈ map fst (_cgroups t) -> _is_pseudotablet c = Ok false ->
                  tablet_exists t fs' cell_id (Some c) = Ok true).
  { intros c Hc Hpc. destruct (Hnew c Hc Hpc) as (fn & fp & Hfn & Hfp & _).
    unfold tablet_exists. rewrite Hpc, !bind_Ok. cbn [of_option]. rewrite bind_Ok.
    rewrite (bool_decide_eq_true_2 _ (od_in_get _ _ Hc)). cbn [py_assert].
    rewrite bind_Ok, Hfn, bind_Ok, Hfp.
    rewrite bool_decide_eq_true_2 by eauto. reflexivity. }
  assert (Hcell : static_if_no_temporal t fs' cell_id = Ok cell_id).
  { unfold static_if_no_temporal. destruct (is_temporal_cell cell_id); [| reflexivity].
    cbn [negb]. unfold drop_row_group in Hdrop.
    destruct (_cell_prefix t cell_id) as [prefix |] eqn:Epre; [| discriminate].
    unfold _cell_prefix, _get_cgroup_data_path, _get_schema in Epre.
    destruct (primary_cgroup t) as [pc |] eqn:Epc; [| discriminate].
    destruct (OrderedDict.get (_cgroups t) pc) as [s |] eqn:Es; [| discriminate].
    specialize (Hex pc (od_get_in _ _ _ Es) (Hprim pc eq_refl)).
    unfold tablet_exists in Hex |- *. rewrite Epc.
    rewrite (Hprim pc eq_refl), bind_Ok in Hex. cbn [of_option] in Hex |- *.
    rewrite bind_Ok in Hex |- *. rewrite Hex, bind_Ok. reflexivity. }
  destruct (Hnew cg Hcg Hp) as (fn & fp & Hfn & Hfp & Hnone). cbn in Hnone.
  unfold fetch_tablet. rewrite Hcell, !bind_Ok. cbn [of_option]. rewrite !bind_Ok.
  rewrite Hp, !bind_Ok, (Hex cg Hcg Hp), !bind_Ok.
  unfold _open_tablet_r. rewrite Hfn, bind_Ok, Hfp. cbn [of_option]. rewrite !bind_Ok.
  rewrite Hnone. reflexivity.
Qed.
End DropThenFetch.

Lemma drop_row_group_returns_witness :
  exists fs',
    @drop_row_group example_runtime example_pix stars example_fs static_cell "cached"
      = Some (fs', Ok tt) /\
    lockfiles fs' = lockfiles example_fs.
Proof.
  destruct (@drop_row_group example_runtime example_pix stars example_fs static_cell
              "cached") as [[fs' [[] | e]] |] eqn:Ed;
    try (vm_compute in Ed; discriminate Ed).
  exists fs'. split; [reflexivity |].
  apply (@drop_row_group_returns example_runtime example_pix stars example_fs fs'
           static_cell true Ed).
Defined.

Lemma drop_cached_then_fetch_witness :
  exists fs',
    @drop_row_group example_runtime example_pix stars example_fs static_cell "cached"
      = Some (fs', Ok tt) /\
    fetch_tablet stars fs' static_cell (Some "main") true
    = fetch_tablet stars fs' static_cell (Some "main") false.
Proof.
  destruct (@drop_row_group example_runtime example_pix stars example_fs static_cell
              "cached") as [[fs' [[] | e]] |] eqn:Ed;
    try (vm_compute in Ed; discriminate Ed).
  exists fs'. split; [reflexivity |].
  apply (@drop_cached_then_fetch example_runtime example_pix stars example_fs fs'
           static_cell "main").
  - intros pc [= <-]. reflexivity.
  - exact Ed.
  - cbn. left.
  - reflexivity.
Defined.

(** ** What an append leaves in the row table *)

Lemma ra_append_get (r r2 : RecArray) (c : string) (old new : list Z) :
  map fst r = map fst r2 ->
  OrderedDict.get r c = Some old -> OrderedDict.get r2 c = Some new ->
  OrderedDict.get (ra_append r r2) c = Some (old ++ new).
Proof.
  unfold ra_append. revert r2. induction r as [| [f col] r IH]; intros r2 Hf; [discriminate |].
  destruct r2 as [| [f2 col2] r2]; [discriminate |].
  cbn in Hf. injection Hf as <- Hf. cbn.
  destruct (String.eqb f c); [intros [= <-] [= <-]; reflexivity | apply IH, Hf].
Qed.

Lemma ra_zeros_get (n : nat) (cols : list (string * string)) (c : string) :
  c ∈ map fst cols -> OrderedDict.get (ra_zeros n cols) c = Some (replicate n 0).
Proof.
  unfold ra_zeros. induction cols as [| [f ty] cols IH]; cbn; [intros Hin; inversion Hin |].
  destruct (String.eqb_spec f c) as [-> | Hne]; [reflexivity |].
  intros Hin. inversion Hin; subst; [congruence | auto].
Qed.

Section WriteRows.
Context `{PyRuntime}.

Lemma select_columns_get (schema : Schema) (cols : ColGroup) (incell : list bool)
    (c : string) :
  OrderedDict.get (select_columns schema cols incell) c =
    if bool_decide (c ∈ map fst (sc_columns schema))
    then (fun col => col_select col incell) <$> OrderedDict.get cols c
    else None.
Proof.
  unfold select_columns. induction (sc_columns schema) as [| [f ty] l IH].
  - rewrite bool_decide_eq_false_2 by (intros Hin; inversion Hin). reflexivity.
  - cbn [omap list_omap fst map]. destruct (String.eqb_spec f c) as [-> | Hne].
    + rewrite (bool_decide_eq_true_2 (c ∈ c :: map fst l)) by left.
      destruct (OrderedDict.get cols c) as [col |] eqn:Eg.
      * cbn. rewrite String.eqb_refl. reflexivity.
      * rewrite IH. case_bool_decide; reflexivity.
    + assert (Hiff : c ∈ f :: map fst l <-> c ∈ map fst l).
      { split; [| right; assumption]. intros Hin. inversion Hin; subst; [congruence | auto]. }
      rewrite (bool_decide_ext _ _ Hiff), <- IH.
      destruct (OrderedDict.get cols f); [| reflexivity].
      cbn. destruct (String.eqb_spec f c); [contradiction | reflexivity].
Qed.

Lemma put_regular_column_get (schema : Schema) (colsT : ColGroup)
    (rows rows1 : RecArray) (x : string) :
  put_regular_column schema colsT Slice rows x = Ok rows1 ->
  map fst rows1 = map fst rows /\
  (forall c, x <> c -> OrderedDict.get rows1 c = OrderedDict.get rows c) /\
  (is_blob_col schema x = false ->
     exists l, num_col colsT x = Ok l /\ OrderedDict.get rows1 x = Some l).
Proof.
  unfold put_regular_column. intros Hx. destruct (is_blob_col schema x) eqn:Ebx.
  - injection Hx as <-. split; [reflexivity |]. split; [reflexivity | discriminate].
  - apply bind_Ok_inv in Hx. destruct Hx as (col & Hcol & Hset).
    unfold ra_set, ra_field in Hset.
    apply bind_Ok_inv in Hset. destruct Hset as (old & Hold & Hset).
    apply of_option_Ok in Hold.
    apply bind_Ok_inv in Hset. destruct Hset as (u & _ & [= <-]).
    split; [eapply od_set_fields, Hold |]. split.
    + intros c Hne. apply od_get_set_other, Hne.
    + intros _. exists col. split; [exact Hcol | apply od_get_set].
Qed.

Lemma fold_put_regular_get (schema : Schema) (colsT : ColGroup) (names : list string)
    (rows rows' : RecArray) :
  foldM (put_regular_column schema colsT Slice) rows names = Ok rows' ->
  map fst rows' = map fst rows /\
  forall c, is_blob_col schema c = false ->
    (c ∈ names -> exists l, num_col colsT c = Ok l /\ OrderedDict.get rows' c = Some l) /\
    (c ∉ names -> OrderedDict.get rows' c = OrderedDict.get rows c).
Proof.
  revert rows. induction names as [| x names IH]; intros rows.
  - intros [= <-]. split; [reflexivity |]. intros c _.
    split; [intros Hin; inversion Hin | reflexivity].
  - cbn [foldM]. intros Hf. apply bind_Ok_inv in Hf. destruct Hf as (rows1 & Hx & Hf).
    destruct (IH _ Hf) as (Hk & Hc).
    destruct (put_regular_column_get _ _ _ _ _ Hx) as (Hk1 & Hne1 & Heq1).
    split; [congruence |]. intros c Hcb. destruct (Hc c Hcb) as [Hin Hout]. split.
    + intros Hcin. destruct (decide (c ∈ names)) as [Hn | Hn]; [auto |].
      apply elem_of_cons in Hcin. destruct Hcin as [-> | Hcin]; [| contradiction].
      destruct (Heq1 Hcb) as (l & Hl & Hg). exists l. split; [exact Hl |].
      rewrite (Hout Hn). exact Hg.
    + intros Hcout. rewrite Hout, Hne1; [reflexivity | |].
      * intros ->. apply Hcout. left.
      * intros Hn. apply Hcout. right. exact Hn.
Qed.

Lemma fold_put_blob_get (schema : Schema) (colsB : ColGroup) (names : list string)
    (g g' : RowGroup Blob) (rows rows' : RecArray) (lv lv' : LoopVars) :
  st_foldM (put_blob_column schema colsB) (rows, lv) names g = (g', Ok (rows', lv')) ->
  Forall (fun n => is_blob_col schema n = true) names ->
  rg_table g' = rg_table g /\ map fst rows' = map fst rows /\
  (forall c, is_blob_col schema c = false ->
             OrderedDict.get rows' c = OrderedDict.get rows c) /\
  lv_nrows lv' = lv_nrows lv /\ lv_nnew lv' = lv_nnew lv.
Proof.
  intros Hf Hall.
  apply (st_foldM_invariant _
           (fun g1 acc => rg_table g1 = rg_table g /\
                          map fst (fst acc) = map fst rows /\
                          (forall c, is_blob_col schema c = false ->
                             OrderedDict.get (fst acc) c = OrderedDict.get rows c) /\
                          lv_nrows (snd acc) = lv_nrows lv /\
                          lv_nnew (snd acc) = lv_nnew lv)) in Hf.
  - exact Hf.
  - intros [r1 lv1] x g1 [r2 lv2] g2 Hx (Ht & Hk & Hg & Hn1 & Hn2) Hput.
    cbn [fst snd] in *. apply put_blob_column_Ok in Hput.
    destruct Hput as (flatB & old & barray & ito & barray' & _ & Hold & _ & _ & _ &
                      -> & -> & ->).
    cbn [rg_table lv_nrows lv_nnew]. split; [exact Ht |].
    rewrite (od_set_fields _ _ _ _ Hold). split; [exact Hk |]. split; [| auto].
    intros c Hc. rewrite <- (Hg c Hc). apply od_get_set_other. intros ->.
    rewrite Forall_forall in Hall. specialize (Hall c Hx). congruence.
  - cbn [fst snd]. auto.
Qed.

Lemma assign_keys_length (group : Group) (cell_id_given : bool) (key : string)
    (keysT keysT' : list Z) (arrays arrays' : gmap string Z) :
  assign_keys group cell_id_given key keysT arrays = (arrays', Ok keysT') ->
  length keysT' = length keysT.
Proof.
  unfold assign_keys. intros Ha.
  apply st_bind_Ok_inv in Ha. destruct Ha as (a0 & a1 & _ & Ha).
  apply st_bind_Ok_inv in Ha. destruct Ha as (id0 & a2 & _ & Ha).
  destruct (forallb _ _).
  - apply st_ret_inv in Ha. destruct Ha as [-> _]. reflexivity.
  - apply st_bind_Ok_inv in Ha. destruct Ha as (u1 & a3 & _ & Ha).
    apply st_bind_Ok_inv in Ha. destruct Ha as (u2 & a4 & _ & Ha).
    apply st_bind_Ok_inv in Ha. destruct Ha as (i0 & a5 & _ & Ha).
    apply st_bind_Ok_inv in Ha. destruct Ha as (a6 & a7 & _ & Ha).
    apply st_bind_Ok_inv in Ha. destruct Ha as (u3 & a8 & _ & Ha).
    apply st_ret_inv in Ha. destruct Ha as [-> _]. apply mask_assign_length.
Qed.

(** Setting the key column to keys of the same number leaves every
    column with the length it had. *)
Lemma od_set_col_len (cols : ColGroup) (k : string) (l l' : list Z) (c : string) :
  num_col cols k = Ok l -> length l' = length l ->
  col_len <$> OrderedDict.get (OrderedDict.set cols k (NumCol l')) c
  = col_len <$> OrderedDict.get cols c.
Proof.
  intros Hk Hl. destruct (decide (k = c)) as [<- | Hne].
  - rewrite od_get_set. unfold num_col in Hk.
    destruct (OrderedDict.get cols k) as [[l0 | o] |]; try discriminate.
    injection Hk as ->. cbn. congruence.
  - rewrite od_get_set_other by exact Hne. reflexivity.
Qed.

Lemma primary_block_frame (t : Table) (group : Group) (_update cell_id_given : bool)
    (key : string) (g g1 : RowGroup Blob) (colsT colsT1 cols cols1 : ColGroup)
    (incell : list bool) (lv lv1 : LoopVars) :
  primary_block t group _update cell_id_given key colsT cols incell lv g
    = (g1, Ok (colsT1, cols1, lv1)) ->
  rg_table g1 = rg_table g /\ rg_blobs g1 = rg_blobs g /\
  cg_len colsT1 = cg_len colsT /\
  (forall c, c <> key -> OrderedDict.get colsT1 c = OrderedDict.get colsT c) /\
  (forall c, c <> key -> OrderedDict.get cols1 c = OrderedDict.get cols c) /\
  (forall c, col_len <$> OrderedDict.get cols1 c = col_len <$> OrderedDict.get cols c) /\
  (_update = false -> lv_nnew lv1 = lv_nnew lv /\ lv_idx lv1 = lv_idx lv).
Proof.
  intros Hpb. apply primary_block_Ok in Hpb.
  destruct Hpb as (keysT & arrays & keysT' & allkeys & Hk & Hassign & Hall &
                   -> & -> & -> & _ & Hup).
  apply assign_keys_length in Hassign. cbn [rg_table rg_blobs].
  split; [reflexivity |]. split; [reflexivity |]. split; [| split; [| split; [| split]]].
  - eapply cg_len_set_same; [exact Hk | exact Hassign].
  - intros c Hc. apply od_get_set_other. congruence.
  - intros c Hc. apply od_get_set_other. congruence.
  - intros c. eapply od_set_col_len; [exact Hall | apply mask_assign_length].
  - intros ->. exact Hup.
Qed.

(** The number of rows [colsT] has: the rows of the cell, when the
    batch gives a column of the cgroup, and none otherwise. *)
Lemma mask_select_length {A} (l : list A) (mask : list bool) :
  length l = length mask -> length (mask_select l mask) = rows_in_cell mask.
Proof.
  unfold rows_in_cell. revert mask. induction l as [| x l IH]; intros [| b mask] Hl;
    try discriminate; [reflexivity |].
  cbn in Hl |- *. destruct b; cbn; rewrite IH by lia; reflexivity.
Qed.

Lemma select_columns_cg_len (schema : Schema) (cols : ColGroup) (incell : list bool) :
  (forall x col, OrderedDict.get cols x = Some col -> col_len col = length incell) ->
  cg_len (select_columns schema cols incell)
  = if gives_column schema cols then rows_in_cell incell else O.
Proof.
  intros Hlen. unfold select_columns, gives_column.
  induction (sc_columns schema) as [| [f ty] l IH]; [reflexivity |].
  cbn [omap list_omap existsb fst].
  destruct (OrderedDict.get cols f) as [col |] eqn:Eg.
  - rewrite bool_decide_eq_true_2 by eauto. cbn [orb cg_len].
    specialize (Hlen _ _ Eg).
    destruct col as [v | v]; cbn [col_select col_len] in *;
      apply mask_select_length, Hlen.
  - rewrite bool_decide_eq_false_2 by (intros [? ?]; discriminate). cbn [orb]. exact IH.
Qed.

Lemma Forall_col_len (cols : ColGroup) (n : nat) :
  Forall (fun c => col_len (snd c) = n) cols ->
  forall x col, OrderedDict.get cols x = Some col -> col_len col = n.
Proof.
  intros Hlen x col Hg. apply od_get_Some_elem in Hg. rewrite Forall_forall in Hlen.
  exact (Hlen _ Hg).
Qed.

Lemma same_batch_refl (key : string) (cols : ColGroup) : same_batch key cols cols.
Proof. split; reflexivity. Qed.

Lemma same_batch_trans (key : string) (cols1 cols2 cols3 : ColGroup) :
  same_batch key cols1 cols2 -> same_batch key cols2 cols3 -> same_batch key cols1 cols3.
Proof.
  intros [H1 L1] [H2 L2]. split.
  - intros x Hx. rewrite (H2 x Hx). apply H1, Hx.
  - intros x. rewrite L2. apply L1.
Qed.

Lemma same_batch_col_len (key : string) (cols cols' : ColGroup) (n : nat) :
  same_batch key cols cols' ->
  (forall x col, OrderedDict.get cols x = Some col -> col_len col = n) ->
  forall x col, OrderedDict.get cols' x = Some col -> col_len col = n.
Proof.
  intros [_ Hl] Hn x col Hg. specialize (Hl x). rewrite Hg in Hl.
  destruct (OrderedDict.get cols x) as [col0 |] eqn:E0; [| discriminate].
  cbn in Hl. injection Hl as ->. exact (Hn _ _ E0).
Qed.

Lemma same_batch_gives_column (key : string) (cols cols' : ColGroup) (schema : Schema) :
  same_batch key cols cols' -> gives_column schema cols' = gives_column schema cols.
Proof.
  intros [_ Hl]. unfold gives_column. induction (sc_columns schema) as [| [f ty] l IH];
    [reflexivity |].
  cbn [existsb fst]. rewrite IH. f_equal. specialize (Hl f).
  destruct (OrderedDict.get cols' f), (OrderedDict.get cols f); try discriminate;
    [rewrite !bool_decide_eq_true_2 by eauto; reflexivity |].
  rewrite !bool_decide_eq_false_2 by (intros [? ?]; discriminate). reflexivity.
Qed.

Lemma write_cgroup_appends_batch_raw (t : Table) (group : Group) (cell_id_given : bool)
    (key cgroup : string) (schema : Schema) (fp fp' : Tablet Blob)
    (cols cols' : ColGroup) (incell : list bool) (lv lv' : LoopVars) :
  map fst (rg_table (_get_row_group fp group schema)) = map fst (sc_columns schema) ->
  write_cgroup t group false cell_id_given key cgroup schema fp cols incell lv
    = (fp', Ok (cols', lv')) ->
  exists g',
    get_group fp' group = Some g' /\
    map fst (rg_table g') = map fst (sc_columns schema) /\
    lv_nnew lv' = Some (Z.of_nat (cg_len (select_columns schema cols incell))) /\
    forall c old,
      OrderedDict.get (rg_table (_get_row_group fp group schema)) c = Some old ->
      is_blob_col schema c = false ->
      c <> key \/ Some cgroup <> primary_cgroup t ->
      match OrderedDict.get cols c with
      | Some (NumCol l) =>
          OrderedDict.get (rg_table g') c = Some (old ++ mask_select l incell)
      | Some (ObjCol _) => False
      | None =>
          OrderedDict.get (rg_table g') c
          = Some (old ++ replicate (cg_len (select_columns schema cols incell)) 0)
      end.
Proof.
  intros Hfields Hw. apply write_cgroup_Ok in Hw. cbv zeta in Hw.
  set (g0 := _get_row_group fp group schema) in *.
  set (colsT := select_columns schema cols incell) in *.
  destruct Hw as (g1 & colsT1 & lv1 & g2 & colsB2 & rows & lv2 & g3 & rows3 &
                  Hpb & Hrb & Hfill & ->).
  assert (Hfr : rg_table g1 = rg_table g0 /\ cg_len colsT1 = cg_len colsT /\
                forall c, c <> key \/ Some cgroup <> primary_cgroup t ->
                          OrderedDict.get colsT1 c = OrderedDict.get colsT c).
  { case_bool_decide as Hprim.
    - destruct (primary_block_frame _ _ _ _ _ _ _ _ _ _ _ _ _ _ Hpb)
        as (Ht & _ & Hl & Hg & _).
      split; [exact Ht |]. split; [exact Hl |].
      intros c [Hc | Hc]; [apply Hg, Hc | contradiction].
    - destruct Hpb as (-> & -> & _ & _). auto. }
  destruct Hfr as (Ht1 & Hlen1 & Hget1).
  unfold row_buffer in Hrb. cbv zeta in Hrb.
  apply st_ret_inv in Hrb. destruct Hrb as [[= -> -> ->] ->].
  unfold fill_rows in Hfill. cbn [lv_idx of_option] in Hfill.
  apply st_bind_Ok_inv in Hfill. destruct Hfill as (rows1 & ga & Hreg & Hblob).
  apply st_lift_Ok_inv in Hreg. destruct Hreg as [Hreg ->]. rewrite bind_Ok in Hreg.
  assert (HB : Forall (fun n => is_blob_col schema n = true)
                 (map fst (List.filter (fun c => is_blob_col schema (fst c)) colsT)))
    by apply filter_blob_names.
  destruct (fold_put_regular_get _ _ _ _ _ Hreg) as (Hk1 & Hreg').
  destruct (fold_put_blob_get _ _ _ _ _ _ _ _ _ Hblob HB)
    as (Ht3 & Hk3 & Hblob' & _ & Hnn).
  assert (Hz : map fst (ra_zeros (cg_len colsT1) (sc_columns schema))
               = map fst (sc_columns schema)).
  { unfold ra_zeros. rewrite map_map. reflexivity. }
  assert (Hsame : map fst (rg_table g3) = map fst rows3) by congruence.
  eexists. split; [destruct group; reflexivity |]. cbn [rg_table].
  split; [rewrite ra_append_fields by exact Hsame; congruence |].
  split; [rewrite Hnn; cbn [lv_nnew]; congruence |].
  intros c old Hold Hcb Hck.
  assert (Hcin : c ∈ map fst (sc_columns schema)).
  { rewrite <- Hfields. eapply od_get_in, Hold. }
  destruct (Hreg' c Hcb) as [Hin Hout].
  pose proof (Hget1 c Hck) as Hg. unfold colsT in Hg.
  rewrite select_columns_get, (bool_decide_eq_true_2 _ Hcin) in Hg.
  rewrite <- Ht1, <- Ht3 in Hold.
  destruct (OrderedDict.get cols c) as [[l | o] |] eqn:Ec; cbn in Hg.
  - destruct (Hin (od_get_in _ _ _ Hg)) as (l' & Hl' & Hg').
    unfold num_col in Hl'. rewrite Hg in Hl'. cbn in Hl'. injection Hl' as <-.
    apply (ra_append_get _ _ _ _ _ Hsame Hold). rewrite (Hblob' c Hcb). exact Hg'.
  - destruct (Hin (od_get_in _ _ _ Hg)) as (l' & Hl' & _).
    unfold num_col in Hl'. rewrite Hg in Hl'. discriminate Hl'.
  - apply (ra_append_get _ _ _ _ _ Hsame Hold).
    rewrite (Hblob' c Hcb), (Hout (od_get_None _ _ Hg)), <- Hlen1.
    apply ra_zeros_get, Hcin.
Qed.

Lemma gives_column_true (schema : Schema) (cols : ColGroup) (c : string) :
  c ∈ map fst (sc_columns schema) -> is_Some (OrderedDict.get cols c) ->
  gives_column schema cols = true.
Proof.
  intros Hcin Hc. unfold gives_column. apply existsb_exists.
  apply list_elem_of_fmap in Hcin. destruct Hcin as ([f ty] & -> & Hin).
  exists (f, ty). split; [apply list_elem_of_In, Hin |].
  apply bool_decide_eq_true_2, Hc.
Qed.

Lemma write_cgroup_appends_batch_lemma (t : Table) (group : Group) (cell_id_given : bool)
    (key cgroup : string) (schema : Schema) (fp fp' : Tablet Blob)
    (cols cols' : ColGroup) (incell : list bool) (lv lv' : LoopVars) :
  map fst (rg_table (_get_row_group fp group schema)) = map fst (sc_columns schema) ->
  (forall x col, OrderedDict.get cols x = Some col -> col_len col = length incell) ->
  write_cgroup t group false cell_id_given key cgroup schema fp cols incell lv
    = (fp', Ok (cols', lv')) ->
  let n := if gives_column schema cols then rows_in_cell incell else O in
  exists g',
    get_group fp' group = Some g' /\
    map fst (rg_table g') = map fst (sc_columns schema) /\
    lv_nnew lv' = Some (Z.of_nat n) /\
    forall c old,
      OrderedDict.get (rg_table (_get_row_group fp group schema)) c = Some old ->
      is_blob_col schema c = false ->
      c <> key \/ Some cgroup <> primary_cgroup t ->
      match OrderedDict.get cols c with
      | Some (NumCol l) =>
          length (mask_select l incell) = n /\
          OrderedDict.get (rg_table g') c = Some (old ++ mask_select l incell)
      | Some (ObjCol _) => False
      | None =>
          OrderedDict.get (rg_table g') c = Some (old ++ replicate n 0)
      end.
Proof.
  intros Hfields Hlen Hw n.
  destruct (write_cgroup_appends_batch_raw _ _ _ _ _ _ _ _ _ _ _ _ _ Hfields Hw)
    as (g' & Hg' & Hk & Hn & Hcol).
  rewrite (select_columns_cg_len _ _ _ Hlen) in Hn, Hcol.
  fold n in Hn, Hcol.
  exists g'. split; [exact Hg' |]. split; [exact Hk |]. split; [exact Hn |].
  intros c old Hold Hcb Hck. specialize (Hcol c old Hold Hcb Hck).
  destruct (OrderedDict.get cols c) as [[l | o] |] eqn:Ec; try exact Hcol.
  split; [| exact Hcol].
  assert (Hcin : c ∈ map fst (sc_columns schema)).
  { rewrite <- Hfields. eapply od_get_in, Hold. }
  pose proof (Hlen _ _ Ec) as Hl. cbn [col_len] in Hl.
  rewrite (mask_select_length _ _ Hl). unfold n.
  rewrite (gives_column_true schema cols c Hcin) by (rewrite Ec; eauto). reflexivity.
Qed.

(** A write that is not an update adds rows at the end of the row
    table of the cgroup.  The batch has columns of one length, the
    length of the mask [incell] of the cell.  When the batch gives a
    column of the cgroup, the write adds a row for every row of the
    batch that goes to the cell; when it gives none, the write adds no
    row ([colsT] is an empty column group, of length 0).  In every
    column that is not a blob column (and, in the primary cgroup, not
    the key column, whose values may be completed) the rows that were
    there stay as they were; after them come the values of the batch
    for the rows of this cell, in batch order, and zeros, one for each
    added row, when the batch does not give the column. *)
Theorem write_cgroup_appends_batch (t : Table) (group : Group) (cell_id_given : bool)
    (key cgroup : string) (schema : Schema) (fp fp' : Tablet Blob)
    (cols cols' : ColGroup) (incell : list bool) (lv lv' : LoopVars) :
  map fst (rg_table (_get_row_group fp group schema)) = map fst (sc_columns schema) ->
  Forall (fun c => col_len (snd c) = length incell) cols ->
  write_cgroup t group false cell_id_given key cgroup schema fp cols incell lv
    = (fp', Ok (cols', lv')) ->
  let n := if gives_column schema cols then rows_in_cell incell else O in
  exists g',
    get_group fp' group = Some g' /\
    map fst (rg_table g') = map fst (sc_columns schema) /\
    lv_nnew lv' = Some (Z.of_nat n) /\
    forall c old,
      OrderedDict.get (rg_table (_get_row_group fp group schema)) c = Some old ->
      is_blob_col schema c = false ->
      c <> key \/ Some cgroup <> primary_cgroup t ->
      match OrderedDict.get cols c with
      | Some (NumCol l) =>
          length (mask_select l incell) = n /\
          OrderedDict.get (rg_table g') c = Some (old ++ mask_select l incell)
      | Some (ObjCol _) => False
      | None =>
          OrderedDict.get (rg_table g') c = Some (old ++ replicate n 0)
      end.
Proof.
  intros Hfields Hlen. apply write_cgroup_appends_batch_lemma; [exact Hfields |].
  apply Forall_col_len, Hlen.
Qed.
End WriteRows.

Lemma write_cgroup_appends_batch_witness :
  (exists fp' cols' lv' g',
     write_cgroup stars GMain false false "obj_id" "main" stars_schema
       example_tablet example_batch [true; true; true] no_loop_vars
       = (fp', Ok (cols', lv')) /\
     get_group fp' GMain = Some g' /\
     lv_nnew lv' = Some 3 /\
     OrderedDict.get (rg_table g') "ra" = Some [10; 20; 1; 2; 3]) /\
  (exists fp' cols' lv' g',
     write_cgroup stars GMain false false "obj_id" "aux" scratch_schema
       {| main := None; cached := None |} example_batch [true; true; true]
       no_loop_vars
       = (fp', Ok (cols', lv')) /\
     get_group fp' GMain = Some g' /\
     lv_nnew lv' = Some 0 /\
     OrderedDict.get (rg_table g') "tmp" = Some []).
Proof.
  assert (Hlen : Forall (fun c => col_len (snd c) = length [true; true; true])
                   example_batch) by (repeat constructor).
  split.
  - destruct (write_cgroup stars GMain false false "obj_id" "main" stars_schema
                example_tablet example_batch [true; true; true] no_loop_vars)
      as [fp' [[cols' lv'] | e]] eqn:E; [| vm_compute in E; discriminate E].
    destruct (@write_cgroup_appends_batch example_runtime stars GMain false "obj_id"
                "main" stars_schema example_tablet fp' example_batch cols'
                [true; true; true] no_loop_vars lv' eq_refl Hlen E)
      as (g' & Hg & _ & Hn & Hcol).
    exists fp', cols', lv', g'. split; [reflexivity |]. split; [exact Hg |].
    split; [exact Hn |].
    apply (Hcol "ra" [10; 20] eq_refl eq_refl). left. discriminate.
  - destruct (write_cgroup stars GMain false false "obj_id" "aux" scratch_schema
                {| main := None; cached := None |} example_batch [true; true; true]
                no_loop_vars)
      as [fp' [[cols' lv'] | e]] eqn:E; [| vm_compute in E; discriminate E].
    destruct (@write_cgroup_appends_batch example_runtime stars GMain false "obj_id"
                "aux" scratch_schema {| main := None; cached := None |} fp'
                example_batch cols' [true; true; true] no_loop_vars lv' eq_refl Hlen E)
      as (g' & Hg & _ & Hn & Hcol).
    exists fp', cols', lv', g'. split; [reflexivity |]. split; [exact Hg |].
    split; [exact Hn |].
    apply (Hcol "tmp" [] eq_refl eq_refl). right. discriminate.
Defined.

(** ** Appending and reading back *)

Section AppendFetch.
Context `{PyRuntime} `{Pixelization}.

Lemma write_cgroup_cols_frame (t : Table) (group : Group) (_update cell_id_given : bool)
    (key cgroup : string) (schema : Schema) (fp fp' : Tablet Blob)
    (cols cols' : ColGroup) (incell : list bool) (lv lv' : LoopVars) :
  write_cgroup t group _update cell_id_given key cgroup schema fp cols incell lv
    = (fp', Ok (cols', lv')) ->
  same_batch key cols cols'.
Proof.
  intros Hw. apply write_cgroup_Ok in Hw. cbv zeta in Hw.
  destruct Hw as (g1 & colsT1 & lv1 & g2 & colsB2 & rows & lv2 & g3 & rows3 &
                  Hpb & _).
  case_bool_decide.
  - destruct (primary_block_frame _ _ _ _ _ _ _ _ _ _ _ _ _ _ Hpb)
      as (_ & _ & _ & _ & Hg & Hl & _).
    split; assumption.
  - destruct Hpb as (_ & _ & -> & _). apply same_batch_refl.
Qed.

Lemma _open_tablet_w_ext (t : Table) (fs fs1 : FS Blob) (cell_id : Z) (cgroup fn : string) :
  _tablet_file t cell_id cgroup = Ok fn ->
  files fs1 !! fn = files fs !! fn ->
  _open_tablet_w t fs1 cell_id cgroup = _open_tablet_w t fs cell_id cgroup.
Proof. unfold _open_tablet_w. intros -> Hf. rewrite !bind_Ok, Hf. reflexivity. Qed.

(** The loop over the cgroups of a cell, seen from one of its tablets. *)
Lemma write_cell_target (t : Table) (group : Group) (_update cell_id_given : bool)
    (key : string) (cur : Z) (incell : list bool) (cgroups : list (string * Schema))
    (fs fs' : FS Blob) (cols cols' : ColGroup) (lv lv' : LoopVars)
    (cg : string) (schema : Schema) (fn : string) :
  NoDup (map fst cgroups) -> (cg, schema) ∈ cgroups ->
  _is_pseudotablet cg = Ok false -> _tablet_file t cur cg = Ok fn ->
  (forall cg', cg' ∈ map fst cgroups -> _tablet_file t cur cg' = Ok fn -> cg' = cg) ->
  write_cell t group _update cell_id_given key cur incell cgroups fs cols lv
    = (fs', Ok (cols', lv')) ->
  exists fp0 colsX lvX fp1 colsY lvY,
    _open_tablet_w t fs cur cg = Ok (fn, fp0) /\
    same_batch key cols colsX /\
    write_cgroup t group _update cell_id_given key cg schema fp0 colsX incell lvX
      = (fp1, Ok (colsY, lvY)) /\
    files fs' !! fn = Some fp1.
Proof.
  intros Hnd Hin Hp Hfn Huniq. revert fs cols lv Hnd Hin Huniq.
  induction cgroups as [| [cg0 s0] rest IH]; intros fs cols lv Hnd Hin Huniq;
    [inversion Hin |].
  cbn [map fst] in Hnd. apply NoDup_cons in Hnd. destruct Hnd as [Hfresh Hnd].
  cbn [write_cell]. destruct (_is_pseudotablet cg0) as [[|] |] eqn:Ep0; [| | discriminate].
  - intros Hw. apply (IH fs cols lv Hnd); [| | exact Hw].
    + apply elem_of_cons in Hin. destruct Hin as [[= -> ->] | Hin]; [congruence | exact Hin].
    + intros cg' Hcg'. apply Huniq. right. exact Hcg'.
  - destruct (_open_tablet_w t fs cur cg0) as [[fn0 fp0] |] eqn:Eo; [| discriminate].
    destruct (write_cgroup t group _update cell_id_given key cg0 s0 fp0 cols incell lv)
      as [fp1 [[cols1 lv1] | e]] eqn:Ew; [| discriminate].
    intros Hw.
    pose proof (_open_tablet_w_file _ _ _ _ _ _ Eo) as Hfn0.
    apply elem_of_cons in Hin. destruct Hin as [[= -> ->] | Hin].
    + assert (fn0 = fn) by congruence. subst fn0.
      exists fp0, cols, lv, fp1, cols1, lv1.
      split; [exact Eo |]. split; [apply same_batch_refl |]. split; [exact Ew |].
      pose proof (write_cell_files_frame t group _update cell_id_given key cur incell rest
                    {| files := <[fn := fp1]> (files fs); lockfiles := lockfiles fs |}
                    cols1 lv1 fn) as Hfr.
      rewrite Hw in Hfr. cbn [fst files] in Hfr. rewrite Hfr; [apply lookup_insert_eq |].
      intros cg' Hcg' Hf'. apply Hfresh.
      rewrite <- (Huniq cg' (list_elem_of_further _ _ _ Hcg') Hf'). exact Hcg'.
    + assert (Hne : fn0 <> fn).
      { intros ->. apply Hfresh. rewrite (Huniq cg0 ltac:(left) Hfn0).
        apply list_elem_of_fmap. exists (cg, schema). auto. }
      destruct (IH _ _ _ Hnd Hin (fun cg' Hcg' => Huniq cg' (list_elem_of_further _ _ _ Hcg'))
                  Hw) as (fpa & colsX & lvX & fpb & colsY & lvY & Ho & Hc & Hwc & Hf).
      exists fpa, colsX, lvX, fpb, colsY, lvY.
      split; [| split; [| split; [exact Hwc | exact Hf]]].
      * rewrite <- Ho. symmetry. apply (_open_tablet_w_ext _ _ _ _ _ fn Hfn).
        cbn [files]. apply lookup_insert_ne. exact Hne.
      * eapply same_batch_trans; [| exact Hc].
        eapply write_cgroup_cols_frame; eassumption.
Qed.

Lemma write_cell_cols_frame (t : Table) (group : Group) (_update cell_id_given : bool)
    (key : string) (cur : Z) (incell : list bool) (cgroups : list (string * Schema))
    (fs fs' : FS Blob) (cols cols' : ColGroup) (lv lv' : LoopVars) :
  write_cell t group _update cell_id_given key cur incell cgroups fs cols lv
    = (fs', Ok (cols', lv')) ->
  same_batch key cols cols'.
Proof.
  revert fs cols lv. induction cgroups as [| [cgroup schema] rest IH]; intros fs cols lv.
  - intros [= _ <- _]. apply same_batch_refl.
  - cbn [write_cell]. destruct (_is_pseudotablet cgroup) as [[|] | e];
      [apply IH | | discriminate].
    destruct (_open_tablet_w t fs cur cgroup) as [[fn fp] |]; [| discriminate].
    destruct (write_cgroup t group _update cell_id_given key cgroup schema fp cols incell lv)
      as [fp' [[cols1 lv1] | e]] eqn:Ew; [| discriminate].
    intros Hrest. eapply same_batch_trans; [| exact (IH _ _ _ Hrest)].
    eapply write_cgroup_cols_frame; eassumption.
Qed.

Lemma elem_of_delete_other {A} (x y : A) (i : nat) (l : list A) :
  x ∈ l -> l !! i = Some y -> x <> y -> x ∈ delete i l.
Proof.
  revert i. induction l as [| z l IH]; intros i Hx Hi Hne; [inversion Hx |].
  destruct i as [| i]; cbn in Hi |- *.
  - injection Hi as ->. apply elem_of_cons in Hx. destruct Hx as [-> | Hx]; [congruence | exact Hx].
  - apply elem_of_cons in Hx. destruct Hx as [-> | Hx]; [left | right; eapply IH; eassumption].
Qed.

Lemma NoDup_delete_index {A} (i : nat) (l : list A) (y : A) :
  NoDup l -> l !! i = Some y -> NoDup (delete i l) /\ y ∉ delete i l.
Proof.
  revert i. induction l as [| z l IH]; intros i Hnd Hi; [discriminate |].
  apply NoDup_cons in Hnd. destruct Hnd as [Hz Hnd]. destruct i as [| i]; cbn in Hi |- *.
  - injection Hi as ->. auto.
  - destruct (IH i Hnd Hi) as [Hnd' Hy]. split.
    + apply NoDup_cons. split; [| exact Hnd'].
      intros Hin. apply Hz. eapply elem_of_delete_index, Hin.
    + intros Hin. apply elem_of_cons in Hin. destruct Hin as [-> | Hin]; [| contradiction].
      apply Hz. eapply list_elem_of_lookup_2, Hi.
Qed.

(** The loop over the cells, seen from one tablet of one cell. *)
Lemma store_cells_target (n : nat) (t : Table) (group : Group)
    (_update cell_id_given : bool) (key : string) (cells unique_cells : list Z)
    (fs fs' : FS Blob) (cols cols' : ColGroup) (lv : LoopVars)
    (nrows nrows' : option Z) (ntot ntot' : Z) (c : Z) (fn : string) :
  NoDup unique_cells -> c ∈ unique_cells -> (length unique_cells <= n)%nat ->
  (forall c' cg', c' ∈ unique_cells -> c' <> c -> cg' ∈ map fst (_cgroups t) ->
                  _tablet_file t c' cg' <> Ok fn) ->
  store_cells n t group _update cell_id_given key cells unique_cells fs cols lv nrows ntot
    = ((fs', nrows'), Ok (cols', ntot')) ->
  exists fsA colsA lvA fsB colsB lvB,
    files fsA !! fn = files fs !! fn /\
    same_batch key cols colsA /\
    write_cell t group _update cell_id_given key c (map (fun c' => c' =? c) cells)
      (_cgroups t) fsA colsA lvA = (fsB, Ok (colsB, lvB)) /\
    files fs' !! fn = files fsB !! fn.
Proof.
  revert unique_cells fs cols lv nrows ntot.
  induction n as [| n IH]; intros unique_cells fs cols lv nrows ntot Hnd Hc Hlen Hother.
  { destruct unique_cells; [inversion Hc | cbn in Hlen; lia]. }
  destruct unique_cells as [| c0 ucs]; [inversion Hc |].
  cbn [store_cells]. set (ucells := c0 :: ucs) in *.
  destruct (find_unlocked t fs ucells (seq 0 3600)) as [[[i cur] lock] | e] eqn:Ef;
    [| discriminate].
  apply find_unlocked_spec in Ef. destruct Ef as (_ & Hcur & _).
  set (fs1 := {| files := files fs; lockfiles := {[lock]} ∪ lockfiles fs |}).
  destruct (write_cell t group _update cell_id_given key cur
              (map (fun c' => c' =? cur) cells) (_cgroups t) fs1 cols lv)
    as [fs2 [[cols2 lv2] | e]] eqn:Ew; [| discriminate].
  destruct (lv_nnew lv2) as [nnew |] eqn:Ennew; [| discriminate].
  destruct nrows as [nr |]; [| discriminate].
  intros Hrest. destruct (NoDup_delete_index i ucells cur Hnd Hcur) as [Hnd' Hcurout].
  destruct (decide (cur = c)) as [-> | Hne].
  - exists fs1, cols, lv, fs2, cols2, lv2.
    split; [reflexivity |]. split; [apply same_batch_refl |]. split; [exact Ew |].
    pose proof (store_cells_files_frame n t group _update cell_id_given key cells
                  (delete i ucells)
                  {| files := files fs2; lockfiles := lockfiles fs2 ∖ {[lock]} |}
                  cols2 lv2 (Some (nr + nnew)) (ntot + nnew) fn) as Hfr.
    rewrite Hrest in Hfr. cbn [fst files] in Hfr. apply Hfr.
    intros c' cg' Hc'. apply Hother; [eapply elem_of_delete_index, Hc' |].
    intros ->. contradiction.
  - assert (Hlen' : (length (delete i ucells) <= n)%nat).
    { pose proof (lookup_lt_Some _ _ _ Hcur) as Hi.
      rewrite length_delete by eauto.
      cbn [length] in Hlen |- *. lia. }
    destruct (IH _ _ _ _ _ _ Hnd' (elem_of_delete_other _ _ _ _ Hc Hcur (not_eq_sym Hne))
                Hlen'
                (fun c' cg' Hc' => Hother c' cg' (elem_of_delete_index _ _ _ Hc'))
                Hrest)
      as (fsA & colsA & lvA & fsB & colsB & lvB & Hf & Hcol & Hwc & Hf').
    exists fsA, colsA, lvA, fsB, colsB, lvB.
    split; [| split; [| split; [exact Hwc | exact Hf']]].
    + rewrite Hf. cbn [files].
      pose proof (write_cell_files_frame t group _update cell_id_given key cur
                    (map (fun c' => c' =? cur) cells) (_cgroups t) fs1 cols lv fn) as Hfr.
      rewrite Ew in Hfr. cbn [fst] in Hfr. apply Hfr.
      intros cg' Hcg'. apply Hother; [eapply list_elem_of_lookup_2, Hcur | exact Hne | exact Hcg'].
    + eapply same_batch_trans; [| exact Hcol].
      eapply write_cell_cols_frame; eassumption.
Qed.

Lemma _open_tablet_w_rows (t : Table) (fs : FS Blob) (c : Z) (cg fn : string)
    (schema : Schema) (fp0 : Tablet Blob) :
  OrderedDict.get (_cgroups t) cg = Some schema ->
  _open_tablet_w t fs c cg = Ok (fn, fp0) ->
  rg_table (_get_row_group fp0 GMain schema) = rows_on_disk fs fn schema.
Proof.
  intros Hs. unfold _open_tablet_w, rows_on_disk, _get_row_group.
  destruct (_tablet_file t c cg) as [fn' |]; [| discriminate]. rewrite bind_Ok.
  destruct (files fs !! fn') as [fp |] eqn:Ef.
  - intros [= <- <-]. rewrite Ef. cbn. destruct (main fp); reflexivity.
  - cbn [_get_schema]. rewrite Hs. cbn [of_option]. rewrite bind_Ok.
    intros [= <- <-]. rewrite Ef. reflexivity.
Qed.

Lemma _open_tablet_w_blobs (t : Table) (fs : FS Blob) (c : Z) (cg fn : string)
    (schema : Schema) (fp0 : Tablet Blob) (x : string) :
  OrderedDict.get (_cgroups t) cg = Some schema ->
  _open_tablet_w t fs c cg = Ok (fn, fp0) ->
  rg_blobs (_get_row_group fp0 GMain schema) !! x = blobs_on_disk fs fn schema x.
Proof.
  intros Hs. unfold _open_tablet_w, blobs_on_disk, _get_row_group.
  destruct (_tablet_file t c cg) as [fn' |]; [| discriminate]. rewrite bind_Ok.
  destruct (files fs !! fn') as [fp |] eqn:Ef.
  - intros [= <- <-]. rewrite Ef. cbn. destruct (main fp); reflexivity.
  - cbn [_get_schema]. rewrite Hs. cbn [of_option]. rewrite bind_Ok.
    intros [= <- <-]. rewrite Ef. reflexivity.
Qed.

(** What [append] does to one tablet of one cell of the batch. *)
Lemma append_writes_tablet (t : Table) (fs : FS Blob) (cols_ : list (string * Column))
    (group : Group) (cell_id : option (list Z)) (_update : bool)
    (key : string) (cols : ColGroup) (cells keys : list Z)
    (c : Z) (cg : string) (schema : Schema) (fn : string) :
  append_prepare t cols_ group cell_id _update = Ok (key, cols, cells) ->
  snd (append t fs cols_ group cell_id _update) = Ok keys ->
  tablet_files_distinct t cells ->
  NoDup (map fst (_cgroups t)) ->
  c ∈ cells ->
  OrderedDict.get (_cgroups t) cg = Some schema -> _is_pseudotablet cg = Ok false ->
  _tablet_file t c cg = Ok fn ->
  exists fp0 colsX lvX fp1 colsY lvY,
    rg_table (_get_row_group fp0 GMain schema) = rows_on_disk fs fn schema /\
    same_batch key cols colsX /\
    write_cgroup t group _update (bool_decide (is_Some cell_id)) key cg schema fp0 colsX
      (map (fun c' => c' =? c) cells) lvX = (fp1, Ok (colsY, lvY)) /\
    files (snd (fst (append t fs cols_ group cell_id _update))) !! fn = Some fp1 /\
    (forall x, rg_blobs (_get_row_group fp0 GMain schema) !! x
               = blobs_on_disk fs fn schema x).
Proof.
  intros Hprep Hkeys Hdist Hnd Hc Hs Hp Hfn. unfold append in Hkeys |- *.
  rewrite Hprep in Hkeys |- *.
  destruct (store_cells _ _ _ _ _ _ _ _ _ _ _ _ _) as [[fs' nrows'] [[cols' ntot] | e]] eqn:Es;
    [| discriminate].
  cbn [fst snd]. clear Hkeys.
  assert (Hcu : c ∈ list_set cells) by (apply list_set_elem, Hc).
  assert (Hin : forall c', c' ∈ list_set cells -> c' ∈ cells).
  { intros c' Hc'. apply list_set_elem, Hc'. }
  assert (Hcg : cg ∈ map fst (_cgroups t)) by (eapply od_get_in, Hs).
  destruct (store_cells_target _ _ _ _ _ _ _ _ _ _ _ _ _ _ _ _ _ c fn
              (list_set_NoDup cells) Hcu (le_n _)
              (fun c' cg' Hc' Hne Hcg' Hf =>
                 Hne (proj1 (Hdist c' c cg' cg fn (Hin c' Hc') Hc Hcg' Hcg Hf Hfn)))
              Es)
    as (fsA & colsA & lvA & fsB & colsB & lvB & HfA & HcA & Hwc & HfB).
  destruct (write_cell_target _ _ _ _ _ _ _ _ _ _ _ _ _ _ cg schema fn Hnd
              (od_get_Some_elem _ _ _ Hs) Hp Hfn
              (fun cg' Hcg' Hf => proj2 (Hdist c c cg' cg fn Hc Hc Hcg' Hcg Hf Hfn))
              Hwc)
    as (fp0 & colsX & lvX & fp1 & colsY & lvY & Ho & HcX & Hw & Hf1).
  exists fp0, colsX, lvX, fp1, colsY, lvY.
  split; [| split; [| split; [exact Hw | split; [congruence |]]]].
  - rewrite (_open_tablet_w_rows _ _ _ _ _ _ _ Hs Ho). unfold rows_on_disk.
    rewrite HfA. reflexivity.
  - eapply same_batch_trans; eassumption.
  - intros x. rewrite (_open_tablet_w_blobs _ _ _ _ _ _ _ x Hs Ho). unfold blobs_on_disk.
    rewrite HfA. reflexivity.
Qed.

(** An append that is not an update, read back with [fetch_tablet].
    The batch is taken as [append] has prepared it (names resolved,
    cells assigned), with columns of one length; the tablets of the
    cells of the batch are taken to lie in files of their own, and the
    tablet read to hold, if it is there, a row table with the columns
    of its cgroup.  Then for a cell [c] of the batch and a cgroup [cg]
    that is not a pseudo-cgroup, [fetch_tablet] gives the rows that
    were in the tablet before, followed by the rows that the append has
    added: one for every row of the batch that goes to [c] when the
    batch gives a column of [cg], and none when it gives no column of
    [cg].  In every column that is neither a blob column nor the key
    column, the added rows hold the values of the batch in batch order,
    or zeros when the batch does not give the column. *)
Theorem append_then_fetch_tablet (t : Table) (fs : FS Blob)
    (cols_ : list (string * Column)) (key : string) (cols : ColGroup)
    (cells keys : list Z) (c : Z) (cg pc : string) (schema : Schema) (fn : string) :
  append_prepare t cols_ GMain None false = Ok (key, cols, cells) ->
  snd (append t fs cols_ GMain None false) = Ok keys ->
  tablet_files_distinct t cells ->
  NoDup (map fst (_cgroups t)) ->
  primary_cgroup t = Some pc -> _is_pseudotablet pc = Ok false ->
  is_Some (OrderedDict.get (_cgroups t) pc) ->
  c ∈ cells ->
  OrderedDict.get (_cgroups t) cg = Some schema -> _is_pseudotablet cg = Ok false ->
  _tablet_file t c cg = Ok fn ->
  map fst (rows_on_disk fs fn schema) = map fst (sc_columns schema) ->
  Forall (fun col => col_len (snd col) = length cells) cols ->
  let incell := map (fun c' => c' =? c) cells in
  let n := if gives_column schema cols then rows_in_cell incell else O in
  exists rows',
    fetch_tablet (fst (fst (append t fs cols_ GMain None false)))
      (snd (fst (append t fs cols_ GMain None false))) c (Some cg) false
      = Ok (Rows rows') /\
    map fst rows' = map fst (sc_columns schema) /\
    forall x old,
      OrderedDict.get (rows_on_disk fs fn schema) x = Some old ->
      is_blob_col schema x = false -> x <> key ->
      match OrderedDict.get cols x with
      | Some (NumCol l) =>
          length (mask_select l incell) = n /\
          OrderedDict.get rows' x = Some (old ++ mask_select l incell)
      | Some (ObjCol _) => False
      | None => OrderedDict.get rows' x = Some (old ++ replicate n 0)
      end.
Proof.
  intros Hprep Hkeys Hdist Hnd Hpc Hppc [spc Hspc] Hc Hs Hp Hfn Hfields Hlen incell n.
  destruct (append_writes_tablet _ _ _ _ _ _ _ _ _ _ c cg schema fn
              Hprep Hkeys Hdist Hnd Hc Hs Hp Hfn)
    as (fp0 & colsX & lvX & fp1 & colsY & lvY & Hrows & HcX & Hw & Hf1 & _).
  assert (Hfnpc : exists fnpc, _tablet_file t c pc = Ok fnpc).
  { unfold _tablet_file, _get_cgroup_data_path, _get_schema. rewrite Hspc.
    cbn [of_option]. rewrite !bind_Ok. eauto. }
  destruct Hfnpc as [fnpc Hfnpc].
  destruct (append_writes_tablet _ _ _ _ _ _ _ _ _ _ c pc spc fnpc
              Hprep Hkeys Hdist Hnd Hc Hspc Hppc Hfnpc)
    as (_ & _ & _ & fppc & _ & _ & _ & _ & _ & Hfpc & _).
  set (r := append t fs cols_ GMain None false) in *.
  assert (Ht' : forall c0 cgr ic,
            fetch_tablet (fst (fst r)) (snd (fst r)) c0 cgr ic
            = fetch_tablet t (snd (fst r)) c0 cgr ic).
  { intros c0 cgr ic. unfold r, append. rewrite Hprep.
    destruct (store_cells _ _ _ _ _ _ _ _ _ _ _ _ _) as [[fs' nrows'] [[cols' ntot] | e]];
      reflexivity. }
  rewrite Ht'. clear Ht'. set (fs' := snd (fst r)) in *.
  rewrite <- Hrows in Hfields.
  assert (HlenX : forall x col, OrderedDict.get colsX x = Some col ->
                                col_len col = length incell).
  { apply (same_batch_col_len key cols); [exact HcX |]. unfold incell.
    rewrite length_map. apply Forall_col_len, Hlen. }
  destruct (write_cgroup_appends_batch_lemma _ _ _ _ _ _ _ _ _ _ _ _ _ Hfields HlenX Hw)
    as (g' & Hg' & Hk' & _ & Hcol).
  rewrite (same_batch_gives_column _ _ _ _ HcX) in Hcol. fold incell n in Hcol.
  cbn [get_group] in Hg'.
  assert (Hex : forall cgx fnx fpx, is_Some (OrderedDict.get (_cgroups t) cgx) ->
                  _is_pseudotablet cgx = Ok false ->
                  _tablet_file t c cgx = Ok fnx -> files fs' !! fnx = Some fpx ->
                  tablet_exists t fs' c (Some cgx) = Ok true).
  { intros cgx fnx fpx Hsx Hpx Hfx Hfpx. unfold tablet_exists.
    rewrite Hpx, !bind_Ok. cbn [of_option]. rewrite bind_Ok.
    rewrite (bool_decide_eq_true_2 _ Hsx). cbn [py_assert].
    rewrite bind_Ok, Hfx, bind_Ok, Hfpx. rewrite bool_decide_eq_true_2 by eauto.
    reflexivity. }
  assert (Hcell : static_if_no_temporal t fs' c = Ok c).
  { unfold static_if_no_temporal. destruct (is_temporal_cell c); [| reflexivity].
    cbn [negb]. pose proof (Hex pc fnpc fppc ltac:(eauto) Hppc Hfnpc Hfpc) as He.
    unfold tablet_exists in He |- *. rewrite Hpc. rewrite Hppc, bind_Ok in He.
    rewrite He, bind_Ok. reflexivity. }
  exists (rg_table g'). split; [| split; [exact Hk' |]].
  - unfold fetch_tablet. rewrite Hcell, !bind_Ok. cbn [of_option]. rewrite !bind_Ok.
    rewrite Hp, !bind_Ok, (Hex cg fn fp1 ltac:(eauto) Hp Hfn Hf1), !bind_Ok.
    unfold _open_tablet_r. rewrite Hfn, bind_Ok, Hf1. cbn [of_option]. rewrite !bind_Ok.
    rewrite Hg'. reflexivity.
  - intros x old Hold Hblob Hkey. rewrite <- Hrows in Hold.
    pose proof (Hcol x old Hold Hblob (or_introl Hkey)) as Hx.
    rewrite (proj1 HcX x Hkey) in Hx. exact Hx.
Qed.
End AppendFetch.

Lemma append_then_fetch_tablet_witness :
  exists rows',
    fetch_tablet
      (fst (fst (@append example_runtime example_pix stars example_fs new_rows
                   GMain None false)))
      (snd (fst (@append example_runtime example_pix stars example_fs new_rows
                   GMain None false)))
      static_cell (Some "main") false = Ok (Rows rows') /\
    OrderedDict.get rows' "ra" = Some [10; 20; 1; 2; 3].
Proof.
  destruct (@append_prepare example_runtime example_pix stars new_rows GMain None false)
    as [[[key cols] cells] | e] eqn:Ep; [| vm_compute in Ep; discriminate Ep].
  assert (Ep' := Ep). vm_compute in Ep'. injection Ep' as <- <- <-.
  destruct (@append_then_fetch_tablet example_runtime example_pix stars example_fs
              new_rows _ _ _
              [281474976710659; 281474976710660; 281474976710661]
              static_cell "main" "main" stars_schema
              "/db/stars/tablets/281474976710656/stars.main.h5" Ep)
    as (rows' & Hfetch & _ & Hcol).
  - vm_compute. reflexivity.
  - intros c1 c2 cg1 cg2 fn Hc1 Hc2 Hg1 Hg2 Hf1 Hf2.
    assert (Hcell : forall c, c ∈ [281474976710656; 281474976710656; 281474976710656] ->
                              c = 281474976710656).
    { intros c Hc. repeat (apply elem_of_cons in Hc; destruct Hc as [Hc | Hc]; [exact Hc |]).
      inversion Hc. }
    rewrite (Hcell c1 Hc1), (Hcell c2 Hc2) in *. split; [reflexivity |].
    cbn in Hg1, Hg2.
    repeat (apply elem_of_cons in Hg1; destruct Hg1 as [-> | Hg1]);
      repeat (apply elem_of_cons in Hg2; destruct Hg2 as [-> | Hg2]);
      try reflexivity; try (inversion Hg1; fail); try (inversion Hg2; fail);
      vm_compute in Hf1, Hf2; congruence.
  - cbn. repeat constructor; intros Hin;
      repeat (apply elem_of_cons in Hin; destruct Hin as [Hin | Hin]; [discriminate Hin |]);
      inversion Hin.
  - reflexivity.
  - reflexivity.
  - cbn. eauto.
  - cbn. repeat (first [left | right; left]).
  - reflexivity.
  - reflexivity.
  - reflexivity.
  - reflexivity.
  - repeat constructor.
  - exists rows'. split; [exact Hfetch |].
    exact (proj2 (Hcol "ra" [10; 20] eq_refl eq_refl ltac:(discriminate))).
Defined.

(** ** What an append leaves in the blob arrays *)

Lemma od_get_filter {V} (p : string -> bool) (l : list (string * V)) (x : string) :
  OrderedDict.get (List.filter (fun c => p (fst c)) l) x
  = if p x then OrderedDict.get l x else None.
Proof.
  induction l as [| [k v] l IH]; [destruct (p x); reflexivity |].
  cbn [List.filter fst]. destruct (p k) eqn:Ek; cbn [OrderedDict.get].
  - destruct (String.eqb_spec k x) as [-> | Hne]; [rewrite Ek; reflexivity | exact IH].
  - rewrite IH. destruct (String.eqb_spec k x) as [-> | Hne]; [rewrite Ek |]; reflexivity.
Qed.

Lemma filter_keys_NoDup {V} (p : string * V -> bool) (l : list (string * V)) :
  NoDup (map fst l) -> NoDup (map fst (List.filter p l)).
Proof.
  induction l as [| [k v] l IH]; [constructor |]. cbn [map fst]. intros Hnd.
  apply NoDup_cons in Hnd. destruct Hnd as [Hk Hnd]. cbn [List.filter].
  destruct (p (k, v)); [| auto]. cbn [map fst]. apply NoDup_cons. split; [| auto].
  intros Hin. apply Hk. apply list_elem_of_fmap in Hin. destruct Hin as ([k' v'] & -> & Hin).
  apply list_elem_of_fmap. exists (k', v'). split; [reflexivity |].
  apply list_elem_of_In. apply list_elem_of_In, filter_In in Hin. tauto.
Qed.

Section WriteBlobs.
Context `{PyRuntime}.

Lemma select_columns_keys (schema : Schema) (cols : ColGroup) (incell : list bool) :
  NoDup (map fst (sc_columns schema)) ->
  NoDup (map fst (select_columns schema cols incell)).
Proof.
  unfold select_columns. induction (sc_columns schema) as [| [f ty] l IH]; [constructor |].
  cbn [map fst]. intros Hnd. apply NoDup_cons in Hnd. destruct Hnd as [Hf Hnd].
  cbn [omap list_omap fst]. destruct (OrderedDict.get cols f); [| auto].
  cbn [map fst]. apply NoDup_cons. split; [| auto].
  intros Hin. apply Hf. apply list_elem_of_fmap in Hin. destruct Hin as ([k v] & -> & Hin).
  apply list_elem_of_omap in Hin. destruct Hin as ([k' ty'] & Hin & Hk).
  cbn in Hk. destruct (OrderedDict.get cols k'); [| discriminate]. injection Hk as <- _.
  apply list_elem_of_fmap. exists (k', ty'). auto.
Qed.

Lemma fold_put_blob_untouched (schema : Schema) (colsB : ColGroup) (names : list string)
    (g g' : RowGroup Blob) (rows rows' : RecArray) (lv lv' : LoopVars) (x : string) :
  st_foldM (put_blob_column schema colsB) (rows, lv) names g = (g', Ok (rows', lv')) ->
  x ∉ names ->
  rg_blobs g' !! x = rg_blobs g !! x /\
  OrderedDict.get rows' x = OrderedDict.get rows x.
Proof.
  revert g rows lv. induction names as [| y names IH]; intros g rows lv.
  - cbn [st_foldM]. intros Hf. apply st_ret_inv in Hf. destruct Hf as [[= -> ->] ->]. auto.
  - cbn [st_foldM]. intros Hf Hx. apply st_bind_Ok_inv in Hf.
    destruct Hf as ([rows1 lv1] & g1 & Hput & Hf).
    destruct (IH _ _ _ Hf) as [Hb Hr]; [intros Hin; apply Hx; right; exact Hin |].
    apply put_blob_column_Ok in Hput.
    destruct Hput as (flatB & old & barray & ito & barray' & _ & _ & _ & _ & _ &
                      -> & -> & _).
    assert (Hne : x <> y) by (intros ->; apply Hx; left).
    rewrite Hb, Hr. cbn [rg_blobs]. split.
    + apply lookup_insert_ne. congruence.
    + apply od_get_set_other. congruence.
Qed.

Lemma fold_put_blob_track (schema : Schema) (colsB : ColGroup) (names : list string)
    (g g' : RowGroup Blob) (rows rows' : RecArray) (lv lv' : LoopVars) (x : string) :
  st_foldM (put_blob_column schema colsB) (rows, lv) names g = (g', Ok (rows', lv')) ->
  NoDup names -> x ∈ names ->
  exists flatB barray ito barray',
    obj_col colsB x = Ok flatB /\ rg_blobs g !! x = Some barray /\
    store_blobs (object_atom schema x) barray flatB = Ok (ito, barray') /\
    rg_blobs g' !! x = Some barray' /\
    OrderedDict.get rows' x = Some ito.
Proof.
  revert g rows lv. induction names as [| y names IH]; intros g rows lv Hf Hnd Hx;
    [inversion Hx |].
  cbn [st_foldM] in Hf. apply st_bind_Ok_inv in Hf.
  destruct Hf as ([rows1 lv1] & g1 & Hput & Hf).
  apply NoDup_cons in Hnd. destruct Hnd as [Hy Hnd].
  apply put_blob_column_Ok in Hput.
  destruct Hput as (flatB & old & barray & ito & barray' & Hflat & _ & _ & Hba & Hst &
                    -> & -> & _).
  apply elem_of_cons in Hx. destruct Hx as [-> | Hx].
  - destruct (fold_put_blob_untouched _ _ _ _ _ _ _ _ _ y Hf Hy) as [Hb Hr].
    exists flatB, barray, ito, barray'. rewrite Hb, Hr. cbn [rg_blobs].
    rewrite lookup_insert_eq, od_get_set. auto.
  - assert (Hne : x <> y) by (intros ->; contradiction).
    destruct (IH _ _ _ Hf Hnd Hx) as (fB & ba & it & ba' & H1 & H2 & H3 & H4 & H5).
    exists fB, ba, it, ba'. cbn [rg_blobs] in H2.
    rewrite lookup_insert_ne in H2 by congruence. auto.
Qed.

(** A write to [main] that is not an update, and its blob columns.
    For a blob column that the batch gives, the objects of the rows of
    this cell are stored with [store_blobs] behind the blobs that were
    in the VLArray of the column, and the references it returns are
    the values the new rows get in the column.  Reading these
    references back from the written tablet with [_fetch_blobs_fp]
    gives, row by row, the blob stored for the object of that row; a
    row holding [None] gives the first element of the VLArray, when
    [None] has the smallest identity in the batch. *)
Lemma write_cgroup_stores_blobs_lemma (t : Table) (cell_id_given : bool)
    (key cgroup : string) (schema : Schema) (fp fp' : Tablet Blob)
    (cols cols' : ColGroup) (incell : list bool) (lv lv' : LoopVars)
    (x : string) (old : list Z) (objs : list PyObj) (barray : list Blob)
    (py_none : Blob) :
  map fst (rg_table (_get_row_group fp GMain schema)) = map fst (sc_columns schema) ->
  NoDup (map fst (sc_columns schema)) ->
  write_cgroup t GMain false cell_id_given key cgroup schema fp cols incell lv
    = (fp', Ok (cols', lv')) ->
  OrderedDict.get (rg_table (_get_row_group fp GMain schema)) x = Some old ->
  is_blob_col schema x = true ->
  OrderedDict.get cols x = Some (ObjCol objs) ->
  rg_blobs (_get_row_group fp GMain schema) !! x = Some barray ->
  barray <> [] ->
  let flatB := mask_select objs incell in
  exists g' refs barray' loaded,
    main fp' = Some g' /\
    OrderedDict.get (rg_table g') x = Some (old ++ refs) /\
    rg_blobs g' !! x = Some barray' /\
    store_blobs (object_atom schema x) barray flatB = Ok (refs, barray') /\
    (forall k b, barray !! k = Some b -> barray' !! k = Some b) /\
    _fetch_blobs_fp py_none fp' x (NdArray [length refs] refs) false
      = Ok (NdArray [length refs] loaded) /\
    length loaded = length flatB /\
    forall i o b, flatB !! i = Some o -> loaded !! i = Some b ->
      if is_None o && none_first flatB
      then barray !! O = Some b
      else exists o', o' ∈ flatB /\ id o' = id o /\
                      b = stored_blob (object_atom schema x) o'.
Proof.
  intros Hfields Hnd Hw Hold Hblob Hcol Hba Hne flatB.
  apply write_cgroup_Ok in Hw. cbv zeta in Hw.
  set (g0 := _get_row_group fp GMain schema) in *.
  set (colsT := select_columns schema cols incell) in *.
  set (colsB := List.filter (fun c => is_blob_col schema (fst c)) colsT) in *.
  destruct Hw as (g1 & colsT1 & lv1 & g2 & colsB2 & rows & lv2 & g3 & rows3 &
                  Hpb & Hrb & Hfill & ->).
  assert (Hfr : rg_table g1 = rg_table g0 /\ rg_blobs g1 = rg_blobs g0 /\
                cg_len colsT1 = cg_len colsT).
  { case_bool_decide as Hprim.
    - destruct (primary_block_frame _ _ _ _ _ _ _ _ _ _ _ _ _ _ Hpb)
        as (Ht & Hb & Hl & _).
      auto.
    - destruct Hpb as (-> & -> & _ & _). auto. }
  destruct Hfr as (Ht1 & Hb1 & Hlen1).
  unfold row_buffer in Hrb. cbv zeta in Hrb.
  apply st_ret_inv in Hrb. destruct Hrb as [[= -> -> ->] ->].
  unfold fill_rows in Hfill. cbn [lv_idx of_option] in Hfill.
  apply st_bind_Ok_inv in Hfill. destruct Hfill as (rows1 & ga & Hreg & Hfold).
  apply st_lift_Ok_inv in Hreg. destruct Hreg as [Hreg ->]. rewrite bind_Ok in Hreg.
  assert (HB : Forall (fun n => is_blob_col schema n = true) (map fst colsB))
    by apply filter_blob_names.
  assert (Hcin : x ∈ map fst (sc_columns schema)).
  { rewrite <- Hfields. eapply od_get_in, Hold. }
  assert (Hgx : OrderedDict.get colsB x = Some (ObjCol flatB)).
  { unfold colsB. rewrite (od_get_filter (is_blob_col schema)), Hblob.
    unfold colsT. rewrite select_columns_get, (bool_decide_eq_true_2 _ Hcin), Hcol.
    reflexivity. }
  assert (HndB : NoDup (map fst colsB)).
  { apply filter_keys_NoDup, select_columns_keys, Hnd. }
  destruct (fold_put_blob_track _ _ _ _ _ _ _ _ _ x Hfold HndB (od_get_in _ _ _ Hgx))
    as (fB & ba & refs & barray' & Hflat & Hba1 & Hst & Hba3 & Hrx).
  unfold obj_col in Hflat. rewrite Hgx in Hflat. cbn in Hflat. injection Hflat as <-.
  rewrite Hb1, Hba in Hba1. injection Hba1 as <-.
  destruct (fold_put_regular_get _ _ _ _ _ Hreg) as (Hk1 & _).
  destruct (fold_put_blob_get _ _ _ _ _ _ _ _ _ Hfold HB) as (Ht3 & Hk3 & _).
  assert (Hz : map fst (ra_zeros (cg_len colsT1) (sc_columns schema))
               = map fst (sc_columns schema)).
  { unfold ra_zeros. rewrite map_map. reflexivity. }
  assert (Hsame : map fst (rg_table g3) = map fst rows3) by congruence.
  destruct (store_blobs_then_load_lemma _ _ _ _ _ Hne Hst)
    as (Hkeep & loaded & Hload & Hlen & Hpt).
  eexists _, refs, barray', loaded. cbn [set_group main rg_table rg_blobs].
  split; [reflexivity |]. cbn [rg_table rg_blobs].
  split; [apply (ra_append_get _ _ _ _ _ Hsame); congruence |].
  split; [exact Hba3 |]. split; [exact Hst |]. split; [exact Hkeep |].
  split; [| split; [exact Hlen | exact Hpt]].
  unfold _fetch_blobs_fp, blob_array. cbn [shape flatten data main cached of_option rg_blobs].
  rewrite bind_Ok. cbn [rg_blobs]. rewrite Hba3. cbn [of_option].
  rewrite bind_Ok, Hload, bind_Ok. reflexivity.
Qed.
End WriteBlobs.

Section AppendFetchBlobs.
Context `{PyRuntime} `{Pixelization}.

(** An append that is not an update, and the objects of a blob column
    read back.  The batch is taken as [append] has prepared it, the
    tablets of the cells of the batch lie in files of their own, and
    the tablet written holds a row table with the columns of its
    cgroup and a VLArray for the column that is not empty.  Then for a
    blob column [x] of the cgroup [cg] that the batch gives: the rows
    [fetch_tablet] gives for a cell [c] of the batch hold, after the
    values that were in column [x] before, one reference for each row
    of the batch in [c]; and [fetch_blobs] on these references gives,
    row by row, the blob stored for the object of that row.  Equal
    objects (the same identity) share one stored blob; a row holding
    [None] gives the first element of the VLArray of the column, when
    [None] has the smallest identity in the batch. *)
Theorem append_then_fetch_blobs (t : Table) (fs : FS Blob)
    (cols_ : list (string * Column)) (key : string) (cols : ColGroup)
    (cells keys : list Z) (c : Z) (cg pc : string) (schema : Schema) (fn : string)
    (x : string) (ct : ColumnType) (old : list Z) (objs : list PyObj)
    (barray : list Blob) (py_none : Blob) :
  append_prepare t cols_ GMain None false = Ok (key, cols, cells) ->
  snd (append t fs cols_ GMain None false) = Ok keys ->
  tablet_files_distinct t cells ->
  NoDup (map fst (_cgroups t)) ->
  primary_cgroup t = Some pc -> _is_pseudotablet pc = Ok false ->
  is_Some (OrderedDict.get (_cgroups t) pc) ->
  c ∈ cells ->
  OrderedDict.get (_cgroups t) cg = Some schema -> _is_pseudotablet cg = Ok false ->
  _tablet_file t c cg = Ok fn ->
  map fst (rows_on_disk fs fn schema) = map fst (sc_columns schema) ->
  NoDup (map fst (sc_columns schema)) ->
  OrderedDict.get (columns t) x = Some ct -> col_cgroup ct = cg ->
  is_blob_col schema x = true -> x <> key ->
  OrderedDict.get (rows_on_disk fs fn schema) x = Some old ->
  OrderedDict.get cols x = Some (ObjCol objs) ->
  blobs_on_disk fs fn schema x = Some barray -> barray <> [] ->
  let t' := fst (fst (append t fs cols_ GMain None false)) in
  let fs' := snd (fst (append t fs cols_ GMain None false)) in
  let flatB := mask_select objs (map (fun c' => c' =? c) cells) in
  exists rows' refs loaded,
    fetch_tablet t' fs' c (Some cg) false = Ok (Rows rows') /\
    OrderedDict.get rows' x = Some (old ++ refs) /\
    fetch_blobs t' fs' py_none c x (NdArray [length refs] refs) false
      = Ok (NdArray [length refs] loaded) /\
    length loaded = length flatB /\
    forall i o b, flatB !! i = Some o -> loaded !! i = Some b ->
      if is_None o && none_first flatB
      then barray !! O = Some b
      else exists o', o' ∈ flatB /\ id o' = id o /\
                      b = stored_blob (object_atom schema x) o'.
Proof.
  intros Hprep Hkeys Hdist Hnd Hpc Hppc [spc Hspc] Hc Hs Hp Hfn Hfields Hnds
         Hct Hcg Hblob Hkey Hold Hcol Hba Hne t' fs' flatB.
  destruct (append_writes_tablet _ _ _ _ _ _ _ _ _ _ c cg schema fn
              Hprep Hkeys Hdist Hnd Hc Hs Hp Hfn)
    as (fp0 & colsX & lvX & fp1 & colsY & lvY & Hrows & HcX & Hw & Hf1 & Hbl).
  assert (Hfnpc : exists fnpc, _tablet_file t c pc = Ok fnpc).
  { unfold _tablet_file, _get_cgroup_data_path, _get_schema. rewrite Hspc.
    cbn [of_option]. rewrite !bind_Ok. eauto. }
  destruct Hfnpc as [fnpc Hfnpc].
  destruct (append_writes_tablet _ _ _ _ _ _ _ _ _ _ c pc spc fnpc
              Hprep Hkeys Hdist Hnd Hc Hspc Hppc Hfnpc)
    as (_ & _ & _ & fppc & _ & _ & _ & _ & _ & Hfpc & _).
  assert (Ht' : forall c0 cgr ic,
            fetch_tablet t' fs' c0 cgr ic = fetch_tablet t fs' c0 cgr ic).
  { intros c0 cgr ic. unfold t', append. rewrite Hprep.
    destruct (store_cells _ _ _ _ _ _ _ _ _ _ _ _ _) as [[fs1 nrows'] [[cols' ntot] | e]];
      reflexivity. }
  assert (Hb' : forall pn c0 col r ic,
            fetch_blobs t' fs' pn c0 col r ic = fetch_blobs t fs' pn c0 col r ic).
  { intros pn c0 col r ic. unfold t', append. rewrite Hprep.
    destruct (store_cells _ _ _ _ _ _ _ _ _ _ _ _ _) as [[fs1 nrows'] [[cols' ntot] | e]];
      reflexivity. }
  rewrite Ht'. clear Ht'. fold fs' in Hf1, Hfpc.
  rewrite <- Hrows in Hfields, Hold. rewrite <- Hbl in Hba.
  rewrite <- (proj1 HcX x Hkey) in Hcol.
  destruct (write_cgroup_stores_blobs_lemma _ _ _ _ _ _ _ _ _ _ _ _ _ _ _ _ py_none
              Hfields Hnds Hw Hold Hblob Hcol Hba Hne)
    as (g' & refs & barray' & loaded & Hg' & Hgx & Hb3 & Hst & _ & Hfetch & Hlen & Hpt).
  assert (Hex : forall cgx fnx fpx, is_Some (OrderedDict.get (_cgroups t) cgx) ->
                  _is_pseudotablet cgx = Ok false ->
                  _tablet_file t c cgx = Ok fnx -> files fs' !! fnx = Some fpx ->
                  tablet_exists t fs' c (Some cgx) = Ok true).
  { intros cgx fnx fpx Hsx Hpx Hfx Hfpx. unfold tablet_exists.
    rewrite Hpx, !bind_Ok. cbn [of_option]. rewrite bind_Ok.
    rewrite (bool_decide_eq_true_2 _ Hsx). cbn [py_assert].
    rewrite bind_Ok, Hfx, bind_Ok, Hfpx. rewrite bool_decide_eq_true_2 by eauto.
    reflexivity. }
  assert (Hcell : static_if_no_temporal t fs' c = Ok c).
  { unfold static_if_no_temporal. destruct (is_temporal_cell c); [| reflexivity].
    cbn [negb]. pose proof (Hex pc fnpc fppc ltac:(eauto) Hppc Hfnpc Hfpc) as He.
    unfold tablet_exists in He |- *. rewrite Hpc. rewrite Hppc, bind_Ok in He.
    rewrite He, bind_Ok. reflexivity. }
  assert (Hopen : _open_tablet_r t fs' c cg = Ok fp1).
  { unfold _open_tablet_r. rewrite Hfn, bind_Ok, Hf1. reflexivity. }
  exists (rg_table g'), refs, loaded.
  split; [| split; [exact Hgx | split; [| split; [exact Hlen | exact Hpt]]]].
  - unfold fetch_tablet. rewrite Hcell, !bind_Ok. cbn [of_option]. rewrite !bind_Ok.
    rewrite Hp, !bind_Ok, (Hex cg fn fp1 ltac:(eauto) Hp Hfn Hf1), !bind_Ok.
    rewrite Hopen, !bind_Ok. rewrite Hg'. reflexivity.
  - rewrite Hb'. unfold fetch_blobs. cbn [shape].
    destruct (Nat.eqb_spec (length refs) 0) as [Hz | Hz].
    + destruct refs; [| discriminate Hz]. rewrite <- Hfetch.
      unfold _fetch_blobs_fp, blob_array. rewrite Hg'. cbn [of_option]. rewrite bind_Ok, Hb3.
      cbn [of_option]. rewrite bind_Ok. reflexivity.
    + rewrite Hct. cbn [of_option]. rewrite bind_Ok, Hcell, bind_Ok, Hcg, Hopen, bind_Ok.
      exact Hfetch.
Qed.
End AppendFetchBlobs.

Lemma append_then_fetch_blobs_witness :
  exists rows' refs loaded,
    fetch_tablet
      (fst (fst (@append example_runtime example_pix stars example_fs new_rows
                   GMain None false)))
      (snd (fst (@append example_runtime example_pix stars example_fs new_rows
                   GMain None false)))
      static_cell (Some "main") false = Ok (Rows rows') /\
    OrderedDict.get rows' "spectrum" = Some ([1; 0] ++ refs) /\
    fetch_blobs
      (fst (fst (@append example_runtime example_pix stars example_fs new_rows
                   GMain None false)))
      (snd (fst (@append example_runtime example_pix stars example_fs new_rows
                   GMain None false)))
      "-" static_cell "spectrum" (NdArray [length refs] refs) false
      = Ok (NdArray [length refs] loaded) /\
    length loaded = 3%nat /\
    (forall b, loaded !! 1%nat = Some b -> b = "N.").
Proof.
  destruct (@append_prepare example_runtime example_pix stars new_rows GMain None false)
    as [[[key cols] cells] | e] eqn:Ep; [| vm_compute in Ep; discriminate Ep].
  assert (Ep' := Ep). vm_compute in Ep'. injection Ep' as <- <- <-.
  destruct (@append_then_fetch_blobs example_runtime example_pix stars example_fs
              new_rows _ _ _
              [281474976710659; 281474976710660; 281474976710661]
              static_cell "main" "main" stars_schema
              "/db/stars/tablets/281474976710656/stars.main.h5"
              "spectrum"
              {| col_name := "spectrum"; col_cgroup := "main";
                 col_dtype := "int64"; col_is_blob := true |}
              [1; 0] [obj_spec1; obj_None; obj_spec1] ["N."; "s1"] "-" Ep)
    as (rows' & refs & loaded & Hfetch & Hcol & Hblobs & Hlen & Hpt).
  - vm_compute. reflexivity.
  - intros c1 c2 cg1 cg2 fn Hc1 Hc2 Hg1 Hg2 Hf1 Hf2.
    assert (Hcell : forall c, c ∈ [281474976710656; 281474976710656; 281474976710656] ->
                              c = 281474976710656).
    { intros c Hc. repeat (apply elem_of_cons in Hc; destruct Hc as [Hc | Hc]; [exact Hc |]).
      inversion Hc. }
    rewrite (Hcell c1 Hc1), (Hcell c2 Hc2) in *. split; [reflexivity |].
    cbn in Hg1, Hg2.
    repeat (apply elem_of_cons in Hg1; destruct Hg1 as [-> | Hg1]);
      repeat (apply elem_of_cons in Hg2; destruct Hg2 as [-> | Hg2]);
      try reflexivity; try (inversion Hg1; fail); try (inversion Hg2; fail);
      vm_compute in Hf1, Hf2; congruence.
  - cbn. repeat constructor; intros Hin;
      repeat (apply elem_of_cons in Hin; destruct Hin as [Hin | Hin]; [discriminate Hin |]);
      inversion Hin.
  - reflexivity.
  - reflexivity.
  - cbn. eauto.
  - cbn. repeat (first [left | right; left]).
  - reflexivity.
  - reflexivity.
  - reflexivity.
  - reflexivity.
  - cbn. repeat constructor; intros Hin;
      repeat (apply elem_of_cons in Hin; destruct Hin as [Hin | Hin]; [discriminate Hin |]);
      inversion Hin.
  - reflexivity.
  - reflexivity.
  - reflexivity.
  - discriminate.
  - reflexivity.
  - reflexivity.
  - reflexivity.
  - discriminate.
  - exists rows', refs, loaded.
    split; [exact Hfetch |]. split; [exact Hcol |]. split; [exact Hblobs |].
    split; [exact Hlen |].
    intros b Hb. pose proof (Hpt 1%nat obj_None b eq_refl Hb) as Hn.
    vm_compute in Hn. congruence.
Defined.
